(** * bplib: the BPv6 channel engine (bplib.c) and the v7 custody cache
      (v7_cache_custody.c), embedded as Rocq functions.

    The C state of a channel is passed explicitly; the storage service, which
    the C code receives as a table of function pointers ([bp_store_t]), is a
    record of functions over an abstract store state.  Unsigned 32-bit fields
    are integers in [Z] with their wrap-around written out. *)

From Stdlib Require Import ZArith Ascii Lia Bool.
From stdpp Require Import gmap list.

Local Open Scope Z_scope.

(* ================================================================== *)
(** ** Integer widths *)

Definition u16 (x : Z) : Z := x mod 2 ^ 16.
Definition u32 (x : Z) : Z := x mod 2 ^ 32.

(** Modelled from the spec: the statistics counters of [bp_stats_t]
    (declared in bplib.h, which is not among the sources) are "monotonic
    u64" (section 6). *)
Definition u64 (x : Z) : Z := x mod 2 ^ 64.

(* ================================================================== *)
(** ** Return codes and flags *)

(** Modelled from the spec: the return codes of bplib.h, which is not among
    the sources.  Section 7 lists the kinds and says they are propagated as
    negative integer codes; the code tests success with [> 0] and
    [== BP_SUCCESS], and section 4.3 says [TIMEOUT] is not an error. *)
Definition BP_SUCCESS : Z := 1.
Definition BP_TIMEOUT : Z := 0.
Definition BP_PARMERR : Z := -1.
Definition BP_UNSUPPORTED : Z := -2.
Definition BP_EXPIRED : Z := -3.
Definition BP_DROPPED : Z := -4.
Definition BP_INVALID_HANDLE : Z := -5.
Definition BP_OVERFLOW : Z := -6.
Definition BP_BUNDLEPARSEERR : Z := -8.
Definition BP_UNKNOWNREC : Z := -9.
Definition BP_BUNDLETOOLARGE : Z := -10.
Definition BP_WRONGCHANNEL : Z := -11.
Definition BP_FAILEDINTEGRITYCHECK : Z := -12.
Definition BP_FAILEDSTORE : Z := -13.
Definition BP_FAILEDOS : Z := -14.
Definition BP_FAILEDMEM : Z := -15.
Definition BP_FAILEDRESPONSE : Z := -16.
Definition BP_INVALIDEID : Z := -17.
Definition BP_IGNORE : Z := -20.
Definition BP_PAYLOADTOOLARGE : Z := -21.
Definition BP_WRONGORIGINATION : Z := -22.

(** Modelled from the spec: the side-band flag bits of bplib.h (section 7),
    one bit each, in the order the spec lists them. *)
Definition BP_FLAG_NONCOMPLIANT : Z := 0x0001.
Definition BP_FLAG_INCOMPLETE : Z := 0x0002.
Definition BP_FLAG_ROUTENEEDED : Z := 0x0004.
Definition BP_FLAG_ACTIVETABLEWRAP : Z := 0x0008.
Definition BP_FLAG_SDNVOVERFLOW : Z := 0x0010.
Definition BP_FLAG_SDNVINCOMPLETE : Z := 0x0020.
Definition BP_FLAG_STOREFAILURE : Z := 0x0040.
Definition BP_FLAG_RBTREEFULL : Z := 0x0080.
Definition BP_FLAG_DUPLICATES : Z := 0x0100.
Definition BP_FLAG_MIXEDRESPONSE : Z := 0x0200.
Definition BP_FLAG_TOOMANYSOURCES : Z := 0x0400.

(** [*flags |= f] on a [uint16_t]. *)
Definition set_flag (flags f : Z) : Z := Z.lor flags f.
(** [*flags & f] is non-zero. *)
Definition has_flag (flags f : Z) : bool := negb (Z.land flags f =? 0).

(** [bplog(status, ...)] logs and hands its first argument back. *)
Definition bplog (status : Z) : Z := status.

(* ================================================================== *)
(** ** Endpoint ids: [bplib_eid2ipn] and [bplib_ipn2eid] *)

Module Eid.

(** A C character buffer is the list of its bytes; a string in it ends at
    the first NUL. *)
Definition NUL : ascii := "000"%char.

Fixpoint cstr (buf : list ascii) : list ascii :=
  match buf with
  | [] => []
  | c :: rest => if Ascii.eqb c NUL then [] else c :: cstr rest
  end.

(** [buf[i]]; memory past the modelled bytes reads as NUL. *)
Definition char_at (buf : list ascii) (i : nat) : ascii := nth i buf NUL.

(** [strchr(s, c)]: the text before the first [c] and the text after it. *)
Fixpoint strchr (s : list ascii) (c : ascii) : option (list ascii * list ascii) :=
  match s with
  | [] => None
  | x :: rest =>
      if Ascii.eqb x c then Some ([], rest)
      else match strchr rest c with
           | Some (before, after) => Some (x :: before, after)
           | None => None
           end
  end.

Definition char_code (c : ascii) : Z := Z.of_N (N_of_ascii c).

Definition digit_val (c : ascii) : option Z :=
  let n := char_code c in
  if (48 <=? n) && (n <=? 57) then Some (n - 48) else None.

Definition digit_char (d : Z) : ascii := ascii_of_N (Z.to_N (48 + d)).

(** The ten characters [%lu] writes. *)
Definition is_digit (c : ascii) : Prop := exists d, 0 <= d < 10 /\ c = digit_char d.

(** [isspace] in the C locale. *)
Definition isspace (c : ascii) : bool :=
  let n := char_code c in (n =? 32) || ((9 <=? n) && (n <=? 13)).

Fixpoint skip_space (s : list ascii) : list ascii :=
  match s with
  | c :: rest => if isspace c then skip_space rest else s
  | [] => []
  end.

(** The longest run of decimal digits at the head of [s]: its value and
    whether it is non-empty. *)
Fixpoint scan_digits (s : list ascii) (acc : Z) (any : bool) : Z * bool :=
  match s with
  | c :: rest =>
      match digit_val c with
      | Some d => scan_digits rest (acc * 10 + d) true
      | None => (acc, any)
      end
  | [] => (acc, any)
  end.

Record strtoul_t := {
  ul_result : Z;        (* the returned unsigned long *)
  ul_converted : bool;  (* false when endptr == nptr *)
  ul_erange : bool      (* errno == ERANGE *)
}.

Section WithLimits.

(** [ULONG_MAX] of the platform (limits.h) and [BP_MAX_EID_STRING] of
    bplib.h; neither is among the sources. *)
Variable ULONG_MAX : Z.
Variable BP_MAX_EID_STRING : Z.

(** [strtoul(nptr, &endptr, 10)] of the C library: white space, an
    optional sign, decimal digits; a value above [ULONG_MAX] gives
    [ULONG_MAX] with [ERANGE]; a minus sign negates in the unsigned
    type. *)
Definition strtoul (nptr : list ascii) : strtoul_t :=
  let s := skip_space nptr in
  let '(neg, s) :=
    match s with
    | c :: rest =>
        if Ascii.eqb c "-"%char then (true, rest)
        else if Ascii.eqb c "+"%char then (false, rest)
        else (false, s)
    | [] => (false, s)
    end in
  let '(v, any) := scan_digits s 0 false in
  if negb any then {| ul_result := 0; ul_converted := false; ul_erange := false |}
  else if ULONG_MAX <? v
       then {| ul_result := ULONG_MAX; ul_converted := true; ul_erange := true |}
       else {| ul_result := if neg then (ULONG_MAX + 1 - v) mod (ULONG_MAX + 1) else v;
               ul_converted := true; ul_erange := false |}.

Definition ipn_prefix_ok (eid : list ascii) : bool :=
  Ascii.eqb (char_at eid 0) "i"%char && Ascii.eqb (char_at eid 1) "p"%char &&
  Ascii.eqb (char_at eid 2) "n"%char && Ascii.eqb (char_at eid 3) ":"%char.

(** [bplib_eid2ipn(eid, len, &node, &service)]: the status, and the two
    outputs when they are written.  [eid = None] is the NULL pointer. *)
Definition bplib_eid2ipn (eid : option (list ascii)) (len : Z) : Z * option (Z * Z) :=
  match eid with
  | None => (bplog BP_INVALIDEID, None)
  | Some eid =>
      if len <? 7 then (bplog BP_INVALIDEID, None)
      else if BP_MAX_EID_STRING <? len then (bplog BP_INVALIDEID, None)
      else if negb (ipn_prefix_ok eid) then (bplog BP_INVALIDEID, None)
      else
        let tmplen := len - 4 in
        (* memcpy(eidtmp, &eid[4], tmplen); eidtmp[tmplen] = '\0' *)
        let eidtmp := cstr (firstn (Z.to_nat tmplen) (skipn 4 eid)) in
        match strchr eidtmp "."%char with
        | None => (bplog BP_INVALIDEID, None)
        | Some (node_ptr, service_ptr) =>
            let nr := strtoul node_ptr in
            if negb (ul_converted nr) ||
               (((ul_result nr =? ULONG_MAX) || (ul_result nr =? 0)) && ul_erange nr)
            then (bplog BP_INVALIDEID, None)
            else
              let sr := strtoul service_ptr in
              if negb (ul_converted sr) ||
                 (((ul_result sr =? ULONG_MAX) || (ul_result sr =? 0)) && ul_erange sr)
              then (bplog BP_INVALIDEID, None)
              else (BP_SUCCESS, Some (u32 (ul_result nr), u32 (ul_result sr)))
        end
  end.

(** The digits of [%lu], least significant first into [acc]. *)
Fixpoint fmt_lu_aux (fuel : nat) (n : Z) (acc : list ascii) : list ascii :=
  match fuel with
  | O => acc
  | S fuel' =>
      let acc' := digit_char (n mod 10) :: acc in
      if n / 10 =? 0 then acc' else fmt_lu_aux fuel' (n / 10) acc'
  end.

(** An unsigned long of at most 64 bits has at most 20 digits. *)
Definition fmt_lu (n : Z) : list ascii := fmt_lu_aux 20 n [].

Definition ipn_text (node service : Z) : list ascii :=
  ["i"; "p"; "n"; ":"]%char ++ fmt_lu node ++ ["."%char] ++ fmt_lu service.

(** Modelled from the spec: [bplib_os_format] of the OS adapter, which is
    not among the sources, used with the format ["ipn:%lu.%lu"]: the text
    [ipn:<node>.<service>] (section 3), cut like [snprintf] to [len - 1]
    characters before the closing NUL. *)
Definition bplib_os_format (len : Z) (node service : Z) : list ascii :=
  firstn (Z.to_nat (len - 1)) (ipn_text node service).

(** [bplib_ipn2eid(eid, len, node, service)]: the status and the string
    left in the buffer.  [has_buf = false] is the NULL pointer. *)
Definition bplib_ipn2eid (has_buf : bool) (len : Z) (node service : Z)
  : Z * option (list ascii) :=
  if negb has_buf then (bplog BP_INVALIDEID, None)
  else if len <? 7 then (bplog BP_INVALIDEID, None)
  else if BP_MAX_EID_STRING <? len then (bplog BP_INVALIDEID, None)
  else (BP_SUCCESS, Some (bplib_os_format len node service)).

End WithLimits.

End Eid.

(* ================================================================== *)
(** ** The channel engine of bplib.c: data *)

Module Channel.

Definition BP_SID_VACANT : Z := 0.
Definition BP_BUNDLE_HDR_BUF_SIZE : Z := 128.
Definition BP_DEFAULT_ACTIVE_TABLE_SIZE : Z := 16384.
Definition BP_DEFAULT_MAX_CONCURRENT_DACS : Z := 4.
Definition BP_DEFAULT_MAX_FILLS_PER_DACS : Z := 64.
Definition BP_DEFAULT_MAX_TREE_SIZE : Z := 1028.
Definition BP_DEFAULT_TIMEOUT : Z := 10.
Definition BP_DEFAULT_BUNDLE_MAXLENGTH : Z := 4096.
Definition BP_DEFAULT_DACS_RATE : Z := 5.
Definition BP_CHECK : Z := 0.

(** Modelled from the spec: the wrap responses of bplib.h, which is not
    among the sources: "wrap-response in {RESEND, BLOCK, DROP}"
    (section 3). *)
Definition BP_WRAP_RESEND : Z := 0.
Definition BP_WRAP_BLOCK : Z := 1.
Definition BP_WRAP_DROP : Z := 2.
Definition BP_DEFAULT_WRAP_RESPONSE : Z := BP_WRAP_RESEND.

(** Modelled from the spec: the administrative record types (section 6):
    "ACS = 4, CS = 2, STATUS = 1". *)
Definition BP_ACS_REC_TYPE : Z := 4.
Definition BP_CS_REC_TYPE : Z := 2.
Definition BP_STAT_REC_TYPE : Z := 1.

(** The primary block.  Each SDNV field ([bp_sdnv_t]: value, index, width)
    is kept by its [value]; index and width only concern the codec. *)
Record bp_blk_pri_t := mk_pri {
  dstnode : Z; dstserv : Z;
  srcnode : Z; srcserv : Z;
  rptnode : Z; rptserv : Z;
  cstnode : Z; cstserv : Z;
  createsec : Z; createseq : Z;
  lifetime : Z; dictlen : Z;
  fragoffset : Z; paylen : Z;
  is_admin_rec : bool;
  request_custody : bool;
  allow_frag : bool;
  is_frag : bool;
  integrity_check : bool
}.

Definition native_data_pri_blk : bp_blk_pri_t :=
  mk_pri 0 0 0 0 0 0 0 0 0 0 0 0 0 0 false true false false true.

Definition native_dacs_pri_blk : bp_blk_pri_t :=
  mk_pri 0 0 0 0 0 0 0 0 0 0 0 0 0 0 true false false false true.

Record bp_blk_cteb_t := mk_cteb {
  cteb_cid : Z;
  cteb_csteid : list ascii;
  cteb_cstnode : Z;
  cteb_cstserv : Z
}.

Definition native_cteb_blk : bp_blk_cteb_t := mk_cteb 0 [] 0 0.

Record bp_blk_bib_t := mk_bib {
  cipher_suite_id : Z;
  security_result_type : Z;
  security_result : Z
}.

Definition native_bib_blk : bp_blk_bib_t := mk_bib 0 0 0.

Record bp_blk_pay_t := mk_pay {
  pay_blklen : Z;
  payptr : list Z;     (* the bytes at the pointer *)
  paysize : Z
}.

Definition native_pay_blk : bp_blk_pay_t := mk_pay 0 [] 0.

(** What the serialized header in [bp_bundle_store_t.header] holds, field by
    field, as its bytes read back: what the block writers and
    [bplib_sdnv_write] left in the widths the native blocks reserve (see
    [sdnv_put] and [pri_put] below). *)
Record bp_header_t := mk_header {
  hdr_pri : bp_blk_pri_t;
  hdr_cid : Z;                   (* custody id SDNV of the CTEB *)
  hdr_bib_result : Z;            (* security result of the BIB *)
  hdr_pay_blklen : Z;            (* block length SDNV of the payload block *)
  hdr_regions : list (Z * Z)     (* (offset, length) regions copied from a forwarded bundle *)
}.

Definition pri_zero : bp_blk_pri_t :=
  mk_pri 0 0 0 0 0 0 0 0 0 0 0 0 0 0 false false false false false.
Definition header_zero : bp_header_t := mk_header pri_zero 0 0 0 [].

(** Bundle storage block.  [cidsdnv] is kept by its value: its index and
    width are those of [native_cteb_blk.cid] (3 and 4), with which
    [initialize_orig_bundle] and [initialize_forw_bundle] set it. *)
Record bp_bundle_store_t := mk_bundle_store {
  exprtime : Z;
  cidsdnv : Z;
  cteboffset : Z;
  biboffset : Z;
  payoffset : Z;
  headersize : Z;
  bundlesize : Z;
  header : bp_header_t
}.

Definition bundle_store_zero : bp_bundle_store_t :=
  mk_bundle_store 0 0 0 0 0 0 0 header_zero.

(** Payload storage block. *)
Record bp_payload_store_t := mk_payload_store {
  ps_request_custody : bool;
  payloadsize : Z
}.

(** What the storage service holds: one of the two storage blocks followed
    by the bytes enqueued with it. *)
Inductive bp_object_t :=
| BundleObj (ds : bp_bundle_store_t) (body : list Z)
| PayloadObj (ps : bp_payload_store_t) (body : list Z).

(** The casts [(bp_bundle_store_t* )] and [(bp_payload_store_t* )] of a
    dequeued object.  The channel only ever enqueues bundle blocks on the
    data and DACS handles and payload blocks on the payload handle; an
    object of the other kind reads as a zeroed block. *)
Definition as_bundle (o : bp_object_t) : bp_bundle_store_t * list Z :=
  match o with
  | BundleObj ds body => (ds, body)
  | PayloadObj _ body => (bundle_store_zero, body)
  end.

Definition as_payload (o : bp_object_t) : bp_payload_store_t * list Z :=
  match o with
  | PayloadObj ps body => (ps, body)
  | BundleObj _ body => (mk_payload_store false 0, body)
  end.

(** The storage service [bp_store_t]: the table of function pointers given
    to [bplib_open], over the state [S] of the service.  [dequeue] and
    [retrieve] give the object (and its storage id) when they return
    [BP_SUCCESS], and their status otherwise. *)
Record bp_store_t (S : Type) := mk_store {
  create : S -> S * Z;
  destroy : S -> Z -> S;
  enqueue : S -> Z -> bp_object_t -> Z -> S * Z;
  dequeue : S -> Z -> Z -> S * (bp_object_t * Z + Z);
  retrieve : S -> Z -> Z -> Z -> S * (bp_object_t + Z);
  relinquish : S -> Z -> Z -> S;
  getcount : S -> Z -> Z
}.
Arguments create {S}.
Arguments destroy {S}.
Arguments enqueue {S}.
Arguments dequeue {S}.
Arguments retrieve {S}.
Arguments relinquish {S}.
Arguments getcount {S}.

(** The fields of the serialized header that [bplib_sdnv_write] patches. *)
Inductive sdnv_field :=
| F_dstnode | F_dstserv | F_createsec | F_createseq
| F_fragoffset | F_paylen | F_cid | F_pay_blklen | F_blk_flags.

(** The block codec (bplib_blk_*.c, bplib_sdnv.c), which is not among the
    sources: the number of bytes each block writer emits (non-positive on
    failure), the flags [bplib_sdnv_write] raises when a value does not fit
    the width its field reserves, and the integrity result over a
    fragment.  The [_left] functions are what the bytes of a field read back
    as after a write that did not succeed: nothing is known of them. *)
Record codec_t := mk_codec {
  bplib_blk_pri_write : bp_blk_pri_t -> Z;
  bplib_blk_cteb_write : bp_blk_cteb_t -> Z;
  bplib_blk_bib_write : bp_blk_bib_t -> Z;
  bplib_blk_pay_write : bp_blk_pay_t -> Z;
  bplib_sdnv_write : sdnv_field -> Z -> Z;
  bplib_blk_bib_update : bp_blk_bib_t -> list Z -> Z;
  bplib_blk_bib_verify : list Z -> bp_blk_bib_t -> Z;
  bplib_blk_pri_left : bp_blk_pri_t -> bp_blk_pri_t;
  bplib_blk_cteb_left : bp_blk_cteb_t -> Z;
  bplib_blk_bib_left : bp_blk_bib_t -> Z;
  bplib_blk_pay_left : bp_blk_pay_t -> Z;
  bplib_sdnv_left : sdnv_field -> Z -> Z
}.

(** The width in bytes that the native blocks reserve for each patched
    field (the Width column of [native_data_pri_blk], [native_cteb_blk] and
    [native_pay_blk]).  The flags SDNV of a skipped block is rewritten in the
    caller's buffer, in the width it was read with; the stored header has no
    field for it. *)
Definition sdnv_width (f : sdnv_field) : Z :=
  match f with
  | F_dstnode => 4 | F_dstserv => 2
  | F_createsec => 6 | F_createseq => 4
  | F_fragoffset => 4 | F_paylen => 4
  | F_cid => 4 | F_pay_blklen => 4
  | F_blk_flags => 0
  end.

(** Modelled from the spec: the SDNV encoding of bplib_sdnv.c, which is not
    among the sources, a "variable-length big-endian 7-bits-per-byte integer
    encoding" (glossary) whose "actual width" is at most the "reserved
    width" (section 6): a field of [w] bytes holds the values below
    [2 ^ (7 * w)]. *)
Definition sdnv_fits (f : sdnv_field) (v : Z) : bool :=
  (0 <=? v) && (v <? 2 ^ (7 * sdnv_width f)).

(** What a field of the header holds after [bplib_sdnv_write] patched it
    with [v]: the value when it fits the field and the writer raised no
    flag, and otherwise what the writer left there. *)
Definition sdnv_put (codec : codec_t) (f : sdnv_field) (v : Z) : Z :=
  if sdnv_fits f v && (bplib_sdnv_write codec f v =? 0) then v
  else bplib_sdnv_left codec f v.

(** What the header holds after a block writer: the block when the writer
    reports the bytes it wrote, and otherwise what it left there.  Of the
    custody, integrity and payload blocks the header model keeps one field
    each. *)
Definition pri_put (codec : codec_t) (pri : bp_blk_pri_t) : bp_blk_pri_t :=
  if 0 <? bplib_blk_pri_write codec pri then pri else bplib_blk_pri_left codec pri.

Definition cteb_put (codec : codec_t) (cteb : bp_blk_cteb_t) : Z :=
  if 0 <? bplib_blk_cteb_write codec cteb then cteb_cid cteb
  else bplib_blk_cteb_left codec cteb.

Definition bib_put (codec : codec_t) (bib : bp_blk_bib_t) : Z :=
  if 0 <? bplib_blk_bib_write codec bib then security_result bib
  else bplib_blk_bib_left codec bib.

Definition pay_put (codec : codec_t) (pay : bp_blk_pay_t) : Z :=
  if 0 <? bplib_blk_pay_write codec pay then pay_blklen pay
  else bplib_blk_pay_left codec pay.

(** Modelled from the spec: the red-black tree of rb_tree.c, which is not
    among the sources: "a set (red-black tree) of custody-ids pending
    acknowledgment" (section 3) that is full when "max_tree_size" is
    reached (section 4.1.5), and in which "insertion of a duplicate sets a
    warning flag but does not corrupt state" (I4). *)
Record rb_tree_t := mk_tree {
  rb_nodes : list Z;      (* ascending, no duplicates *)
  rb_max_size : Z
}.

Inductive rb_tree_status_t :=
| RB_SUCCESS | RB_FAIL_INSERT_DUPLICATE | RB_FAIL_TREE_FULL.

Fixpoint insert_sorted (v : Z) (l : list Z) : list Z :=
  match l with
  | [] => [v]
  | x :: rest => if v <? x then v :: l else x :: insert_sorted v rest
  end.

Definition rb_tree_create (max_size : Z) : rb_tree_t := mk_tree [] max_size.

Definition rb_tree_is_empty (t : rb_tree_t) : bool :=
  match rb_nodes t with [] => true | _ => false end.

Definition rb_tree_insert (value : Z) (t : rb_tree_t) : rb_tree_status_t * rb_tree_t :=
  if existsb (Z.eqb value) (rb_nodes t) then (RB_FAIL_INSERT_DUPLICATE, t)
  else if rb_max_size t <=? Z.of_nat (length (rb_nodes t)) then (RB_FAIL_TREE_FULL, t)
  else (RB_SUCCESS, mk_tree (insert_sorted value (rb_nodes t)) (rb_max_size t)).

(** Modelled from the spec: [bplib_rec_acs_write], which is not among the
    sources: it moves up to [max_fills] custody ids, in ascending order,
    out of the tree into the ACS record (sections 4.1.3 and 4.1.5).  The
    record is the record type, the status byte (section 6) and then the
    ids it acknowledges, kept one by one. *)
Definition bplib_rec_acs_write (max_fills : Z) (t : rb_tree_t) : list Z * rb_tree_t :=
  (BP_ACS_REC_TYPE :: 0 :: firstn (Z.to_nat max_fills) (rb_nodes t),
   mk_tree (skipn (Z.to_nat max_fills) (rb_nodes t)) (rb_max_size t)).

(** Data bundle. *)
Record bp_data_bundle_t := mk_data_bundle {
  primary_block : bp_blk_pri_t;
  custody_block : bp_blk_cteb_t;
  integrity_block : bp_blk_bib_t;
  payload_block : bp_blk_pay_t;
  maxlength : Z;
  originate : bool;
  bundle_store : bp_bundle_store_t;
  payload_store : bp_payload_store_t
}.

(** DTN aggregate custody signal bundle. *)
Record bp_dacs_bundle_t := mk_dacs_bundle {
  dacs_primary_block : bp_blk_pri_t;
  dacs_integrity_block : bp_blk_bib_t;
  dacs_payload_block : bp_blk_pay_t;
  dacs_cstnode : Z;
  dacs_cstserv : Z;
  tree : rb_tree_t;
  delivered : bool;
  last_dacs : Z;
  paybuf : list Z;
  dacs_bundle_store : bp_bundle_store_t
}.

(** Active table. *)
Record bp_active_table_t := mk_active_table {
  sid : list Z;
  retx : list Z;
  oldest_cid : Z;
  current_cid : Z
}.

Record bp_attr_t := mk_attr {
  active_table_size : Z;
  max_concurrent_dacs : Z;
  max_fills_per_dacs : Z;
  max_tree_size : Z
}.

Record bp_stats_t := mk_stats {
  lost : Z; expired : Z; acknowledged : Z;
  transmitted : Z; retransmitted : Z; received : Z;
  generated : Z; delivered_cnt : Z;
  bundles : Z; payloads : Z; records : Z;
  active : Z
}.

Definition stats_zero : bp_stats_t := mk_stats 0 0 0 0 0 0 0 0 0 0 0 0.

(** Channel control block; [S] is the state of the storage service the
    channel's three handles live in. *)
Record bp_channel_t (S : Type) := mk_channel {
  attributes : bp_attr_t;
  local_node : Z;
  local_service : Z;
  storage : S;
  data_store_handle : Z;
  payload_store_handle : Z;
  dacs_store_handle : Z;
  data_bundle : bp_data_bundle_t;
  dacs_bundle : list bp_dacs_bundle_t;
  active_table : bp_active_table_t;
  num_dacs : Z;
  dacs_rate : Z;
  stats : bp_stats_t;
  timeout : Z;
  proc_admin_only : bool;
  wrap_response : Z;
  cid_reuse : bool
}.
Arguments mk_channel {S}.
Arguments attributes {S}.
Arguments local_node {S}.
Arguments local_service {S}.
Arguments storage {S}.
Arguments data_store_handle {S}.
Arguments payload_store_handle {S}.
Arguments dacs_store_handle {S}.
Arguments data_bundle {S}.
Arguments dacs_bundle {S}.
Arguments active_table {S}.
Arguments num_dacs {S}.
Arguments dacs_rate {S}.
Arguments stats {S}.
Arguments timeout {S}.
Arguments proc_admin_only {S}.
Arguments wrap_response {S}.
Arguments cid_reuse {S}.

(** Field updates ([x->f = v]) for the records above. *)

Definition set_dstnode v (x : bp_blk_pri_t) : bp_blk_pri_t :=
  mk_pri v (dstserv x) (srcnode x) (srcserv x) (rptnode x) (rptserv x) (cstnode x) (cstserv x) (createsec x) (createseq x) (lifetime x) (dictlen x) (fragoffset x) (paylen x) (is_admin_rec x) (request_custody x) (allow_frag x) (is_frag x) (integrity_check x).

Definition set_dstserv v (x : bp_blk_pri_t) : bp_blk_pri_t :=
  mk_pri (dstnode x) v (srcnode x) (srcserv x) (rptnode x) (rptserv x) (cstnode x) (cstserv x) (createsec x) (createseq x) (lifetime x) (dictlen x) (fragoffset x) (paylen x) (is_admin_rec x) (request_custody x) (allow_frag x) (is_frag x) (integrity_check x).

Definition set_srcnode v (x : bp_blk_pri_t) : bp_blk_pri_t :=
  mk_pri (dstnode x) (dstserv x) v (srcserv x) (rptnode x) (rptserv x) (cstnode x) (cstserv x) (createsec x) (createseq x) (lifetime x) (dictlen x) (fragoffset x) (paylen x) (is_admin_rec x) (request_custody x) (allow_frag x) (is_frag x) (integrity_check x).

Definition set_srcserv v (x : bp_blk_pri_t) : bp_blk_pri_t :=
  mk_pri (dstnode x) (dstserv x) (srcnode x) v (rptnode x) (rptserv x) (cstnode x) (cstserv x) (createsec x) (createseq x) (lifetime x) (dictlen x) (fragoffset x) (paylen x) (is_admin_rec x) (request_custody x) (allow_frag x) (is_frag x) (integrity_check x).

Definition set_rptnode v (x : bp_blk_pri_t) : bp_blk_pri_t :=
  mk_pri (dstnode x) (dstserv x) (srcnode x) (srcserv x) v (rptserv x) (cstnode x) (cstserv x) (createsec x) (createseq x) (lifetime x) (dictlen x) (fragoffset x) (paylen x) (is_admin_rec x) (request_custody x) (allow_frag x) (is_frag x) (integrity_check x).

Definition set_rptserv v (x : bp_blk_pri_t) : bp_blk_pri_t :=
  mk_pri (dstnode x) (dstserv x) (srcnode x) (srcserv x) (rptnode x) v (cstnode x) (cstserv x) (createsec x) (createseq x) (lifetime x) (dictlen x) (fragoffset x) (paylen x) (is_admin_rec x) (request_custody x) (allow_frag x) (is_frag x) (integrity_check x).

Definition set_cstnode v (x : bp_blk_pri_t) : bp_blk_pri_t :=
  mk_pri (dstnode x) (dstserv x) (srcnode x) (srcserv x) (rptnode x) (rptserv x) v (cstserv x) (createsec x) (createseq x) (lifetime x) (dictlen x) (fragoffset x) (paylen x) (is_admin_rec x) (request_custody x) (allow_frag x) (is_frag x) (integrity_check x).

Definition set_cstserv v (x : bp_blk_pri_t) : bp_blk_pri_t :=
  mk_pri (dstnode x) (dstserv x) (srcnode x) (srcserv x) (rptnode x) (rptserv x) (cstnode x) v (createsec x) (createseq x) (lifetime x) (dictlen x) (fragoffset x) (paylen x) (is_admin_rec x) (request_custody x) (allow_frag x) (is_frag x) (integrity_check x).

Definition set_createsec v (x : bp_blk_pri_t) : bp_blk_pri_t :=
  mk_pri (dstnode x) (dstserv x) (srcnode x) (srcserv x) (rptnode x) (rptserv x) (cstnode x) (cstserv x) v (createseq x) (lifetime x) (dictlen x) (fragoffset x) (paylen x) (is_admin_rec x) (request_custody x) (allow_frag x) (is_frag x) (integrity_check x).

Definition set_createseq v (x : bp_blk_pri_t) : bp_blk_pri_t :=
  mk_pri (dstnode x) (dstserv x) (srcnode x) (srcserv x) (rptnode x) (rptserv x) (cstnode x) (cstserv x) (createsec x) v (lifetime x) (dictlen x) (fragoffset x) (paylen x) (is_admin_rec x) (request_custody x) (allow_frag x) (is_frag x) (integrity_check x).

Definition set_lifetime v (x : bp_blk_pri_t) : bp_blk_pri_t :=
  mk_pri (dstnode x) (dstserv x) (srcnode x) (srcserv x) (rptnode x) (rptserv x) (cstnode x) (cstserv x) (createsec x) (createseq x) v (dictlen x) (fragoffset x) (paylen x) (is_admin_rec x) (request_custody x) (allow_frag x) (is_frag x) (integrity_check x).

Definition set_fragoffset v (x : bp_blk_pri_t) : bp_blk_pri_t :=
  mk_pri (dstnode x) (dstserv x) (srcnode x) (srcserv x) (rptnode x) (rptserv x) (cstnode x) (cstserv x) (createsec x) (createseq x) (lifetime x) (dictlen x) v (paylen x) (is_admin_rec x) (request_custody x) (allow_frag x) (is_frag x) (integrity_check x).

Definition set_paylen v (x : bp_blk_pri_t) : bp_blk_pri_t :=
  mk_pri (dstnode x) (dstserv x) (srcnode x) (srcserv x) (rptnode x) (rptserv x) (cstnode x) (cstserv x) (createsec x) (createseq x) (lifetime x) (dictlen x) (fragoffset x) v (is_admin_rec x) (request_custody x) (allow_frag x) (is_frag x) (integrity_check x).

Definition set_request_custody v (x : bp_blk_pri_t) : bp_blk_pri_t :=
  mk_pri (dstnode x) (dstserv x) (srcnode x) (srcserv x) (rptnode x) (rptserv x) (cstnode x) (cstserv x) (createsec x) (createseq x) (lifetime x) (dictlen x) (fragoffset x) (paylen x) (is_admin_rec x) v (allow_frag x) (is_frag x) (integrity_check x).

Definition set_allow_frag v (x : bp_blk_pri_t) : bp_blk_pri_t :=
  mk_pri (dstnode x) (dstserv x) (srcnode x) (srcserv x) (rptnode x) (rptserv x) (cstnode x) (cstserv x) (createsec x) (createseq x) (lifetime x) (dictlen x) (fragoffset x) (paylen x) (is_admin_rec x) (request_custody x) v (is_frag x) (integrity_check x).

Definition set_is_frag v (x : bp_blk_pri_t) : bp_blk_pri_t :=
  mk_pri (dstnode x) (dstserv x) (srcnode x) (srcserv x) (rptnode x) (rptserv x) (cstnode x) (cstserv x) (createsec x) (createseq x) (lifetime x) (dictlen x) (fragoffset x) (paylen x) (is_admin_rec x) (request_custody x) (allow_frag x) v (integrity_check x).

Definition set_integrity_check v (x : bp_blk_pri_t) : bp_blk_pri_t :=
  mk_pri (dstnode x) (dstserv x) (srcnode x) (srcserv x) (rptnode x) (rptserv x) (cstnode x) (cstserv x) (createsec x) (createseq x) (lifetime x) (dictlen x) (fragoffset x) (paylen x) (is_admin_rec x) (request_custody x) (allow_frag x) (is_frag x) v.

Definition set_cteb_cid v (x : bp_blk_cteb_t) : bp_blk_cteb_t :=
  mk_cteb v (cteb_csteid x) (cteb_cstnode x) (cteb_cstserv x).

Definition set_cteb_csteid v (x : bp_blk_cteb_t) : bp_blk_cteb_t :=
  mk_cteb (cteb_cid x) v (cteb_cstnode x) (cteb_cstserv x).

Definition set_cteb_cstnode v (x : bp_blk_cteb_t) : bp_blk_cteb_t :=
  mk_cteb (cteb_cid x) (cteb_csteid x) v (cteb_cstserv x).

Definition set_cteb_cstserv v (x : bp_blk_cteb_t) : bp_blk_cteb_t :=
  mk_cteb (cteb_cid x) (cteb_csteid x) (cteb_cstnode x) v.

Definition set_pay_blklen v (x : bp_blk_pay_t) : bp_blk_pay_t :=
  mk_pay v (payptr x) (paysize x).

Definition set_payptr v (x : bp_blk_pay_t) : bp_blk_pay_t :=
  mk_pay (pay_blklen x) v (paysize x).

Definition set_paysize v (x : bp_blk_pay_t) : bp_blk_pay_t :=
  mk_pay (pay_blklen x) (payptr x) v.

Definition set_hdr_pri v (x : bp_header_t) : bp_header_t :=
  mk_header v (hdr_cid x) (hdr_bib_result x) (hdr_pay_blklen x) (hdr_regions x).

Definition set_hdr_cid v (x : bp_header_t) : bp_header_t :=
  mk_header (hdr_pri x) v (hdr_bib_result x) (hdr_pay_blklen x) (hdr_regions x).

Definition set_hdr_bib_result v (x : bp_header_t) : bp_header_t :=
  mk_header (hdr_pri x) (hdr_cid x) v (hdr_pay_blklen x) (hdr_regions x).

Definition set_hdr_pay_blklen v (x : bp_header_t) : bp_header_t :=
  mk_header (hdr_pri x) (hdr_cid x) (hdr_bib_result x) v (hdr_regions x).

Definition set_hdr_regions v (x : bp_header_t) : bp_header_t :=
  mk_header (hdr_pri x) (hdr_cid x) (hdr_bib_result x) (hdr_pay_blklen x) v.

Definition set_exprtime v (x : bp_bundle_store_t) : bp_bundle_store_t :=
  mk_bundle_store v (cidsdnv x) (cteboffset x) (biboffset x) (payoffset x) (headersize x) (bundlesize x) (header x).

Definition set_cidsdnv v (x : bp_bundle_store_t) : bp_bundle_store_t :=
  mk_bundle_store (exprtime x) v (cteboffset x) (biboffset x) (payoffset x) (headersize x) (bundlesize x) (header x).

Definition set_cteboffset v (x : bp_bundle_store_t) : bp_bundle_store_t :=
  mk_bundle_store (exprtime x) (cidsdnv x) v (biboffset x) (payoffset x) (headersize x) (bundlesize x) (header x).

Definition set_biboffset v (x : bp_bundle_store_t) : bp_bundle_store_t :=
  mk_bundle_store (exprtime x) (cidsdnv x) (cteboffset x) v (payoffset x) (headersize x) (bundlesize x) (header x).

Definition set_payoffset v (x : bp_bundle_store_t) : bp_bundle_store_t :=
  mk_bundle_store (exprtime x) (cidsdnv x) (cteboffset x) (biboffset x) v (headersize x) (bundlesize x) (header x).

Definition set_headersize v (x : bp_bundle_store_t) : bp_bundle_store_t :=
  mk_bundle_store (exprtime x) (cidsdnv x) (cteboffset x) (biboffset x) (payoffset x) v (bundlesize x) (header x).

Definition set_bundlesize v (x : bp_bundle_store_t) : bp_bundle_store_t :=
  mk_bundle_store (exprtime x) (cidsdnv x) (cteboffset x) (biboffset x) (payoffset x) (headersize x) v (header x).

Definition set_header v (x : bp_bundle_store_t) : bp_bundle_store_t :=
  mk_bundle_store (exprtime x) (cidsdnv x) (cteboffset x) (biboffset x) (payoffset x) (headersize x) (bundlesize x) v.

Definition set_primary_block v (x : bp_data_bundle_t) : bp_data_bundle_t :=
  mk_data_bundle v (custody_block x) (integrity_block x) (payload_block x) (maxlength x) (originate x) (bundle_store x) (payload_store x).

Definition set_custody_block v (x : bp_data_bundle_t) : bp_data_bundle_t :=
  mk_data_bundle (primary_block x) v (integrity_block x) (payload_block x) (maxlength x) (originate x) (bundle_store x) (payload_store x).

Definition set_integrity_block v (x : bp_data_bundle_t) : bp_data_bundle_t :=
  mk_data_bundle (primary_block x) (custody_block x) v (payload_block x) (maxlength x) (originate x) (bundle_store x) (payload_store x).

Definition set_payload_block v (x : bp_data_bundle_t) : bp_data_bundle_t :=
  mk_data_bundle (primary_block x) (custody_block x) (integrity_block x) v (maxlength x) (originate x) (bundle_store x) (payload_store x).

Definition set_maxlength v (x : bp_data_bundle_t) : bp_data_bundle_t :=
  mk_data_bundle (primary_block x) (custody_block x) (integrity_block x) (payload_block x) v (originate x) (bundle_store x) (payload_store x).

Definition set_originate v (x : bp_data_bundle_t) : bp_data_bundle_t :=
  mk_data_bundle (primary_block x) (custody_block x) (integrity_block x) (payload_block x) (maxlength x) v (bundle_store x) (payload_store x).

Definition set_bundle_store v (x : bp_data_bundle_t) : bp_data_bundle_t :=
  mk_data_bundle (primary_block x) (custody_block x) (integrity_block x) (payload_block x) (maxlength x) (originate x) v (payload_store x).

Definition set_payload_store v (x : bp_data_bundle_t) : bp_data_bundle_t :=
  mk_data_bundle (primary_block x) (custody_block x) (integrity_block x) (payload_block x) (maxlength x) (originate x) (bundle_store x) v.

Definition set_dacs_primary_block v (x : bp_dacs_bundle_t) : bp_dacs_bundle_t :=
  mk_dacs_bundle v (dacs_integrity_block x) (dacs_payload_block x) (dacs_cstnode x) (dacs_cstserv x) (tree x) (delivered x) (last_dacs x) (paybuf x) (dacs_bundle_store x).

Definition set_dacs_integrity_block v (x : bp_dacs_bundle_t) : bp_dacs_bundle_t :=
  mk_dacs_bundle (dacs_primary_block x) v (dacs_payload_block x) (dacs_cstnode x) (dacs_cstserv x) (tree x) (delivered x) (last_dacs x) (paybuf x) (dacs_bundle_store x).

Definition set_dacs_payload_block v (x : bp_dacs_bundle_t) : bp_dacs_bundle_t :=
  mk_dacs_bundle (dacs_primary_block x) (dacs_integrity_block x) v (dacs_cstnode x) (dacs_cstserv x) (tree x) (delivered x) (last_dacs x) (paybuf x) (dacs_bundle_store x).

Definition set_dacs_cstnode v (x : bp_dacs_bundle_t) : bp_dacs_bundle_t :=
  mk_dacs_bundle (dacs_primary_block x) (dacs_integrity_block x) (dacs_payload_block x) v (dacs_cstserv x) (tree x) (delivered x) (last_dacs x) (paybuf x) (dacs_bundle_store x).

Definition set_dacs_cstserv v (x : bp_dacs_bundle_t) : bp_dacs_bundle_t :=
  mk_dacs_bundle (dacs_primary_block x) (dacs_integrity_block x) (dacs_payload_block x) (dacs_cstnode x) v (tree x) (delivered x) (last_dacs x) (paybuf x) (dacs_bundle_store x).

Definition set_tree v (x : bp_dacs_bundle_t) : bp_dacs_bundle_t :=
  mk_dacs_bundle (dacs_primary_block x) (dacs_integrity_block x) (dacs_payload_block x) (dacs_cstnode x) (dacs_cstserv x) v (delivered x) (last_dacs x) (paybuf x) (dacs_bundle_store x).

Definition set_delivered v (x : bp_dacs_bundle_t) : bp_dacs_bundle_t :=
  mk_dacs_bundle (dacs_primary_block x) (dacs_integrity_block x) (dacs_payload_block x) (dacs_cstnode x) (dacs_cstserv x) (tree x) v (last_dacs x) (paybuf x) (dacs_bundle_store x).

Definition set_last_dacs v (x : bp_dacs_bundle_t) : bp_dacs_bundle_t :=
  mk_dacs_bundle (dacs_primary_block x) (dacs_integrity_block x) (dacs_payload_block x) (dacs_cstnode x) (dacs_cstserv x) (tree x) (delivered x) v (paybuf x) (dacs_bundle_store x).

Definition set_paybuf v (x : bp_dacs_bundle_t) : bp_dacs_bundle_t :=
  mk_dacs_bundle (dacs_primary_block x) (dacs_integrity_block x) (dacs_payload_block x) (dacs_cstnode x) (dacs_cstserv x) (tree x) (delivered x) (last_dacs x) v (dacs_bundle_store x).

Definition set_dacs_bundle_store v (x : bp_dacs_bundle_t) : bp_dacs_bundle_t :=
  mk_dacs_bundle (dacs_primary_block x) (dacs_integrity_block x) (dacs_payload_block x) (dacs_cstnode x) (dacs_cstserv x) (tree x) (delivered x) (last_dacs x) (paybuf x) v.

Definition set_sid v (x : bp_active_table_t) : bp_active_table_t :=
  mk_active_table v (retx x) (oldest_cid x) (current_cid x).

Definition set_retx v (x : bp_active_table_t) : bp_active_table_t :=
  mk_active_table (sid x) v (oldest_cid x) (current_cid x).

Definition set_oldest_cid v (x : bp_active_table_t) : bp_active_table_t :=
  mk_active_table (sid x) (retx x) v (current_cid x).

Definition set_current_cid v (x : bp_active_table_t) : bp_active_table_t :=
  mk_active_table (sid x) (retx x) (oldest_cid x) v.

Definition set_lost v (x : bp_stats_t) : bp_stats_t :=
  mk_stats v (expired x) (acknowledged x) (transmitted x) (retransmitted x) (received x) (generated x) (delivered_cnt x) (bundles x) (payloads x) (records x) (active x).

Definition set_expired v (x : bp_stats_t) : bp_stats_t :=
  mk_stats (lost x) v (acknowledged x) (transmitted x) (retransmitted x) (received x) (generated x) (delivered_cnt x) (bundles x) (payloads x) (records x) (active x).

Definition set_acknowledged v (x : bp_stats_t) : bp_stats_t :=
  mk_stats (lost x) (expired x) v (transmitted x) (retransmitted x) (received x) (generated x) (delivered_cnt x) (bundles x) (payloads x) (records x) (active x).

Definition set_transmitted v (x : bp_stats_t) : bp_stats_t :=
  mk_stats (lost x) (expired x) (acknowledged x) v (retransmitted x) (received x) (generated x) (delivered_cnt x) (bundles x) (payloads x) (records x) (active x).

Definition set_retransmitted v (x : bp_stats_t) : bp_stats_t :=
  mk_stats (lost x) (expired x) (acknowledged x) (transmitted x) v (received x) (generated x) (delivered_cnt x) (bundles x) (payloads x) (records x) (active x).

Definition set_received v (x : bp_stats_t) : bp_stats_t :=
  mk_stats (lost x) (expired x) (acknowledged x) (transmitted x) (retransmitted x) v (generated x) (delivered_cnt x) (bundles x) (payloads x) (records x) (active x).

Definition set_generated v (x : bp_stats_t) : bp_stats_t :=
  mk_stats (lost x) (expired x) (acknowledged x) (transmitted x) (retransmitted x) (received x) v (delivered_cnt x) (bundles x) (payloads x) (records x) (active x).

Definition set_delivered_cnt v (x : bp_stats_t) : bp_stats_t :=
  mk_stats (lost x) (expired x) (acknowledged x) (transmitted x) (retransmitted x) (received x) (generated x) v (bundles x) (payloads x) (records x) (active x).

Definition set_bundles v (x : bp_stats_t) : bp_stats_t :=
  mk_stats (lost x) (expired x) (acknowledged x) (transmitted x) (retransmitted x) (received x) (generated x) (delivered_cnt x) v (payloads x) (records x) (active x).

Definition set_payloads v (x : bp_stats_t) : bp_stats_t :=
  mk_stats (lost x) (expired x) (acknowledged x) (transmitted x) (retransmitted x) (received x) (generated x) (delivered_cnt x) (bundles x) v (records x) (active x).

Definition set_records v (x : bp_stats_t) : bp_stats_t :=
  mk_stats (lost x) (expired x) (acknowledged x) (transmitted x) (retransmitted x) (received x) (generated x) (delivered_cnt x) (bundles x) (payloads x) v (active x).

Definition set_active v (x : bp_stats_t) : bp_stats_t :=
  mk_stats (lost x) (expired x) (acknowledged x) (transmitted x) (retransmitted x) (received x) (generated x) (delivered_cnt x) (bundles x) (payloads x) (records x) v.

Definition set_storage {St : Type} v (x : bp_channel_t St) : bp_channel_t St :=
  mk_channel (attributes x) (local_node x) (local_service x) v (data_store_handle x) (payload_store_handle x) (dacs_store_handle x) (data_bundle x) (dacs_bundle x) (active_table x) (num_dacs x) (dacs_rate x) (stats x) (timeout x) (proc_admin_only x) (wrap_response x) (cid_reuse x).

Definition set_data_bundle {St : Type} v (x : bp_channel_t St) : bp_channel_t St :=
  mk_channel (attributes x) (local_node x) (local_service x) (storage x) (data_store_handle x) (payload_store_handle x) (dacs_store_handle x) v (dacs_bundle x) (active_table x) (num_dacs x) (dacs_rate x) (stats x) (timeout x) (proc_admin_only x) (wrap_response x) (cid_reuse x).

Definition set_dacs_bundle {St : Type} v (x : bp_channel_t St) : bp_channel_t St :=
  mk_channel (attributes x) (local_node x) (local_service x) (storage x) (data_store_handle x) (payload_store_handle x) (dacs_store_handle x) (data_bundle x) v (active_table x) (num_dacs x) (dacs_rate x) (stats x) (timeout x) (proc_admin_only x) (wrap_response x) (cid_reuse x).

Definition set_active_table {St : Type} v (x : bp_channel_t St) : bp_channel_t St :=
  mk_channel (attributes x) (local_node x) (local_service x) (storage x) (data_store_handle x) (payload_store_handle x) (dacs_store_handle x) (data_bundle x) (dacs_bundle x) v (num_dacs x) (dacs_rate x) (stats x) (timeout x) (proc_admin_only x) (wrap_response x) (cid_reuse x).

Definition set_num_dacs {St : Type} v (x : bp_channel_t St) : bp_channel_t St :=
  mk_channel (attributes x) (local_node x) (local_service x) (storage x) (data_store_handle x) (payload_store_handle x) (dacs_store_handle x) (data_bundle x) (dacs_bundle x) (active_table x) v (dacs_rate x) (stats x) (timeout x) (proc_admin_only x) (wrap_response x) (cid_reuse x).

Definition set_dacs_rate {St : Type} v (x : bp_channel_t St) : bp_channel_t St :=
  mk_channel (attributes x) (local_node x) (local_service x) (storage x) (data_store_handle x) (payload_store_handle x) (dacs_store_handle x) (data_bundle x) (dacs_bundle x) (active_table x) (num_dacs x) v (stats x) (timeout x) (proc_admin_only x) (wrap_response x) (cid_reuse x).

Definition set_stats {St : Type} v (x : bp_channel_t St) : bp_channel_t St :=
  mk_channel (attributes x) (local_node x) (local_service x) (storage x) (data_store_handle x) (payload_store_handle x) (dacs_store_handle x) (data_bundle x) (dacs_bundle x) (active_table x) (num_dacs x) (dacs_rate x) v (timeout x) (proc_admin_only x) (wrap_response x) (cid_reuse x).

Definition set_timeout {St : Type} v (x : bp_channel_t St) : bp_channel_t St :=
  mk_channel (attributes x) (local_node x) (local_service x) (storage x) (data_store_handle x) (payload_store_handle x) (dacs_store_handle x) (data_bundle x) (dacs_bundle x) (active_table x) (num_dacs x) (dacs_rate x) (stats x) v (proc_admin_only x) (wrap_response x) (cid_reuse x).

Definition set_proc_admin_only {St : Type} v (x : bp_channel_t St) : bp_channel_t St :=
  mk_channel (attributes x) (local_node x) (local_service x) (storage x) (data_store_handle x) (payload_store_handle x) (dacs_store_handle x) (data_bundle x) (dacs_bundle x) (active_table x) (num_dacs x) (dacs_rate x) (stats x) (timeout x) v (wrap_response x) (cid_reuse x).

Definition set_wrap_response {St : Type} v (x : bp_channel_t St) : bp_channel_t St :=
  mk_channel (attributes x) (local_node x) (local_service x) (storage x) (data_store_handle x) (payload_store_handle x) (dacs_store_handle x) (data_bundle x) (dacs_bundle x) (active_table x) (num_dacs x) (dacs_rate x) (stats x) (timeout x) (proc_admin_only x) v (cid_reuse x).

Definition set_cid_reuse {St : Type} v (x : bp_channel_t St) : bp_channel_t St :=
  mk_channel (attributes x) (local_node x) (local_service x) (storage x) (data_store_handle x) (payload_store_handle x) (dacs_store_handle x) (data_bundle x) (dacs_bundle x) (active_table x) (num_dacs x) (dacs_rate x) (stats x) (timeout x) (proc_admin_only x) (wrap_response x) v.

(* ------------------------------------------------------------------ *)
(** ** The channel engine: origination *)

(** [&pay->payptr[payload_offset]] for [fragment_size] bytes. *)
Definition fragment (payptr : list Z) (payload_offset fragment_size : Z) : list Z :=
  firstn (Z.to_nat fragment_size) (skipn (Z.to_nat payload_offset) payptr).

Definition obj_body (o : bp_object_t) : list Z :=
  match o with
  | BundleObj _ body => body
  | PayloadObj _ body => body
  end.

(** The two fragment fields of the serialized primary block in [ds], for a
    fragment at offset [off] of a payload of [total] bytes: with [frag_on]
    they were patched with these two values, and without it they are what
    the header [hdr0] had. *)
Definition frag_fields (codec : codec_t) (frag_on : bool) (hdr0 : bp_header_t)
    (off total : Z) (ds : bp_bundle_store_t) : Prop :=
  if frag_on
  then fragoffset (hdr_pri (header ds)) = sdnv_put codec F_fragoffset off /\
       paylen (hdr_pri (header ds)) = sdnv_put codec F_paylen total
  else fragoffset (hdr_pri (header ds)) = fragoffset (hdr_pri hdr0) /\
       paylen (hdr_pri (header ds)) = paylen (hdr_pri hdr0).

(** [objs] are consecutive fragments of the payload at [payptr], from offset
    [off] up to offset [end_off]: each is a bundle object that carries
    between 1 and [maxlen] payload bytes, and whose fragment fields are as
    [frag_fields] says. *)
Fixpoint frags_ok (codec : codec_t) (frag_on : bool) (hdr0 : bp_header_t) (payptr : list Z)
    (total maxlen off end_off : Z) (objs : list bp_object_t) : Prop :=
  match objs with
  | [] => off = end_off
  | o :: rest =>
      exists ds fs,
        o = BundleObj ds (fragment payptr off fs) /\
        0 < fs <= maxlen /\ off + fs <= total /\
        frag_fields codec frag_on hdr0 off total ds /\
        frags_ok codec frag_on hdr0 payptr total maxlen (off + fs) end_off rest
  end.

Section Engine.

Context {St : Type}.
Variable ops : bp_store_t St.
Variable codec : codec_t.

(** [bplib_sdnv_write(ds->header, ..., field, flags)]: the flags raised. *)
Definition sdnv_flags (flags : Z) (f : sdnv_field) (v : Z) : Z :=
  set_flag flags (bplib_sdnv_write codec f v).

(** [initialize_orig_bundle]: rebuilds the stored header from the channel's
    blocks. *)
Definition initialize_orig_bundle (bundle : bp_data_bundle_t) : bp_data_bundle_t :=
  let pri := primary_block bundle in
  (* memset(ds, 0, sizeof(bp_bundle_store_t)); ds->cidsdnv = native_cteb_blk.cid *)
  let ds := set_cidsdnv (cteb_cid native_cteb_blk) bundle_store_zero in
  let hdr := set_hdr_pri (pri_put codec pri) (header ds) in
  let offset := bplib_blk_pri_write codec pri in
  let '(ds, hdr, offset) :=
    if request_custody pri
    then (set_cteboffset offset ds,
          set_hdr_cid (cteb_put codec (custody_block bundle)) hdr,
          bplib_blk_cteb_write codec (custody_block bundle) + offset)
    else (set_cteboffset 0 ds, hdr, offset) in
  let '(ds, hdr, offset) :=
    if integrity_check pri
    then (set_biboffset offset ds,
          set_hdr_bib_result (bib_put codec (integrity_block bundle)) hdr,
          bplib_blk_bib_write codec (integrity_block bundle) + offset)
    else (set_biboffset 0 ds, hdr, offset) in
  let ds := set_payoffset offset ds in
  let ds := set_headersize (bplib_blk_pay_write codec (payload_block bundle) + offset) ds in
  let hdr := set_hdr_pay_blklen (pay_put codec (payload_block bundle)) hdr in
  set_bundle_store (set_header hdr ds) bundle.

(** One pass of the loop of [store_data_bundle] up to the payload block
    header: "Update Primary Block Fragmentation", "Update Integrity Block"
    and the block length of "Write Payload Block (static portion)". *)
Definition prepare_fragment (bundle : bp_data_bundle_t)
    (payload_offset fragment_size storflags : Z) : bp_data_bundle_t * Z :=
  let pri := primary_block bundle in
  let pay := payload_block bundle in
  let ds := bundle_store bundle in
  (* Update Primary Block Fragmentation *)
  let '(pri, ds, storflags) :=
    if is_frag pri then
      let pri := set_paylen (paysize pay) (set_fragoffset payload_offset pri) in
      let hdr := header ds in
      let hdr := set_hdr_pri (set_paylen (sdnv_put codec F_paylen (paysize pay))
                                (set_fragoffset (sdnv_put codec F_fragoffset payload_offset)
                                   (hdr_pri hdr))) hdr in
      (pri, set_header hdr ds,
       sdnv_flags (sdnv_flags storflags F_fragoffset payload_offset) F_paylen (paysize pay))
    else (pri, ds, storflags) in
  (* Update Integrity Block *)
  let ds :=
    if negb (biboffset ds =? 0)
    then set_header (set_hdr_bib_result
                       (bplib_blk_bib_update codec (integrity_block bundle)
                          (fragment (payptr pay) payload_offset fragment_size))
                       (header ds)) ds
    else ds in
  (* Write Payload Block (static portion) *)
  let pay := set_pay_blklen fragment_size pay in
  let ds := set_header (set_hdr_pay_blklen (pay_put codec pay) (header ds)) ds in
  (set_bundle_store ds (set_payload_block pay (set_primary_block pri bundle)), storflags).

(** [ds->headersize = ds->payoffset + status; ds->bundlesize = ds->headersize
    + fragment_size]. *)
Definition set_sizes (status fragment_size : Z) (bundle : bp_data_bundle_t)
  : bp_data_bundle_t :=
  let ds := bundle_store bundle in
  let ds := set_headersize (payoffset ds + status) ds in
  set_bundle_store (set_bundlesize (headersize ds + fragment_size) ds) bundle.

(** The [while(payload_offset < pay->paysize)] loop of [store_data_bundle].
    [None] when the fuel runs out, which a loop that never ends does for
    every fuel. *)
Fixpoint store_data_loop (fuel : nat) (bundle : bp_data_bundle_t) (st : St)
    (handle timeout storflags payload_offset : Z)
  : option (Z * bp_data_bundle_t * St * Z) :=
  if payload_offset <? paysize (payload_block bundle) then
    match fuel with
    | O => None
    | Datatypes.S fuel' =>
        (* Calculate Storage Header Size and Fragment Size *)
        let payload_remaining := paysize (payload_block bundle) - payload_offset in
        let fragment_size :=
          if maxlength bundle <? payload_remaining then maxlength bundle else payload_remaining in
        let '(bundle, storflags) :=
          prepare_fragment bundle payload_offset fragment_size storflags in
        let status := bplib_blk_pay_write codec (payload_block bundle) in
        if status <=? 0 then Some (bplog BP_BUNDLEPARSEERR, bundle, st, storflags)
        else
          let bundle := set_sizes status fragment_size bundle in
          (* Enqueue Bundle *)
          let '(st, status) :=
            enqueue ops st handle
              (BundleObj (bundle_store bundle)
                 (fragment (payptr (payload_block bundle)) payload_offset fragment_size))
              timeout in
          if status <=? 0 then Some (bplog status, bundle, st, storflags)
          else store_data_loop fuel' bundle st handle timeout storflags
                 (payload_offset + fragment_size)
    end
  else
    (* Increment Sequence Count (done here since now bundle successfully stored) *)
    let pri := primary_block bundle in
    let bundle :=
      if originate bundle
      then set_primary_block (set_createseq (u32 (createseq pri + 1)) pri) bundle
      else bundle in
    Some (BP_SUCCESS, bundle, st, storflags).

(** The storage service after it accepted the objects [objs] one after the
    other on [handle]; [None] when it refused one of them. *)
Fixpoint enqueue_all (st : St) (handle timeout : Z) (objs : list bp_object_t) : option St :=
  match objs with
  | [] => Some st
  | o :: rest =>
      let '(st, status) := enqueue ops st handle o timeout in
      if status <=? 0 then None else enqueue_all st handle timeout rest
  end.

(** [store_data_bundle(bundle, enqueue, handle, timeout, storflags)];
    [sysnow] is what [bplib_os_systime] answers. *)
Definition store_data_bundle (fuel : nat) (sysnow : Z) (bundle : bp_data_bundle_t) (st : St)
    (handle timeout storflags : Z)
  : option (Z * bp_data_bundle_t * St * Z) :=
  let pri := primary_block bundle in
  let pay := payload_block bundle in
  let ds := bundle_store bundle in
  (* Check Fragmentation *)
  if negb (is_frag pri) && (maxlength bundle <? paysize pay)
  then Some (bplog BP_BUNDLETOOLARGE, bundle, st, storflags)
  else
    (* Originator Specific Steps *)
    let '(pri, ds, storflags) :=
      if originate bundle then
        let pri := set_createsec sysnow pri in
        let hdr := header ds in
        let hdr := set_hdr_pri (set_createseq (sdnv_put codec F_createseq (createseq pri))
                                  (set_createsec (sdnv_put codec F_createsec sysnow)
                                     (hdr_pri hdr))) hdr in
        (pri, set_header hdr ds,
         sdnv_flags (sdnv_flags storflags F_createsec sysnow) F_createseq (createseq pri))
      else (pri, ds, storflags) in
    (* Set Expiration Time of Bundle *)
    let ds :=
      if negb (lifetime pri =? 0)
      then set_exprtime (u32 (createsec pri + lifetime pri)) ds
      else set_exprtime 0 ds in
    let bundle := set_bundle_store ds (set_primary_block pri bundle) in
    store_data_loop fuel bundle st handle timeout storflags 0.

(** [bplib_store(channel, payload, size, timeout, storflags)] on an open
    channel with a non-NULL payload (the C entry answers [BP_PARMERR] for
    anything else). *)
Definition bplib_store (fuel : nat) (sysnow : Z) (ch : bp_channel_t St)
    (payload : list Z) (size timeout storflags : Z)
  : option (Z * bp_channel_t St * Z) :=
  if negb (originate (data_bundle ch))
  then Some (bplog BP_WRONGORIGINATION, ch, storflags)
  else
    (* Update Payload *)
    let pay := set_paysize size (set_payptr payload (payload_block (data_bundle ch))) in
    let bundle := set_payload_block pay (data_bundle ch) in
    (* Store Bundle *)
    match store_data_bundle fuel sysnow bundle (storage ch) (data_store_handle ch)
            timeout storflags with
    | None => None
    | Some (status, bundle, st, storflags) =>
        let ch := set_storage st (set_data_bundle bundle ch) in
        let ch :=
          if status =? BP_SUCCESS
          then set_stats (set_generated (u64 (generated (stats ch) + 1)) (stats ch)) ch
          else ch in
        Some (status, ch, storflags)
    end.

(* ------------------------------------------------------------------ *)
(** ** The channel engine: options and open *)

Inductive bp_opt :=
| BP_OPT_DSTNODE_D | BP_OPT_DSTSERV_D | BP_OPT_RPTNODE_D | BP_OPT_RPTSERV_D
| BP_OPT_CSTNODE_D | BP_OPT_CSTSERV_D | BP_OPT_SETSEQUENCE_D | BP_OPT_LIFETIME_D
| BP_OPT_CSTRQST_D | BP_OPT_ICHECK_D | BP_OPT_ALLOWFRAG_D | BP_OPT_PAYCRC_D
| BP_OPT_TIMEOUT | BP_OPT_BUNDLELEN | BP_OPT_ORIGINATE | BP_OPT_PROCADMINONLY
| BP_OPT_WRAPRSP | BP_OPT_CIDREUSE | BP_OPT_ACSRATE
| BP_OPT_OTHER (opt : Z).

(** [sizeof(bp_ipn_t)] and [sizeof(int)]. *)
Definition sizeof_ipn : Z := 4.
Definition sizeof_int : Z := 4.

Definition int_of_bool (b : bool) : Z := if b then 1 else 0.
Definition bool_of_int (v : Z) : bool := negb (v =? 0).

(** [getset_opt(c, opt, val, len, getset)]: the status, the channel, and the
    value left in [*val]. *)
Definition getset_opt (ch : bp_channel_t St) (opt : bp_opt) (val len : Z) (getset : bool)
  : Z * bp_channel_t St * Z :=
  let db := data_bundle ch in
  let pri := primary_block db in
  let with_pri p := set_data_bundle (set_primary_block p db) ch in
  (* Re-initialize Bundles *)
  let done (ch' : bp_channel_t St) (out : Z) : Z * bp_channel_t St * Z :=
    (BP_SUCCESS,
     if getset then set_data_bundle (initialize_orig_bundle (data_bundle ch')) ch' else ch',
     out) in
  let not_bool := getset && negb (val =? 1) && negb (val =? 0) in
  let sized (size : Z) (k : Z * bp_channel_t St * Z) : Z * bp_channel_t St * Z :=
    if negb (len =? size) then (BP_PARMERR, ch, val) else k in
  let flag (k : Z * bp_channel_t St * Z) : Z * bp_channel_t St * Z :=
    sized sizeof_int (if not_bool then (BP_PARMERR, ch, val) else k) in
  match opt with
  | BP_OPT_DSTNODE_D =>
      sized sizeof_ipn (if getset then done (with_pri (set_dstnode val pri)) val
                        else done ch (dstnode pri))
  | BP_OPT_DSTSERV_D =>
      sized sizeof_ipn (if getset then done (with_pri (set_dstserv val pri)) val
                        else done ch (dstserv pri))
  | BP_OPT_RPTNODE_D =>
      sized sizeof_ipn (if getset then done (with_pri (set_rptnode val pri)) val
                        else done ch (rptnode pri))
  | BP_OPT_RPTSERV_D =>
      sized sizeof_ipn (if getset then done (with_pri (set_rptserv val pri)) val
                        else done ch (rptserv pri))
  | BP_OPT_CSTNODE_D =>
      sized sizeof_ipn (if getset then done (with_pri (set_cstnode val pri)) val
                        else done ch (cstnode pri))
  | BP_OPT_CSTSERV_D =>
      sized sizeof_ipn (if getset then done (with_pri (set_cstserv val pri)) val
                        else done ch (cstserv pri))
  | BP_OPT_SETSEQUENCE_D =>
      sized sizeof_int (if getset then done (with_pri (set_createseq (u32 val) pri)) val
                        else done ch (createseq pri))
  | BP_OPT_LIFETIME_D =>
      sized sizeof_int (if getset then done (with_pri (set_lifetime (u32 val) pri)) val
                        else done ch (lifetime pri))
  | BP_OPT_CSTRQST_D =>
      flag (if getset then done (with_pri (set_request_custody (bool_of_int val) pri)) val
            else done ch (int_of_bool (request_custody pri)))
  | BP_OPT_ICHECK_D =>
      flag (if getset then done (with_pri (set_integrity_check (bool_of_int val) pri)) val
            else done ch (int_of_bool (integrity_check pri)))
  | BP_OPT_ALLOWFRAG_D =>
      flag (if getset
            then done (with_pri (set_is_frag (bool_of_int val)
                                   (set_allow_frag (bool_of_int val) pri))) val
            else (* *enable = allow_frag; *enable = is_frag; *)
                 done ch (int_of_bool (is_frag pri)))
  | BP_OPT_PAYCRC_D =>
      sized sizeof_int
        (if getset
         then done (set_data_bundle
                      (set_integrity_block
                         (mk_bib (cipher_suite_id (integrity_block db)) val
                                 (security_result (integrity_block db))) db) ch) val
         else done ch (security_result_type (integrity_block db)))
  | BP_OPT_TIMEOUT =>
      sized sizeof_int (if getset then done (set_timeout val ch) val else done ch (timeout ch))
  | BP_OPT_BUNDLELEN =>
      sized sizeof_int (if getset then done (set_data_bundle (set_maxlength val db) ch) val
                        else done ch (maxlength db))
  | BP_OPT_ORIGINATE =>
      flag (if getset then done (set_data_bundle (set_originate (bool_of_int val) db) ch) val
            else done ch (int_of_bool (originate db)))
  | BP_OPT_PROCADMINONLY =>
      flag (if getset then done (set_proc_admin_only (bool_of_int val) ch) val
            else done ch (int_of_bool (proc_admin_only ch)))
  | BP_OPT_WRAPRSP =>
      sized sizeof_int
        (if getset && negb (val =? BP_WRAP_RESEND) && negb (val =? BP_WRAP_BLOCK)
                   && negb (val =? BP_WRAP_DROP)
         then (BP_PARMERR, ch, val)
         else if getset then done (set_wrap_response val ch) val
              else done ch (wrap_response ch))
  | BP_OPT_CIDREUSE =>
      flag (if getset then done (set_cid_reuse (bool_of_int val) ch) val
            else done ch (int_of_bool (cid_reuse ch)))
  | BP_OPT_ACSRATE =>
      sized sizeof_int (if getset then done (set_dacs_rate val ch) val
                        else done ch (dacs_rate ch))
  | BP_OPT_OTHER _ => (bplog BP_PARMERR, ch, val)
  end.

Definition bplib_setopt (ch : bp_channel_t St) (opt : bp_opt) (val len : Z)
  : Z * bp_channel_t St :=
  let '(status, ch, _) := getset_opt ch opt val len true in (status, ch).

Definition bplib_getopt (ch : bp_channel_t St) (opt : bp_opt) (len : Z) : Z * Z :=
  let '(status, _, out) := getset_opt ch opt 0 len false in (status, out).

(** One entry of [ch->dacs_bundle] as [bplib_open] leaves it. *)
Definition open_dacs_bundle (local_node local_service tree_size : Z) : bp_dacs_bundle_t :=
  let pri := native_dacs_pri_blk in
  let pri := set_srcserv local_service (set_srcnode local_node pri) in
  let pri := set_rptserv 0 (set_rptnode 0 pri) in
  let pri := set_cstserv local_service (set_cstnode local_node pri) in
  mk_dacs_bundle pri native_bib_blk native_pay_blk 0 0 (rb_tree_create tree_size)
    false 0 [] bundle_store_zero.

(** [bplib_open], for one free slot of the channel table; the locks and the
    memory it asks the OS for are granted.  [None] is [BP_INVALID_HANDLE]. *)
Definition bplib_open (st : St) (local_node local_service destination_node
    destination_service : Z) (attr : option bp_attr_t)
  : St * option (bp_channel_t St) :=
  let pick (f : bp_attr_t -> Z) (dflt : Z) : Z :=
    match attr with
    | Some a => if 0 <? f a then f a else dflt
    | None => dflt
    end in
  let a := mk_attr (pick active_table_size BP_DEFAULT_ACTIVE_TABLE_SIZE)
                   (pick max_concurrent_dacs BP_DEFAULT_MAX_CONCURRENT_DACS)
                   (pick max_fills_per_dacs BP_DEFAULT_MAX_FILLS_PER_DACS)
                   (pick max_tree_size BP_DEFAULT_MAX_TREE_SIZE) in
  let '(st, hdata) := create ops st in
  let '(st, hpay) := create ops st in
  let '(st, hdacs) := create ops st in
  if (hdata <? 0) || (hpay <? 0) || (hdacs <? 0) then
    (* bplib_close(i) *)
    let st := if negb (hdata =? BP_INVALID_HANDLE) then destroy ops st hdata else st in
    let st := if negb (hpay =? BP_INVALID_HANDLE) then destroy ops st hpay else st in
    let st := if negb (hdacs =? BP_INVALID_HANDLE) then destroy ops st hdacs else st in
    (st, None)
  else
    let pri := native_data_pri_blk in
    let pri := set_dstserv destination_service (set_dstnode destination_node pri) in
    let pri := set_srcserv local_service (set_srcnode local_node pri) in
    let pri := set_rptserv 0 (set_rptnode 0 pri) in
    let pri := set_cstserv local_service (set_cstnode local_node pri) in
    let cteb := mk_cteb 0 (Eid.ipn_text local_node local_service) local_node local_service in
    let db := mk_data_bundle pri cteb native_bib_blk native_pay_blk
                BP_DEFAULT_BUNDLE_MAXLENGTH true bundle_store_zero
                (mk_payload_store false 0) in
    let n := Z.to_nat (active_table_size a) in
    (st, Some (mk_channel a local_node local_service st hdata hpay hdacs
                 (initialize_orig_bundle db)
                 (replicate (Z.to_nat (max_concurrent_dacs a))
                    (open_dacs_bundle local_node local_service (max_tree_size a)))
                 (mk_active_table (replicate n BP_SID_VACANT) (replicate n 0) 0 0)
                 0 BP_DEFAULT_DACS_RATE stats_zero BP_DEFAULT_TIMEOUT false
                 BP_DEFAULT_WRAP_RESPONSE false)).

(* ------------------------------------------------------------------ *)
(** ** The channel engine: aggregate custody signals *)

(** [initialize_dacs_bundle(ch, dac_entry, dstnode, dstserv)] on the entry
    itself. *)
Definition initialize_dacs_bundle (bundle : bp_dacs_bundle_t) (dstnode' dstserv' : Z)
  : Z * bp_dacs_bundle_t :=
  let pri := dacs_primary_block bundle in
  let ds := bundle_store_zero in
  let hdr := set_hdr_pri (pri_put codec pri) (header ds) in
  let offset := bplib_blk_pri_write codec pri in
  let '(ds, hdr, offset) :=
    if integrity_check pri
    then (set_biboffset offset ds,
          set_hdr_bib_result (bib_put codec (dacs_integrity_block bundle)) hdr,
          bplib_blk_bib_write codec (dacs_integrity_block bundle) + offset)
    else (set_biboffset 0 ds, hdr, offset) in
  let ds := set_payoffset offset ds in
  let ds := set_headersize
              (bplib_blk_pay_write codec (dacs_payload_block bundle) + offset) ds in
  let hdr := set_hdr_pay_blklen (pay_put codec (dacs_payload_block bundle)) hdr in
  (* Set Destination EID *)
  let pri := set_dstserv dstserv' (set_dstnode dstnode' pri) in
  let hdr := set_hdr_pri (set_dstserv (sdnv_put codec F_dstserv dstserv')
                            (set_dstnode (sdnv_put codec F_dstnode dstnode') (hdr_pri hdr)))
               hdr in
  let flags := sdnv_flags (sdnv_flags 0 F_dstnode dstnode') F_dstserv dstserv' in
  let bundle := set_dacs_bundle_store (set_header hdr ds)
                  (set_dacs_primary_block pri bundle) in
  (if negb (flags =? 0) then BP_BUNDLEPARSEERR else BP_SUCCESS, bundle).

(** The [while (!rb_tree_is_empty(&dacs->tree))] loop of
    [store_dacs_bundles]. *)
Fixpoint store_dacs_loop (fuel : nat) (max_fills handle sysnow timeout' : Z)
    (dacs : bp_dacs_bundle_t) (st : St) (dacsflags : Z)
    (has_enqueue_failure : bool) (enstat_fail : Z)
  : option (bp_dacs_bundle_t * St * Z * bool * Z) :=
  if rb_tree_is_empty (tree dacs)
  then Some (dacs, st, dacsflags, has_enqueue_failure, enstat_fail)
  else
    match fuel with
    | O => None
    | Datatypes.S fuel' =>
        let ds := dacs_bundle_store dacs in
        let pri := dacs_primary_block dacs in
        (* Build DACS: this call will remove nodes from the tree *)
        let '(rec, t) := bplib_rec_acs_write max_fills (tree dacs) in
        let dacs_size := Z.of_nat (length rec) in
        let ds := set_bundlesize (headersize ds + dacs_size) ds in
        (* Set Creation Time, Set Sequence *)
        let pri := set_createsec sysnow pri in
        let hdr := set_hdr_pri (set_createseq (sdnv_put codec F_createseq (createseq pri))
                                  (set_createsec (sdnv_put codec F_createsec sysnow)
                                     (hdr_pri (header ds)))) (header ds) in
        let dacsflags :=
          sdnv_flags (sdnv_flags dacsflags F_createsec sysnow) F_createseq (createseq pri) in
        let pri := set_createseq (u32 (createseq pri + 1)) pri in
        (* Update Bundle Integrity Block *)
        let hdr :=
          if negb (biboffset ds =? 0)
          then set_hdr_bib_result
                 (bplib_blk_bib_update codec (dacs_integrity_block dacs) rec) hdr
          else hdr in
        (* Update Payload Block *)
        let pay := mk_pay dacs_size rec dacs_size in
        let hdr := set_hdr_pay_blklen (sdnv_put codec F_pay_blklen dacs_size) hdr in
        let dacsflags := sdnv_flags dacsflags F_pay_blklen dacs_size in
        let ds := set_header hdr ds in
        (* Send (enqueue) DACS *)
        let '(st, enstat) := enqueue ops st handle (BundleObj ds rec) timeout' in
        let dacs := mk_dacs_bundle pri (dacs_integrity_block dacs) pay
                      (dacs_cstnode dacs) (dacs_cstserv dacs) t (delivered dacs)
                      (last_dacs dacs) rec ds in
        (* Check Storage Status *)
        if enstat <=? 0
        then store_dacs_loop fuel' max_fills handle sysnow timeout' dacs st dacsflags true
               (if has_enqueue_failure then enstat_fail else enstat)
        else store_dacs_loop fuel' max_fills handle sysnow timeout'
               (set_last_dacs sysnow dacs) st dacsflags has_enqueue_failure enstat_fail
    end.

(** [store_dacs_bundles(ch, dacs, sysnow, timeout, dacsflags)]. *)
Definition store_dacs_bundles (fuel : nat) (max_fills handle sysnow timeout' : Z)
    (dacs : bp_dacs_bundle_t) (st : St) (dacsflags : Z)
  : option (Z * bp_dacs_bundle_t * St * Z) :=
  match store_dacs_loop fuel max_fills handle sysnow timeout' dacs st dacsflags false 0 with
  | None => None
  | Some (dacs, st, dacsflags, has_enqueue_failure, enstat_fail) =>
      if has_enqueue_failure
      then Some (enstat_fail, dacs, st, set_flag dacsflags BP_FLAG_STOREFAILURE)
      else Some (BP_SUCCESS, dacs, st, dacsflags)
  end.


(** [try_dacs_insert(value, dacs, dacsflags)]: whether the DACS should be
    stored after the attempt. *)
Definition try_dacs_insert (value : Z) (dacs : bp_dacs_bundle_t) (dacsflags : Z)
  : bool * bp_dacs_bundle_t * Z :=
  let '(status, t) := rb_tree_insert value (tree dacs) in
  let dacs := set_tree t dacs in
  match status with
  | RB_FAIL_TREE_FULL => (true, dacs, set_flag dacsflags BP_FLAG_RBTREEFULL)
  | RB_FAIL_INSERT_DUPLICATE => (false, dacs, set_flag dacsflags BP_FLAG_DUPLICATES)
  | RB_SUCCESS => (false, dacs, dacsflags)
  end.

(** The [for] loop of [update_dacs_bundle] over the open entries. *)
Fixpoint find_dacs_entry (l : list bp_dacs_bundle_t) (cteb : bp_blk_cteb_t) (i : nat)
  : option nat :=
  match l with
  | [] => None
  | d :: rest =>
      if (dacs_cstnode d =? cteb_cstnode cteb) && (dacs_cstserv d =? cteb_cstserv cteb)
      then Some i
      else find_dacs_entry rest cteb (Datatypes.S i)
  end.

Definition dacs_zero : bp_dacs_bundle_t :=
  mk_dacs_bundle pri_zero native_bib_blk native_pay_blk 0 0 (rb_tree_create 0)
    false 0 [] bundle_store_zero.

(** [ch->dacs_bundle[i]]. *)
Definition dacs_at (ch : bp_channel_t St) (i : nat) : bp_dacs_bundle_t :=
  nth i (dacs_bundle ch) dacs_zero.

(** The part of [update_dacs_bundle] under [if(dacs != NULL)], for the entry
    [i]. *)
Definition populate_dacs (fuel : nat) (sysnow : Z) (ch : bp_channel_t St) (i : nat)
    (cteb : bp_blk_cteb_t) (delivered' : bool) (timeout' dacsflags : Z)
  : option (bp_channel_t St * Z) :=
  let dacs := dacs_at ch i in
  let '(store_dacs, dacs, dacsflags) :=
    if negb (Bool.eqb (delivered dacs) delivered')
    then (* Mark Mixed Response *)
         (true, dacs, set_flag dacsflags BP_FLAG_MIXEDRESPONSE)
    else (* Attempt to insert cid into dacs. *)
         try_dacs_insert (cteb_cid cteb) dacs dacsflags in
  if store_dacs then
    match store_dacs_bundles fuel (max_fills_per_dacs (attributes ch))
            (dacs_store_handle ch) sysnow timeout' dacs (storage ch) dacsflags with
    | None => None
    | Some (_, dacs, st, dacsflags) =>
        (* Start New DTN ACS *)
        let dacs := set_delivered delivered' dacs in
        let '(_, dacs, dacsflags) := try_dacs_insert (cteb_cid cteb) dacs dacsflags in
        Some (set_storage st (set_dacs_bundle (<[i := dacs]> (dacs_bundle ch)) ch), dacsflags)
    end
  else Some (set_dacs_bundle (<[i := dacs]> (dacs_bundle ch)) ch, dacsflags).

(** [update_dacs_bundle(ch, cteb, delivered, timeout, dacsflags)]. *)
Definition update_dacs_bundle (fuel : nat) (sysnow : Z) (ch : bp_channel_t St)
    (cteb : bp_blk_cteb_t) (delivered' : bool) (timeout' dacsflags : Z)
  : option (Z * bp_channel_t St * Z) :=
  (* Find DACS Entry *)
  match find_dacs_entry (firstn (Z.to_nat (num_dacs ch)) (dacs_bundle ch)) cteb 0 with
  | Some i =>
      match populate_dacs fuel sysnow ch i cteb delivered' timeout' dacsflags with
      | None => None
      | Some (ch, dacsflags) => Some (BP_SUCCESS, ch, dacsflags)
      end
  | None =>
      (* Handle Entry Not Found *)
      if num_dacs ch <? max_concurrent_dacs (attributes ch) then
        let dacs_entry := Z.to_nat (num_dacs ch) in
        let ch := set_num_dacs (num_dacs ch + 1) ch in
        (* Initial DACS Bundle *)
        let '(_, dacs) :=
          initialize_dacs_bundle (dacs_at ch dacs_entry) (cteb_cstnode cteb)
            (cteb_cstserv cteb) in
        let dacs := set_dacs_cstnode (cteb_cstnode cteb) dacs in
        let dacs := set_dacs_cstserv (cteb_cstserv cteb) dacs in
        let dacs := set_delivered delivered' dacs in
        let ch := set_dacs_bundle (<[dacs_entry := dacs]> (dacs_bundle ch)) ch in
        match populate_dacs fuel sysnow ch dacs_entry cteb delivered' timeout' dacsflags with
        | None => None
        | Some (ch, dacsflags) => Some (BP_SUCCESS, ch, dacsflags)
        end
      else
        (* No Room in Table for Another Source *)
        Some (bplog BP_FAILEDRESPONSE, ch, set_flag dacsflags BP_FLAG_TOOMANYSOURCES)
  end.

(** The part of [ch->dacs_bundle] not yet in use is as [bplib_open] left it:
    the array has [max_concurrent_dacs] entries, every tree has room for at
    least one id, and the trees of the entries from [num_dacs] on are
    empty. *)
Definition dacs_table_ok (ch : bp_channel_t St) : Prop :=
  0 <= num_dacs ch /\
  max_concurrent_dacs (attributes ch) = Z.of_nat (length (dacs_bundle ch)) /\
  (forall i, (i < length (dacs_bundle ch))%nat -> 0 < rb_max_size (tree (dacs_at ch i))) /\
  (forall i, (Z.to_nat (num_dacs ch) <= i < length (dacs_bundle ch))%nat ->
     rb_nodes (tree (dacs_at ch i)) = []).

(** What a custody update leaves alone: the attributes, the identity of
    the channel, the handle of its payload store and its administrative-only
    setting. *)
Definition same_station (ch ch' : bp_channel_t St) : Prop :=
  attributes ch' = attributes ch /\
  local_node ch' = local_node ch /\
  local_service ch' = local_service ch /\
  payload_store_handle ch' = payload_store_handle ch /\
  proc_admin_only ch' = proc_admin_only ch.

(* ------------------------------------------------------------------ *)
(** ** The channel engine: [bplib_load] *)

(** [tbl[i]] and [tbl[i] = v] on the arrays of the active table. *)
Definition slot (tbl : list Z) (i : Z) : Z := nth (Z.to_nat i) tbl 0.
Definition set_slot (tbl : list Z) (i v : Z) : list Z := <[Z.to_nat i := v]> tbl.

(** The caller's [*bundle] and [*size]: a NULL pointer (and whether [malloc]
    then grants the memory) or a buffer of the given size. *)
Inductive caller_buf :=
| NullBuf (malloc_ok : bool)
| SizedBuf (size : Z).

(** [exprtime != 0 && sysnow >= exprtime]. *)
Definition is_expired (sysnow : Z) (ds : bp_bundle_store_t) : bool :=
  negb (exprtime ds =? 0) && (exprtime ds <=? sysnow).

Definition bump_oldest (ch : bp_channel_t St) : bp_channel_t St :=
  let tbl := active_table ch in
  set_active_table (set_oldest_cid (u32 (oldest_cid tbl + 1)) tbl) ch.

Definition vacate (ati : Z) (ch : bp_channel_t St) : bp_channel_t St :=
  let tbl := active_table ch in
  set_active_table (set_sid (set_slot (sid tbl) ati BP_SID_VACANT) tbl) ch.

Definition count_lost (ch : bp_channel_t St) : bp_channel_t St :=
  set_stats (set_lost (u64 (lost (stats ch) + 1)) (stats ch)) ch.
Definition count_expired (ch : bp_channel_t St) : bp_channel_t St :=
  set_stats (set_expired (u64 (expired (stats ch) + 1)) (stats ch)) ch.
Definition count_retransmitted (ch : bp_channel_t St) : bp_channel_t St :=
  set_stats (set_retransmitted (u64 (retransmitted (stats ch) + 1)) (stats ch)) ch.
Definition count_transmitted (ch : bp_channel_t St) : bp_channel_t St :=
  set_stats (set_transmitted (u64 (transmitted (stats ch) + 1)) (stats ch)) ch.

(** [relinquish(handle, sid)] on the channel's storage. *)
Definition ch_relinquish (handle sid' : Z) (ch : bp_channel_t St) : bp_channel_t St :=
  set_storage (relinquish ops (storage ch) handle sid') ch.

(** The local variables of [bplib_load] that outlive a block. *)
Record load_vars := mk_load_vars {
  lv_ch : bp_channel_t St;
  lv_ds : option (bp_bundle_store_t * list Z);   (* NULL, or the object at [ds] *)
  lv_sid : Z;
  lv_ati : Z;
  lv_newcid : bool;
  lv_status : Z;
  lv_flags : Z
}.

(** "Check DACS Rate": the [for] loop over the open accumulators, from
    entry [i] for [n] more entries. *)
Fixpoint flush_stale_dacs (fuel : nat) (sysnow : Z) (n : nat) (i : nat)
    (ch : bp_channel_t St) (loadflags : Z) : option (bp_channel_t St * Z) :=
  match n with
  | O => Some (ch, loadflags)
  | Datatypes.S n' =>
      let dacs := dacs_at ch i in
      if (0 <? dacs_rate ch) && (u32 (last_dacs dacs + dacs_rate ch) <=? sysnow)
         && negb (rb_tree_is_empty (tree dacs))
      then
        match store_dacs_bundles fuel (max_fills_per_dacs (attributes ch))
                (dacs_store_handle ch) sysnow BP_CHECK dacs (storage ch) loadflags with
        | None => None
        | Some (_, dacs, st, loadflags) =>
            let dacs := set_last_dacs sysnow dacs in
            let ch := set_storage st (set_dacs_bundle (<[i := dacs]> (dacs_bundle ch)) ch) in
            flush_stale_dacs fuel sysnow n' (Datatypes.S i) ch loadflags
        end
      else flush_stale_dacs fuel sysnow n' (Datatypes.S i) ch loadflags
  end.

(** "Try to Send Timed-out Bundle": the [while((ds == NULL) && (oldest_cid <
    current_cid))] loop; every call starts an iteration with [ds == NULL]. *)
Fixpoint active_table_loop (fuel : nat) (sysnow : Z) (v : load_vars) : option load_vars :=
  let ch := lv_ch v in
  let tbl := active_table ch in
  if oldest_cid tbl <? current_cid tbl then
    match fuel with
    | O => None
    | Datatypes.S fuel' =>
        let ati := oldest_cid tbl mod active_table_size (attributes ch) in
        let sid' := slot (sid tbl) ati in
        if sid' =? BP_SID_VACANT then
          (* entry vacant *)
          active_table_loop fuel' sysnow
            (mk_load_vars (bump_oldest ch) None sid' ati (lv_newcid v) (lv_status v) (lv_flags v))
        else
          match retrieve ops (storage ch) (data_store_handle ch) sid' BP_CHECK with
          | (st, inl obj) =>
              let ch := set_storage st ch in
              let ds := as_bundle obj in
              if is_expired sysnow (fst ds) then
                (* Bundle Expired - Clear Entry *)
                let ch := ch_relinquish (data_store_handle ch) sid' ch in
                let ch := count_expired (bump_oldest (vacate ati ch)) in
                active_table_loop fuel' sysnow
                  (mk_load_vars ch None sid' ati (lv_newcid v) (lv_status v) (lv_flags v))
              else if negb (timeout ch =? 0)
                      && (u32 (slot (retx tbl) ati + timeout ch) <=? sysnow) then
                (* Retransmit Bundle *)
                let ch := count_retransmitted (bump_oldest ch) in
                if cid_reuse ch
                then Some (mk_load_vars ch (Some ds) sid' ati false (lv_status v) (lv_flags v))
                else Some (mk_load_vars (vacate ati ch) (Some ds) sid' ati (lv_newcid v)
                             (lv_status v) (lv_flags v))
              else
                (* Bundle Not Ready to Retransmit; Check Active Table Has Room *)
                let ati := current_cid tbl mod active_table_size (attributes ch) in
                let sid' := slot (sid tbl) ati in
                if negb (sid' =? BP_SID_VACANT) then
                  let flags := set_flag (lv_flags v) BP_FLAG_ACTIVETABLEWRAP in
                  if wrap_response ch =? BP_WRAP_RESEND then
                    (* Bump Oldest Custody ID, Retrieve Bundle from Storage *)
                    let ch := bump_oldest ch in
                    match retrieve ops (storage ch) (data_store_handle ch) sid' BP_CHECK with
                    | (st, inl obj) =>
                        (* Force Retransmit - Do Not Reuse Custody ID *)
                        let ch := count_retransmitted (set_storage st ch) in
                        Some (mk_load_vars ch (Some (as_bundle obj)) sid' ati (lv_newcid v)
                                (lv_status v) flags)
                    | (st, inr _) =>
                        (* Failed to Retrieve - Clear Entry *)
                        let ch := set_storage st ch in
                        let ch := ch_relinquish (data_store_handle ch) sid' ch in
                        let ch := count_lost (vacate ati ch) in
                        Some (mk_load_vars ch None sid' ati (lv_newcid v) (lv_status v)
                                (set_flag flags BP_FLAG_STOREFAILURE))
                    end
                  else if wrap_response ch =? BP_WRAP_BLOCK then
                    (* Custody ID Wrapped Around to Occupied Slot *)
                    Some (mk_load_vars ch None sid' ati (lv_newcid v) BP_OVERFLOW flags)
                  else
                    (* Bump Oldest Custody ID, Clear Entry *)
                    let ch := bump_oldest ch in
                    let ch := ch_relinquish (data_store_handle ch) sid' ch in
                    let ch := count_lost (vacate ati ch) in
                    Some (mk_load_vars ch None sid' ati (lv_newcid v) (lv_status v) flags)
                else
                  (* Break Out of Loop *)
                  Some (mk_load_vars ch None sid' ati (lv_newcid v) (lv_status v) (lv_flags v))
          | (st, inr _) =>
              (* Failed to Retrieve Bundle from Storage *)
              let ch := set_storage st ch in
              let ch := ch_relinquish (data_store_handle ch) sid' ch in
              let ch := count_lost (vacate ati ch) in
              active_table_loop fuel' sysnow
                (mk_load_vars ch None sid' ati (lv_newcid v) (lv_status v)
                   (set_flag (lv_flags v) BP_FLAG_STOREFAILURE))
          end
    end
  else Some v.

(** "Try to Send Stored Bundle": the [while(ds == NULL)] loop. *)
Fixpoint fresh_dequeue_loop (fuel : nat) (sysnow timeout' : Z) (v : load_vars)
  : option load_vars :=
  match fuel with
  | O => None
  | Datatypes.S fuel' =>
      let ch := lv_ch v in
      (* Dequeue Bundle from Storage Service *)
      match dequeue ops (storage ch) (data_store_handle ch) timeout' with
      | (st, inl (obj, sid')) =>
          let ch := set_storage st ch in
          let ds := as_bundle obj in
          if is_expired sysnow (fst ds) then
            (* Bundle Expired Clear Entry (and loop again) *)
            let ch := count_expired (ch_relinquish (data_store_handle ch) sid' ch) in
            fresh_dequeue_loop fuel' sysnow timeout'
              (mk_load_vars ch None BP_SID_VACANT (lv_ati v) (lv_newcid v) (lv_status v)
                 (lv_flags v))
          else
            Some (mk_load_vars ch (Some ds) sid' (lv_ati v) (lv_newcid v) (lv_status v)
                    (lv_flags v))
      | (st, inr deq_status) =>
          let ch := set_storage st ch in
          if deq_status =? BP_TIMEOUT then
            (* No Bundles in Storage to Send *)
            Some (mk_load_vars ch None (lv_sid v) (lv_ati v) (lv_newcid v) BP_TIMEOUT
                    (lv_flags v))
          else
            (* Failed Storage Service *)
            Some (mk_load_vars ch None (lv_sid v) (lv_ati v) (lv_newcid v) BP_FAILEDSTORE
                    (set_flag (lv_flags v) BP_FLAG_STOREFAILURE))
      end
  end.

(** "Process Active Table for Sending Next Bundle": the status, the channel,
    the flags, and the bundle copied out to the caller (the stored header as
    patched, followed by the stored bytes). *)
Definition send_next_bundle (sysnow : Z) (store : Z) (buf : caller_buf) (v : load_vars)
  : Z * bp_channel_t St * Z * option (bp_bundle_store_t * list Z) :=
  let ch := lv_ch v in
  let '(status, ch, flags, out) :=
    match lv_ds v with
    | None => (lv_status v, ch, lv_flags v, None)
    | Some (ds, body) =>
        (* Check Buffer Size *)
        let fits := match buf with
                    | NullBuf _ => true
                    | SizedBuf size => bundlesize ds <=? size
                    end in
        if fits then
          (* Check/Allocate Bundle Memory *)
          let have_memory := match buf with NullBuf ok => ok | SizedBuf _ => true end in
          if have_memory then
            (* If Custody Transfer *)
            let '(ch, ds, flags) :=
              if negb (cteboffset ds =? 0) then
                let tbl := active_table ch in
                (* Assign Custody ID and Active Table Entry *)
                let '(tbl, ds, flags, ati) :=
                  if lv_newcid v then
                    let ati := current_cid tbl mod active_table_size (attributes ch) in
                    let cid := current_cid tbl in
                    let tbl := set_sid (set_slot (sid tbl) ati (lv_sid v)) tbl in
                    let tbl := set_current_cid (u32 (cid + 1)) tbl in
                    let ds := set_cidsdnv cid ds in
                    let ds := set_header (set_hdr_cid (sdnv_put codec F_cid cid) (header ds)) ds in
                    (tbl, ds, sdnv_flags (lv_flags v) F_cid cid, ati)
                  else (tbl, ds, lv_flags v, lv_ati v) in
                (* Update Retransmit Time *)
                let tbl := set_retx (set_slot (retx tbl) ati sysnow) tbl in
                (set_active_table tbl ch, ds, flags)
              else (ch, ds, lv_flags v) in
            (* Load Bundle *)
            let ch := count_transmitted ch in
            (* If No Custody Transfer - Free Bundle Memory *)
            let ch := if cteboffset ds =? 0 then ch_relinquish store (lv_sid v) ch else ch in
            (BP_SUCCESS, ch, flags, Some (ds, body))
          else
            (bplog BP_FAILEDMEM, count_lost (ch_relinquish store (lv_sid v) ch),
             lv_flags v, None)
        else
          (bplog BP_BUNDLETOOLARGE, count_lost (ch_relinquish store (lv_sid v) ch),
           lv_flags v, None)
    end in
  (* Update Active Statistic *)
  let tbl := active_table ch in
  let ch := set_stats (set_active (u32 (current_cid tbl - oldest_cid tbl)) (stats ch)) ch in
  (status, ch, flags, out).

(** [bplib_load(channel, bundle, size, timeout, loadflags)] on an open
    channel with non-NULL [bundle] and [size]. *)
Definition bplib_load (fuel : nat) (sysnow : Z) (ch : bp_channel_t St) (buf : caller_buf)
    (timeout' loadflags : Z)
  : option (Z * bp_channel_t St * Z * option (bp_bundle_store_t * list Z)) :=
  (* Check DACS Rate *)
  match flush_stale_dacs fuel sysnow (Z.to_nat (num_dacs ch)) 0 ch loadflags with
  | None => None
  | Some (ch, loadflags) =>
      (* Check if DACS Needs to be Sent *)
      let '(v, store) :=
        match dequeue ops (storage ch) (dacs_store_handle ch) BP_CHECK with
        | (st, inl (obj, sid')) =>
            (mk_load_vars (set_storage st ch) (Some (as_bundle obj)) sid' (-1) true BP_SUCCESS
               (set_flag loadflags BP_FLAG_ROUTENEEDED),
             dacs_store_handle ch)
        | (st, inr _) =>
            (mk_load_vars (set_storage st ch) None BP_SID_VACANT (-1) true BP_SUCCESS loadflags,
             data_store_handle ch)
        end in
      (* Process Active Table for Timeouts *)
      let after_table :=
        match lv_ds v with
        | Some _ => Some v
        | None => active_table_loop fuel sysnow v
        end in
      match after_table with
      | None => None
      | Some v =>
          (* Try to Send Stored Bundle (if nothing ready to send yet) *)
          let after_dequeue :=
            match lv_ds v with
            | Some _ => Some v
            | None => fresh_dequeue_loop fuel sysnow timeout' v
            end in
          match after_dequeue with
          | None => None
          | Some v => Some (send_next_bundle sysnow store buf v)
          end
      end
  end.

(* ------------------------------------------------------------------ *)
(** ** The channel engine: [bplib_process] and [bplib_accept] *)

(** Modelled from the spec: the block processing flags of bplib_blk.h, which
    is not among the sources; they "occupy vendor-defined bit positions in
    the block flags SDNV" (section 6). *)
Definition BP_BLK_NOTIFYNOPROC_MASK : Z := 0x02.
Definition BP_BLK_DELETENOPROC_MASK : Z := 0x04.
Definition BP_BLK_DROPNOPROC_MASK : Z := 0x10.
Definition BP_BLK_FORWARDNOPROC_MASK : Z := 0x20.

(** The received buffer, as the block readers of the codec (which is not
    among the sources) see it: for each block in turn, what its reader
    returns (the bytes it read, or a status [<= 0]) and the block it fills
    in.  For a block of another type: the flags and length the two
    [bplib_sdnv_read] calls give, where the data starts, and the flags those
    calls raise. *)
Inductive wire_block :=
| WCteb (status : Z) (blk : bp_blk_cteb_t)
| WBib (status : Z) (blk : bp_blk_bib_t)
| WOther (blk_flags data_index blk_len raised : Z)
| WPay (status : Z) (blk : bp_blk_pay_t).

Record wire_bundle := mk_wire {
  w_size : Z;                   (* size of the buffer *)
  w_pri_status : Z;             (* what bplib_blk_pri_read returns *)
  w_pri : bp_blk_pri_t;
  w_blocks : list wire_block
}.

(** Modelled from the spec: [bplib_rec_acs_process], which is not among the
    sources (section 4.1.4): each acknowledged custody id maps "to slot cid
    mod A; if occupied, relinquish its storage-id, VACANT it, count
    acknowledged++".  The call hands it the slot array and its size, not the
    two counters.  The ids follow the record type and the status byte. *)
Fixpoint bplib_rec_acs_process (cids : list Z) (sids : list Z) (table_size handle : Z)
    (st : St) (count : Z) : list Z * St * Z :=
  match cids with
  | [] => (sids, st, count)
  | cid :: rest =>
      let ati := cid mod table_size in
      if negb (slot sids ati =? BP_SID_VACANT)
      then bplib_rec_acs_process rest (set_slot sids ati BP_SID_VACANT) table_size handle
             (relinquish ops st handle (slot sids ati)) (count + 1)
      else bplib_rec_acs_process rest sids table_size handle st count
  end.

(** "Copy Non-excluded Header Regions": the [for(i = 1; (i + 1) <
    num_excludes; i += 2)] loop over [exclude[1..]]. *)
Fixpoint copy_regions (excl : list Z) (hdr_index : Z) (regions : list (Z * Z))
  : Z + (Z * list (Z * Z)) :=
  match excl with
  | start_index :: ((stop_index :: _) as rest) =>
      let bytes_to_copy := stop_index - start_index in
      if BP_BUNDLE_HDR_BUF_SIZE <=? hdr_index + bytes_to_copy
      then inl (bplog BP_BUNDLETOOLARGE)
      else
        match rest with
        | _ :: rest' =>
            copy_regions rest' (hdr_index + bytes_to_copy)
              (regions ++ [(start_index, bytes_to_copy)])
        | [] => inr (hdr_index, regions)
        end
  | _ => inr (hdr_index, regions)
  end.

(** [initialize_forw_bundle]. *)
Definition initialize_forw_bundle (bundle : bp_data_bundle_t) (pri : bp_blk_pri_t)
    (pay : bp_blk_pay_t) (local_node' local_service' : Z) (cteb_present : bool)
    (exclude : list Z) (procflags : Z) : Z * bp_data_bundle_t * Z :=
  (* Initialize Data Storage Memory, Initialize Primary Block *)
  let ds := bundle_store_zero in
  let bundle := set_bundle_store ds (set_primary_block pri bundle) in
  (* Accept Custody *)
  if request_custody pri && negb cteb_present
  then (bplog BP_UNSUPPORTED, bundle, set_flag procflags BP_FLAG_NONCOMPLIANT)
  else
    let pri :=
      if request_custody pri
      then set_cstserv local_service' (set_cstnode local_node'
             (set_rptserv local_service' (set_rptnode local_node' pri)))
      else pri in
    let bundle := set_primary_block pri bundle in
    (* Write Primary Block *)
    let status := bplib_blk_pri_write codec pri in
    let ds := set_header (set_hdr_pri (pri_put codec pri) (header ds)) ds in
    if status <=? 0
    then (bplog BP_BUNDLEPARSEERR, set_bundle_store ds bundle, procflags)
    else
      let hdr_index := status in
      (* Write Custody Block *)
      let fcteb := custody_block bundle in
      let fcteb :=
        if request_custody pri
        then mk_cteb (cteb_cid fcteb) (Eid.ipn_text local_node' local_service')
               local_node' local_service'
        else fcteb in
      let bundle := set_custody_block fcteb bundle in
      let cteb_status := bplib_blk_cteb_write codec fcteb in
      let ds :=
        if request_custody pri
        then set_header (set_hdr_cid (cteb_put codec fcteb) (header ds))
               (set_cteboffset hdr_index (set_cidsdnv (cteb_cid fcteb) ds))
        else set_cteboffset 0 ds in
      if request_custody pri && (cteb_status <=? 0)
      then (bplog BP_BUNDLEPARSEERR, set_bundle_store ds bundle, procflags)
      else
        let hdr_index := if request_custody pri then hdr_index + cteb_status else hdr_index in
        (* Write Integrity Block *)
        let bib_status := bplib_blk_bib_write codec (integrity_block bundle) in
        let ds := if integrity_check pri then set_biboffset hdr_index ds
                  else set_biboffset 0 ds in
        if integrity_check pri && (bib_status <=? 0)
        then (bplog BP_BUNDLEPARSEERR, set_bundle_store ds bundle, procflags)
        else
          let hdr_index := if integrity_check pri then hdr_index + bib_status else hdr_index in
          (* Copy Non-excluded Header Regions *)
          match copy_regions (tl exclude) hdr_index [] with
          | inl status => (status, set_bundle_store ds bundle, procflags)
          | inr (hdr_index, regions) =>
              let ds := set_header (set_hdr_regions regions (header ds)) ds in
              (* Initialize Payload Block, Initialize Payload Block Offset *)
              let ds := set_payoffset hdr_index ds in
              (BP_SUCCESS, set_bundle_store ds (set_payload_block pay bundle), procflags)
          end.

(** What [bplib_process] does "once payload block reached", after the
    integrity and size checks; [status] is what the last reader or
    [bplib_blk_bib_verify] returned, [index] is where the payload bytes
    start. *)
Definition process_payload (fuel : nat) (sysnow : Z) (ch : bp_channel_t St)
    (w_size' : Z) (pri_blk : bp_blk_pri_t) (pay_blk : bp_blk_pay_t) (cteb_present : bool)
    (cteb_blk : bp_blk_cteb_t) (exclude : list Z) (index status timeout' procflags : Z)
  : option (Z * bp_channel_t St * Z) :=
  if negb (dstnode pri_blk =? local_node ch) then
    (* forward bundle (dst node != local node): Check Ability to Forward *)
    let '(status, pri_blk) :=
      if originate (data_bundle ch) then (bplog BP_WRONGORIGINATION, pri_blk)
      else if maxlength (data_bundle ch) <? paysize pay_blk then
        (* Check Ability to Fragment *)
        if negb (allow_frag pri_blk) then (bplog BP_BUNDLETOOLARGE, pri_blk)
        else (status, set_is_frag true pri_blk)
      else (status, pri_blk) in
    (* Initialize Forwarded Bundle *)
    let '(status, ch, procflags) :=
      if status =? BP_SUCCESS then
        let '(status, bundle, procflags) :=
          initialize_forw_bundle (data_bundle ch) pri_blk pay_blk (local_node ch)
            (local_service ch) cteb_present exclude procflags in
        (status, set_data_bundle bundle ch, procflags)
      else (status, ch, procflags) in
    (* Store Forwarded Bundle *)
    let stored :=
      if status =? BP_SUCCESS then
        match store_data_bundle fuel sysnow (data_bundle ch) (storage ch)
                (data_store_handle ch) timeout' procflags with
        | None => None
        | Some (status, bundle, st, procflags) =>
            Some (status, set_storage st (set_data_bundle bundle ch), procflags)
        end
      else Some (status, ch, procflags) in
    match stored with
    | None => None
    | Some (status, ch, procflags) =>
        (* Handle Custody Transfer *)
        if (status =? BP_SUCCESS) && request_custody pri_blk then
          if cteb_present
          then (* Update DACS (bundle successfully forwarded) *)
               update_dacs_bundle fuel sysnow ch cteb_blk false BP_CHECK procflags
          else Some (status, ch, set_flag procflags BP_FLAG_NONCOMPLIANT)
        else Some (status, ch, procflags)
    end
  else if negb (local_service ch =? 0) && negb (dstserv pri_blk =? local_service ch) then
    Some (bplog BP_WRONGCHANNEL, ch, procflags)
  else if is_admin_rec pri_blk then
    (* Administrative Record: Read Record Information *)
    let rec_type := nth 0 (payptr pay_blk) 0 in
    if rec_type =? BP_ACS_REC_TYPE then
      let tbl := active_table ch in
      let '(sids, st, acknowledgment_count) :=
        bplib_rec_acs_process (skipn 2 (payptr pay_blk)) (sid tbl)
          (active_table_size (attributes ch)) (data_store_handle ch) (storage ch) 0 in
      let ch := set_storage st (set_active_table (set_sid sids tbl) ch) in
      let ch :=
        if 0 <? acknowledgment_count
        then set_stats (set_acknowledged
                          (u64 (acknowledged (stats ch) + acknowledgment_count))
                          (stats ch)) ch
        else ch in
      Some (status, ch, procflags)
    else if rec_type =? BP_CS_REC_TYPE then Some (bplog BP_UNSUPPORTED, ch, procflags)
    else if rec_type =? BP_STAT_REC_TYPE then Some (bplog BP_UNSUPPORTED, ch, procflags)
    else Some (bplog BP_UNKNOWNREC, ch, procflags)
  else if proc_admin_only ch then
    Some (bplog BP_IGNORE, ch, procflags)
  else
    (* deliver bundle payload to application *)
    let payloadsize' := w_size' - index in
    (* Set Custody Transfer Request *)
    let '(rqst, procflags) :=
      if request_custody pri_blk then
        if cteb_present then (true, procflags)
        else (false, set_flag procflags BP_FLAG_NONCOMPLIANT)
      else (false, procflags) in
    let pay := mk_payload_store rqst payloadsize' in
    let ch := set_data_bundle (set_payload_store pay (data_bundle ch)) ch in
    (* Enqueue Payload into Storage *)
    let '(st, enstat) :=
      enqueue ops (storage ch) (payload_store_handle ch)
        (PayloadObj pay (payptr pay_blk)) timeout' in
    let ch := set_storage st ch in
    if 0 <? enstat then
      (* Acknowledge Custody *)
      if rqst then
        match update_dacs_bundle fuel sysnow ch cteb_blk true BP_CHECK procflags with
        | None => None
        | Some (_, ch, procflags) => Some (status, ch, procflags)
        end
      else Some (status, ch, procflags)
    else Some (bplog BP_FAILEDSTORE, ch, procflags).

(** "Parse and Process Remaining Blocks": the [while(index < size)] loop. *)
Fixpoint process_blocks (fuel : nat) (sysnow : Z) (ch : bp_channel_t St) (w_size' : Z)
    (pri_blk : bp_blk_pri_t) (blocks : list wire_block)
    (cteb_present : bool) (cteb_blk : bp_blk_cteb_t)
    (bib_present : bool) (bib_blk : bp_blk_bib_t)
    (exclude : list Z) (index status timeout' procflags : Z)
  : option (Z * bp_channel_t St * Z) :=
  if index <? w_size' then
    match blocks with
    | [] => Some (status, ch, procflags)
    | WCteb status blk :: rest =>
        let exclude := if request_custody pri_blk then exclude ++ [index] else exclude in
        if status <=? 0 then Some (bplog status, ch, procflags)
        else
          let index := index + status in
          let exclude := if request_custody pri_blk then exclude ++ [index] else exclude in
          process_blocks fuel sysnow ch w_size' pri_blk rest true blk bib_present bib_blk
            exclude index status timeout' procflags
    | WBib status blk :: rest =>
        let exclude := exclude ++ [index] in
        if status <=? 0 then Some (bplog status, ch, procflags)
        else
          let index := index + status in
          process_blocks fuel sysnow ch w_size' pri_blk rest cteb_present cteb_blk true blk
            (exclude ++ [index]) index status timeout' procflags
    | WOther blk_flags data_index blk_len raised :: rest =>
        (* skip over block *)
        let start_index := index in
        let procflags := set_flag procflags raised in
        (* Check Parsing Status *)
        if has_flag procflags (Z.lor BP_FLAG_SDNVOVERFLOW BP_FLAG_SDNVINCOMPLETE)
        then Some (bplog BP_BUNDLEPARSEERR, ch, procflags)
        else
          let index := index + (data_index + blk_len) in
          (* Mark Processing as Incomplete *)
          let procflags := set_flag procflags BP_FLAG_INCOMPLETE in
          (* Should transmit status report that block cannot be processed *)
          let procflags :=
            if has_flag blk_flags BP_BLK_NOTIFYNOPROC_MASK
            then set_flag procflags BP_FLAG_NONCOMPLIANT else procflags in
          (* Delete bundle since block not recognized *)
          if has_flag blk_flags BP_BLK_DELETENOPROC_MASK
          then Some (bplog BP_DROPPED, ch, procflags)
          else
            (* Drop block since it cannot be processed *)
            let exclude :=
              if has_flag blk_flags BP_BLK_DROPNOPROC_MASK
              then exclude ++ [start_index; index] else exclude in
            (* Mark As Forwarded without Processed *)
            let procflags :=
              sdnv_flags procflags F_blk_flags (Z.lor blk_flags BP_BLK_FORWARDNOPROC_MASK) in
            process_blocks fuel sysnow ch w_size' pri_blk rest cteb_present cteb_blk
              bib_present bib_blk exclude index status timeout' procflags
    | WPay status pay_blk :: _ =>
        (* payload block *)
        let exclude := exclude ++ [index] in
        if status <=? 0 then Some (bplog status, ch, procflags)
        else
          let index := index + status in
          let exclude := exclude ++ [index + paysize pay_blk] in
          (* Perform Integrity Check *)
          let status :=
            if bib_present
            then bplib_blk_bib_verify codec (payptr pay_blk) bib_blk
            else status in
          if bib_present && (status <=? 0) then Some (bplog status, ch, procflags)
          (* Check Size of Payload *)
          else if is_admin_rec pri_blk && (paysize pay_blk <? 2)
          then Some (bplog BP_BUNDLEPARSEERR, ch, procflags)
          else
            (* Process Payload; Stop Processing Bundle Once Payload Block Reached *)
            process_payload fuel sysnow ch w_size' pri_blk pay_blk cteb_present cteb_blk
              exclude index status timeout' procflags
    end
  else Some (status, ch, procflags).

(** What the [while(index < size)] loop above has in hand when it stops,
    none of which depends on the channel: the status and the flags it
    returns without processing a payload, or what it passes on to "Process
    Payload". *)
Inductive scan_result :=
| ScanExit (status procflags : Z)
| ScanPayload (pay_blk : bp_blk_pay_t) (cteb_present : bool) (cteb_blk : bp_blk_cteb_t)
    (exclude : list Z) (index status procflags : Z).

(** The loop of [process_blocks] without the channel. *)
Fixpoint scan_blocks (w_size' : Z) (pri_blk : bp_blk_pri_t) (blocks : list wire_block)
    (cteb_present : bool) (cteb_blk : bp_blk_cteb_t)
    (bib_present : bool) (bib_blk : bp_blk_bib_t)
    (exclude : list Z) (index status procflags : Z) : scan_result :=
  if index <? w_size' then
    match blocks with
    | [] => ScanExit status procflags
    | WCteb status blk :: rest =>
        let exclude := if request_custody pri_blk then exclude ++ [index] else exclude in
        if status <=? 0 then ScanExit (bplog status) procflags
        else
          let index := index + status in
          let exclude := if request_custody pri_blk then exclude ++ [index] else exclude in
          scan_blocks w_size' pri_blk rest true blk bib_present bib_blk
            exclude index status procflags
    | WBib status blk :: rest =>
        let exclude := exclude ++ [index] in
        if status <=? 0 then ScanExit (bplog status) procflags
        else
          let index := index + status in
          scan_blocks w_size' pri_blk rest cteb_present cteb_blk true blk
            (exclude ++ [index]) index status procflags
    | WOther blk_flags data_index blk_len raised :: rest =>
        let start_index := index in
        let procflags := set_flag procflags raised in
        if has_flag procflags (Z.lor BP_FLAG_SDNVOVERFLOW BP_FLAG_SDNVINCOMPLETE)
        then ScanExit (bplog BP_BUNDLEPARSEERR) procflags
        else
          let index := index + (data_index + blk_len) in
          let procflags := set_flag procflags BP_FLAG_INCOMPLETE in
          let procflags :=
            if has_flag blk_flags BP_BLK_NOTIFYNOPROC_MASK
            then set_flag procflags BP_FLAG_NONCOMPLIANT else procflags in
          if has_flag blk_flags BP_BLK_DELETENOPROC_MASK
          then ScanExit (bplog BP_DROPPED) procflags
          else
            let exclude :=
              if has_flag blk_flags BP_BLK_DROPNOPROC_MASK
              then exclude ++ [start_index; index] else exclude in
            let procflags :=
              sdnv_flags procflags F_blk_flags (Z.lor blk_flags BP_BLK_FORWARDNOPROC_MASK) in
            scan_blocks w_size' pri_blk rest cteb_present cteb_blk
              bib_present bib_blk exclude index status procflags
    | WPay status pay_blk :: _ =>
        let exclude := exclude ++ [index] in
        if status <=? 0 then ScanExit (bplog status) procflags
        else
          let index := index + status in
          let exclude := exclude ++ [index + paysize pay_blk] in
          let status :=
            if bib_present
            then bplib_blk_bib_verify codec (payptr pay_blk) bib_blk
            else status in
          if bib_present && (status <=? 0) then ScanExit (bplog status) procflags
          else if is_admin_rec pri_blk && (paysize pay_blk <? 2)
          then ScanExit (bplog BP_BUNDLEPARSEERR) procflags
          else ScanPayload pay_blk cteb_present cteb_blk exclude index status procflags
    end
  else ScanExit status procflags.

(** The loop as [bplib_process] starts it, after the primary block. *)
Definition scan_bundle (w : wire_bundle) (procflags : Z) : scan_result :=
  scan_blocks (w_size w) (w_pri w) (w_blocks w) false native_cteb_blk false native_bib_blk
    [0; w_pri_status w] (w_pri_status w) (w_pri_status w) procflags.

(** Two readings of a received buffer that differ at most in the "forwarded
    without processed" bit of the flags of blocks of another type: the bit
    that "Mark As Forwarded without Processed" sets in the buffer
    [bplib_process] is given. *)
Definition same_block (b b2 : wire_block) : Prop :=
  match b, b2 with
  | WOther f d l r, WOther f2 d2 l2 r2 =>
      Z.lor f BP_BLK_FORWARDNOPROC_MASK = Z.lor f2 BP_BLK_FORWARDNOPROC_MASK /\
      d2 = d /\ l2 = l /\ r2 = r
  | _, _ => b2 = b
  end.

Definition same_bundle (w w2 : wire_bundle) : Prop :=
  w_size w2 = w_size w /\ w_pri_status w2 = w_pri_status w /\ w_pri w2 = w_pri w /\
  Forall2 same_block (w_blocks w) (w_blocks w2).

(** The bytes a block takes in the buffer: what its reader returns, and for
    a block of another type where its data starts plus its length. *)
Definition block_len (b : wire_block) : Z :=
  match b with
  | WCteb status _ => status
  | WBib status _ => status
  | WOther _ data_index blk_len _ => data_index + blk_len
  | WPay status _ => status
  end.

Definition blocks_len (l : list wire_block) : Z :=
  fold_right (fun b n => block_len b + n) 0 l.

(** A block before the payload block that the loop of [bplib_process] gets
    past: a custody or an integrity block that its reader parses; a block of
    another type whose flags and length are read, and whose flags are
    written back, without SDNV error, and that does not ask for the bundle
    to be deleted. *)
Definition block_passes (b : wire_block) : Prop :=
  match b with
  | WCteb status _ => 0 < status
  | WBib status _ => 0 < status
  | WOther blk_flags data_index blk_len raised =>
      0 <= data_index + blk_len /\
      has_flag raised (Z.lor BP_FLAG_SDNVOVERFLOW BP_FLAG_SDNVINCOMPLETE) = false /\
      has_flag blk_flags BP_BLK_DELETENOPROC_MASK = false /\
      has_flag (bplib_sdnv_write codec F_blk_flags (Z.lor blk_flags BP_BLK_FORWARDNOPROC_MASK))
        (Z.lor BP_FLAG_SDNVOVERFLOW BP_FLAG_SDNVINCOMPLETE) = false
  | WPay _ _ => False
  end.

(** The custody block and the integrity block read last among [l], if
    any. *)
Fixpoint last_cteb (l : list wire_block) (acc : option bp_blk_cteb_t)
  : option bp_blk_cteb_t :=
  match l with
  | [] => acc
  | WCteb _ blk :: rest => last_cteb rest (Some blk)
  | _ :: rest => last_cteb rest acc
  end.

Fixpoint last_bib (l : list wire_block) (acc : option bp_blk_bib_t)
  : option bp_blk_bib_t :=
  match l with
  | [] => acc
  | WBib _ blk :: rest => last_bib rest (Some blk)
  | _ :: rest => last_bib rest acc
  end.

(** [bplib_process(channel, bundle, size, timeout, procflags)] on an open
    channel with a non-NULL bundle. *)
Definition bplib_process (fuel : nat) (sysnow : Z) (ch : bp_channel_t St) (w : wire_bundle)
    (timeout' procflags : Z) : option (Z * bp_channel_t St * Z) :=
  (* Count Reception *)
  let ch := set_stats (set_received (u64 (received (stats ch) + 1)) (stats ch)) ch in
  (* Parse Primary Block *)
  let status := w_pri_status w in
  if status <=? 0 then Some (bplog status, ch, procflags)
  else
    let index := status in
    let exclude := [0; index] in
    let pri_blk := w_pri w in
    (* Check Unsupported *)
    if negb (dictlen pri_blk =? 0)
    then Some (bplog BP_UNSUPPORTED, ch, set_flag procflags BP_FLAG_NONCOMPLIANT)
    (* Check Life Time *)
    else if negb (lifetime pri_blk =? 0)
            && (u32 (lifetime pri_blk + createsec pri_blk) <=? sysnow)
    then Some (bplog BP_EXPIRED, count_expired ch, procflags)
    else
      (* Parse and Process Remaining Blocks *)
      process_blocks fuel sysnow ch (w_size w) pri_blk (w_blocks w) false native_cteb_blk
        false native_bib_blk exclude index status timeout' procflags.

(** [bplib_accept(channel, payload, size, timeout, acptflags)] on an open
    channel with non-NULL [payload] and [size]: the status, the channel, and
    the payload copied out to the caller. *)
Definition bplib_accept (ch : bp_channel_t St) (buf : caller_buf) (timeout' : Z)
  : Z * bp_channel_t St * option (list Z) :=
  (* Dequeue Payload from Storage *)
  match dequeue ops (storage ch) (payload_store_handle ch) timeout' with
  | (st, inl (obj, sid')) =>
      let ch := set_storage st ch in
      (* Access Payload *)
      let '(paystore, payptr') := as_payload obj in
      let paylen' := payloadsize paystore in
      let fits := match buf with
                  | NullBuf _ => true
                  | SizedBuf size => paylen' <=? size
                  end in
      (* Return Payload to Application *)
      let '(status, ch, out) :=
        if fits then
          let have_memory := match buf with NullBuf ok => ok | SizedBuf _ => true end in
          if have_memory then
            (BP_SUCCESS,
             set_stats (set_delivered_cnt (u64 (delivered_cnt (stats ch) + 1)) (stats ch)) ch,
             Some (firstn (Z.to_nat paylen') payptr'))
          else (bplog BP_FAILEDMEM, count_lost ch, None)
        else (bplog BP_PAYLOADTOOLARGE, count_lost ch, None) in
      (* Relinquish Memory *)
      (status, ch_relinquish (payload_store_handle ch) sid' ch, out)
  | (st, inr deqstat) => (deqstat, set_storage st ch, None)
  end.

End Engine.

(* ------------------------------------------------------------------ *)
(** ** The channel engine: what a channel in use keeps *)

(** The primary block without the fields that are rewritten for every bundle
    and fragment: creation time and sequence, fragment offset and total
    payload length. *)
Definition pri_static (p : bp_blk_pri_t) : bp_blk_pri_t :=
  set_createsec 0 (set_createseq 0 (set_fragoffset 0 (set_paylen 0 p))).

(** The stored header of the data bundle carries the channel's primary
    block, up to the fields rewritten for every bundle. *)
Definition template_in_sync (db : bp_data_bundle_t) : Prop :=
  pri_static (hdr_pri (header (bundle_store db))) = pri_static (primary_block db).

(** The header in [ds] carries the primary block [pri] with the creation
    time [sec] and the sequence number [seq] patched into their 6- and
    4-byte fields, and [ds] expires when the lifetime of [pri] after [sec]
    has passed. *)
Definition header_stamped (codec : codec_t) (pri : bp_blk_pri_t) (sec seq : Z)
    (ds : bp_bundle_store_t) : Prop :=
  pri_static (hdr_pri (header ds)) = pri_static pri /\
  createsec (hdr_pri (header ds)) = sdnv_put codec F_createsec sec /\
  createseq (hdr_pri (header ds)) = sdnv_put codec F_createseq seq /\
  exprtime ds = (if lifetime pri =? 0 then 0 else u32 (sec + lifetime pri)).

(** A stored bundle with such a header. *)
Definition stamped (codec : codec_t) (pri : bp_blk_pri_t) (sec seq : Z) (o : bp_object_t)
  : Prop :=
  exists ds body, o = BundleObj ds body /\ header_stamped codec pri sec seq ds.

(** The data bundle between two fragments of one [store_data_bundle]. *)
Definition template_stamped (codec : codec_t) (pri : bp_blk_pri_t) (sec seq : Z)
    (b : bp_data_bundle_t) : Prop :=
  header_stamped codec pri sec seq (bundle_store b) /\
  pri_static (primary_block b) = pri_static pri.

(** The window of custody ids in flight fits the active table. *)
Definition window_ok {St : Type} (ch : bp_channel_t St) : Prop :=
  0 < active_table_size (attributes ch) /\
  0 <= oldest_cid (active_table ch) <= current_cid (active_table ch) /\
  current_cid (active_table ch) - oldest_cid (active_table ch)
  <= active_table_size (attributes ch).

(** What the loops of [bplib_load] leave alone. *)
Definition same_table_setup {St : Type} (ch ch' : bp_channel_t St) : Prop :=
  attributes ch' = attributes ch /\ wrap_response ch' = wrap_response ch /\
  current_cid (active_table ch') = current_cid (active_table ch) /\
  data_store_handle ch' = data_store_handle ch.

End Channel.

(* ================================================================== *)
(** ** A storage service in memory *)

Module RamStore.
Import Channel.

(** Modelled from the spec: a storage service that meets the contract of
    section 4.3 (the services themselves are not among the sources): each
    handle is "a durable FIFO byte-queue"; [enqueue] appends one record and
    "may block until space or timeout"; [dequeue] removes the head and gives
    a storage id "usable with retrieve/relinquish while the record is not
    relinquished"; [retrieve] reads by id and "does not remove";
    [relinquish] releases the record; [getcount] is the "current record
    count". *)
Record ram_queue := mk_queue {
  rq_waiting : list (Z * bp_object_t);   (* enqueued, not yet dequeued: (sid, record) *)
  rq_held : list (Z * bp_object_t)       (* dequeued, not yet relinquished *)
}.

Record ram_store := mk_ram {
  rs_queues : gmap Z ram_queue;
  rs_next_handle : Z;
  rs_next_sid : Z;
  rs_capacity : option Z      (* records a queue has space for; [None]: no limit *)
}.

Definition empty_queue : ram_queue := mk_queue [] [].

Definition ram_empty (capacity : option Z) : ram_store := mk_ram ∅ 0 1 capacity.

Definition queue_of (st : ram_store) (h : Z) : ram_queue :=
  default empty_queue (rs_queues st !! h).

Definition put_queue (st : ram_store) (h : Z) (q : ram_queue) : ram_store :=
  mk_ram (<[h := q]> (rs_queues st)) (rs_next_handle st) (rs_next_sid st) (rs_capacity st).

Fixpoint find_sid (sid' : Z) (l : list (Z * bp_object_t)) : option bp_object_t :=
  match l with
  | [] => None
  | (s, o) :: rest => if s =? sid' then Some o else find_sid sid' rest
  end.

Definition drop_sid (sid' : Z) (l : list (Z * bp_object_t)) : list (Z * bp_object_t) :=
  filter (fun e => fst e ≠ sid') l.

Definition ram_create (st : ram_store) : ram_store * Z :=
  (mk_ram (<[rs_next_handle st := empty_queue]> (rs_queues st)) (rs_next_handle st + 1)
     (rs_next_sid st) (rs_capacity st),
   rs_next_handle st).

Definition ram_destroy (st : ram_store) (h : Z) : ram_store :=
  mk_ram (delete h (rs_queues st)) (rs_next_handle st) (rs_next_sid st) (rs_capacity st).

Definition ram_full (st : ram_store) (q : ram_queue) : bool :=
  match rs_capacity st with
  | Some c => c <=? Z.of_nat (length (rq_waiting q))
  | None => false
  end.

(** A queue without space makes [enqueue] wait, and time out. *)
Definition ram_enqueue (st : ram_store) (h : Z) (o : bp_object_t) (timeout' : Z)
  : ram_store * Z :=
  let q := queue_of st h in
  if ram_full st q then (st, BP_TIMEOUT)
  else
    let q := mk_queue (rq_waiting q ++ [(rs_next_sid st, o)]) (rq_held q) in
    (mk_ram (<[h := q]> (rs_queues st)) (rs_next_handle st) (rs_next_sid st + 1)
       (rs_capacity st),
     BP_SUCCESS).

Definition ram_dequeue (st : ram_store) (h : Z) (timeout' : Z)
  : ram_store * (bp_object_t * Z + Z) :=
  let q := queue_of st h in
  match rq_waiting q with
  | [] => (st, inr BP_TIMEOUT)
  | (s, o) :: rest => (put_queue st h (mk_queue rest ((s, o) :: rq_held q)), inl (o, s))
  end.

Definition ram_retrieve (st : ram_store) (h : Z) (sid' : Z) (timeout' : Z)
  : ram_store * (bp_object_t + Z) :=
  let q := queue_of st h in
  match find_sid sid' (rq_held q ++ rq_waiting q) with
  | Some o => (st, inl o)
  | None => (st, inr BP_FAILEDSTORE)
  end.

Definition ram_relinquish (st : ram_store) (h : Z) (sid' : Z) : ram_store :=
  let q := queue_of st h in
  put_queue st h (mk_queue (drop_sid sid' (rq_waiting q)) (drop_sid sid' (rq_held q))).

Definition ram_getcount (st : ram_store) (h : Z) : Z :=
  Z.of_nat (length (rq_waiting (queue_of st h))).

Definition ram_ops : bp_store_t ram_store :=
  mk_store ram_store ram_create ram_destroy ram_enqueue ram_dequeue ram_retrieve
    ram_relinquish ram_getcount.

(** The records waiting on a handle, in queue order. *)
Definition waiting (st : ram_store) (h : Z) : list bp_object_t :=
  map snd (rq_waiting (queue_of st h)).

(** The storage ids a handle still knows. *)
Definition known_sids (st : ram_store) (h : Z) : list Z :=
  map fst (rq_waiting (queue_of st h) ++ rq_held (queue_of st h)).

(** A codec with the layout of the native blocks of bplib.c (a primary
    block of 52 bytes, a payload block header of 6), in which every value
    fits the width its field reserves and every integrity check passes. *)
Definition fixed_codec : codec_t :=
  mk_codec (fun _ => 52)
           (fun c => 7 + Z.of_nat (length (cteb_csteid c)))
           (fun _ => 16)
           (fun _ => 6)
           (fun _ _ => 0)
           (fun _ _ => 0)
           (fun _ _ => BP_SUCCESS)
           (fun _ => pri_zero)
           (fun _ => 0)
           (fun _ => 0)
           (fun _ => 0)
           (fun _ _ => 0).

End RamStore.

(* ================================================================== *)
(** ** The v7 custody cache (v7_cache_custody.c and v7_cache.c) *)

Module Cache.

Record bp_ipn_addr_t := mk_ipn {
  node_number : Z;
  service_number : Z
}.

Definition ipn_zero : bp_ipn_addr_t := mk_ipn 0 0.

(** [v7_compare_ipn2ipn] and [v7_compare_ipn2eid] (v7.c is not among the
    sources) answer 0 for equal addresses; endpoint ids are kept as the ipn
    address [v7_get_eid] reads from them. *)
Definition ipn_eqb (a b : bp_ipn_addr_t) : bool :=
  (node_number a =? node_number b) && (service_number a =? service_number b).

(** Modelled from the spec: the types of v7_cache_internal.h and of the v7
    headers, which are not among the sources.  The states and flags of a
    cache entry are those of section 3; the block types and delivery
    policies are the ones the code names. *)
Inductive bplib_cache_entry_state_t :=
| bplib_cache_entry_state_idle
| bplib_cache_entry_state_generate_dacs
| bplib_cache_entry_state_queue
| bplib_cache_entry_state_await_ack
| bplib_cache_entry_state_expired.

Definition BPLIB_STORE_FLAG_ACTIVITY : Z := 0x01.
Definition BPLIB_STORE_FLAG_LOCAL_CUSTODY : Z := 0x02.
Definition BPLIB_STORE_FLAG_ACTION_TIME_WAIT : Z := 0x04.
Definition BPLIB_STORE_FLAG_LOCALLY_QUEUED : Z := 0x08.

Inductive bp_blocktype_t :=
| bp_blocktype_payloadBlock
| bp_blocktype_custodyTrackingBlock
| bp_blocktype_custodyAcceptPayloadBlock
| bp_blocktype_other (n : Z).

Inductive bplib_policy_delivery_t :=
| bplib_policy_delivery_none
| bplib_policy_delivery_local_ack
| bplib_policy_delivery_custody_tracking.

Definition blocktype_eqb (a b : bp_blocktype_t) : bool :=
  match a, b with
  | bp_blocktype_payloadBlock, bp_blocktype_payloadBlock => true
  | bp_blocktype_custodyTrackingBlock, bp_blocktype_custodyTrackingBlock => true
  | bp_blocktype_custodyAcceptPayloadBlock, bp_blocktype_custodyAcceptPayloadBlock => true
  | bp_blocktype_other n, bp_blocktype_other m => n =? m
  | _, _ => false
  end.

(** A canonical block of the pool: the fields this file touches, and the
    members of its [data] union this file reads. *)
Record bplib_mpool_bblock_canonical_t := mk_canonical {
  blockType : bp_blocktype_t;
  blockNum : bp_blocktype_t;
  c_crctype : Z;
  current_custodian : bp_ipn_addr_t;      (* data.custody_tracking_block *)
  flow_source_eid : bp_ipn_addr_t;        (* data.custody_accept_payload_block *)
  sequence_nums : list Z                  (* its first [num_entries] entries *)
}.

Definition canonical_zero : bplib_mpool_bblock_canonical_t :=
  mk_canonical (bp_blocktype_other 0) (bp_blocktype_other 0) 0 ipn_zero ipn_zero [].

Record delivery_data_t := mk_delivery {
  delivery_policy : bplib_policy_delivery_t;
  local_retx_interval : Z;
  ingress_intf_id : Z;
  ingress_time : Z;
  storage_intf_id : Z;
  committed_storage_id : option nat
}.

Definition delivery_zero : delivery_data_t :=
  mk_delivery bplib_policy_delivery_none 0 0 0 0 None.

(** A primary block of the pool, with the list of its canonical blocks. *)
Record bplib_mpool_bblock_primary_t := mk_primary {
  version : Z;
  sourceEID : bp_ipn_addr_t;
  destinationEID : bp_ipn_addr_t;
  reportEID : bp_ipn_addr_t;
  creation_time : Z;
  sequence_num : Z;
  lifetime : Z;
  isAdminRecord : bool;
  mustNotFragment : bool;
  crctype : Z;
  delivery_data : delivery_data_t;
  cblock_list : list nat
}.

Definition primary_zero : bplib_mpool_bblock_primary_t :=
  mk_primary 0 ipn_zero ipn_zero ipn_zero 0 0 0 false false 0 delivery_zero [].

(** [bplib_cache_dacs_pending_t]: [payload_ref] points at the canonical
    block of the open DACS bundle. *)
Record bplib_cache_dacs_pending_t := mk_dacs_pending {
  prev_custodian_id : bp_ipn_addr_t;
  payload_ref : option nat
}.

Record bplib_cache_entry_t := mk_entry {
  e_state : bplib_cache_entry_state_t;
  flags : Z;
  refptr : option nat;      (* the block the reference points at, None for NULL *)
  action_time : Z;
  dacs : bplib_cache_dacs_pending_t
}.

Definition entry_zero : bplib_cache_entry_t :=
  mk_entry bplib_cache_entry_state_idle 0 None 0 (mk_dacs_pending ipn_zero None).

(** The cache state, with the part of the memory pool it works on.  Blocks
    are named by their index in the pool; a red-black index maps a key to the
    list of entries queued under it, in the order they were added. *)
Record bplib_cache_state_t := mk_state {
  pool_free : nat;                 (* blocks the pool can still hand out *)
  pool_next : nat;                 (* the next unused block index *)
  primaries : gmap nat bplib_mpool_bblock_primary_t;
  canonicals : gmap nat bplib_mpool_bblock_canonical_t;
  entries : gmap nat bplib_cache_entry_t;
  pending_list : list nat;
  idle_list : list nat;
  hash_index : gmap Z (list nat);
  dest_eid_index : gmap Z (list nat);
  time_index : gmap Z (list nat);
  self_addr : bp_ipn_addr_t;
  self_intf_id : Z;
  generated_dacs_seq : Z
}.

Record bplib_cache_custodian_info_t := mk_info {
  flow_id : bp_ipn_addr_t;
  custodian_id : bp_ipn_addr_t;
  info_sequence_num : Z;
  final_dest_node : Z;
  cblk : option nat;
  eid_hash : Z;
  store_entry : option nat
}.

Definition info_zero : bplib_cache_custodian_info_t :=
  mk_info ipn_zero ipn_zero 0 0 None 0 None.

(** Field updates for the records above. *)

Definition set_blockType v (x : bplib_mpool_bblock_canonical_t) : bplib_mpool_bblock_canonical_t :=
  mk_canonical v (blockNum x) (c_crctype x) (current_custodian x) (flow_source_eid x) (sequence_nums x).

Definition set_blockNum v (x : bplib_mpool_bblock_canonical_t) : bplib_mpool_bblock_canonical_t :=
  mk_canonical (blockType x) v (c_crctype x) (current_custodian x) (flow_source_eid x) (sequence_nums x).

Definition set_c_crctype v (x : bplib_mpool_bblock_canonical_t) : bplib_mpool_bblock_canonical_t :=
  mk_canonical (blockType x) (blockNum x) v (current_custodian x) (flow_source_eid x) (sequence_nums x).

Definition set_current_custodian v (x : bplib_mpool_bblock_canonical_t) : bplib_mpool_bblock_canonical_t :=
  mk_canonical (blockType x) (blockNum x) (c_crctype x) v (flow_source_eid x) (sequence_nums x).

Definition set_flow_source_eid v (x : bplib_mpool_bblock_canonical_t) : bplib_mpool_bblock_canonical_t :=
  mk_canonical (blockType x) (blockNum x) (c_crctype x) (current_custodian x) v (sequence_nums x).

Definition set_sequence_nums v (x : bplib_mpool_bblock_canonical_t) : bplib_mpool_bblock_canonical_t :=
  mk_canonical (blockType x) (blockNum x) (c_crctype x) (current_custodian x) (flow_source_eid x) v.

Definition set_delivery_policy v (x : delivery_data_t) : delivery_data_t :=
  mk_delivery v (local_retx_interval x) (ingress_intf_id x) (ingress_time x) (storage_intf_id x) (committed_storage_id x).

Definition set_local_retx_interval v (x : delivery_data_t) : delivery_data_t :=
  mk_delivery (delivery_policy x) v (ingress_intf_id x) (ingress_time x) (storage_intf_id x) (committed_storage_id x).

Definition set_ingress_intf_id v (x : delivery_data_t) : delivery_data_t :=
  mk_delivery (delivery_policy x) (local_retx_interval x) v (ingress_time x) (storage_intf_id x) (committed_storage_id x).

Definition set_ingress_time v (x : delivery_data_t) : delivery_data_t :=
  mk_delivery (delivery_policy x) (local_retx_interval x) (ingress_intf_id x) v (storage_intf_id x) (committed_storage_id x).

Definition set_storage_intf_id v (x : delivery_data_t) : delivery_data_t :=
  mk_delivery (delivery_policy x) (local_retx_interval x) (ingress_intf_id x) (ingress_time x) v (committed_storage_id x).

Definition set_committed_storage_id v (x : delivery_data_t) : delivery_data_t :=
  mk_delivery (delivery_policy x) (local_retx_interval x) (ingress_intf_id x) (ingress_time x) (storage_intf_id x) v.

Definition set_destinationEID v (x : bplib_mpool_bblock_primary_t) : bplib_mpool_bblock_primary_t :=
  mk_primary (version x) (sourceEID x) v (reportEID x) (creation_time x) (sequence_num x) (lifetime x) (isAdminRecord x) (mustNotFragment x) (crctype x) (delivery_data x) (cblock_list x).

Definition set_delivery_data v (x : bplib_mpool_bblock_primary_t) : bplib_mpool_bblock_primary_t :=
  mk_primary (version x) (sourceEID x) (destinationEID x) (reportEID x) (creation_time x) (sequence_num x) (lifetime x) (isAdminRecord x) (mustNotFragment x) (crctype x) v (cblock_list x).

Definition set_cblock_list v (x : bplib_mpool_bblock_primary_t) : bplib_mpool_bblock_primary_t :=
  mk_primary (version x) (sourceEID x) (destinationEID x) (reportEID x) (creation_time x) (sequence_num x) (lifetime x) (isAdminRecord x) (mustNotFragment x) (crctype x) (delivery_data x) v.

Definition set_e_state v (x : bplib_cache_entry_t) : bplib_cache_entry_t :=
  mk_entry v (flags x) (refptr x) (action_time x) (dacs x).

Definition set_flags v (x : bplib_cache_entry_t) : bplib_cache_entry_t :=
  mk_entry (e_state x) v (refptr x) (action_time x) (dacs x).

Definition set_refptr v (x : bplib_cache_entry_t) : bplib_cache_entry_t :=
  mk_entry (e_state x) (flags x) v (action_time x) (dacs x).

Definition set_action_time v (x : bplib_cache_entry_t) : bplib_cache_entry_t :=
  mk_entry (e_state x) (flags x) (refptr x) v (dacs x).

Definition set_dacs v (x : bplib_cache_entry_t) : bplib_cache_entry_t :=
  mk_entry (e_state x) (flags x) (refptr x) (action_time x) v.

Definition set_pool_free v (x : bplib_cache_state_t) : bplib_cache_state_t :=
  mk_state v (pool_next x) (primaries x) (canonicals x) (entries x) (pending_list x) (idle_list x) (hash_index x) (dest_eid_index x) (time_index x) (self_addr x) (self_intf_id x) (generated_dacs_seq x).

Definition set_pool_next v (x : bplib_cache_state_t) : bplib_cache_state_t :=
  mk_state (pool_free x) v (primaries x) (canonicals x) (entries x) (pending_list x) (idle_list x) (hash_index x) (dest_eid_index x) (time_index x) (self_addr x) (self_intf_id x) (generated_dacs_seq x).

Definition set_primaries v (x : bplib_cache_state_t) : bplib_cache_state_t :=
  mk_state (pool_free x) (pool_next x) v (canonicals x) (entries x) (pending_list x) (idle_list x) (hash_index x) (dest_eid_index x) (time_index x) (self_addr x) (self_intf_id x) (generated_dacs_seq x).

Definition set_canonicals v (x : bplib_cache_state_t) : bplib_cache_state_t :=
  mk_state (pool_free x) (pool_next x) (primaries x) v (entries x) (pending_list x) (idle_list x) (hash_index x) (dest_eid_index x) (time_index x) (self_addr x) (self_intf_id x) (generated_dacs_seq x).

Definition set_entries v (x : bplib_cache_state_t) : bplib_cache_state_t :=
  mk_state (pool_free x) (pool_next x) (primaries x) (canonicals x) v (pending_list x) (idle_list x) (hash_index x) (dest_eid_index x) (time_index x) (self_addr x) (self_intf_id x) (generated_dacs_seq x).

Definition set_pending_list v (x : bplib_cache_state_t) : bplib_cache_state_t :=
  mk_state (pool_free x) (pool_next x) (primaries x) (canonicals x) (entries x) v (idle_list x) (hash_index x) (dest_eid_index x) (time_index x) (self_addr x) (self_intf_id x) (generated_dacs_seq x).

Definition set_idle_list v (x : bplib_cache_state_t) : bplib_cache_state_t :=
  mk_state (pool_free x) (pool_next x) (primaries x) (canonicals x) (entries x) (pending_list x) v (hash_index x) (dest_eid_index x) (time_index x) (self_addr x) (self_intf_id x) (generated_dacs_seq x).

Definition set_hash_index v (x : bplib_cache_state_t) : bplib_cache_state_t :=
  mk_state (pool_free x) (pool_next x) (primaries x) (canonicals x) (entries x) (pending_list x) (idle_list x) v (dest_eid_index x) (time_index x) (self_addr x) (self_intf_id x) (generated_dacs_seq x).

Definition set_dest_eid_index v (x : bplib_cache_state_t) : bplib_cache_state_t :=
  mk_state (pool_free x) (pool_next x) (primaries x) (canonicals x) (entries x) (pending_list x) (idle_list x) (hash_index x) v (time_index x) (self_addr x) (self_intf_id x) (generated_dacs_seq x).

Definition set_time_index v (x : bplib_cache_state_t) : bplib_cache_state_t :=
  mk_state (pool_free x) (pool_next x) (primaries x) (canonicals x) (entries x) (pending_list x) (idle_list x) (hash_index x) (dest_eid_index x) v (self_addr x) (self_intf_id x) (generated_dacs_seq x).

Definition set_generated_dacs_seq v (x : bplib_cache_state_t) : bplib_cache_state_t :=
  mk_state (pool_free x) (pool_next x) (primaries x) (canonicals x) (entries x) (pending_list x) (idle_list x) (hash_index x) (dest_eid_index x) (time_index x) (self_addr x) (self_intf_id x) v.

Definition set_flow_id v (x : bplib_cache_custodian_info_t) : bplib_cache_custodian_info_t :=
  mk_info v (custodian_id x) (info_sequence_num x) (final_dest_node x) (cblk x) (eid_hash x) (store_entry x).

Definition set_custodian_id v (x : bplib_cache_custodian_info_t) : bplib_cache_custodian_info_t :=
  mk_info (flow_id x) v (info_sequence_num x) (final_dest_node x) (cblk x) (eid_hash x) (store_entry x).

Definition set_info_sequence_num v (x : bplib_cache_custodian_info_t) : bplib_cache_custodian_info_t :=
  mk_info (flow_id x) (custodian_id x) v (final_dest_node x) (cblk x) (eid_hash x) (store_entry x).

Definition set_final_dest_node v (x : bplib_cache_custodian_info_t) : bplib_cache_custodian_info_t :=
  mk_info (flow_id x) (custodian_id x) (info_sequence_num x) v (cblk x) (eid_hash x) (store_entry x).

Definition set_cblk v (x : bplib_cache_custodian_info_t) : bplib_cache_custodian_info_t :=
  mk_info (flow_id x) (custodian_id x) (info_sequence_num x) (final_dest_node x) v (eid_hash x) (store_entry x).

Definition set_eid_hash v (x : bplib_cache_custodian_info_t) : bplib_cache_custodian_info_t :=
  mk_info (flow_id x) (custodian_id x) (info_sequence_num x) (final_dest_node x) (cblk x) v (store_entry x).

Definition set_store_entry v (x : bplib_cache_custodian_info_t) : bplib_cache_custodian_info_t :=
  mk_info (flow_id x) (custodian_id x) (info_sequence_num x) (final_dest_node x) (cblk x) (eid_hash x) v.

(* ------------------------------------------------------------------ *)
(** ** The custody cache: operations *)

Definition bp_crctype_CRC16 : Z := 1.

Section CacheOps.

(** The CRC-32 Castagnoli of crc.h, which is not among the sources, over the
    flow and sequence number with the bundle salt, and over the flow and
    custodian with the DACS salt. *)
Variable hash_bundle : bp_ipn_addr_t -> Z -> Z.
Variable hash_dacs : bp_ipn_addr_t -> bp_ipn_addr_t -> Z.

(** Constants of v7_cache_internal.h, which is not among the sources. *)
Variable BP_DACS_MAX_SEQ_PER_PAYLOAD : Z.
Variable BP_CACHE_DACS_OPEN_TIME : Z.
Variable BP_CACHE_DACS_LIFETIME : Z.
Variable BP_CACHE_FAST_RETRY_TIME : Z.

(** [bplib_cache_fsm_execute] of v7_cache_fsm.c, which is not among the
    sources. *)
Variable bplib_cache_fsm_execute : bplib_cache_state_t -> nat -> bplib_cache_state_t.

(** What [v7_get_current_time] and [bplib_os_get_dtntime_ms] answer. *)
Variable now : Z.
Variable now_ms : Z.

(** The pool hands out its next block, or NULL when it has none left. *)
Definition pool_alloc (st : bplib_cache_state_t) : option (nat * bplib_cache_state_t) :=
  match pool_free st with
  | O => None
  | Datatypes.S n => Some (pool_next st, set_pool_next (Datatypes.S (pool_next st)) (set_pool_free n st))
  end.

(** [bplib_mpool_recycle_block]: the block goes back to the pool. *)
Definition pool_recycle (st : bplib_cache_state_t) : bplib_cache_state_t :=
  set_pool_free (Datatypes.S (pool_free st)) st.

(** [bplib_mpool_generic_data_alloc(pool, BPLIB_STORE_SIGNATURE_ENTRY,
    state)]. *)
Definition entry_alloc (st : bplib_cache_state_t) : option (nat * bplib_cache_state_t) :=
  match pool_alloc st with
  | Some (id, st) => Some (id, set_entries (<[id := entry_zero]> (entries st)) st)
  | None => None
  end.

Definition entry_recycle (id : nat) (st : bplib_cache_state_t) : bplib_cache_state_t :=
  pool_recycle (set_entries (delete id (entries st)) st).

Definition alter_entry (f : bplib_cache_entry_t -> bplib_cache_entry_t) (id : nat)
    (st : bplib_cache_state_t) : bplib_cache_state_t :=
  set_entries (alter f id (entries st)) st.

Definition remove_id (id : nat) (l : list nat) : list nat := filter (fun x => x ≠ id) l.

(** [bplib_cache_entry_make_pending(qblk, set_flags, clear_flags)]. *)
Definition bplib_cache_entry_make_pending (id : nat) (set_bits clear_bits : Z)
    (st : bplib_cache_state_t) : bplib_cache_state_t :=
  match entries st !! id with
  | Some e =>
      (* update the flags based on the event: flags |= set_flags; flags &= ~clear_flags *)
      let e := set_flags (Z.ldiff (Z.lor (flags e) set_bits) clear_bits) e in
      let st := set_entries (<[id := e]> (entries st)) st in
      (* bplib_mpool_extract_node(sblk); bplib_mpool_insert_before(&pending_list, sblk) *)
      set_pending_list (remove_id id (pending_list st) ++ [id])
        (set_idle_list (remove_id id (idle_list st)) st)
  | None => st
  end.

(** [bplib_cache_add_to_subindex(index_root, index_link, index_val)] on the
    index itself; the first entry under a key takes a queue block from the
    pool. *)
Definition bplib_cache_add_to_subindex (index : gmap Z (list nat)) (id : nat) (index_val : Z)
    (st : bplib_cache_state_t) : gmap Z (list nat) * bplib_cache_state_t :=
  match index !! index_val with
  | Some l => (<[index_val := l ++ [id]]> index, st)
  | None =>
      match pool_alloc st with
      | Some (_, st) => (<[index_val := [id]]> index, st)
      | None => (index, st)
      end
  end.

(** [bplib_cache_remove_from_subindex(index_root, index_link)]: a queue that
    becomes empty leaves the index and goes back to the pool. *)
Definition bplib_cache_remove_from_subindex (index : gmap Z (list nat)) (id : nat)
    (st : bplib_cache_state_t) : gmap Z (list nat) * bplib_cache_state_t :=
  let index' :=
    omap (fun l => match remove_id id l with [] => None | l' => Some l' end) index in
  (index', set_pool_free (pool_free st + (size index - size index'))%nat st).

(** [bplib_mpool_bblock_primary_locate_canonical(pri_block, type)]. *)
Definition locate_canonical (st : bplib_cache_state_t) (pri : bplib_mpool_bblock_primary_t)
    (type : bp_blocktype_t) : option nat :=
  List.find (fun c => match canonicals st !! c with
                      | Some b => blocktype_eqb (blockType b) type
                      | None => false
                      end) (cblock_list pri).

(** [bplib_cache_custody_init_info_from_pblock]. *)
Definition bplib_cache_custody_init_info_from_pblock (st : bplib_cache_state_t)
    (pri : bplib_mpool_bblock_primary_t) : bplib_cache_custodian_info_t :=
  let info := set_flow_id (sourceEID pri) info_zero in
  let info := set_info_sequence_num (sequence_num pri) info in
  let info := set_final_dest_node (node_number (destinationEID pri)) info in
  let info := set_cblk (locate_canonical st pri bp_blocktype_custodyTrackingBlock) info in
  match cblk info with
  | Some c =>
      match canonicals st !! c with
      | Some custody_block => set_custodian_id (current_custodian custody_block) info
      | None => info
      end
  | None => info
  end.

(** [bplib_cache_custody_find_bundle_match]: whether the entry answers 0. *)
Definition bplib_cache_custody_find_bundle_match (st : bplib_cache_state_t)
    (info : bplib_cache_custodian_info_t) (id : nat) : bool :=
  match entries st !! id with
  | Some e =>
      match refptr e with
      | Some r =>
          match primaries st !! r with
          | Some pri =>
              (sequence_num pri =? info_sequence_num info)
              && ipn_eqb (flow_id info) (sourceEID pri)
          | None => false
          end
      | None => false
      end
  | None => false
  end.

(** [bplib_cache_custody_find_existing_bundle]. *)
Definition bplib_cache_custody_find_existing_bundle (st : bplib_cache_state_t)
    (info : bplib_cache_custodian_info_t)
  : bool * bplib_cache_state_t * bplib_cache_custodian_info_t :=
  let info := set_eid_hash (hash_bundle (flow_id info) (info_sequence_num info)) info in
  match hash_index st !! eid_hash info with
  | Some bundle_list =>
      match List.find (bplib_cache_custody_find_bundle_match st info) bundle_list with
      | Some id =>
          (* set the activity flag which tracks that this entry was used *)
          (true,
           alter_entry (fun e => set_flags (Z.lor (flags e) BPLIB_STORE_FLAG_ACTIVITY) e) id st,
           set_store_entry (Some id) info)
      | None => (false, st, info)
      end
  | None => (false, st, info)
  end.

(** [bplib_cache_custody_find_dacs_match]: whether the entry answers 0. *)
Definition bplib_cache_custody_find_dacs_match (st : bplib_cache_state_t)
    (info : bplib_cache_custodian_info_t) (id : nat) : bool :=
  match entries st !! id with
  | Some e =>
      match e_state e with
      | bplib_cache_entry_state_generate_dacs =>
          ipn_eqb (prev_custodian_id (dacs e)) (custodian_id info)
          && match payload_ref (dacs e) with
             | Some c =>
                 match canonicals st !! c with
                 | Some payload => ipn_eqb (flow_id info) (flow_source_eid payload)
                 | None => false
                 end
             | None => false
             end
      | _ => false
      end
  | None => false
  end.

(** [bplib_cache_custody_find_pending_dacs]. *)
Definition bplib_cache_custody_find_pending_dacs (st : bplib_cache_state_t)
    (info : bplib_cache_custodian_info_t) : bool * bplib_cache_custodian_info_t :=
  let info := set_eid_hash (hash_dacs (flow_id info) (custodian_id info)) info in
  match hash_index st !! eid_hash info with
  | Some bundle_list =>
      match List.find (bplib_cache_custody_find_dacs_match st info) bundle_list with
      | Some id => (true, set_store_entry (Some id) info)
      | None => (false, info)
      end
  | None => (false, info)
  end.

(** [bplib_cache_custody_create_dacs]: the primary block and the payload
    block of a new DACS bundle, or NULL. *)
Definition bplib_cache_custody_create_dacs (st : bplib_cache_state_t)
  : bplib_cache_state_t * option (nat * nat) :=
  match pool_alloc st with
  | None => (st, None)
  | Some (pblk, st) =>
      (* Initialize Primary Block *)
      let pri := mk_primary 7 (self_addr st) ipn_zero (self_addr st) now
                   (generated_dacs_seq st) BP_CACHE_DACS_LIFETIME true true
                   bp_crctype_CRC16 delivery_zero [] in
      let st := set_generated_dacs_seq (generated_dacs_seq st + 1) st in
      (* Add Payload Block *)
      match pool_alloc st with
      | None => (pool_recycle st, None)
      | Some (cblk', st) =>
          let pay := mk_canonical bp_blocktype_custodyAcceptPayloadBlock
                       bp_blocktype_custodyAcceptPayloadBlock bp_crctype_CRC16
                       ipn_zero ipn_zero [] in
          let st := set_canonicals (<[cblk' := pay]> (canonicals st)) st in
          let st := set_primaries (<[pblk := set_cblock_list [cblk'] pri]> (primaries st)) st in
          (st, Some (pblk, cblk'))
      end
  end.

(** [bplib_cache_custody_open_dacs]. *)
Definition bplib_cache_custody_open_dacs (st : bplib_cache_state_t)
    (info : bplib_cache_custodian_info_t)
  : bplib_cache_state_t * bplib_cache_custodian_info_t :=
  (* Create the storage-specific data block for keeping local refs *)
  let '(sblk, st) :=
    match entry_alloc st with
    | Some (id, st) => (Some id, st)
    | None => (None, st)
    end in
  let '(st, pending_bundle) := bplib_cache_custody_create_dacs st in
  match sblk, pending_bundle with
  | Some sblk, Some (pblk, ack_content) =>
      let pri := default primary_zero (primaries st !! pblk) in
      (* fill out the delivery_data so this will look like a regular bundle when sent *)
      let pri := set_delivery_data
                   (mk_delivery bplib_policy_delivery_local_ack BP_CACHE_FAST_RETRY_TIME
                      (self_intf_id st) now_ms (self_intf_id st) (Some sblk)) pri in
      (* the ack will be sent to the previous custodian of record *)
      let pri := set_destinationEID (custodian_id info) pri in
      let e := mk_entry bplib_cache_entry_state_generate_dacs 0 (Some pblk)
                 (now_ms + BP_CACHE_DACS_OPEN_TIME)
                 (mk_dacs_pending (custodian_id info) (Some ack_content)) in
      let st := set_primaries (<[pblk := pri]> (primaries st)) st in
      let st := set_canonicals
                  (alter (set_flow_source_eid (flow_id info)) ack_content (canonicals st)) st in
      let st := set_entries (<[sblk := e]> (entries st)) st in
      let '(idx, st) := bplib_cache_add_to_subindex (hash_index st) sblk (eid_hash info) st in
      let st := set_hash_index idx st in
      let st := bplib_cache_entry_make_pending sblk
                  (Z.lor (Z.lor BPLIB_STORE_FLAG_ACTIVITY BPLIB_STORE_FLAG_LOCAL_CUSTODY)
                     BPLIB_STORE_FLAG_ACTION_TIME_WAIT) 0 st in
      (st, set_store_entry (Some sblk) info)
  | Some sblk, None => (entry_recycle sblk st, info)
  | None, Some (pblk, ack_content) =>
      (* bplib_mpool_ref_release(pending_bundle) drops the last reference *)
      (pool_recycle (pool_recycle
         (set_canonicals (delete ack_content (canonicals st))
            (set_primaries (delete pblk (primaries st)) st))), info)
  | None, None => (st, info)
  end.

(** [bplib_cache_custody_finalize_dacs]. *)
Definition bplib_cache_custody_finalize_dacs (st : bplib_cache_state_t) (id : nat)
  : bplib_cache_state_t :=
  let '(idx, st) := bplib_cache_remove_from_subindex (hash_index st) id st in
  set_hash_index idx st.

(** [bplib_cache_custody_append_dacs]. *)
Definition bplib_cache_custody_append_dacs (st : bplib_cache_state_t)
    (info : bplib_cache_custodian_info_t) : bplib_cache_state_t :=
  match store_entry info with
  | Some id =>
      match payload_ref (dacs (default entry_zero (entries st !! id))) with
      | Some c =>
          let payload := default canonical_zero (canonicals st !! c) in
          let num_entries := Z.of_nat (length (sequence_nums payload)) in
          (* check if this seq is already in the payload *)
          let payload :=
            if negb (existsb (Z.eqb (info_sequence_num info)) (sequence_nums payload))
               && (num_entries <? BP_DACS_MAX_SEQ_PER_PAYLOAD)
            then set_sequence_nums (sequence_nums payload ++ [info_sequence_num info]) payload
            else payload in
          let st := set_canonicals (<[c := payload]> (canonicals st)) st in
          (* if DACS bundle is full now, mark it as "done" *)
          if Z.of_nat (length (sequence_nums payload)) =? BP_DACS_MAX_SEQ_PER_PAYLOAD
          then bplib_cache_entry_make_pending id 0 BPLIB_STORE_FLAG_ACTION_TIME_WAIT
                 (bplib_cache_custody_finalize_dacs st id)
          else st
      | None => st
      end
  | None => st
  end.

(** [bplib_cache_custody_ack_tracking_block]. *)
Definition bplib_cache_custody_ack_tracking_block (st : bplib_cache_state_t)
    (info : bplib_cache_custodian_info_t) : bplib_cache_state_t :=
  let dacs_info := info_zero in
  let dacs_info :=
    match cblk info with
    | Some c =>
        match canonicals st !! c with
        | Some custody_block => set_custodian_id (current_custodian custody_block) dacs_info
        | None => dacs_info
        end
    | None => dacs_info
    end in
  let dacs_info := set_flow_id (flow_id info) dacs_info in
  let dacs_info := set_info_sequence_num (info_sequence_num info) dacs_info in
  let dacs_info := set_final_dest_node (final_dest_node info) dacs_info in
  let '(found, dacs_info) := bplib_cache_custody_find_pending_dacs st dacs_info in
  let '(st, dacs_info) :=
    if negb found
    then (* open DACS bundle did not exist - make an empty one now *)
         bplib_cache_custody_open_dacs st dacs_info
    else (st, dacs_info) in
  bplib_cache_custody_append_dacs st dacs_info.

(** [bplib_cache_custody_insert_tracking_block] on the primary block
    [pblk]. *)
Definition bplib_cache_custody_insert_tracking_block (st : bplib_cache_state_t) (pblk : nat)
    (info : bplib_cache_custodian_info_t)
  : bplib_cache_state_t * bplib_cache_custodian_info_t :=
  match pool_alloc st with
  | Some (c, st) =>
      let pri := default primary_zero (primaries st !! pblk) in
      let custody_block :=
        mk_canonical bp_blocktype_custodyTrackingBlock bp_blocktype_custodyTrackingBlock
          (crctype pri) ipn_zero ipn_zero [] in
      let st := set_canonicals (<[c := custody_block]> (canonicals st)) st in
      let st := set_primaries
                  (<[pblk := set_cblock_list (cblock_list pri ++ [c]) pri]> (primaries st)) st in
      (st, set_cblk (Some c) info)
  | None => (st, set_cblk None info)
  end.

(** [bplib_cache_custody_update_tracking_block]. *)
Definition bplib_cache_custody_update_tracking_block (st : bplib_cache_state_t)
    (info : bplib_cache_custodian_info_t)
  : bplib_cache_state_t * bplib_cache_custodian_info_t :=
  match cblk info with
  | Some c =>
      match canonicals st !! c with
      | Some custody_block =>
          (set_canonicals
             (<[c := set_current_custodian (self_addr st) custody_block]> (canonicals st)) st,
           set_custodian_id (self_addr st) info)
      | None => (st, info)
      end
  | None => (st, info)
  end.

(** [bplib_cache_custody_process_bundle] on the primary block [pblk]. *)
Definition bplib_cache_custody_process_bundle (st : bplib_cache_state_t) (pblk : nat)
    (info : bplib_cache_custodian_info_t)
  : bplib_cache_state_t * bplib_cache_custodian_info_t :=
  (* check if this is the last stop on the custody train *)
  let is_local := final_dest_node info =? node_number (self_addr st) in
  let '(st, info) :=
    match cblk info with
    | Some _ =>
        (* Acknowledge the block in the bundle *)
        let st := bplib_cache_custody_ack_tracking_block st info in
        if is_local
        then (set_primaries
                (alter (fun pri => set_delivery_data
                                     (set_delivery_policy bplib_policy_delivery_local_ack
                                        (delivery_data pri)) pri) pblk (primaries st)) st,
              info)
        else (st, info)
    | None =>
        if negb is_local
        then bplib_cache_custody_insert_tracking_block st pblk info
        else (st, info)
    end in
  match cblk info with
  | Some _ => bplib_cache_custody_update_tracking_block st info
  | None => (st, info)
  end.

(** [bplib_cache_custody_store_bundle(state, qblk)]. *)
Definition bplib_cache_custody_store_bundle (st : bplib_cache_state_t) (qblk : nat)
  : bplib_cache_state_t :=
  match primaries st !! qblk with
  | None => (* only pri blocks are storable *) st
  | Some pri_block =>
      let info := bplib_cache_custody_init_info_from_pblock st pri_block in
      let '(found, st, info) := bplib_cache_custody_find_existing_bundle st info in
      if found then
        (* found it - do not store again *)
        bplib_cache_custody_ack_tracking_block st info
      else
        (* Create the storage-specific data block for keeping local refs *)
        match entry_alloc st with
        | None => st
        | Some (sblk, st) =>
            let info := set_store_entry (Some sblk) info in
            (* this keeps a copy of the ref here, after qblk is recycled *)
            let st := alter_entry
                        (fun e => set_refptr (Some qblk)
                                    (set_e_state bplib_cache_entry_state_idle e)) sblk st in
            let '(idx, st) :=
              bplib_cache_add_to_subindex (dest_eid_index st) sblk (final_dest_node info) st in
            let st := set_dest_eid_index idx st in
            (* when the custody ACK for this block comes in, this block needs to be
               found again, so make an entry in the hash index for it *)
            let '(idx, st) :=
              bplib_cache_add_to_subindex (hash_index st) sblk (eid_hash info) st in
            let st := set_hash_index idx st in
            let st := alter_entry
                        (fun e => set_flags
                                    (Z.lor (flags e)
                                       (Z.lor BPLIB_STORE_FLAG_LOCAL_CUSTODY
                                          BPLIB_STORE_FLAG_ACTIVITY)) e) sblk st in
            let st := set_primaries
                        (alter (fun pri => set_delivery_data
                                  (set_committed_storage_id (Some sblk)
                                     (set_storage_intf_id (self_intf_id st)
                                        (delivery_data pri))) pri) qblk (primaries st)) st in
            let st :=
              match delivery_policy (delivery_data pri_block) with
              | bplib_policy_delivery_custody_tracking =>
                  fst (bplib_cache_custody_process_bundle st qblk info)
              | _ => st
              end in
            (* This puts it into the right spot for future holding *)
            bplib_cache_fsm_execute st sblk
        end
  end.

(** The [for] loop of [bplib_cache_custody_process_remote_dacs_bundle] over
    the sequence numbers the acknowledgement lists. *)
Fixpoint remote_dacs_loop (st : bplib_cache_state_t) (info : bplib_cache_custodian_info_t)
    (seqs : list Z) : bplib_cache_state_t :=
  match seqs with
  | [] => st
  | seq :: rest =>
      let info := set_info_sequence_num seq info in
      let '(found, st, info) := bplib_cache_custody_find_existing_bundle st info in
      let st :=
        if found then
          (* confirmed that another custodian has the bundle - can clear the flag
             that says we are the active custodian, and reevaluate *)
          match store_entry info with
          | Some id => bplib_cache_entry_make_pending id 0 BPLIB_STORE_FLAG_LOCAL_CUSTODY st
          | None => st
          end
        else st in
      remote_dacs_loop st info rest
  end.

(** [bplib_cache_custody_process_remote_dacs_bundle(state, pri_block,
    ack_payload)]. *)
Definition bplib_cache_custody_process_remote_dacs_bundle (st : bplib_cache_state_t)
    (pri_block : bplib_mpool_bblock_primary_t) (ack_payload : bplib_mpool_bblock_canonical_t)
  : bplib_cache_state_t :=
  let info := set_custodian_id (destinationEID pri_block) info_zero in
  let info := set_flow_id (flow_source_eid ack_payload) info in
  remote_dacs_loop st info (sequence_nums ack_payload).

(** [bplib_cache_custody_check_dacs(state, qblk)]: whether the block is a
    custody acknowledgement, which is then processed. *)
Definition bplib_cache_custody_check_dacs (st : bplib_cache_state_t) (qblk : nat)
  : bool * bplib_cache_state_t :=
  match primaries st !! qblk with
  | Some pri_block =>
      if isAdminRecord pri_block then
        (* check if it has a custody_ack payload type *)
        match locate_canonical st pri_block bp_blocktype_custodyAcceptPayloadBlock with
        | Some c =>
            match canonicals st !! c with
            | Some c_block =>
                (* it is an acceptance block (dacs) *)
                (true, bplib_cache_custody_process_remote_dacs_bundle st pri_block c_block)
            | None => (false, st)
            end
        | None => (false, st)
        end
      else (false, st)
  | None => (false, st)
  end.

End CacheOps.



(** What the processing of a custody acknowledgement leaves in place: the
    blocks of the pool and the indices; every entry, with its reference and
    its state, and without local custody if it was without; and the pending
    list, which only grows. *)
Definition same_bundles (st st' : bplib_cache_state_t) : Prop :=
  primaries st' = primaries st /\ canonicals st' = canonicals st /\
  hash_index st' = hash_index st /\ dest_eid_index st' = dest_eid_index st /\
  time_index st' = time_index st /\ pool_free st' = pool_free st /\
  (forall k, refptr <$> entries st' !! k = refptr <$> entries st !! k) /\
  (forall k, e_state <$> entries st' !! k = e_state <$> entries st !! k) /\
  (forall k e e', entries st !! k = Some e -> entries st' !! k = Some e' ->
     Z.land (flags e) BPLIB_STORE_FLAG_LOCAL_CUSTODY = 0 ->
     Z.land (flags e') BPLIB_STORE_FLAG_LOCAL_CUSTODY = 0) /\
  (forall k, In k (pending_list st) -> In k (pending_list st')).

End Cache.

(* ================================================================== *)
(** ** Concrete runs *)

Module Scenario.
Import Channel RamStore.

(** A channel of node 1, service 10, sending to node 2, service 10, opened
    over an empty storage service in memory. *)
Definition open_channel (attr : bp_attr_t) (capacity : option Z)
  : option (bp_channel_t ram_store) :=
  snd (bplib_open ram_ops fixed_codec (ram_empty capacity) 1 10 2 10 (Some attr)).

Definition setopt (ch : bp_channel_t ram_store) (opt : bp_opt) (val : Z)
  : bp_channel_t ram_store :=
  snd (bplib_setopt fixed_codec ch opt val sizeof_int).

Definition store (sysnow : Z) (ch : bp_channel_t ram_store) (payload : list Z)
  : option (Z * bp_channel_t ram_store * Z) :=
  bplib_store ram_ops fixed_codec 16 sysnow ch payload (Z.of_nat (length payload)) 0 0.

Definition load (sysnow : Z) (ch : bp_channel_t ram_store)
  : option (Z * bp_channel_t ram_store * Z * option (bp_bundle_store_t * list Z)) :=
  bplib_load ram_ops fixed_codec 16 sysnow ch (NullBuf true) 0 0.

Definition process (sysnow : Z) (ch : bp_channel_t ram_store) (w : wire_bundle)
  : option (Z * bp_channel_t ram_store * Z) :=
  bplib_process ram_ops fixed_codec 16 sysnow ch w 0 0.

(** Two bundles stored on a channel whose active table has one slot and
    whose wrap response is BLOCK, and the first of them loaded. *)
Definition block_wrap_channel : option (bp_channel_t ram_store) :=
  ch ← open_channel (mk_attr 1 0 0 0) None;
  let ch := setopt ch BP_OPT_WRAPRSP BP_WRAP_BLOCK in
  '(_, ch, _) ← store 0 ch [97];
  '(_, ch, _) ← store 0 ch [98];
  '(_, ch, _, _) ← load 0 ch;
  Some ch.

(** A bundle with lifetime 6 created at time 0, and a second bundle without
    lifetime, on a channel with two slots, a timeout of 5 seconds, custody id
    reuse and the RESEND wrap response; loads at times 0, 3 and 5. *)
Definition resend_expired_channel : option (bp_channel_t ram_store) :=
  ch ← open_channel (mk_attr 2 0 0 0) None;
  let ch := setopt ch BP_OPT_WRAPRSP BP_WRAP_RESEND in
  let ch := setopt ch BP_OPT_CIDREUSE 1 in
  let ch := setopt ch BP_OPT_TIMEOUT 5 in
  let ch := setopt ch BP_OPT_LIFETIME_D 6 in
  '(_, ch, _) ← store 0 ch [97];
  let ch := setopt ch BP_OPT_LIFETIME_D 0 in
  '(_, ch, _) ← store 0 ch [98];
  '(_, ch, _, _) ← load 0 ch;
  '(_, ch, _, _) ← load 3 ch;
  '(_, ch, _, _) ← load 5 ch;
  Some ch.

(** A data bundle from node 2 for this channel (node 1, service 10) that
    requests custody and carries a CTEB with custody id 7. *)
Definition custody_bundle : wire_bundle :=
  mk_wire 81 52
    (mk_pri 1 10 2 10 2 10 2 10 0 0 0 0 0 0 false true false false false)
    [WCteb 21 (mk_cteb 7 (Eid.ipn_text 2 10) 2 10); WPay 6 (mk_pay 2 [104; 105] 2)].

(** The same bundle with an integrity block and a block of another type
    (flags 1, two bytes of header and three of data) before its payload
    block; and the buffer as [bplib_process] leaves it, with the "forwarded
    without processed" bit set in the flags of that block. *)
Definition custody_bundle_with_blocks (blk_flags : Z) : wire_bundle :=
  mk_wire 102 52
    (mk_pri 1 10 2 10 2 10 2 10 0 0 0 0 0 0 false true false false false)
    [WCteb 21 (mk_cteb 7 (Eid.ipn_text 2 10) 2 10); WBib 16 (mk_bib 0 0 0);
     WOther blk_flags 2 3 0; WPay 6 (mk_pay 2 [104; 105] 2)].

Definition process_twice_run
  : option (Z * Z * Z * Z * bp_channel_t ram_store) :=
  ch ← open_channel (mk_attr 4 0 0 0) None;
  '(status1, ch, flags1) ← process 0 ch custody_bundle;
  '(status2, ch, flags2) ← process 0 ch custody_bundle;
  Some (status1, flags1, status2, flags2, ch).

(** A payload of three bytes stored with fragmentation off. *)
Definition small_store_run : option (Z * bp_channel_t ram_store) :=
  ch ← open_channel (mk_attr 4 0 0 0) None;
  '(status, ch, _) ← store 0 ch [1; 2; 3];
  Some (status, ch).

(** A channel that fragments into bundles of at most two payload bytes. *)
Definition fragment_channel : option (bp_channel_t ram_store) :=
  ch ← open_channel (mk_attr 4 0 0 0) None;
  let ch := setopt ch BP_OPT_ALLOWFRAG_D 1 in
  Some (setopt ch BP_OPT_BUNDLELEN 2).

(** A channel that fragments, with a max bundle length of 0, over a storage
    service whose queues take two records; and a store on it. *)
Definition zero_length_run : option (Z * bp_channel_t ram_store) :=
  ch ← open_channel (mk_attr 4 0 0 0) (Some 2);
  let ch := setopt ch BP_OPT_ALLOWFRAG_D 1 in
  let ch := setopt ch BP_OPT_BUNDLELEN 0 in
  '(status, ch, _) ← store 0 ch [1; 2; 3];
  Some (status, ch).

(** A storage service in memory that cannot get memory for another record:
    its enqueue answers [BP_FAILEDMEM]. *)
Definition out_of_memory_ops : bp_store_t ram_store :=
  mk_store ram_store ram_create ram_destroy (fun st _ _ _ => (st, BP_FAILEDMEM))
    ram_dequeue ram_retrieve ram_relinquish ram_getcount.

(** A channel over that service, and a store on it. *)
Definition out_of_memory_run
  : option (bp_channel_t ram_store * Z * bp_channel_t ram_store) :=
  ch ← snd (bplib_open out_of_memory_ops fixed_codec (ram_empty None) 1 10 2 10
              (Some (mk_attr 4 0 0 0)));
  '(status, ch', _) ← bplib_store out_of_memory_ops fixed_codec 16 0 ch [1; 2; 3] 3 0 0;
  Some (ch, status, ch').

(** A channel over a storage service whose queues have no space. *)
Definition full_channel : option (bp_channel_t ram_store) :=
  open_channel (mk_attr 4 0 0 0) (Some 0).

(** A store on that channel. *)
Definition full_store_run
  : option (bp_channel_t ram_store * Z * bp_channel_t ram_store) :=
  ch ← full_channel;
  '(status, ch', _) ← store 0 ch [1; 2; 3];
  Some (ch, status, ch').

(** The bundle of scenario 6 of the spec ([createsec = 100], [lifetime =
    10]), with and without a dictionary. *)
Definition expired_bundle (dictlen' : Z) : wire_bundle :=
  mk_wire 60 52
    (mk_pri 1 10 2 10 2 10 2 10 100 0 10 dictlen' 0 0 false false false false false)
    [WPay 6 (mk_pay 2 [104; 105] 2)].

(** A data bundle for this channel that does not request custody. *)
Definition plain_bundle : wire_bundle :=
  mk_wire 63 52
    (mk_pri 1 10 2 10 2 10 2 10 0 0 0 0 0 0 false false false false false)
    [WPay 6 (mk_pay 5 [104; 101; 108; 108; 111] 5)].

(** A channel with the payload of [plain_bundle] waiting for [bplib_accept]. *)
Definition delivered_channel : option (bp_channel_t ram_store) :=
  ch ← open_channel (mk_attr 4 0 0 0) None;
  '(_, ch, _) ← process 0 ch plain_bundle;
  Some ch.

(** Any number of further [bplib_accept] calls, each with its own buffer and
    timeout. *)
Definition accept_run (calls : list (caller_buf * Z)) (ch : bp_channel_t ram_store)
  : bp_channel_t ram_store :=
  fold_left (fun c call => snd (fst (bplib_accept ram_ops c (fst call) (snd call)))) calls ch.

(** A channel with room for a single DACS accumulator. *)
Definition one_dacs_channel : option (bp_channel_t ram_store) :=
  open_channel (mk_attr 4 1 0 0) None.

End Scenario.

Module CacheRun.
Import Cache.

(** Modelled from the spec: the hash of section 4.2.1, "a CRC32-Castagnoli
    over a salted tuple", whose code (crc.h) is not among the sources.  The
    runs below take two injective stand-ins, one for the bundle lookup over
    (flow, sequence number) and one for the DACS lookup over (flow, previous
    custodian). *)
Definition hash_bundle (flow : bp_ipn_addr_t) (seq : Z) : Z :=
  (node_number flow * 256 + service_number flow) * 65536 + seq.

Definition hash_dacs (flow custodian : bp_ipn_addr_t) : Z :=
  - (1 + (node_number flow * 256 + service_number flow) * 65536
       + node_number custodian * 256 + service_number custodian).

(** Modelled from the spec: [fsm_execute] of section 4.2.2, whose code
    (v7_cache_fsm.c) is not among the sources.  In the runs below the entry
    is left in the state it was stored in. *)
Definition fsm_idle (st : bplib_cache_state_t) (sblk : nat) : bplib_cache_state_t := st.

(** The cache of node 7, service 1, with 64 blocks in its pool. *)
Definition empty_cache : bplib_cache_state_t :=
  mk_state 64 0 ∅ ∅ ∅ [] [] ∅ ∅ ∅ (mk_ipn 7 1) 3 0.

(** A bundle arrives from the flow [source] with sequence number [seq],
    bound for node 9, with full custody tracking and a custody tracking
    block that names [custodian]: its primary block and that canonical block
    are taken from the pool. *)
Definition receive (st : bplib_cache_state_t) (source : bp_ipn_addr_t) (seq : Z)
    (custodian : bp_ipn_addr_t) : nat * bplib_cache_state_t :=
  let p := pool_next st in
  let c := Datatypes.S p in
  let pri := mk_primary 7 source (mk_ipn 9 1) source 0 seq 3600 false false 1
               (mk_delivery bplib_policy_delivery_custody_tracking 0 0 0 0 None) [c] in
  let custody := mk_canonical bp_blocktype_custodyTrackingBlock
                   bp_blocktype_custodyTrackingBlock 1 custodian ipn_zero [] in
  (p, set_pool_next (Datatypes.S c)
        (set_pool_free (pool_free st - 2)
           (set_primaries (<[p := pri]> (primaries st))
              (set_canonicals (<[c := custody]> (canonicals st)) st)))).

Definition store_bundle (st : bplib_cache_state_t) (qblk : nat) : bplib_cache_state_t :=
  bplib_cache_custody_store_bundle hash_bundle hash_dacs 16 10 100 2 fsm_idle 0 0 st qblk.





End CacheRun.

Module MoreCacheRun.
Import Cache CacheRun.

(** The cache after the bundle of flow 5.1 with sequence number 42 has been
    stored: its entry, and the DACS opened for its previous custodian
    4.1. *)
Definition stored_once : bplib_cache_state_t :=
  let '(q1, st) := receive empty_cache (mk_ipn 5 1) 42 (mk_ipn 4 1) in
  store_bundle st q1.

(** A bundle of flow 5.1 with sequence number 42 that asks for no custody
    tracking arrives at the empty cache: its primary block is block 0 of
    the pool. *)
Definition plain_arrival : bplib_cache_state_t :=
  set_pool_next 1
    (set_pool_free 63
       (set_primaries
          {[ 0%nat := mk_primary 7 (mk_ipn 5 1) (mk_ipn 9 1) (mk_ipn 5 1) 0 42 3600 false false 1
                        (mk_delivery bplib_policy_delivery_none 0 0 0 0 None) [] ]}
          empty_cache)).

End MoreCacheRun.

(* ================================================================== *)
(** * Properties *)

Module EidFacts.
Import Eid.

Lemma digit_val_digit_char d :
  0 <= d < 10 -> digit_val (digit_char d) = Some d.
Proof.
  intros Hd. unfold digit_val, digit_char, char_code.
  rewrite N_ascii_embedding by lia.
  rewrite Z2N.id by lia.
  replace (48 <=? 48 + d) with true by (symmetry; apply Z.leb_le; lia).
  replace (48 + d <=? 57) with true by (symmetry; apply Z.leb_le; lia).
  simpl. f_equal. lia.
Qed.

Lemma char_code_digit_char d : 0 <= d < 10 -> char_code (digit_char d) = 48 + d.
Proof.
  intros Hd. unfold digit_char, char_code.
  rewrite N_ascii_embedding by lia. lia.
Qed.

Lemma digit_not_char c (x : ascii) :
  is_digit c -> (char_code x < 48 \/ 57 < char_code x) -> Ascii.eqb c x = false.
Proof.
  intros (d & Hd & ->) Hx. apply Ascii.eqb_neq. intros E.
  rewrite <- E, char_code_digit_char in Hx; lia.
Qed.

Lemma digit_not_space c : is_digit c -> isspace c = false.
Proof.
  intros (d & Hd & ->). unfold isspace. rewrite char_code_digit_char by lia.
  apply orb_false_iff; split; [apply Z.eqb_neq; lia|].
  apply andb_false_iff; right; apply Z.leb_gt; lia.
Qed.

Lemma fmt_lu_aux_digits fuel : forall n acc,
  0 <= n -> Forall is_digit acc -> Forall is_digit (fmt_lu_aux fuel n acc).
Proof.
  induction fuel as [|fuel IH]; intros n acc Hn Hacc; simpl; [assumption|].
  assert (Hd : is_digit (digit_char (n mod 10))).
  { exists (n mod 10); split; [apply Z.mod_pos_bound; lia | reflexivity]. }
  destruct (n / 10 =? 0).
  - constructor; assumption.
  - apply IH; [apply Z.div_pos; lia | constructor; assumption].
Qed.

Lemma fmt_lu_aux_head fuel : forall n acc,
  0 <= n -> exists c tl, is_digit c /\ fmt_lu_aux (S fuel) n acc = c :: tl.
Proof.
  induction fuel as [|fuel IH]; intros n acc Hn.
  - simpl. exists (digit_char (n mod 10)), acc. split.
    + exists (n mod 10); split; [apply Z.mod_pos_bound; lia | reflexivity].
    + destruct (n / 10 =? 0); reflexivity.
  - change (fmt_lu_aux (S (S fuel)) n acc) with
      (if n / 10 =? 0 then digit_char (n mod 10) :: acc
       else fmt_lu_aux (S fuel) (n / 10) (digit_char (n mod 10) :: acc)).
    destruct (n / 10 =? 0).
    + exists (digit_char (n mod 10)), acc. split; [|reflexivity].
      exists (n mod 10); split; [apply Z.mod_pos_bound; lia | reflexivity].
    + apply IH. apply Z.div_pos; lia.
Qed.

(** Reading back what [fmt_lu_aux] wrote: the digits of [n] in front of
    [acc] scan to the value [n] carried into [acc]. *)
Lemma scan_fmt_lu_aux fuel : forall n acc rest any,
  0 <= n < 10 ^ Z.of_nat (S fuel) ->
  scan_digits (fmt_lu_aux (S fuel) n acc ++ rest) 0 any
  = scan_digits (acc ++ rest) n true.
Proof.
  induction fuel as [|fuel IH]; intros n acc rest any Hn.
  - simpl in *. assert (n / 10 = 0) as -> by (apply Z.div_small; lia).
    simpl. rewrite digit_val_digit_char by (apply Z.mod_pos_bound; lia).
    rewrite Z.mod_small by lia. reflexivity.
  - change (fmt_lu_aux (S (S fuel)) n acc) with
      (if n / 10 =? 0 then digit_char (n mod 10) :: acc
       else fmt_lu_aux (S fuel) (n / 10) (digit_char (n mod 10) :: acc)).
    destruct (n / 10 =? 0) eqn:E.
    + apply Z.eqb_eq in E. simpl.
      rewrite digit_val_digit_char by (apply Z.mod_pos_bound; lia).
      f_equal. pose proof (Z.div_mod n 10). lia.
    + rewrite IH.
      * simpl. rewrite digit_val_digit_char by (apply Z.mod_pos_bound; lia).
        f_equal. pose proof (Z.div_mod n 10). lia.
      * split; [apply Z.div_pos; lia|].
        apply Z.div_lt_upper_bound; [lia|].
        replace (Z.of_nat (S (S fuel))) with (Z.succ (Z.of_nat (S fuel))) in Hn by lia.
        rewrite Z.pow_succ_r in Hn by lia. lia.
Qed.

Lemma scan_digits_stop rest acc any :
  match rest with [] => True | c :: _ => digit_val c = None end ->
  scan_digits rest acc any = (acc, any).
Proof. destruct rest as [|c rest]; simpl; [reflexivity | intros ->; reflexivity]. Qed.

Lemma cstr_no_nul s : Forall (fun c => Ascii.eqb c NUL = false) s -> cstr s = s.
Proof. induction 1 as [|c s Hc _ IH]; simpl; [reflexivity | rewrite Hc, IH; reflexivity]. Qed.

Lemma strchr_digits s rest :
  Forall is_digit s -> strchr (s ++ "."%char :: rest) "."%char = Some (s, rest).
Proof.
  induction 1 as [|c s Hc _ IH]; simpl; [reflexivity|].
  rewrite (digit_not_char c "."%char Hc) by (left; reflexivity).
  rewrite IH. reflexivity.
Qed.

Section WithLimits.
Variable ULONG_MAX : Z.
Variable BP_MAX_EID_STRING : Z.

(** [strtoul] reads a rendered number back, whatever non-digit follows. *)
Lemma strtoul_fmt_lu n rest :
  0 <= n < 2 ^ 32 -> 2 ^ 32 - 1 <= ULONG_MAX ->
  match rest with [] => True | c :: _ => digit_val c = None end ->
  strtoul ULONG_MAX (fmt_lu n ++ rest)
  = {| ul_result := n; ul_converted := true; ul_erange := false |}.
Proof.
  intros Hn Hmax Hrest. unfold strtoul, fmt_lu.
  destruct (fmt_lu_aux_head 19 n [] ltac:(lia)) as (c & tl & Hc & E).
  assert (Hscan : scan_digits (fmt_lu_aux 20 n [] ++ rest) 0 false = (n, true)).
  { rewrite scan_fmt_lu_aux by (change (10 ^ Z.of_nat 20) with 100000000000000000000; lia).
    simpl. apply scan_digits_stop; assumption. }
  rewrite E in *. simpl app in *. cbn [skip_space].
  rewrite (digit_not_space c Hc).
  rewrite (digit_not_char c "-"%char Hc) by (left; reflexivity).
  rewrite (digit_not_char c "+"%char Hc) by (left; reflexivity).
  rewrite Hscan. simpl negb. cbn iota.
  replace (ULONG_MAX <? n) with false by (symmetry; apply Z.ltb_ge; lia).
  reflexivity.
Qed.

Lemma fmt_lu_digits n : 0 <= n -> Forall is_digit (fmt_lu n).
Proof. intros Hn. apply fmt_lu_aux_digits; [assumption | constructor]. Qed.

Lemma fmt_lu_length n : 0 <= n -> (1 <= length (fmt_lu n))%nat.
Proof.
  intros Hn. unfold fmt_lu.
  destruct (fmt_lu_aux_head 19 n [] Hn) as (c & tl & _ & ->). simpl. lia.
Qed.

Lemma digit_not_nul c : is_digit c -> Ascii.eqb c NUL = false.
Proof. intros Hc. apply digit_not_char; [assumption | left; reflexivity]. Qed.

Lemma ipn_text_length n s :
  0 <= n -> 0 <= s -> (7 <= length (ipn_text n s))%nat.
Proof.
  intros Hn Hs. unfold ipn_text. rewrite !length_app.
  pose proof (fmt_lu_length n Hn). pose proof (fmt_lu_length s Hs).
  simpl. lia.
Qed.

(** C4.  For every pair (n, s) with 1 <= n < 2^32 and 1 <= s < 2^32,
    [bplib_ipn2eid] into a buffer that holds the whole text
    [ipn:<n>.<s>] and its NUL succeeds and leaves exactly that text, and
    [bplib_eid2ipn] on it (with any length from the string length up to
    the buffer limit) succeeds and returns exactly (n, s). *)
Theorem eid_roundtrip n s len :
  1 <= n < 2 ^ 32 -> 1 <= s < 2 ^ 32 ->
  2 ^ 32 - 1 <= ULONG_MAX ->
  Z.of_nat (length (ipn_text n s)) < len <= BP_MAX_EID_STRING ->
  bplib_ipn2eid BP_MAX_EID_STRING true len n s = (BP_SUCCESS, Some (ipn_text n s)) /\
  forall len2,
    Z.of_nat (length (ipn_text n s)) <= len2 <= BP_MAX_EID_STRING ->
    bplib_eid2ipn ULONG_MAX BP_MAX_EID_STRING (Some (ipn_text n s)) len2
    = (BP_SUCCESS, Some (n, s)).
Proof.
  intros Hn Hs Hmax Hlen.
  pose proof (ipn_text_length n s ltac:(lia) ltac:(lia)) as H7.
  split.
  - unfold bplib_ipn2eid, bplib_os_format. simpl negb. cbn iota.
    replace (len <? 7) with false by (symmetry; apply Z.ltb_ge; lia).
    replace (BP_MAX_EID_STRING <? len) with false by (symmetry; apply Z.ltb_ge; lia).
    rewrite firstn_all2 by lia. reflexivity.
  - intros len2 Hlen2. unfold bplib_eid2ipn.
    replace (len2 <? 7) with false by (symmetry; apply Z.ltb_ge; lia).
    replace (BP_MAX_EID_STRING <? len2) with false by (symmetry; apply Z.ltb_ge; lia).
    change (ipn_prefix_ok (ipn_text n s)) with true. simpl negb. cbn iota.
    change (skipn 4 (ipn_text n s)) with (fmt_lu n ++ "."%char :: fmt_lu s).
    assert (Hl : length (ipn_text n s) = (4 + length (fmt_lu n ++ "."%char :: fmt_lu s))%nat)
      by reflexivity.
    rewrite firstn_all2 by lia.
    pose proof (fmt_lu_digits n ltac:(lia)) as Dn.
    pose proof (fmt_lu_digits s ltac:(lia)) as Ds.
    rewrite cstr_no_nul.
    2:{ apply Forall_app; split; [|constructor; [reflexivity|]];
        eapply Forall_impl; eauto using digit_not_nul. }
    rewrite strchr_digits by assumption.
    rewrite <- (app_nil_r (fmt_lu n)), <- (app_nil_r (fmt_lu s)).
    rewrite !strtoul_fmt_lu by (lia || exact I).
    simpl. unfold u32. rewrite !Z.mod_small by lia.
    rewrite !andb_false_r. reflexivity.
Qed.

End WithLimits.

Lemma eid_roundtrip_witness :
  bplib_ipn2eid 128 true 32 12 345 = (BP_SUCCESS, Some (ipn_text 12 345)) /\
  forall len2,
    Z.of_nat (length (ipn_text 12 345)) <= len2 <= 128 ->
    bplib_eid2ipn (2 ^ 64 - 1) 128 (Some (ipn_text 12 345)) len2
    = (BP_SUCCESS, Some (12, 345)).
Proof.
  apply (eid_roundtrip (2 ^ 64 - 1) 128 12 345 32); vm_compute; intuition congruence.
Defined.

End EidFacts.

Module ChannelFacts.
Import Channel.

Section Generic.

Context {St : Type}.
Variable ops : bp_store_t St.
Variable codec : codec_t.

(** A field holds the value patched into it when the value fits the width
    the field reserves and [bplib_sdnv_write] raises no flag; the header
    holds the primary block when its writer reports the bytes it wrote. *)
Lemma sdnv_put_ok f v :
  sdnv_fits f v = true -> bplib_sdnv_write codec f v = 0 -> sdnv_put codec f v = v.
Proof. intros Hfit Hflag. unfold sdnv_put. rewrite Hfit, Hflag. reflexivity. Qed.

Lemma pri_put_ok pri : 0 < bplib_blk_pri_write codec pri -> pri_put codec pri = pri.
Proof. intros H. unfold pri_put. apply Z.ltb_lt in H. rewrite H. reflexivity. Qed.

(** C7, as amended.  When [bplib_process] receives a bundle whose primary
    block parses and has no dictionary, whose lifetime is not 0 and whose
    creation time plus lifetime is at most the system time, it returns
    [BP_EXPIRED], increments the expired statistic, and enqueues nothing:
    the storage service, the bundle template and the active table are left
    as they were. *)
Theorem process_expired_dropped fuel sysnow (ch : bp_channel_t St) w timeout' procflags :
  0 < w_pri_status w ->
  dictlen (w_pri w) = 0 ->
  lifetime (w_pri w) <> 0 ->
  0 <= createsec (w_pri w) -> 0 <= lifetime (w_pri w) ->
  createsec (w_pri w) + lifetime (w_pri w) <= sysnow < 2 ^ 32 ->
  exists ch',
    bplib_process ops codec fuel sysnow ch w timeout' procflags
    = Some (BP_EXPIRED, ch', procflags) /\
    expired (stats ch') = u64 (expired (stats ch) + 1) /\
    storage ch' = storage ch /\
    data_bundle ch' = data_bundle ch /\
    dacs_bundle ch' = dacs_bundle ch /\
    active_table ch' = active_table ch.
Proof.
  intros Hparse Hdict Hlife Hc Hl Hnow.
  unfold bplib_process.
  replace (w_pri_status w <=? 0) with false by (symmetry; apply Z.leb_gt; lia).
  rewrite Hdict. simpl negb at 1. cbn iota.
  replace (lifetime (w_pri w) =? 0) with false by (symmetry; apply Z.eqb_neq; assumption).
  assert (Hu : u32 (lifetime (w_pri w) + createsec (w_pri w))
               = lifetime (w_pri w) + createsec (w_pri w)).
  { unfold u32. apply Z.mod_small. lia. }
  rewrite Hu.
  replace (lifetime (w_pri w) + createsec (w_pri w) <=? sysnow) with true
    by (symmetry; apply Z.leb_le; lia).
  simpl. eexists. split; [reflexivity|]. repeat split.
Qed.

(** [prepare_fragment] leaves alone what the loop test and the sequence
    counter depend on, and leaves the payload block of the fragment; it
    patches the two fragment fields of the header when the bundle is a
    fragment, and leaves them alone when it is not. *)
Lemma prepare_fragment_frame bundle off fs flags :
  let b := fst (prepare_fragment codec bundle off fs flags) in
  originate b = originate bundle /\ maxlength b = maxlength bundle /\
  payload_block b
  = mk_pay fs (payptr (payload_block bundle)) (paysize (payload_block bundle)) /\
  is_frag (primary_block b) = is_frag (primary_block bundle) /\
  createseq (primary_block b) = createseq (primary_block bundle) /\
  frag_fields codec (is_frag (primary_block bundle)) (header (bundle_store bundle)) off
    (paysize (payload_block bundle)) (bundle_store b).
Proof.
  unfold prepare_fragment, frag_fields.
  destruct (is_frag (primary_block bundle)) eqn:E; simpl; rewrite ?E;
    destruct (biboffset (bundle_store bundle) =? 0); simpl; repeat split.
Qed.

Lemma enqueue_all_app st h t objs o st1 st2 status :
  enqueue_all ops st h t objs = Some st1 ->
  enqueue ops st1 h o t = (st2, status) -> 0 < status ->
  enqueue_all ops st h t (objs ++ [o]) = Some st2.
Proof.
  revert st. induction objs as [|x objs IH]; intros st; simpl.
  - intros [= ->] -> Hs. replace (status <=? 0) with false by (symmetry; apply Z.leb_gt; lia).
    reflexivity.
  - destruct (enqueue ops st h x t) as [st' s']. destruct (s' <=? 0); [discriminate|].
    apply IH.
Qed.

Lemma frags_ok_app frag_on hdr0 payptr total maxlen off mid objs ds fs :
  frags_ok codec frag_on hdr0 payptr total maxlen off mid objs ->
  0 < fs <= maxlen -> mid + fs <= total ->
  frag_fields codec frag_on hdr0 mid total ds ->
  frags_ok codec frag_on hdr0 payptr total maxlen off (mid + fs)
    (objs ++ [BundleObj ds (fragment payptr mid fs)]).
Proof.
  revert off. induction objs as [|o objs IH]; intros off; simpl.
  - intros -> Hfs Hend Hhdr. exists ds, fs. repeat split; try tauto; lia.
  - intros (ds' & fs' & -> & Hfs' & Hend' & Hhdr' & Hrest) Hfs Hend Hhdr.
    exists ds', fs'. repeat split; try tauto; try lia. apply IH; assumption.
Qed.

Lemma fragment_app p off a b :
  0 <= off -> 0 <= a -> 0 <= b ->
  fragment p off a ++ fragment p (off + a) b = fragment p off (a + b).
Proof.
  intros Hoff Ha Hb. unfold fragment.
  rewrite !Z2Nat.inj_add by lia.
  rewrite Nat.add_comm, <- skipn_skipn.
  generalize (skipn (Z.to_nat off) p) as l. generalize (Z.to_nat a) as n.
  induction n as [|n IH]; intros l; simpl; [reflexivity|].
  destruct l as [|x l]; simpl.
  - rewrite firstn_nil. reflexivity.
  - rewrite IH. reflexivity.
Qed.

Lemma fragment_nonpos p off fs : fs <= 0 -> fragment p off fs = [].
Proof.
  intros H. unfold fragment. replace (Z.to_nat fs) with 0%nat by lia. reflexivity.
Qed.

(** A run of the loop of [store_data_bundle], from a storage service that
    has taken the fragments [done] so far: the fragments it has handed over
    when it returns are consecutive, and it stops at the first one whose
    payload block cannot be written or that the storage service refuses,
    without touching the sequence counter. *)
Lemma store_data_loop_run h t st0 frag_on hdr0 payptr' total maxlen fuel :
  forall bundle st flags off done status bundle' st' flags',
  frag_on = is_frag (primary_block bundle) ->
  payptr' = payptr (payload_block bundle) ->
  total = paysize (payload_block bundle) ->
  maxlen = maxlength bundle ->
  (frag_on = false ->
   fragoffset (hdr_pri (header (bundle_store bundle))) = fragoffset (hdr_pri hdr0) /\
   paylen (hdr_pri (header (bundle_store bundle))) = paylen (hdr_pri hdr0)) ->
  enqueue_all ops st0 h t done = Some st ->
  concat (map obj_body done) = fragment payptr' 0 off ->
  (0 < maxlen -> 0 <= off /\ frags_ok codec frag_on hdr0 payptr' total maxlen 0 off done) ->
  (maxlen <= 0 -> off <= 0) ->
  store_data_loop ops codec fuel bundle st h t flags off = Some (status, bundle', st', flags') ->
  exists objs st_mid end_off,
    enqueue_all ops st0 h t objs = Some st_mid /\
    concat (map obj_body objs) = fragment payptr' 0 end_off /\
    (0 < maxlen -> frags_ok codec frag_on hdr0 payptr' total maxlen 0 end_off objs) /\
    ((status = BP_SUCCESS /\ st' = st_mid /\ end_off = Z.max off total /\
      createseq (primary_block bundle')
      = (if originate bundle then u32 (createseq (primary_block bundle) + 1)
         else createseq (primary_block bundle))) \/
     (createseq (primary_block bundle') = createseq (primary_block bundle) /\
      end_off < total /\
      let fs := if maxlen <? total - end_off then maxlen else total - end_off in
      ((status = BP_BUNDLEPARSEERR /\ st' = st_mid /\
        bplib_blk_pay_write codec (mk_pay fs payptr' total) <= 0) \/
       (exists ds,
          frag_fields codec frag_on hdr0 end_off total ds /\
          enqueue ops st_mid h (BundleObj ds (fragment payptr' end_off fs)) t
          = (st', status) /\
          status <= 0)))).
Proof.
  induction fuel as [|fuel IH];
    intros bundle st flags off done status bundle' st' flags' -> -> -> -> Hhdr Hdone Hcat
      Hpos Hneg Hrun.
  - simpl in Hrun. destruct (off <? paysize (payload_block bundle)) eqn:Hoff; [discriminate|].
    apply Z.ltb_ge in Hoff. injection Hrun as <- <- <- <-.
    exists done, st, off. split; [assumption|]. split; [assumption|].
    split; [intros H; apply Hpos; exact H|].
    left. repeat split; [lia | destruct (originate bundle); reflexivity].
  - cbn [store_data_loop] in Hrun.
    destruct (off <? paysize (payload_block bundle)) eqn:Hoff.
    2:{ apply Z.ltb_ge in Hoff. injection Hrun as <- <- <- <-.
        exists done, st, off. split; [assumption|]. split; [assumption|].
        split; [intros H; apply Hpos; exact H|].
        left. repeat split; [lia | destruct (originate bundle); reflexivity]. }
    apply Z.ltb_lt in Hoff.
    set (fragment_size := if maxlength bundle <? paysize (payload_block bundle) - off
                          then maxlength bundle else paysize (payload_block bundle) - off)
      in *.
    assert (Hfs : fragment_size <= maxlength bundle /\
                  off + fragment_size <= paysize (payload_block bundle) /\
                  (0 < maxlength bundle -> 0 < fragment_size) /\
                  (maxlength bundle <= 0 -> fragment_size <= 0)).
    { unfold fragment_size.
      destruct (maxlength bundle <? paysize (payload_block bundle) - off) eqn:E;
        [apply Z.ltb_lt in E | apply Z.ltb_ge in E]; lia. }
    pose proof (prepare_fragment_frame bundle off fragment_size flags) as Hp.
    destruct (prepare_fragment codec bundle off fragment_size flags) as [b1 f1].
    simpl in Hp. destruct Hp as (Ho & Hm & Hpb & Hif & Hcs & Hff).
    rewrite Hpb in Hrun. cbn [payptr] in Hrun.
    destruct (bplib_blk_pay_write codec
                (mk_pay fragment_size (payptr (payload_block bundle))
                   (paysize (payload_block bundle))) <=? 0) eqn:Hw.
    { injection Hrun as <- <- <- <-.
      exists done, st, off. split; [assumption|]. split; [assumption|].
      split; [intros H; apply Hpos; exact H|].
      right. split; [assumption|]. split; [assumption|].
      left. split; [reflexivity|]. split; [reflexivity|]. apply Z.leb_le. exact Hw. }
    set (b2 := set_sizes _ fragment_size b1) in *.
    assert (Hfields : frag_fields codec (is_frag (primary_block bundle)) hdr0 off
                        (paysize (payload_block bundle)) (bundle_store b2)).
    { assert (Hb2 : header (bundle_store b2) = header (bundle_store b1)) by reflexivity.
      unfold frag_fields in *. rewrite Hb2.
      destruct (is_frag (primary_block bundle)); [exact Hff|].
      destruct (Hhdr eq_refl) as [H1 H2]. destruct Hff as [H3 H4]. split; congruence. }
    assert (Hpp2 : payptr (payload_block b2) = payptr (payload_block bundle))
      by (simpl; rewrite Hpb; reflexivity).
    rewrite Hpp2 in Hrun.
    destruct (enqueue ops st h _ t) as [st1 estatus] eqn:Henq.
    destruct (estatus <=? 0) eqn:Hs.
    { injection Hrun as <- <- <- <-.
      exists done, st, off. split; [assumption|]. split; [assumption|].
      split; [intros H; apply Hpos; exact H|].
      right. split; [assumption|]. split; [assumption|].
      right. exists (bundle_store b2). split; [exact Hfields|].
      split; [exact Henq | apply Z.leb_le; exact Hs]. }
    apply Z.leb_gt in Hs.
    destruct (IH b2 st1 f1 (off + fragment_size)
                (done ++ [BundleObj (bundle_store b2)
                            (fragment (payptr (payload_block bundle)) off fragment_size)])
                status bundle' st' flags')
      as (objs & st_mid & e & Hall & Hcat' & Hfr & Hcase).
    { simpl. symmetry. assumption. }
    { simpl. rewrite Hpb. reflexivity. }
    { simpl. rewrite Hpb. reflexivity. }
    { simpl. symmetry. assumption. }
    { intros Hoffrag. assert (Hb2 : header (bundle_store b2) = header (bundle_store b1))
        by reflexivity.
      rewrite Hb2. rewrite Hoffrag in Hff. unfold frag_fields in Hff.
      destruct (Hhdr Hoffrag) as [H1 H2]. destruct Hff as [H3 H4]. split; congruence. }
    { eapply enqueue_all_app; [eassumption | exact Henq | lia]. }
    { rewrite map_app, concat_app, Hcat. cbn [map concat obj_body]. rewrite app_nil_r.
      destruct (Z_lt_le_dec 0 (maxlength bundle)) as [Hp|Hn].
      - destruct (Hpos Hp) as [Hoff0 _].
        pose proof (fragment_app (payptr (payload_block bundle)) 0 off fragment_size
                      (Z.le_refl 0) Hoff0 ltac:(lia)) as Happ.
        rewrite Z.add_0_l in Happ. exact Happ.
      - pose proof (Hneg Hn) as Hoff0.
        rewrite (fragment_nonpos _ 0 off Hoff0).
        rewrite (fragment_nonpos _ off fragment_size) by lia.
        rewrite (fragment_nonpos _ 0 (off + fragment_size)) by lia. reflexivity. }
    { intros Hp. destruct (Hpos Hp) as [Hoff0 Hok]. split; [lia|].
      apply frags_ok_app; [exact Hok | lia | lia | exact Hfields]. }
    { intros Hn. pose proof (Hneg Hn). lia. }
    { exact Hrun. }
    exists objs, st_mid, e.
    split; [assumption|]. split; [assumption|]. split; [assumption|].
    assert (Hseq2 : createseq (primary_block b2) = createseq (primary_block bundle))
      by (simpl; assumption).
    assert (Ho2 : originate b2 = originate bundle) by (simpl; assumption).
    assert (Hps2 : paysize (payload_block b2) = paysize (payload_block bundle))
      by (simpl; rewrite Hpb; reflexivity).
    assert (Hm2 : maxlength b2 = maxlength bundle) by (simpl; assumption).
    assert (Hif2 : is_frag (primary_block b2) = is_frag (primary_block bundle))
      by (simpl; assumption).
    rewrite Hseq2, Ho2 in Hcase.
    destruct Hcase as [(-> & -> & -> & Hseq)|Hfail]; [left | right; exact Hfail].
    repeat split; [lia | assumption].
Qed.

(** With a positive max bundle length the loop returns, given fuel for the
    bytes that remain. *)
Lemma store_data_loop_total h t fuel :
  forall bundle st flags off,
  0 < maxlength bundle ->
  paysize (payload_block bundle) - off <= Z.of_nat fuel ->
  exists r, store_data_loop ops codec fuel bundle st h t flags off = Some r.
Proof.
  induction fuel as [|fuel IH]; intros bundle st flags off Hmax Hfuel.
  - simpl. replace (off <? paysize (payload_block bundle)) with false
      by (symmetry; apply Z.ltb_ge; lia).
    eexists. reflexivity.
  - cbn [store_data_loop].
    destruct (off <? paysize (payload_block bundle)) eqn:Hoff; [|eexists; reflexivity].
    apply Z.ltb_lt in Hoff.
    set (fragment_size := if maxlength bundle <? paysize (payload_block bundle) - off
                          then maxlength bundle else paysize (payload_block bundle) - off).
    assert (Hfs : 0 < fragment_size).
    { unfold fragment_size.
      destruct (maxlength bundle <? paysize (payload_block bundle) - off) eqn:E;
        [apply Z.ltb_lt in E | apply Z.ltb_ge in E]; lia. }
    pose proof (prepare_fragment_frame bundle off fragment_size flags) as Hp.
    destruct (prepare_fragment codec bundle off fragment_size flags) as [b1 f1].
    simpl in Hp. destruct Hp as (Ho & Hm & Hpb & Hif & Hcs & Hff).
    destruct (bplib_blk_pay_write codec (payload_block b1) <=? 0); [eexists; reflexivity|].
    destruct (enqueue ops st h _ t) as [st1 estatus].
    destruct (estatus <=? 0); [eexists; reflexivity|].
    apply IH.
    + simpl. rewrite Hm. exact Hmax.
    + simpl. rewrite Hpb. simpl. lia.
Qed.

(** What [store_data_bundle] does before its loop leaves the loop test, the
    fragmentation flag, the sequence counter and the fragment fields of the
    header alone. *)
Lemma store_data_bundle_run fuel sysnow bundle st h t flags status bundle' st' flags' :
  negb (is_frag (primary_block bundle)) && (maxlength bundle <? paysize (payload_block bundle))
  = false ->
  store_data_bundle ops codec fuel sysnow bundle st h t flags
  = Some (status, bundle', st', flags') ->
  exists objs st_mid end_off,
    enqueue_all ops st h t objs = Some st_mid /\
    concat (map obj_body objs) = fragment (payptr (payload_block bundle)) 0 end_off /\
    (0 < maxlength bundle ->
     frags_ok codec (is_frag (primary_block bundle)) (header (bundle_store bundle))
       (payptr (payload_block bundle)) (paysize (payload_block bundle)) (maxlength bundle)
       0 end_off objs) /\
    ((status = BP_SUCCESS /\ st' = st_mid /\
      end_off = Z.max 0 (paysize (payload_block bundle)) /\
      createseq (primary_block bundle')
      = (if originate bundle then u32 (createseq (primary_block bundle) + 1)
         else createseq (primary_block bundle))) \/
     (createseq (primary_block bundle') = createseq (primary_block bundle) /\
      end_off < paysize (payload_block bundle) /\
      let fs := if maxlength bundle <? paysize (payload_block bundle) - end_off
                then maxlength bundle else paysize (payload_block bundle) - end_off in
      ((status = BP_BUNDLEPARSEERR /\ st' = st_mid /\
        bplib_blk_pay_write codec
          (mk_pay fs (payptr (payload_block bundle)) (paysize (payload_block bundle))) <= 0) \/
       (exists ds,
          frag_fields codec (is_frag (primary_block bundle)) (header (bundle_store bundle))
            end_off (paysize (payload_block bundle)) ds /\
          enqueue ops st_mid h (BundleObj ds (fragment (payptr (payload_block bundle)) end_off fs))
            t = (st', status) /\
          status <= 0)))).
Proof.
  intros Hcheck. unfold store_data_bundle. rewrite Hcheck.
  destruct (originate bundle) eqn:Ho; cbv zeta; cbn iota beta; intros Hrun;
  match type of Hrun with
  | store_data_loop ops codec fuel ?b st h t ?f 0 = _ =>
      destruct (store_data_loop_run h t st
                  (is_frag (primary_block bundle)) (header (bundle_store bundle))
                  (payptr (payload_block bundle))
                  (paysize (payload_block bundle)) (maxlength bundle) fuel
                  b st f 0 [] status bundle' st' flags')
        as (objs & st_mid & e & Hall & Hcat & Hfr & Hcase);
        [reflexivity | reflexivity | reflexivity | reflexivity
        | intros _; simpl;
          destruct (negb (lifetime (primary_block bundle) =? 0)); split; reflexivity
        | reflexivity | reflexivity
        | intros _; split; [lia | reflexivity] | intros _; lia | exact Hrun |]
  end;
  exists objs, st_mid, e;
  (split; [exact Hall|]); (split; [exact Hcat|]); (split; [exact Hfr|]);
  simpl in Hcase; rewrite ?Ho in Hcase; exact Hcase.
Qed.

Lemma store_data_bundle_total fuel sysnow bundle st h t flags :
  0 < maxlength bundle ->
  paysize (payload_block bundle) <= Z.of_nat fuel ->
  exists r, store_data_bundle ops codec fuel sysnow bundle st h t flags = Some r.
Proof.
  intros Hmax Hfuel. unfold store_data_bundle.
  destruct (negb (is_frag (primary_block bundle))
            && (maxlength bundle <? paysize (payload_block bundle)));
    [eexists; reflexivity|].
  destruct (originate bundle); cbv zeta; cbn iota beta;
    apply store_data_loop_total; simpl; lia.
Qed.

(** C5, as amended.  If [store_data_bundle], which [bplib_store] runs on the
    channel's data bundle and the caller's payload, is called with a payload
    larger than the max bundle length while fragmentation is off, it fails
    with [BP_BUNDLETOOLARGE] and enqueues nothing.  Otherwise (the max bundle
    length being positive) it hands the storage service consecutive
    fragments of the payload, each of at most max bundle length payload
    bytes, up to the first one whose payload block cannot be written or that
    the storage service refuses; when it returns [BP_SUCCESS] they are the
    whole payload.  With fragmentation on, the fragment offset and the total
    payload length are written into each fragment (into 4-byte fields, which
    hold them when they are below [2 ^ 28] and [bplib_sdnv_write] raises no
    flag); with fragmentation off, the two fields are left as the header had
    them before the call. *)
Theorem store_fragments fuel sysnow bundle (st : St) handle timeout' storflags :
  let pri := primary_block bundle in
  let pay := payload_block bundle in
  (is_frag pri = false -> maxlength bundle < paysize pay ->
   store_data_bundle ops codec fuel sysnow bundle st handle timeout' storflags
   = Some (BP_BUNDLETOOLARGE, bundle, st, storflags)) /\
  (~ (is_frag pri = false /\ maxlength bundle < paysize pay) ->
   0 < maxlength bundle ->
   paysize pay <= Z.of_nat fuel ->
   exists status bundle' st' flags' objs st_mid end_off,
     store_data_bundle ops codec fuel sysnow bundle st handle timeout' storflags
     = Some (status, bundle', st', flags') /\
     enqueue_all ops st handle timeout' objs = Some st_mid /\
     frags_ok codec (is_frag pri) (header (bundle_store bundle)) (payptr pay) (paysize pay)
       (maxlength bundle) 0 end_off objs /\
     ((status = BP_SUCCESS /\ st' = st_mid /\ end_off = Z.max 0 (paysize pay) /\
       concat (map obj_body objs) = firstn (Z.to_nat (paysize pay)) (payptr pay)) \/
      (end_off < paysize pay /\
       let fs := if maxlength bundle <? paysize pay - end_off
                 then maxlength bundle else paysize pay - end_off in
       ((status = BP_BUNDLEPARSEERR /\ st' = st_mid /\
         bplib_blk_pay_write codec (mk_pay fs (payptr pay) (paysize pay)) <= 0) \/
        (exists ds,
           frag_fields codec (is_frag pri) (header (bundle_store bundle)) end_off
             (paysize pay) ds /\
           enqueue ops st_mid handle (BundleObj ds (fragment (payptr pay) end_off fs))
             timeout' = (st', status) /\
           status <= 0))))).
Proof.
  intros pri pay. subst pri pay. split.
  - intros Hfrag Hbig. unfold store_data_bundle. rewrite Hfrag. simpl.
    replace (maxlength bundle <? paysize (payload_block bundle)) with true
      by (symmetry; apply Z.ltb_lt; lia).
    reflexivity.
  - intros Hnot Hmax Hfuel.
    assert (Hcheck : negb (is_frag (primary_block bundle))
                     && (maxlength bundle <? paysize (payload_block bundle)) = false).
    { destruct (is_frag (primary_block bundle)); [reflexivity|].
      simpl. apply Z.ltb_ge.
      destruct (Z_lt_le_dec (maxlength bundle) (paysize (payload_block bundle))); [|lia].
      exfalso. apply Hnot. split; [reflexivity | assumption]. }
    destruct (store_data_bundle_total fuel sysnow bundle st handle timeout' storflags
                Hmax Hfuel) as ([[[status bundle'] st'] flags'] & Hrun).
    destruct (store_data_bundle_run fuel sysnow bundle st handle timeout' storflags
                status bundle' st' flags' Hcheck Hrun)
      as (objs & st_mid & e & Hall & Hcat & Hfr & Hcase).
    exists status, bundle', st', flags', objs, st_mid, e.
    split; [exact Hrun|]. split; [exact Hall|]. split; [exact (Hfr Hmax)|].
    destruct Hcase as [(-> & -> & -> & _)|(_ & Hlt & Hwhy)].
    + left. split; [reflexivity|]. split; [reflexivity|]. split; [reflexivity|].
      rewrite Hcat. unfold fragment. simpl.
      f_equal. lia.
    + right. split; [exact Hlt | exact Hwhy].
Qed.

(** C6, as amended.  When a storage enqueue does not succeed during
    [bplib_store] (it answers a status [<= 0]), the operation returns the
    status that this enqueue answered, [BP_FAILEDSTORE] when the storage
    service answered [BP_FAILEDSTORE], and the channel's creation sequence
    counter is left unchanged; the counter is advanced, by one, only when the
    storage service has accepted every fragment of the payload.  (The other
    ways in which the store fails attempt no further enqueue and leave the
    counter alone; the store returns whenever the max bundle length is
    positive.) *)
Theorem store_failure_keeps_sequence fuel sysnow (ch : bp_channel_t St) payload size
    timeout' storflags :
  (forall status ch' flags',
     bplib_store ops codec fuel sysnow ch payload size timeout' storflags
     = Some (status, ch', flags') ->
     exists objs st_mid end_off,
       enqueue_all ops (storage ch) (data_store_handle ch) timeout' objs = Some st_mid /\
       concat (map obj_body objs) = fragment payload 0 end_off /\
       ((status = BP_SUCCESS /\ storage ch' = st_mid /\
         concat (map obj_body objs) = firstn (Z.to_nat size) payload /\
         createseq (primary_block (data_bundle ch'))
         = u32 (createseq (primary_block (data_bundle ch)) + 1)) \/
        (createseq (primary_block (data_bundle ch'))
         = createseq (primary_block (data_bundle ch)) /\
         generated (stats ch') = generated (stats ch) /\
         ((exists ds fs,
             enqueue ops st_mid (data_store_handle ch)
               (BundleObj ds (fragment payload end_off fs)) timeout'
             = (storage ch', status) /\
             status <= 0) \/
          (storage ch' = st_mid /\
           ((status = BP_WRONGORIGINATION /\ originate (data_bundle ch) = false) \/
            (status = BP_BUNDLETOOLARGE /\
             is_frag (primary_block (data_bundle ch)) = false /\
             maxlength (data_bundle ch) < size) \/
            (status = BP_BUNDLEPARSEERR /\
             exists fs, bplib_blk_pay_write codec (mk_pay fs payload size) <= 0))))))) /\
  (0 < maxlength (data_bundle ch) -> size <= Z.of_nat fuel ->
   exists status ch' flags',
     bplib_store ops codec fuel sysnow ch payload size timeout' storflags
     = Some (status, ch', flags')).
Proof.
  split.
  - intros status ch' flags'. unfold bplib_store.
    destruct (originate (data_bundle ch)) eqn:Horig; simpl negb; cbn iota.
    2:{ intros [= <- <- <-]. exists [], (storage ch), 0. split; [reflexivity|].
        split; [reflexivity|].
        right. split; [reflexivity|]. split; [reflexivity|]. right.
        split; [reflexivity|]. left. split; reflexivity. }
    set (b := set_payload_block _ (data_bundle ch)).
    destruct (negb (is_frag (primary_block (data_bundle ch)))
              && (maxlength (data_bundle ch) <? size)) eqn:Hcheck.
    { unfold store_data_bundle. simpl. rewrite Hcheck. simpl.
      intros [= <- <- <-]. exists [], (storage ch), 0. split; [reflexivity|].
      split; [reflexivity|].
      right. split; [reflexivity|]. split; [reflexivity|]. right.
      split; [reflexivity|]. right. left.
      apply andb_true_iff in Hcheck as [H1 H2].
      apply negb_true_iff in H1. apply Z.ltb_lt in H2. repeat split; assumption. }
    destruct (store_data_bundle ops codec fuel sysnow b (storage ch) (data_store_handle ch)
                timeout' storflags) as [[[[s' b'] st2] f2]|] eqn:Hrun; [|discriminate].
    intros [= <- <- <-].
    destruct (store_data_bundle_run fuel sysnow b (storage ch) (data_store_handle ch)
                timeout' storflags s' b' st2 f2 Hcheck Hrun)
      as (objs & st_mid & e & Hall & Hcat & _ & Hcase).
    exists objs, st_mid, e. split; [exact Hall|].
    simpl in Hcat, Hcase. rewrite Horig in Hcase. split; [exact Hcat|].
    destruct Hcase as [(-> & -> & -> & Hseq)|(Hseq & Hlt & Hwhy)].
    + left. simpl. split; [reflexivity|]. split; [reflexivity|].
      split; [|exact Hseq]. rewrite Hcat. unfold fragment. simpl. f_equal. lia.
    + right.
      assert (Hs : s' <= 0).
      { destruct Hwhy as [(-> & _)|(ds & _ & _ & Hle)];
          [unfold BP_BUNDLEPARSEERR; lia | exact Hle]. }
      replace (s' =? BP_SUCCESS) with false
        by (symmetry; apply Z.eqb_neq; unfold BP_SUCCESS; lia).
      simpl. split; [exact Hseq|]. split; [reflexivity|].
      destruct Hwhy as [(-> & -> & Hw)|(ds & _ & Henq & Hle)].
      * right. split; [reflexivity|]. right. right. split; [reflexivity|].
        eexists. exact Hw.
      * left. eexists ds, _. split; [exact Henq | exact Hle].
  - intros Hmax Hfuel. unfold bplib_store.
    destruct (originate (data_bundle ch)); simpl negb; cbn iota;
      [|do 3 eexists; reflexivity].
    match goal with
    | |- context [store_data_bundle ops codec fuel sysnow ?b ?st ?h ?t ?f] =>
        destruct (store_data_bundle_total fuel sysnow b st h t f)
          as ([[[s' b'] st2] f2] & Hrun)
    end.
    { exact Hmax. } { simpl. exact Hfuel. }
    rewrite Hrun. do 3 eexists. reflexivity.
Qed.

Lemma land_lor_same a b : Z.land (Z.lor a b) b = b.
Proof.
  apply Z.bits_inj'. intros n Hn. rewrite Z.land_spec, Z.lor_spec.
  destruct (Z.testbit a n), (Z.testbit b n); reflexivity.
Qed.

Lemma has_flag_set flags f : f <> 0 -> has_flag (set_flag flags f) f = true.
Proof.
  intros Hf. unfold has_flag, set_flag. rewrite land_lor_same.
  apply negb_true_iff, Z.eqb_neq. assumption.
Qed.

Lemma initialize_dacs_bundle_frame d n s :
  let d' := snd (initialize_dacs_bundle codec d n s) in
  tree d' = tree d /\ delivered d' = delivered d /\ last_dacs d' = last_dacs d.
Proof.
  unfold initialize_dacs_bundle.
  destruct (integrity_check (dacs_primary_block d)); simpl; repeat split.
Qed.

Lemma nth_insert_same {A} (l : list A) i x dflt :
  (i < length l)%nat -> nth i (<[i := x]> l) dflt = x.
Proof.
  revert i. induction l as [|y l IH]; intros [|i]; simpl; try lia; [reflexivity|].
  intros H. apply IH. lia.
Qed.

Lemma nth_insert_other {A} (l : list A) i j x dflt :
  i <> j -> nth j (<[i := x]> l) dflt = nth j l dflt.
Proof.
  revert i j. induction l as [|y l IH]; intros [|i] [|j] Hne; simpl; try reflexivity;
    try congruence.
  apply IH. congruence.
Qed.

(** [bplib_open] leaves the DACS table in order. *)
Lemma open_dacs_table_ok st ln ls dn ds attr st' (ch : bp_channel_t St) :
  bplib_open ops codec st ln ls dn ds attr = (st', Some ch) ->
  dacs_table_ok ch /\ num_dacs ch = 0.
Proof.
  unfold bplib_open.
  destruct (create ops st) as [st1 h1]. destruct (create ops st1) as [st2 h2].
  destruct (create ops st2) as [st3 h3].
  destruct ((h1 <? 0) || (h2 <? 0) || (h3 <? 0)); [discriminate|].
  intros [= _ <-]. unfold dacs_table_ok, dacs_at. cbn.
  set (mcd := match attr with
              | Some a => if 0 <? max_concurrent_dacs a then max_concurrent_dacs a
                          else BP_DEFAULT_MAX_CONCURRENT_DACS
              | None => BP_DEFAULT_MAX_CONCURRENT_DACS
              end).
  set (mts := match attr with
              | Some a => if 0 <? max_tree_size a then max_tree_size a
                          else BP_DEFAULT_MAX_TREE_SIZE
              | None => BP_DEFAULT_MAX_TREE_SIZE
              end).
  assert (Hmcd : 0 < mcd).
  { unfold mcd. destruct attr as [a|]; [|reflexivity].
    destruct (0 <? max_concurrent_dacs a) eqn:E; [apply Z.ltb_lt in E; lia | reflexivity]. }
  assert (Hmts : 0 < mts).
  { unfold mts. destruct attr as [a|]; [|reflexivity].
    destruct (0 <? max_tree_size a) eqn:E; [apply Z.ltb_lt in E; lia | reflexivity]. }
  rewrite length_replicate. split; [|reflexivity].
  split; [lia|]. split; [lia|].
  assert (Hnth : forall i, (i < Z.to_nat mcd)%nat ->
                 nth i (replicate (Z.to_nat mcd) (open_dacs_bundle ln ls mts)) dacs_zero
                 = open_dacs_bundle ln ls mts).
  { intros i Hi. apply nth_lookup_Some. apply lookup_replicate. split; [reflexivity | lia]. }
  split; intros i Hi; rewrite Hnth by lia; [exact Hmts | reflexivity].
Qed.

(** What [initialize_dacs_bundle] leaves in the entry: its primary block
    with the given destination, and a header that was written from the
    primary block and then patched with the destination, with the payload
    block after the primary and integrity blocks. *)
Lemma initialize_dacs_bundle_spec d n s :
  let d' := snd (initialize_dacs_bundle codec d n s) in
  let pri := dacs_primary_block d in
  dacs_primary_block d' = set_dstserv s (set_dstnode n pri) /\
  hdr_pri (header (dacs_bundle_store d'))
  = set_dstserv (sdnv_put codec F_dstserv s)
      (set_dstnode (sdnv_put codec F_dstnode n) (pri_put codec pri)) /\
  payoffset (dacs_bundle_store d')
  = (if integrity_check pri
     then bplib_blk_bib_write codec (dacs_integrity_block d) + bplib_blk_pri_write codec pri
     else bplib_blk_pri_write codec pri) /\
  headersize (dacs_bundle_store d')
  = bplib_blk_pay_write codec (dacs_payload_block d) + payoffset (dacs_bundle_store d') /\
  last_dacs d' = last_dacs d.
Proof.
  unfold initialize_dacs_bundle.
  destruct (integrity_check (dacs_primary_block d)); simpl; repeat split.
Qed.

Lemma find_dacs_entry_unmatched l cteb i :
  Forall (fun d => dacs_cstnode d <> cteb_cstnode cteb \/ dacs_cstserv d <> cteb_cstserv cteb)
    l ->
  find_dacs_entry l cteb i = None.
Proof.
  intros H. revert i. induction H as [|d l Hd _ IH]; intros i; cbn [find_dacs_entry];
    [reflexivity|].
  replace ((dacs_cstnode d =? cteb_cstnode cteb) && (dacs_cstserv d =? cteb_cstserv cteb))
    with false; [apply IH|].
  symmetry. apply andb_false_iff. destruct Hd as [Hd|Hd]; [left | right];
    apply Z.eqb_neq; exact Hd.
Qed.

(** C8.  On a custody event whose remote custodian matches no open DACS
    accumulator: if fewer than [max_concurrent_dacs] accumulators are open, a
    new accumulator is created for that custodian in the next entry of the
    table: the entry is marked with the custodian and with the event's
    delivered flag, its DACS bundle is initialised with the custodian as
    destination (in the entry's primary block, and in the stored header
    written from it, whose 4- and 2-byte destination fields hold the node
    and service numbers that fit them), and the custody id is inserted into
    its tree, which held nothing.  Otherwise the [BP_FLAG_TOOMANYSOURCES]
    flag is set and the update returns [BP_FAILEDRESPONSE] with the channel,
    and so every accumulator, as it was. *)
Theorem update_dacs_without_match fuel sysnow (ch : bp_channel_t St) cteb delivered'
    timeout' dacsflags :
  dacs_table_ok ch ->
  Forall (fun d => dacs_cstnode d <> cteb_cstnode cteb \/ dacs_cstserv d <> cteb_cstserv cteb)
    (firstn (Z.to_nat (num_dacs ch)) (dacs_bundle ch)) ->
  (num_dacs ch < max_concurrent_dacs (attributes ch) ->
   let d0 := dacs_at ch (Z.to_nat (num_dacs ch)) in
   exists ch' d,
     update_dacs_bundle ops codec fuel sysnow ch cteb delivered' timeout' dacsflags
     = Some (BP_SUCCESS, ch', dacsflags) /\
     num_dacs ch' = num_dacs ch + 1 /\
     dacs_bundle ch' = <[Z.to_nat (num_dacs ch) := d]> (dacs_bundle ch) /\
     dacs_cstnode d = cteb_cstnode cteb /\ dacs_cstserv d = cteb_cstserv cteb /\
     delivered d = delivered' /\
     rb_nodes (tree d) = [cteb_cid cteb] /\
     dacs_primary_block d
     = set_dstserv (cteb_cstserv cteb) (set_dstnode (cteb_cstnode cteb)
         (dacs_primary_block d0)) /\
     hdr_pri (header (dacs_bundle_store d))
     = set_dstserv (sdnv_put codec F_dstserv (cteb_cstserv cteb))
         (set_dstnode (sdnv_put codec F_dstnode (cteb_cstnode cteb))
            (pri_put codec (dacs_primary_block d0))) /\
     payoffset (dacs_bundle_store d)
     = (if integrity_check (dacs_primary_block d0)
        then bplib_blk_bib_write codec (dacs_integrity_block d0)
             + bplib_blk_pri_write codec (dacs_primary_block d0)
        else bplib_blk_pri_write codec (dacs_primary_block d0)) /\
     headersize (dacs_bundle_store d)
     = bplib_blk_pay_write codec (dacs_payload_block d0) + payoffset (dacs_bundle_store d) /\
     last_dacs d = last_dacs d0 /\
     storage ch' = storage ch) /\
  (max_concurrent_dacs (attributes ch) <= num_dacs ch ->
   update_dacs_bundle ops codec fuel sysnow ch cteb delivered' timeout' dacsflags
   = Some (BP_FAILEDRESPONSE, ch, set_flag dacsflags BP_FLAG_TOOMANYSOURCES) /\
   has_flag (set_flag dacsflags BP_FLAG_TOOMANYSOURCES) BP_FLAG_TOOMANYSOURCES = true).
Proof.
  intros (Hpos & Hsize & Hroomy & Hfresh) Hnone.
  pose proof (find_dacs_entry_unmatched _ cteb 0%nat Hnone) as Hfind.
  unfold update_dacs_bundle. rewrite Hfind.
  split.
  - intros Hroom. cbv zeta.
    replace (num_dacs ch <? max_concurrent_dacs (attributes ch)) with true
      by (symmetry; apply Z.ltb_lt; lia).
    set (n := Z.to_nat (num_dacs ch)) in *.
    assert (Hlen : (n < length (dacs_bundle ch))%nat) by (unfold n; lia).
    pose proof (Hfresh n ltac:(lia)) as Hempty.
    pose proof (Hroomy n Hlen) as Hcap.
    change (dacs_at (set_num_dacs (num_dacs ch + 1) ch) n) with (dacs_at ch n).
    set (d0 := dacs_at ch n) in *.
    pose proof (initialize_dacs_bundle_frame d0 (cteb_cstnode cteb) (cteb_cstserv cteb))
      as Hinit.
    pose proof (initialize_dacs_bundle_spec d0 (cteb_cstnode cteb) (cteb_cstserv cteb))
      as Hspec.
    destruct (initialize_dacs_bundle codec d0 (cteb_cstnode cteb) (cteb_cstserv cteb))
      as [s0 d1].
    simpl in Hinit, Hspec. destruct Hinit as (Htree & _ & _).
    destruct Hspec as (Hpri & Hhdr & Hpay & Hsize' & Hlast).
    unfold populate_dacs, dacs_at. cbn [dacs_bundle set_dacs_bundle].
    rewrite nth_insert_same by assumption.
    cbn [delivered set_delivered]. rewrite Bool.eqb_reflx. cbn [negb].
    unfold try_dacs_insert, rb_tree_insert.
    cbn [tree set_delivered set_dacs_cstserv set_dacs_cstnode].
    rewrite Htree, Hempty. cbn [existsb length].
    replace (rb_max_size (tree d0) <=? Z.of_nat 0) with false
      by (symmetry; apply Z.leb_gt; simpl; lia).
    cbn. rewrite list_insert_insert_eq.
    eexists. eexists. split; [reflexivity|]. simpl.
    split; [reflexivity|]. split; [reflexivity|]. split; [reflexivity|].
    split; [reflexivity|]. split; [reflexivity|]. split; [reflexivity|].
    split; [exact Hpri|]. split; [exact Hhdr|]. split; [exact Hpay|].
    split; [exact Hsize'|]. split; [exact Hlast | reflexivity].
  - intros Hfull.
    replace (num_dacs ch <? max_concurrent_dacs (attributes ch)) with false
      by (symmetry; apply Z.ltb_ge; lia).
    split; [reflexivity|]. apply has_flag_set. discriminate.
Qed.

Lemma find_dacs_entry_shift l cteb k :
  find_dacs_entry l cteb k = (fun r => (k + r)%nat) <$> find_dacs_entry l cteb 0%nat.
Proof.
  revert k. induction l as [|d l IH]; intros k; simpl; [reflexivity|].
  destruct ((dacs_cstnode d =? cteb_cstnode cteb) && (dacs_cstserv d =? cteb_cstserv cteb)).
  - simpl. f_equal. lia.
  - rewrite (IH (Datatypes.S k)), (IH 1%nat).
    destruct (find_dacs_entry l cteb 0) as [r|]; simpl; [f_equal; lia | reflexivity].
Qed.

Lemma find_dacs_entry_Some l cteb i :
  find_dacs_entry l cteb 0 = Some i ->
  (i < length l)%nat /\
  dacs_cstnode (nth i l dacs_zero) = cteb_cstnode cteb /\
  dacs_cstserv (nth i l dacs_zero) = cteb_cstserv cteb.
Proof.
  revert i. induction l as [|d l IH]; intros i; simpl; [discriminate|].
  destruct ((dacs_cstnode d =? cteb_cstnode cteb) && (dacs_cstserv d =? cteb_cstserv cteb))
    eqn:E.
  - intros [= <-]. apply andb_true_iff in E as [E1 E2].
    apply Z.eqb_eq in E1, E2. split; [lia|]. split; assumption.
  - rewrite find_dacs_entry_shift.
    destruct (find_dacs_entry l cteb 0) as [r|]; simpl; [|discriminate].
    intros [= <-]. destruct (IH r eq_refl) as (H1 & H2 & H3).
    split; [lia|]. split; assumption.
Qed.

Lemma find_dacs_entry_insert l cteb i d' :
  find_dacs_entry l cteb 0 = Some i ->
  dacs_cstnode d' = cteb_cstnode cteb -> dacs_cstserv d' = cteb_cstserv cteb ->
  find_dacs_entry (<[i := d']> l) cteb 0 = Some i.
Proof.
  intros Hfind Hn Hs. revert i Hfind.
  induction l as [|d l IH]; intros i; simpl; [discriminate|].
  destruct ((dacs_cstnode d =? cteb_cstnode cteb) && (dacs_cstserv d =? cteb_cstserv cteb))
    eqn:E.
  - intros [= <-]. simpl. rewrite Hn, Hs, !Z.eqb_refl. reflexivity.
  - rewrite find_dacs_entry_shift.
    destruct (find_dacs_entry l cteb 0) as [r|] eqn:Er; simpl; [|discriminate].
    intros [= <-]. simpl. rewrite E, find_dacs_entry_shift, (IH r eq_refl). reflexivity.
Qed.

Lemma find_dacs_entry_new l cteb n d' :
  find_dacs_entry (take n l) cteb 0 = None ->
  (n < length l)%nat ->
  dacs_cstnode d' = cteb_cstnode cteb -> dacs_cstserv d' = cteb_cstserv cteb ->
  find_dacs_entry (take (Datatypes.S n) (<[n := d']> l)) cteb 0 = Some n.
Proof.
  intros Hfind Hlen Hn Hs. revert n Hfind Hlen.
  induction l as [|d l IH]; intros n Hfind Hlen; simpl in *; [lia|].
  destruct n as [|n]; simpl in *.
  - rewrite Hn, Hs, !Z.eqb_refl. reflexivity.
  - destruct ((dacs_cstnode d =? cteb_cstnode cteb) && (dacs_cstserv d =? cteb_cstserv cteb));
      [discriminate|].
    rewrite find_dacs_entry_shift in Hfind. rewrite find_dacs_entry_shift.
    destruct (find_dacs_entry (take n l) cteb 0) as [r|] eqn:Er; [discriminate|].
    assert (Hl : (n < length l)%nat) by lia. pose proof (IH n Er Hl) as IHn. simpl in IHn. rewrite IHn. reflexivity.
Qed.

Lemma in_insert_sorted v l : In v (insert_sorted v l).
Proof.
  induction l as [|x l IH]; simpl; [left; reflexivity|].
  destruct (v <? x); [left; reflexivity | right; exact IH].
Qed.

Lemma existsb_eqb_In v l : existsb (Z.eqb v) l = true <-> In v l.
Proof.
  rewrite existsb_exists. split.
  - intros (x & Hin & E). apply Z.eqb_eq in E. subst. exact Hin.
  - intros Hin. exists v. split; [exact Hin | apply Z.eqb_refl].
Qed.

Lemma set_tree_same d : set_tree (tree d) d = d.
Proof. destruct d; reflexivity. Qed.

(** A custody id that is already in the tree is refused as a duplicate and
    the accumulator is left as it was. *)
Lemma try_dacs_insert_duplicate v d flags :
  In v (rb_nodes (tree d)) ->
  try_dacs_insert v d flags = (false, d, set_flag flags BP_FLAG_DUPLICATES).
Proof.
  intros Hin. unfold try_dacs_insert, rb_tree_insert.
  apply existsb_eqb_In in Hin. rewrite Hin, set_tree_same. reflexivity.
Qed.

(** What [try_dacs_insert] leaves behind: either the id is in the tree, or
    the tree was full and is unchanged. *)
Lemma try_dacs_insert_post v d flags :
  exists b t' flags',
    try_dacs_insert v d flags = (b, set_tree t' d, flags') /\
    rb_max_size t' = rb_max_size (tree d) /\
    (if b then t' = tree d /\ rb_max_size (tree d) <= Z.of_nat (length (rb_nodes (tree d)))
     else In v (rb_nodes t')).
Proof.
  unfold try_dacs_insert, rb_tree_insert.
  destruct (existsb (Z.eqb v) (rb_nodes (tree d))) eqn:E.
  - exists false, (tree d). eexists. split; [reflexivity|]. split; [reflexivity|].
    apply existsb_eqb_In. exact E.
  - destruct (rb_max_size (tree d) <=? Z.of_nat (length (rb_nodes (tree d)))) eqn:Ef.
    + exists true, (tree d). eexists. split; [reflexivity|]. split; [reflexivity|].
      split; [reflexivity | apply Z.leb_le; exact Ef].
    + exists false. eexists. eexists. split; [reflexivity|]. split; [reflexivity|].
      simpl. apply in_insert_sorted.
Qed.

(** The loop of [store_dacs_bundles] ends when every pass takes at least one
    id out of the tree, and it leaves the tree empty. *)
Lemma store_dacs_loop_total fuel max_fills handle sysnow timeout' :
  1 <= max_fills ->
  forall dacs st flags hf ef,
    (length (rb_nodes (tree dacs)) <= fuel)%nat ->
    exists dacs' st' flags' hf' ef',
      store_dacs_loop ops codec fuel max_fills handle sysnow timeout' dacs st flags hf ef
      = Some (dacs', st', flags', hf', ef') /\
      rb_nodes (tree dacs') = [] /\
      rb_max_size (tree dacs') = rb_max_size (tree dacs) /\
      dacs_cstnode dacs' = dacs_cstnode dacs /\
      dacs_cstserv dacs' = dacs_cstserv dacs.
Proof.
  intros Hfills. induction fuel as [|fuel IH]; intros dacs st flags hf ef Hlen.
  - destruct (rb_nodes (tree dacs)) as [|x l] eqn:E; [|simpl in Hlen; lia].
    simpl. unfold rb_tree_is_empty. rewrite E.
    exists dacs, st, flags, hf, ef. repeat split. exact E.
  - destruct (rb_nodes (tree dacs)) as [|x l] eqn:E.
    + simpl. unfold rb_tree_is_empty. rewrite E.
      exists dacs, st, flags, hf, ef. repeat split. exact E.
    + cbn [store_dacs_loop]. unfold rb_tree_is_empty. rewrite E.
      unfold bplib_rec_acs_write. cbv zeta.
      match goal with |- context [enqueue ops st handle ?o timeout'] =>
        destruct (enqueue ops st handle o timeout') as [st1 enstat] end.
      assert (Hshort : (length (skipn (Z.to_nat max_fills) (rb_nodes (tree dacs))) <= fuel)%nat).
      { rewrite length_skipn, E. simpl in *. lia. }
      destruct (enstat <=? 0).
      * match goal with |- context [store_dacs_loop ops codec fuel _ _ _ _ ?d ?s ?f ?h ?e] =>
          destruct (IH d s f h e) as (d' & st' & f' & hf' & ef' & Hrun & H1 & H2 & H3 & H4);
            [exact Hshort|]
        end.
        exists d', st', f', hf', ef'. split; [exact Hrun|]. repeat split; assumption.
      * match goal with |- context [store_dacs_loop ops codec fuel _ _ _ _ ?d ?s ?f ?h ?e] =>
          destruct (IH d s f h e) as (d' & st' & f' & hf' & ef' & Hrun & H1 & H2 & H3 & H4);
            [exact Hshort|]
        end.
        exists d', st', f', hf', ef'. split; [exact Hrun|]. repeat split; assumption.
Qed.

Lemma store_dacs_bundles_total fuel max_fills handle sysnow timeout' dacs st flags :
  1 <= max_fills ->
  (length (rb_nodes (tree dacs)) <= fuel)%nat ->
  exists s dacs' st' flags',
    store_dacs_bundles ops codec fuel max_fills handle sysnow timeout' dacs st flags
    = Some (s, dacs', st', flags') /\
    rb_nodes (tree dacs') = [] /\
    rb_max_size (tree dacs') = rb_max_size (tree dacs) /\
    dacs_cstnode dacs' = dacs_cstnode dacs /\
    dacs_cstserv dacs' = dacs_cstserv dacs.
Proof.
  intros Hfills Hlen. unfold store_dacs_bundles.
  destruct (store_dacs_loop_total fuel max_fills handle sysnow timeout' Hfills dacs st flags
              false 0 Hlen) as (d' & st' & f' & hf' & ef' & Hrun & H).
  rewrite Hrun. destruct hf'; eexists; eexists; eexists; eexists; (split; [reflexivity | exact H]).
Qed.


Lemma try_dacs_insert_empty v d flags :
  rb_nodes (tree d) = [] -> 0 < rb_max_size (tree d) ->
  try_dacs_insert v d flags = (false, set_tree (mk_tree [v] (rb_max_size (tree d))) d, flags).
Proof.
  intros He Hm. unfold try_dacs_insert, rb_tree_insert. rewrite He. cbn [existsb length].
  replace (rb_max_size (tree d) <=? Z.of_nat 0) with false
    by (symmetry; apply Z.leb_gt; simpl; lia).
  reflexivity.
Qed.

Lemma nth_take {A} (l : list A) n i dflt :
  (i < n)%nat -> nth i (take n l) dflt = nth i l dflt.
Proof.
  revert n i. induction l as [|x l IH]; intros [|n] [|i] H; simpl; try reflexivity; try lia.
  apply IH. lia.
Qed.

Lemma insert_nth_same {A} (l : list A) i dflt : <[i := nth i l dflt]> l = l.
Proof.
  revert i. induction l as [|x l IH]; intros [|i]; simpl; try reflexivity.
  unfold insert in *. simpl. f_equal. apply IH.
Qed.

(** The part of [update_dacs_bundle] under [if(dacs != NULL)] always ends
    with the custody id in the tree of the entry, which then carries the
    event's delivered flag. *)
Lemma populate_dacs_post fuel sysnow (ch : bp_channel_t St) i cteb delivered' timeout' flags :
  (i < length (dacs_bundle ch))%nat ->
  0 < rb_max_size (tree (dacs_at ch i)) ->
  1 <= max_fills_per_dacs (attributes ch) ->
  (length (rb_nodes (tree (dacs_at ch i))) <= fuel)%nat ->
  exists ch' flags' d',
    populate_dacs ops codec fuel sysnow ch i cteb delivered' timeout' flags
    = Some (ch', flags') /\
    dacs_bundle ch' = <[i := d']> (dacs_bundle ch) /\
    dacs_cstnode d' = dacs_cstnode (dacs_at ch i) /\
    dacs_cstserv d' = dacs_cstserv (dacs_at ch i) /\
    delivered d' = delivered' /\
    In (cteb_cid cteb) (rb_nodes (tree d')) /\
    rb_max_size (tree d') = rb_max_size (tree (dacs_at ch i)) /\
    num_dacs ch' = num_dacs ch /\
    same_station ch ch'.
Proof.
  intros Hi Hroom Hfills Hfuel. unfold populate_dacs.
  set (d := dacs_at ch i) in *.
  assert (Hflush : forall d0 f0,
             tree d0 = tree d -> dacs_cstnode d0 = dacs_cstnode d ->
             dacs_cstserv d0 = dacs_cstserv d ->
             exists ch' flags' d',
               match store_dacs_bundles ops codec fuel (max_fills_per_dacs (attributes ch))
                       (dacs_store_handle ch) sysnow timeout' d0 (storage ch) f0 with
               | None => None
               | Some (_, dacs, st, dacsflags) =>
                   let dacs := set_delivered delivered' dacs in
                   let '(_, dacs, dacsflags) :=
                     try_dacs_insert (cteb_cid cteb) dacs dacsflags in
                   Some (set_storage st (set_dacs_bundle (<[i := dacs]> (dacs_bundle ch)) ch),
                         dacsflags)
               end = Some (ch', flags') /\
               dacs_bundle ch' = <[i := d']> (dacs_bundle ch) /\
               dacs_cstnode d' = dacs_cstnode d /\
               dacs_cstserv d' = dacs_cstserv d /\
               delivered d' = delivered' /\
               In (cteb_cid cteb) (rb_nodes (tree d')) /\
               rb_max_size (tree d') = rb_max_size (tree d) /\
               num_dacs ch' = num_dacs ch /\
               same_station ch ch').
  { intros d0 f0 Ht Hn Hs.
    destruct (store_dacs_bundles_total fuel (max_fills_per_dacs (attributes ch))
                (dacs_store_handle ch) sysnow timeout' d0 (storage ch) f0 Hfills)
      as (s & d1 & st1 & f1 & Hrun & Hempty & Hmax & Hn1 & Hs1).
    { rewrite Ht. exact Hfuel. }
    rewrite Hrun. cbv zeta.
    rewrite try_dacs_insert_empty;
      [|cbn [tree set_delivered]; exact Hempty
       |cbn [tree set_delivered]; rewrite Hmax, Ht; exact Hroom].
    eexists. eexists. eexists. split; [reflexivity|].
    cbn [dacs_bundle set_dacs_bundle set_storage num_dacs].
    split; [reflexivity|]. cbn.
    split; [congruence|]. split; [congruence|]. split; [reflexivity|].
    split; [left; reflexivity|]. split; [congruence|]. split; [reflexivity|].
    repeat split. }
  destruct (negb (Bool.eqb (delivered d) delivered')) eqn:Emixed.
  - apply Hflush; reflexivity.
  - destruct (try_dacs_insert_post (cteb_cid cteb) d flags) as (b & t' & f' & Htry & Hmax & Hb).
    rewrite Htry. destruct b.
    + destruct Hb as [-> _]. rewrite set_tree_same. apply Hflush; reflexivity.
    + eexists. eexists. eexists. split; [reflexivity|].
      cbn. repeat split; try reflexivity; [|exact Hb|exact Hmax].
      apply negb_false_iff, Bool.eqb_prop in Emixed. exact Emixed.
Qed.

(** When the custodian has an accumulator or there is room for one,
    [update_dacs_bundle] succeeds and leaves the custody id in the
    accumulator of the custodian, and the table in order. *)
Lemma update_dacs_post fuel sysnow (ch : bp_channel_t St) cteb delivered' timeout' flags :
  dacs_table_ok ch ->
  (find_dacs_entry (take (Z.to_nat (num_dacs ch)) (dacs_bundle ch)) cteb 0 <> None \/
   num_dacs ch < max_concurrent_dacs (attributes ch)) ->
  1 <= max_fills_per_dacs (attributes ch) ->
  Forall (fun d => (length (rb_nodes (tree d)) <= fuel)%nat) (dacs_bundle ch) ->
  exists ch' flags' i,
    update_dacs_bundle ops codec fuel sysnow ch cteb delivered' timeout' flags
    = Some (BP_SUCCESS, ch', flags') /\
    find_dacs_entry (take (Z.to_nat (num_dacs ch')) (dacs_bundle ch')) cteb 0 = Some i /\
    delivered (dacs_at ch' i) = delivered' /\
    In (cteb_cid cteb) (rb_nodes (tree (dacs_at ch' i))) /\
    same_station ch ch' /\
    dacs_table_ok ch'.
Proof.
  intros (Hpos & Hsize & Hroomy & Hfresh) Havail Hfills Hfuel.
  unfold update_dacs_bundle.
  destruct (find_dacs_entry (take (Z.to_nat (num_dacs ch)) (dacs_bundle ch)) cteb 0)
    as [i|] eqn:Hfind.
  - destruct (find_dacs_entry_Some _ _ _ Hfind) as (Hi & Hn & Hs).
    rewrite length_take in Hi.
    rewrite nth_take in Hn, Hs by lia.
    assert (Hil : (i < length (dacs_bundle ch))%nat) by lia.
    destruct (populate_dacs_post fuel sysnow ch i cteb delivered' timeout' flags Hil)
      as (ch' & f' & d' & Hrun & Hd & Hn' & Hs' & Hdel & Hin & Hmax & Hnum & Hsame);
      [apply Hroomy; exact Hil | exact Hfills | |].
    { unfold dacs_at.
      apply (proj1 (Forall_nth (fun d => (length (rb_nodes (tree d)) <= fuel)%nat)
                      dacs_zero (dacs_bundle ch)) Hfuel i Hil). }
    rewrite Hrun. exists ch', f', i. split; [reflexivity|].
    unfold dacs_table_ok, dacs_at. rewrite Hnum, Hd, nth_insert_same by exact Hil.
    split; [|split; [exact Hdel | split; [exact Hin | split; [exact Hsame|]]]].
    + rewrite take_insert_lt by lia.
      apply find_dacs_entry_insert; [exact Hfind | |]; unfold dacs_at in *; congruence.
    + destruct Hsame as (Hattr & _). rewrite Hattr, length_insert.
      split; [exact Hpos|]. split; [exact Hsize|]. split.
      * intros j Hj. destruct (Nat.eq_dec i j) as [<-|Hne].
        -- rewrite nth_insert_same by exact Hil. rewrite Hmax. apply Hroomy. exact Hil.
        -- rewrite nth_insert_other by exact Hne. apply Hroomy. exact Hj.
      * intros j Hj. rewrite nth_insert_other by lia. apply Hfresh. exact Hj.
  - destruct Havail as [Hx|Hroom]; [congruence|].
    replace (num_dacs ch <? max_concurrent_dacs (attributes ch)) with true
      by (symmetry; apply Z.ltb_lt; lia).
    set (n := Z.to_nat (num_dacs ch)) in *.
    assert (Hlen : (n < length (dacs_bundle ch))%nat) by (unfold n; lia).
    pose proof (Hfresh n ltac:(lia)) as Hempty.
    pose proof (Hroomy n Hlen) as Hcap.
    pose proof (initialize_dacs_bundle_frame
                  (dacs_at (set_num_dacs (num_dacs ch + 1) ch) n)
                  (cteb_cstnode cteb) (cteb_cstserv cteb)) as Hinit.
    destruct (initialize_dacs_bundle codec (dacs_at (set_num_dacs (num_dacs ch + 1) ch) n)
                (cteb_cstnode cteb) (cteb_cstserv cteb)) as [s0 d0].
    simpl in Hinit. destruct Hinit as (Htree & _ & _).
    change (dacs_at (set_num_dacs (num_dacs ch + 1) ch) n) with (dacs_at ch n) in Htree.
    match goal with
    | |- context [populate_dacs ops codec fuel sysnow ?c n cteb delivered' timeout' flags] =>
        destruct (populate_dacs_post fuel sysnow c n cteb delivered' timeout' flags)
          as (ch' & f' & d' & Hrun & Hd & Hn' & Hs' & Hdel & Hin & Hmax & Hnum & Hsame)
    end.
    { cbn [dacs_bundle set_dacs_bundle set_num_dacs]. rewrite length_insert. exact Hlen. }
    { unfold dacs_at. cbn [dacs_bundle set_dacs_bundle set_num_dacs].
      rewrite nth_insert_same by exact Hlen. cbn. rewrite Htree. exact Hcap. }
    { exact Hfills. }
    { unfold dacs_at. cbn [dacs_bundle set_dacs_bundle set_num_dacs].
      rewrite nth_insert_same by exact Hlen. cbn. rewrite Htree, Hempty. simpl. lia. }
    rewrite Hrun. exists ch', f', n. split; [reflexivity|].
    cbn [dacs_bundle set_dacs_bundle set_num_dacs num_dacs] in Hd, Hnum.
    rewrite list_insert_insert_eq in Hd.
    unfold dacs_at in Hn', Hs', Hmax.
    cbn [dacs_bundle set_dacs_bundle set_num_dacs] in Hn', Hs', Hmax.
    rewrite nth_insert_same in Hn', Hs', Hmax by exact Hlen. cbn in Hn', Hs', Hmax.
    assert (Hsn : Z.to_nat (num_dacs ch') = Datatypes.S n).
    { rewrite Hnum. cbn. unfold n. lia. }
    unfold dacs_table_ok, dacs_at. rewrite Hsn, Hd, nth_insert_same by exact Hlen.
    split; [|split; [exact Hdel | split; [exact Hin | split; [exact Hsame|]]]].
    + apply find_dacs_entry_new; assumption.
    + destruct Hsame as (Hattr & _).
      cbn [attributes set_dacs_bundle set_num_dacs] in Hattr.
      rewrite Hattr, length_insert, Hnum.
      split; [lia|]. split; [exact Hsize|]. split.
      * intros j Hj. destruct (Nat.eq_dec n j) as [<-|Hne].
        -- rewrite nth_insert_same by exact Hlen. rewrite Hmax, Htree. exact Hcap.
        -- rewrite nth_insert_other by exact Hne. apply Hroomy. exact Hj.
      * intros j Hj. rewrite nth_insert_other by lia. apply Hfresh. lia.
Qed.

(** A custody id that the accumulator of its custodian already holds, with
    the same delivered flag, is flagged as a duplicate; the accumulators and
    the storage service are left as they are. *)
Lemma update_dacs_duplicate fuel sysnow (ch : bp_channel_t St) cteb i delivered' timeout'
    flags :
  find_dacs_entry (take (Z.to_nat (num_dacs ch)) (dacs_bundle ch)) cteb 0 = Some i ->
  delivered (dacs_at ch i) = delivered' ->
  In (cteb_cid cteb) (rb_nodes (tree (dacs_at ch i))) ->
  exists ch',
    update_dacs_bundle ops codec fuel sysnow ch cteb delivered' timeout' flags
    = Some (BP_SUCCESS, ch', set_flag flags BP_FLAG_DUPLICATES) /\
    dacs_bundle ch' = dacs_bundle ch /\
    num_dacs ch' = num_dacs ch /\
    storage ch' = storage ch /\
    stats ch' = stats ch /\
    data_bundle ch' = data_bundle ch.
Proof.
  intros Hfind Hdel Hin. unfold update_dacs_bundle. rewrite Hfind.
  unfold populate_dacs. rewrite Hdel, Bool.eqb_reflx. cbn [negb].
  rewrite try_dacs_insert_duplicate by exact Hin.
  eexists. split; [reflexivity|]. cbn. unfold dacs_at. rewrite insert_nth_same.
  repeat split.
Qed.


(** The block loop of [bplib_process] is [scan_blocks], followed by
    "Process Payload" when it reaches a payload block. *)
Lemma process_blocks_scan fuel sysnow (ch : bp_channel_t St) size pri timeout' blocks :
  forall cp cteb bp bib excl index status flags,
  process_blocks ops codec fuel sysnow ch size pri blocks cp cteb bp bib excl index status
    timeout' flags
  = match scan_blocks codec size pri blocks cp cteb bp bib excl index status flags with
    | ScanExit s f => Some (s, ch, f)
    | ScanPayload pay cp' cteb' excl' index' status' f =>
        process_payload ops codec fuel sysnow ch size pri pay cp' cteb' excl' index' status'
          timeout' f
    end.
Proof.
  induction blocks as [|b blocks IH]; intros cp cteb bp bib excl index status flags;
    cbn [process_blocks scan_blocks].
  - destruct (index <? size); reflexivity.
  - destruct (index <? size); [|reflexivity].
    destruct b as [s blk|s blk|f d l r|s blk].
    + destruct (s <=? 0); [reflexivity | apply IH].
    + destruct (s <=? 0); [reflexivity | apply IH].
    + cbv zeta. destruct (has_flag _ (Z.lor _ _)); [reflexivity|].
      destruct (has_flag f BP_BLK_DELETENOPROC_MASK); [reflexivity | apply IH].
    + cbv zeta. destruct (s <=? 0); [reflexivity|].
      destruct (bp && _); [reflexivity|].
      destruct (is_admin_rec pri && _); reflexivity.
Qed.

Lemma has_flag_lor a b m : has_flag (Z.lor a b) m = has_flag a m || has_flag b m.
Proof.
  unfold has_flag. rewrite Z.land_lor_distr_l.
  destruct (Z.eqb_spec (Z.land a m) 0) as [Ha|Ha]; simpl.
  - rewrite Ha, Z.lor_0_l. reflexivity.
  - apply negb_true_iff, Z.eqb_neq. intros H. apply Z.lor_eq_0_iff in H. tauto.
Qed.

(** The "forwarded without processed" bit is none of the bits the loop
    tests. *)
Lemma has_flag_unmarked f f2 m :
  Z.land BP_BLK_FORWARDNOPROC_MASK m = 0 ->
  Z.lor f BP_BLK_FORWARDNOPROC_MASK = Z.lor f2 BP_BLK_FORWARDNOPROC_MASK ->
  has_flag f m = has_flag f2 m.
Proof.
  intros Hm Hlor. unfold has_flag. f_equal. f_equal.
  assert (H : forall x, Z.land x m = Z.land (Z.lor x BP_BLK_FORWARDNOPROC_MASK) m).
  { intros x. rewrite Z.land_lor_distr_l, Hm, Z.lor_0_r. reflexivity. }
  rewrite (H f), (H f2), Hlor. reflexivity.
Qed.

(** A scan that reached the payload block reaches it again, with the same
    blocks in hand, when the buffer is read again as [bplib_process] left it
    and the flags passed in carry no SDNV error. *)
Lemma scan_blocks_again size pri blocks blocks2 :
  Forall2 same_block blocks blocks2 ->
  forall cp cteb bp bib excl index status q1 q2 d pay cp' cteb' excl' index' status' f1,
  has_flag q2 (Z.lor BP_FLAG_SDNVOVERFLOW BP_FLAG_SDNVINCOMPLETE) = false ->
  scan_blocks codec size pri blocks cp cteb bp bib excl index status (Z.lor q1 d)
  = ScanPayload pay cp' cteb' excl' index' status' f1 ->
  exists d',
    scan_blocks codec size pri blocks2 cp cteb bp bib excl index status (Z.lor q2 d)
    = ScanPayload pay cp' cteb' excl' index' status' (Z.lor q2 d').
Proof.
  induction 1 as [|b b2 blocks blocks2 Hb Hrest IH];
    intros cp cteb bp bib excl index status q1 q2 d pay cp' cteb' excl' index' status' f1
      Hq2 Hscan; cbn [scan_blocks] in *.
  - destruct (index <? size); discriminate.
  - destruct (index <? size); [|discriminate].
    destruct b as [s blk|s blk|f dd l r|s blk].
    + simpl in Hb. subst b2. destruct (s <=? 0); [discriminate|].
      eapply IH; eassumption.
    + simpl in Hb. subst b2. destruct (s <=? 0); [discriminate|].
      eapply IH; eassumption.
    + destruct b2 as [s2 blk2|s2 blk2|f2 dd2 l2 r2|s2 blk2]; simpl in Hb; try discriminate.
      destruct Hb as (Hlor & -> & -> & ->).
      cbv zeta in *. unfold sdnv_flags, set_flag in *.
      rewrite <- Hlor.
      rewrite <- (has_flag_unmarked f f2 BP_BLK_NOTIFYNOPROC_MASK eq_refl Hlor).
      rewrite <- (has_flag_unmarked f f2 BP_BLK_DELETENOPROC_MASK eq_refl Hlor).
      rewrite <- (has_flag_unmarked f f2 BP_BLK_DROPNOPROC_MASK eq_refl Hlor).
      rewrite <- (Z.lor_assoc q1 d r) in Hscan. rewrite <- (Z.lor_assoc q2 d r).
      rewrite has_flag_lor in Hscan. rewrite has_flag_lor, Hq2.
      destruct (has_flag q1 _); [discriminate|]. cbn [orb] in *.
      destruct (has_flag (Z.lor d r) _); [discriminate|].
      destruct (has_flag f BP_BLK_DELETENOPROC_MASK); [discriminate|].
      destruct (has_flag f BP_BLK_NOTIFYNOPROC_MASK).
      * rewrite <- !Z.lor_assoc in Hscan. rewrite <- !Z.lor_assoc.
        eapply IH; eassumption.
      * rewrite <- !Z.lor_assoc in Hscan. rewrite <- !Z.lor_assoc.
        eapply IH; eassumption.
    + simpl in Hb. subst b2. cbv zeta in *. destruct (s <=? 0); [discriminate|].
      destruct (bp && _); [discriminate|].
      destruct (is_admin_rec pri && _); [discriminate|].
      injection Hscan as <- <- <- <- <- <- <-. exists d. reflexivity.
Qed.

Lemma scan_bundle_again w w2 flags1 flags2 pay cp cteb excl index status f1 :
  same_bundle w w2 ->
  has_flag flags2 (Z.lor BP_FLAG_SDNVOVERFLOW BP_FLAG_SDNVINCOMPLETE) = false ->
  scan_bundle codec w flags1 = ScanPayload pay cp cteb excl index status f1 ->
  exists f2, scan_bundle codec w2 flags2 = ScanPayload pay cp cteb excl index status f2.
Proof.
  intros (Hsize & Hst & Hpri & Hblocks) Hq2. unfold scan_bundle.
  rewrite Hsize, Hst, Hpri. rewrite <- (Z.lor_0_r flags1), <- (Z.lor_0_r flags2).
  intros Hscan.
  destruct (scan_blocks_again _ _ _ _ Hblocks _ _ _ _ _ _ _ _ _ _ _ _ _ _ _ _ _ Hq2 Hscan)
    as (d' & Hd').
  eexists. exact Hd'.
Qed.

(** [bplib_process] on a bundle for this channel that requests custody and
    carries a custody block before its payload block: the payload is handed
    to the payload store, and when that accepts it, the custody id is noted
    for acknowledgment. *)
Lemma process_deliver_custody fuel sysnow (ch : bp_channel_t St) w pay cteb excl index status
    timeout' flags f :
  0 < w_pri_status w ->
  dictlen (w_pri w) = 0 ->
  lifetime (w_pri w) = 0 \/ sysnow < u32 (lifetime (w_pri w) + createsec (w_pri w)) ->
  scan_bundle codec w flags = ScanPayload pay true cteb excl index status f ->
  dstnode (w_pri w) = local_node ch ->
  local_service ch = 0 \/ dstserv (w_pri w) = local_service ch ->
  is_admin_rec (w_pri w) = false ->
  request_custody (w_pri w) = true ->
  proc_admin_only ch = false ->
  bplib_process ops codec fuel sysnow ch w timeout' flags =
  let pay_st := mk_payload_store true (w_size w - index) in
  let ch := set_stats (set_received (u64 (received (stats ch) + 1)) (stats ch)) ch in
  let ch := set_data_bundle (set_payload_store pay_st (data_bundle ch)) ch in
  let '(st, enstat) :=
    enqueue ops (storage ch) (payload_store_handle ch) (PayloadObj pay_st (payptr pay))
      timeout' in
  let ch := set_storage st ch in
  if 0 <? enstat then
    match update_dacs_bundle ops codec fuel sysnow ch cteb true BP_CHECK f with
    | None => None
    | Some (_, ch, flags) => Some (status, ch, flags)
    end
  else Some (BP_FAILEDSTORE, ch, f).
Proof.
  intros Hpri Hdict Hlife Hscan Hdst Hserv Hadmin Hcust Honly.
  unfold bplib_process.
  replace (w_pri_status w <=? 0) with false by (symmetry; apply Z.leb_gt; lia).
  rewrite Hdict. cbn [Z.eqb negb].
  replace (negb (lifetime (w_pri w) =? 0)
           && (u32 (lifetime (w_pri w) + createsec (w_pri w)) <=? sysnow)) with false.
  2:{ symmetry. destruct Hlife as [-> | Hlt]; [reflexivity|].
      apply andb_false_iff. right. apply Z.leb_gt. exact Hlt. }
  rewrite process_blocks_scan. fold (scan_bundle codec w flags). rewrite Hscan.
  unfold process_payload.
  cbn [local_node local_service proc_admin_only set_stats].
  rewrite Hdst, Z.eqb_refl. cbn [negb].
  replace (negb (local_service ch =? 0) && negb (dstserv (w_pri w) =? local_service ch))
    with false.
  2:{ symmetry. destruct Hserv as [-> | ->]; [reflexivity|].
      rewrite Z.eqb_refl. apply andb_false_r. }
  rewrite Hadmin, Honly, Hcust. cbv zeta. cbn [storage payload_store_handle set_data_bundle
    set_stats data_bundle].
  reflexivity.
Qed.

(** Two calls of [bplib_process] on a bundle whose block loop reaches the
    payload block with a custody block in hand: each call hands the payload
    to the payload store; the first leaves the custody id with the
    accumulator of the custodian, the second finds it there. *)
Lemma process_twice_scan fuel sysnow (ch : bp_channel_t St) w w2 pay cteb excl
    index status timeout' flags1 f1 flags2 :
  0 < w_pri_status w ->
  dictlen (w_pri w) = 0 ->
  lifetime (w_pri w) = 0 \/ sysnow < u32 (lifetime (w_pri w) + createsec (w_pri w)) ->
  scan_bundle codec w flags1 = ScanPayload pay true cteb excl index status f1 ->
  same_bundle w w2 ->
  has_flag flags2 (Z.lor BP_FLAG_SDNVOVERFLOW BP_FLAG_SDNVINCOMPLETE) = false ->
  dstnode (w_pri w) = local_node ch ->
  local_service ch = 0 \/ dstserv (w_pri w) = local_service ch ->
  is_admin_rec (w_pri w) = false ->
  request_custody (w_pri w) = true ->
  proc_admin_only ch = false ->
  dacs_table_ok ch ->
  (find_dacs_entry (take (Z.to_nat (num_dacs ch)) (dacs_bundle ch)) cteb 0 <> None \/
   num_dacs ch < max_concurrent_dacs (attributes ch)) ->
  1 <= max_fills_per_dacs (attributes ch) ->
  Forall (fun d => (length (rb_nodes (tree d)) <= fuel)%nat) (dacs_bundle ch) ->
  let obj := PayloadObj (mk_payload_store true (w_size w - index)) (payptr pay) in
  0 < snd (enqueue ops (storage ch) (payload_store_handle ch) obj timeout') ->
  exists ch0 ch1 flags1' i,
    (* the first call: the payload is enqueued, then the custody id noted *)
    bplib_process ops codec fuel sysnow ch w timeout' flags1 = Some (status, ch1, flags1') /\
    storage ch0 = fst (enqueue ops (storage ch) (payload_store_handle ch) obj timeout') /\
    update_dacs_bundle ops codec fuel sysnow ch0 cteb true BP_CHECK f1
    = Some (BP_SUCCESS, ch1, flags1') /\
    payload_store_handle ch1 = payload_store_handle ch /\
    dacs_table_ok ch1 /\
    find_dacs_entry (take (Z.to_nat (num_dacs ch1)) (dacs_bundle ch1)) cteb 0 = Some i /\
    In (cteb_cid cteb) (rb_nodes (tree (dacs_at ch1 i))) /\
    (* the second call: the payload is enqueued again, the custody id is a
       duplicate *)
    (0 < snd (enqueue ops (storage ch1) (payload_store_handle ch) obj timeout') ->
     exists ch2 flags2',
       bplib_process ops codec fuel sysnow ch1 w2 timeout' flags2
       = Some (status, ch2, flags2') /\
       has_flag flags2' BP_FLAG_DUPLICATES = true /\
       storage ch2
       = fst (enqueue ops (storage ch1) (payload_store_handle ch) obj timeout') /\
       dacs_bundle ch2 = dacs_bundle ch1 /\
       num_dacs ch2 = num_dacs ch1).
Proof.
  intros Hpri Hdict Hlife Hscan Hsame Hflags2 Hdst Hserv Hadmin Hcust Honly
    Hok Havail Hfills Hfuel obj Henq1.
  rewrite (process_deliver_custody fuel sysnow ch w pay cteb excl index status timeout'
             flags1 f1) by assumption.
  cbv zeta. cbn [storage payload_store_handle set_data_bundle set_stats].
  fold obj.
  destruct (enqueue ops (storage ch) (payload_store_handle ch) obj timeout')
    as [st1 e1] eqn:E1.
  cbn [snd fst] in *.
  replace (0 <? e1) with true by (symmetry; apply Z.ltb_lt; exact Henq1).
  match goal with
  | |- context [update_dacs_bundle ops codec fuel sysnow ?c cteb true BP_CHECK f1] =>
      set (ch0 := c);
      destruct (update_dacs_post fuel sysnow ch0 cteb true BP_CHECK f1)
        as (ch1 & f1' & i & Hrun1 & Hfind1 & Hdel1 & Hin1 & Hsame1 & Hok1)
  end.
  { exact Hok. } { exact Havail. } { exact Hfills. } { exact Hfuel. }
  rewrite Hrun1. exists ch0, ch1, f1', i.
  destruct Hsame1 as (Hattr & Hnode & Hsrv & Hhandle & Hadm).
  cbn [attributes local_node local_service payload_store_handle proc_admin_only ch0
       set_storage set_data_bundle set_stats] in Hattr, Hnode, Hsrv, Hhandle, Hadm.
  split; [reflexivity|]. split; [reflexivity|]. split; [exact Hrun1|].
  split; [exact Hhandle|]. split; [exact Hok1|]. split; [exact Hfind1|].
  split; [exact Hin1|].
  intros Henq2.
  destruct (scan_bundle_again w w2 flags1 flags2 pay true cteb excl index status f1
              Hsame Hflags2 Hscan) as (f2 & Hscan2).
  destruct Hsame as (Hsize2 & Hst2 & Hpri2 & _).
  rewrite (process_deliver_custody fuel sysnow ch1 w2 pay cteb excl index status timeout'
             flags2 f2);
    [|rewrite ?Hst2, ?Hpri2;
      first [assumption | congruence | rewrite Hsrv; exact Hserv]..].
  cbv zeta. cbn [storage payload_store_handle set_data_bundle set_stats].
  rewrite Hsize2. fold obj. rewrite Hhandle.
  destruct (enqueue ops (storage ch1) (payload_store_handle ch) obj timeout')
    as [st2 e2] eqn:E2.
  cbn [snd fst] in *.
  replace (0 <? e2) with true by (symmetry; apply Z.ltb_lt; exact Henq2).
  match goal with
  | |- context [update_dacs_bundle ops codec fuel sysnow ?c cteb true BP_CHECK f2] =>
      destruct (update_dacs_duplicate fuel sysnow c cteb i true BP_CHECK f2
                  Hfind1 Hdel1 Hin1)
        as (ch2 & Hrun2 & Hd2 & Hn2 & Hstor2 & _)
  end.
  rewrite Hrun2. exists ch2, (set_flag f2 BP_FLAG_DUPLICATES). split; [reflexivity|].
  split; [apply has_flag_set; discriminate|].
  split; [exact Hstor2|]. split; [exact Hd2 | exact Hn2].
Qed.

Lemma blocks_len_nonneg pre : Forall (block_passes codec) pre -> 0 <= blocks_len pre.
Proof.
  induction 1 as [|b pre Hb _ IH]; cbn [blocks_len fold_right]; [lia|].
  fold (blocks_len pre). destruct b; cbn in *; lia.
Qed.

Lemma last_cteb_acc l acc :
  last_cteb l acc = match last_cteb l None with Some b => Some b | None => acc end.
Proof.
  revert acc. induction l as [|b l IH]; intros acc; cbn [last_cteb]; [reflexivity|].
  destruct b; try apply IH. rewrite (IH (Some blk)). destruct (last_cteb l None); reflexivity.
Qed.

Lemma last_bib_acc l acc :
  last_bib l acc = match last_bib l None with Some b => Some b | None => acc end.
Proof.
  revert acc. induction l as [|b l IH]; intros acc; cbn [last_bib]; [reflexivity|].
  destruct b; try apply IH. rewrite (IH (Some blk)). destruct (last_bib l None); reflexivity.
Qed.

(** The block loop gets past blocks that pass, and arrives at the block
    after them with the custody and integrity blocks it read last, at the
    offset where that block starts, and without SDNV error in its flags. *)
Lemma scan_blocks_passes size pri rest pre :
  Forall (block_passes codec) pre ->
  forall cp cb bp bb excl index status flags,
  has_flag flags (Z.lor BP_FLAG_SDNVOVERFLOW BP_FLAG_SDNVINCOMPLETE) = false ->
  index + blocks_len pre < size ->
  exists excl' status' flags',
    has_flag flags' (Z.lor BP_FLAG_SDNVOVERFLOW BP_FLAG_SDNVINCOMPLETE) = false /\
    scan_blocks codec size pri (pre ++ rest) cp cb bp bb excl index status flags
    = scan_blocks codec size pri rest
        (match last_cteb pre None with Some _ => true | None => cp end)
        (match last_cteb pre None with Some b => b | None => cb end)
        (match last_bib pre None with Some _ => true | None => bp end)
        (match last_bib pre None with Some b => b | None => bb end)
        excl' (index + blocks_len pre) status' flags'.
Proof.
  induction 1 as [|b pre Hb Hpre IH]; intros cp cb bp bb excl index status flags Hf Hlen.
  - exists excl, status, flags. split; [exact Hf|]. cbn. rewrite Z.add_0_r. reflexivity.
  - pose proof (blocks_len_nonneg pre Hpre) as Hnn.
    cbn [blocks_len fold_right] in Hlen. fold (blocks_len pre) in Hlen.
    cbn [blocks_len fold_right]. fold (blocks_len pre).
    cbn [app scan_blocks].
    assert (Hb0 : 0 <= block_len b) by (destruct b; cbn in *; lia).
    replace (index <? size) with true by (symmetry; apply Z.ltb_lt; lia).
    destruct b as [s blk|s blk|f d l r|s blk]; cbn [block_len block_passes] in *.
    + replace (s <=? 0) with false by (symmetry; apply Z.leb_gt; exact Hb).
      edestruct (IH true blk bp bb) as (excl' & status' & flags' & Hf' & Heq);
        [exact Hf | |].
      2:{ exists excl', status', flags'. split; [exact Hf'|]. rewrite Heq.
          cbn [last_cteb last_bib]. rewrite (last_cteb_acc pre (Some blk)), Z.add_assoc.
          destruct (last_cteb pre None); reflexivity. }
      lia.
    + replace (s <=? 0) with false by (symmetry; apply Z.leb_gt; exact Hb).
      edestruct (IH cp cb true blk) as (excl' & status' & flags' & Hf' & Heq);
        [exact Hf | |].
      2:{ exists excl', status', flags'. split; [exact Hf'|]. rewrite Heq.
          cbn [last_cteb last_bib]. rewrite (last_bib_acc pre (Some blk)), Z.add_assoc.
          destruct (last_bib pre None); reflexivity. }
      lia.
    + destruct Hb as (Hlen0 & Hr & Hdel & Hw). cbv zeta. unfold sdnv_flags, set_flag.
      rewrite has_flag_lor, Hf, Hr. cbn [orb]. rewrite Hdel.
      match goal with
      | |- context [scan_blocks codec size pri (pre ++ rest) cp cb bp bb ?e ?i status ?q] =>
          edestruct (IH cp cb bp bb e i status q) as (excl' & status' & flags' & Hf' & Heq)
      end.
      { rewrite has_flag_lor, Hw, orb_false_r.
        destruct (has_flag f BP_BLK_NOTIFYNOPROC_MASK);
          rewrite !has_flag_lor, Hf, Hr; reflexivity. }
      { lia. }
      exists excl', status', flags'. split; [exact Hf'|]. rewrite Heq.
      cbn [last_cteb last_bib].
      replace (index + (d + l + blocks_len pre)) with (index + (d + l) + blocks_len pre)
        by lia.
      reflexivity.
    + contradiction.
Qed.

Lemma find_dacs_entry_matched l cteb i :
  Exists (fun d => dacs_cstnode d = cteb_cstnode cteb /\ dacs_cstserv d = cteb_cstserv cteb)
    l ->
  find_dacs_entry l cteb i <> None.
Proof.
  intros H. revert i. induction H as [d l [Hn Hs]|d l _ IH]; intros i; cbn [find_dacs_entry].
  - rewrite Hn, Hs, !Z.eqb_refl. discriminate.
  - destruct (_ && _); [discriminate | apply IH].
Qed.

(** C3, as amended.  [bplib_process] called twice on the same data bundle:
    one whose primary block parses, has no dictionary and has not expired,
    whose blocks before the payload block pass (custody and integrity blocks
    that parse, blocks of other types that are read and marked without SDNV
    error and do not ask for the bundle to be deleted), which carries a
    custody block, whose payload block parses inside the buffer and passes
    the integrity check if there is an integrity block, and which is
    addressed to this channel and requests custody, with an accumulator
    open or available for its custodian.  Each call hands the payload to the
    payload store (one enqueue per call, so two when both are accepted); the
    first call leaves the custody id in the accumulator of the custodian;
    the second call finds it there, sets [BP_FLAG_DUPLICATES] and leaves
    every accumulator as it was.  The second call is given the buffer again,
    as it was or as the first call left it (with the "forwarded without
    processed" bit set in the flags of the blocks it skipped); the flags
    passed to both calls carry no SDNV error. *)
Theorem process_twice_delivers_twice fuel sysnow (ch : bp_channel_t St) w w2 pre ps pay post
    cteb timeout' flags1 flags2 :
  0 < w_pri_status w ->
  dictlen (w_pri w) = 0 ->
  lifetime (w_pri w) = 0 \/ sysnow < u32 (lifetime (w_pri w) + createsec (w_pri w)) ->
  w_blocks w = pre ++ WPay ps pay :: post ->
  Forall (block_passes codec) pre ->
  last_cteb pre None = Some cteb ->
  w_pri_status w + blocks_len pre < w_size w ->
  0 < ps ->
  match last_bib pre None with
  | Some bib => 0 < bplib_blk_bib_verify codec (payptr pay) bib
  | None => True
  end ->
  has_flag flags1 (Z.lor BP_FLAG_SDNVOVERFLOW BP_FLAG_SDNVINCOMPLETE) = false ->
  same_bundle w w2 ->
  has_flag flags2 (Z.lor BP_FLAG_SDNVOVERFLOW BP_FLAG_SDNVINCOMPLETE) = false ->
  dstnode (w_pri w) = local_node ch ->
  local_service ch = 0 \/ dstserv (w_pri w) = local_service ch ->
  is_admin_rec (w_pri w) = false ->
  request_custody (w_pri w) = true ->
  proc_admin_only ch = false ->
  dacs_table_ok ch ->
  (Exists (fun d => dacs_cstnode d = cteb_cstnode cteb /\ dacs_cstserv d = cteb_cstserv cteb)
     (take (Z.to_nat (num_dacs ch)) (dacs_bundle ch)) \/
   num_dacs ch < max_concurrent_dacs (attributes ch)) ->
  1 <= max_fills_per_dacs (attributes ch) ->
  Forall (fun d => (length (rb_nodes (tree d)) <= fuel)%nat) (dacs_bundle ch) ->
  let index := w_pri_status w + blocks_len pre + ps in
  let status := match last_bib pre None with
                | Some bib => bplib_blk_bib_verify codec (payptr pay) bib
                | None => ps
                end in
  let obj := PayloadObj (mk_payload_store true (w_size w - index)) (payptr pay) in
  0 < snd (enqueue ops (storage ch) (payload_store_handle ch) obj timeout') ->
  exists ch0 ch1 f1 flags1' i,
    (* the first call: the payload is enqueued, then the custody id noted *)
    bplib_process ops codec fuel sysnow ch w timeout' flags1 = Some (status, ch1, flags1') /\
    storage ch0 = fst (enqueue ops (storage ch) (payload_store_handle ch) obj timeout') /\
    update_dacs_bundle ops codec fuel sysnow ch0 cteb true BP_CHECK f1
    = Some (BP_SUCCESS, ch1, flags1') /\
    payload_store_handle ch1 = payload_store_handle ch /\
    dacs_table_ok ch1 /\
    (i < Z.to_nat (num_dacs ch1))%nat /\
    dacs_cstnode (dacs_at ch1 i) = cteb_cstnode cteb /\
    dacs_cstserv (dacs_at ch1 i) = cteb_cstserv cteb /\
    In (cteb_cid cteb) (rb_nodes (tree (dacs_at ch1 i))) /\
    (* the second call: the payload is enqueued again, the custody id is a
       duplicate *)
    (0 < snd (enqueue ops (storage ch1) (payload_store_handle ch) obj timeout') ->
     exists ch2 flags2',
       bplib_process ops codec fuel sysnow ch1 w2 timeout' flags2
       = Some (status, ch2, flags2') /\
       has_flag flags2' BP_FLAG_DUPLICATES = true /\
       storage ch2
       = fst (enqueue ops (storage ch1) (payload_store_handle ch) obj timeout') /\
       dacs_bundle ch2 = dacs_bundle ch1 /\
       num_dacs ch2 = num_dacs ch1).
Proof.
  intros Hpri Hdict Hlife Hblocks Hpass Hcteb Hsize Hps Hbib Hf1 Hsame Hf2 Hdst Hserv Hadmin
    Hcust Honly Hok Havail Hfills Hfuel index status obj Henq.
  assert (Hscan : exists excl f1,
             scan_bundle codec w flags1 = ScanPayload pay true cteb excl index status f1).
  { unfold scan_bundle. rewrite Hblocks.
    destruct (scan_blocks_passes (w_size w) (w_pri w) (WPay ps pay :: post) pre Hpass
                false native_cteb_blk false native_bib_blk [0; w_pri_status w]
                (w_pri_status w) (w_pri_status w) flags1 Hf1 Hsize)
      as (excl' & status' & flags' & _ & ->).
    rewrite Hcteb. cbn [scan_blocks].
    replace (w_pri_status w + blocks_len pre <? w_size w) with true
      by (symmetry; apply Z.ltb_lt; exact Hsize).
    replace (ps <=? 0) with false by (symmetry; apply Z.leb_gt; exact Hps).
    cbv zeta. rewrite Hadmin. cbn [andb]. unfold status, index.
    destruct (last_bib pre None) as [bib|]; cbn [andb].
    - replace (bplib_blk_bib_verify codec (payptr pay) bib <=? 0) with false
        by (symmetry; apply Z.leb_gt; exact Hbib).
      eexists _, _. reflexivity.
    - eexists _, _. reflexivity. }
  destruct Hscan as (excl & f1 & Hscan).
  assert (Havail' : find_dacs_entry (take (Z.to_nat (num_dacs ch)) (dacs_bundle ch)) cteb 0
                    <> None \/ num_dacs ch < max_concurrent_dacs (attributes ch)).
  { destruct Havail as [Hex|Hroom]; [left | right; exact Hroom].
    apply find_dacs_entry_matched. exact Hex. }
  destruct (process_twice_scan fuel sysnow ch w w2 pay cteb excl index status timeout' flags1
              f1 flags2 Hpri Hdict Hlife Hscan Hsame Hf2 Hdst Hserv Hadmin Hcust Honly Hok
              Havail' Hfills Hfuel Henq)
    as (ch0 & ch1 & flags1' & i & Hrun & Hst & Hupd & Hh & Hok1 & Hfind & Hin & Hsecond).
  exists ch0, ch1, f1, flags1', i.
  split; [exact Hrun|]. split; [exact Hst|]. split; [exact Hupd|]. split; [exact Hh|].
  split; [exact Hok1|].
  apply find_dacs_entry_Some in Hfind. destruct Hfind as (Hlt & Hn & Hs).
  rewrite length_take in Hlt.
  assert (Hnth : nth i (take (Z.to_nat (num_dacs ch1)) (dacs_bundle ch1)) dacs_zero
                 = dacs_at ch1 i).
  { unfold dacs_at. apply nth_take. lia. }
  rewrite Hnth in Hn, Hs.
  split; [lia|]. split; [exact Hn|]. split; [exact Hs|]. split; [exact Hin | exact Hsecond].
Qed.


(** What [bplib_accept] does with a payload larger than the caller's
    buffer, for any storage service. *)
Lemma accept_too_large (ch : bp_channel_t St) size timeout' st1 obj sid' :
  dequeue ops (storage ch) (payload_store_handle ch) timeout' = (st1, inl (obj, sid')) ->
  size < payloadsize (fst (as_payload obj)) ->
  exists ch',
    bplib_accept ops ch (SizedBuf size) timeout' = (BP_PAYLOADTOOLARGE, ch', None) /\
    lost (stats ch') = u64 (lost (stats ch) + 1) /\
    delivered_cnt (stats ch') = delivered_cnt (stats ch) /\
    storage ch' = relinquish ops st1 (payload_store_handle ch) sid' /\
    payload_store_handle ch' = payload_store_handle ch.
Proof.
  intros Hdeq Hsize. unfold bplib_accept. rewrite Hdeq.
  destruct (as_payload obj) as [paystore payptr'] eqn:E. simpl in Hsize.
  replace (payloadsize paystore <=? size) with false by (symmetry; apply Z.leb_gt; lia).
  eexists. split; [reflexivity|]. repeat split.
Qed.

End Generic.

End ChannelFacts.

Module CacheFacts.
Import Cache.

Section WithCache.

Variable hash_bundle : bp_ipn_addr_t -> Z -> Z.
Variable hash_dacs : bp_ipn_addr_t -> bp_ipn_addr_t -> Z.
Variable BP_DACS_MAX_SEQ_PER_PAYLOAD : Z.
Variable BP_CACHE_DACS_OPEN_TIME : Z.
Variable BP_CACHE_DACS_LIFETIME : Z.
Variable BP_CACHE_FAST_RETRY_TIME : Z.
Variable bplib_cache_fsm_execute : bplib_cache_state_t -> nat -> bplib_cache_state_t.
Variable now : Z.
Variable now_ms : Z.













End WithCache.

End CacheFacts.

Module RamFacts.
Import Channel RamStore Scenario.

Lemma queue_of_put st h q : queue_of (put_queue st h q) h = q.
Proof. unfold queue_of, put_queue. simpl. rewrite lookup_insert_eq. reflexivity. Qed.

Lemma in_drop_sid x sid' l : In x (map fst (drop_sid sid' l)) -> x <> sid' /\ In x (map fst l).
Proof.
  unfold drop_sid. induction l as [|[s o] l IH]; simpl; [tauto|].
  rewrite filter_cons. destruct (decide (fst (s, o) ≠ sid')) as [Hne|He]; simpl in *.
  - intros [<-|Hin]; [split; [assumption | left; reflexivity]|].
    destruct (IH Hin). split; [assumption | right; assumption].
  - intros Hin. destruct (IH Hin). split; [assumption | right; assumption].
Qed.

(** [bplib_accept] only ever forgets storage ids of the payload queue. *)
Lemma accept_known_sids (ch : bp_channel_t ram_store) buf timeout' x :
  let ch' := snd (fst (bplib_accept ram_ops ch buf timeout')) in
  payload_store_handle ch' = payload_store_handle ch /\
  (In x (known_sids (storage ch') (payload_store_handle ch)) ->
   In x (known_sids (storage ch) (payload_store_handle ch))).
Proof.
  unfold bplib_accept. simpl. unfold ram_dequeue.
  set (h := payload_store_handle ch).
  destruct (rq_waiting (queue_of (storage ch) h)) as [|[s o] rest] eqn:Ew.
  - simpl. split; [reflexivity | tauto].
  - destruct (as_payload o) as [paystore payptr'].
    assert (Hk : forall y,
      In y (known_sids (ram_relinquish
              (put_queue (storage ch) h (mk_queue rest ((s, o) :: rq_held (queue_of (storage ch) h))))
              h s) h) ->
      In y (known_sids (storage ch) h)).
    { intros y. unfold known_sids, ram_relinquish. rewrite !queue_of_put. simpl.
      rewrite Ew. rewrite !map_app. rewrite !in_app_iff. simpl.
      intros [Hin|Hin]; apply in_drop_sid in Hin; simpl in Hin; tauto. }
    destruct buf as [ok|size]; [destruct ok | destruct (payloadsize paystore <=? size)];
      simpl; (split; [reflexivity | apply Hk]).
Qed.

Lemma accept_run_known_sids calls : forall (ch : bp_channel_t ram_store) x,
  payload_store_handle (accept_run calls ch) = payload_store_handle ch /\
  (In x (known_sids (storage (accept_run calls ch)) (payload_store_handle ch)) ->
   In x (known_sids (storage ch) (payload_store_handle ch))).
Proof.
  induction calls as [|[buf t] calls IH]; intros ch x; simpl; [tauto|].
  destruct (accept_known_sids ch buf t x) as [Hh Hk].
  destruct (IH (snd (fst (bplib_accept ram_ops ch buf t))) x) as [Hh' Hk'].
  simpl in *. rewrite Hh in *. split; [assumption | intros Hin; apply Hk, Hk', Hin].
Qed.

Lemma dequeue_known st h timeout' st' o s :
  ram_dequeue st h timeout' = (st', inl (o, s)) -> In s (known_sids st h).
Proof.
  unfold ram_dequeue, known_sids.
  destruct (rq_waiting (queue_of st h)) as [|[s0 o0] rest]; [discriminate|].
  intros [= _ _ <-]. simpl. left. reflexivity.
Qed.

(** C10.  If [bplib_accept] dequeues a stored payload larger than the
    caller's non-NULL buffer, it returns [BP_PAYLOADTOOLARGE], increments the
    lost counter and still relinquishes the stored record: with a storage
    service that keeps the contract of section 4.3, the record's storage id
    is gone from the payload queue, and no [bplib_accept] after any number
    of further ones dequeues it again. *)
Theorem accept_too_large_discards (ch : bp_channel_t ram_store) size timeout' st1 obj sid' :
  dequeue ram_ops (storage ch) (payload_store_handle ch) timeout' = (st1, inl (obj, sid')) ->
  size < payloadsize (fst (as_payload obj)) ->
  exists ch',
    bplib_accept ram_ops ch (SizedBuf size) timeout' = (BP_PAYLOADTOOLARGE, ch', None) /\
    lost (stats ch') = u64 (lost (stats ch) + 1) /\
    storage ch' = relinquish ram_ops st1 (payload_store_handle ch) sid' /\
    ~ In sid' (known_sids (storage ch') (payload_store_handle ch')) /\
    forall calls t st2 o,
      dequeue ram_ops (storage (accept_run calls ch')) (payload_store_handle ch') t
      <> (st2, inl (o, sid')).
Proof.
  intros Hdeq Hsize.
  destruct (ChannelFacts.accept_too_large ram_ops ch size timeout' st1 obj sid' Hdeq Hsize)
    as (ch' & Hacc & Hlost & _ & Hst & Hh).
  assert (Hgone : ~ In sid' (known_sids (storage ch') (payload_store_handle ch'))).
  { rewrite Hst, Hh. simpl. unfold known_sids, ram_relinquish. rewrite queue_of_put. simpl.
    rewrite map_app, in_app_iff. intros [Hin|Hin]; apply in_drop_sid in Hin; tauto. }
  exists ch'. repeat split; try assumption.
  intros calls t st2 o Hd. simpl in Hd. apply dequeue_known in Hd.
  destruct (accept_run_known_sids calls ch' sid') as [Hh' Hk].
  apply Hgone, Hk. assumption.
Qed.

Lemma accept_too_large_discards_witness :
  exists ch ch',
    delivered_channel = Some ch /\
    bplib_accept ram_ops ch (SizedBuf 2) 0 = (BP_PAYLOADTOOLARGE, ch', None) /\
    lost (stats ch') = u64 (lost (stats ch) + 1).
Proof.
  let v := eval vm_compute in delivered_channel in
  match v with Some ?c => pose (ch := c) end.
  let d := eval vm_compute in (ram_dequeue (storage ch) (payload_store_handle ch) 0) in
  match d with
  | (?st1, inl (?obj, ?sid')) =>
      destruct (accept_too_large_discards ch 2 0 st1 obj sid') as (ch' & Hacc & Hlost & _);
        [vm_compute; reflexivity | vm_compute; reflexivity |]
  end.
  exists ch, ch'. split; [vm_compute; reflexivity|]. split; assumption.
Defined.

End RamFacts.

Module RunFacts.
Import Channel RamStore Scenario.

(** The claim C5 fails as written, in two ways.  A payload of three bytes
    stored with fragmentation off is emitted as one bundle whose total
    payload length field is not set to the payload length.  And with
    fragmentation on and a max bundle length of 0 the payload is not emitted:
    the storage service is handed bundles without a payload byte until it
    takes no more. *)
Lemma store_leaves_fields_and_needs_length :
  (exists ch ds,
     small_store_run = Some (BP_SUCCESS, ch) /\
     waiting (storage ch) (data_store_handle ch) = [BundleObj ds [1; 2; 3]] /\
     paylen (hdr_pri (header ds)) <> 3) /\
  (exists ch ds,
     zero_length_run = Some (BP_TIMEOUT, ch) /\
     maxlength (data_bundle ch) = 0 /\
     is_frag (primary_block (data_bundle ch)) = true /\
     waiting (storage ch) (data_store_handle ch) = [BundleObj ds []; BundleObj ds []]).
Proof.
  split.
  - let v := eval vm_compute in small_store_run in
    match v with
    | Some (_, ?c) =>
        let w := eval vm_compute in (waiting (storage c) (data_store_handle c)) in
        match w with
        | [BundleObj ?d _] => exists c, d
        end
    end.
    split; [vm_compute; reflexivity|]. split; [vm_compute; reflexivity|].
    vm_compute. discriminate.
  - let v := eval vm_compute in zero_length_run in
    match v with
    | Some (_, ?c) =>
        let w := eval vm_compute in (waiting (storage c) (data_store_handle c)) in
        match w with
        | BundleObj ?d _ :: _ => exists c, d
        end
    end.
    split; [vm_compute; reflexivity|]. split; [reflexivity|]. split; [reflexivity|].
    vm_compute. reflexivity.
Qed.

Lemma store_fragments_witness :
  exists ch bundle status bundle' st' flags' objs,
    fragment_channel = Some ch /\
    bundle = set_payload_block (mk_pay 0 [1; 2; 3; 4; 5] 5) (data_bundle ch) /\
    store_data_bundle ram_ops fixed_codec 16 0 bundle (storage ch) (data_store_handle ch) 0 0
    = Some (status, bundle', st', flags') /\
    status = BP_SUCCESS /\
    frags_ok fixed_codec true (header (bundle_store bundle)) [1; 2; 3; 4; 5] 5 2 0 5 objs /\
    concat (map obj_body objs) = [1; 2; 3; 4; 5].
Proof.
  let v := eval vm_compute in fragment_channel in
  match v with Some ?c => pose (ch := c) end.
  pose (bundle := set_payload_block (mk_pay 0 [1; 2; 3; 4; 5] 5) (data_bundle ch)).
  destruct (ChannelFacts.store_fragments ram_ops fixed_codec 16 0 bundle (storage ch)
              (data_store_handle ch) 0 0)
    as [_ H].
  destruct H as (status & bundle' & st' & flags' & objs & st_mid & e & Hrun & _ & Hfr & Hcase);
    [intros [E _]; vm_compute in E; discriminate E | vm_compute; reflexivity
    | vm_compute; discriminate |].
  exists ch, bundle, status, bundle', st', flags', objs.
  split; [vm_compute; reflexivity|]. split; [reflexivity|]. split; [exact Hrun|].
  destruct Hcase as [(Hs & _ & He & Hcat)|(_ & Hwhy)].
  - split; [exact Hs|]. split; [rewrite He in Hfr; exact Hfr | exact Hcat].
  - exfalso. vm_compute in Hrun. injection Hrun as <- _ _ _.
    destruct Hwhy as [(Hs & _)|(ds & _ & _ & Hle)];
      [discriminate Hs | apply Hle; reflexivity].
Defined.

(** The claim C6 fails as written: when the storage service fails an enqueue
    with a status of its own, here [BP_FAILEDMEM], that status, not
    [BP_FAILEDSTORE], is what [bplib_store] returns. *)
Lemma store_returns_the_status_of_the_enqueue :
  exists ch ch',
    out_of_memory_run = Some (ch, BP_FAILEDMEM, ch') /\
    (forall o, enqueue out_of_memory_ops (storage ch) (data_store_handle ch) o 0
               = (storage ch, BP_FAILEDMEM)) /\
    BP_FAILEDMEM < 0 /\
    BP_FAILEDMEM <> BP_FAILEDSTORE.
Proof.
  let v := eval vm_compute in out_of_memory_run in
  match v with Some (?c, _, ?c') => exists c, c' end.
  split; [vm_compute; reflexivity|]. split; [intros o; reflexivity|].
  split; [reflexivity | discriminate].
Qed.

Lemma store_failure_keeps_sequence_witness :
  exists ch status ch' flags' objs st_mid ds off fs,
    full_channel = Some ch /\
    bplib_store ram_ops fixed_codec 16 0 ch [1; 2; 3] 3 0 0 = Some (status, ch', flags') /\
    enqueue_all ram_ops (storage ch) (data_store_handle ch) 0 objs = Some st_mid /\
    ram_enqueue st_mid (data_store_handle ch) (BundleObj ds (fragment [1; 2; 3] off fs)) 0
    = (storage ch', status) /\
    status <= 0 /\
    createseq (primary_block (data_bundle ch')) = createseq (primary_block (data_bundle ch)).
Proof.
  let v := eval vm_compute in full_channel in
  match v with Some ?c => pose (ch := c) end.
  destruct (ChannelFacts.store_failure_keeps_sequence ram_ops fixed_codec 16 0 ch
              [1; 2; 3] 3 0 0) as [Hsafe Htotal].
  destruct Htotal as (status & ch' & flags' & Hrun);
    [vm_compute; reflexivity | vm_compute; discriminate |].
  destruct (Hsafe status ch' flags' Hrun) as (objs & st_mid & e & Hall & _ & Hcase).
  assert (Hstatus : status = BP_TIMEOUT).
  { vm_compute in Hrun. injection Hrun as <- _ _. reflexivity. }
  destruct Hcase as [(Hs & _)|(Hseq & _ & [(ds & fs & Henq & Hle)|(_ & Hother)])].
  - exfalso. rewrite Hstatus in Hs. discriminate Hs.
  - exists ch, status, ch', flags', objs, st_mid, ds, e, fs.
    split; [vm_compute; reflexivity|]. split; [exact Hrun|]. split; [exact Hall|].
    split; [exact Henq|]. split; [exact Hle | exact Hseq].
  - exfalso. rewrite Hstatus in Hother.
    destruct Hother as [(Hs & _)|[(Hs & _)|(Hs & _)]]; discriminate Hs.
Defined.

(** The claim C7 fails as written: an expired bundle that carries a
    dictionary is answered with [BP_UNSUPPORTED], and the expired statistic
    stays as it was. *)
Lemma process_expired_with_dictionary :
  exists ch ch' flags',
    open_channel (mk_attr 4 0 0 0) None = Some ch /\
    process 111 ch (expired_bundle 1) = Some (BP_UNSUPPORTED, ch', flags') /\
    BP_UNSUPPORTED <> BP_EXPIRED /\
    expired (stats ch') = expired (stats ch).
Proof.
  let v := eval vm_compute in (open_channel (mk_attr 4 0 0 0) None) in
  match v with
  | Some ?c =>
      let r := eval vm_compute in (process 111 c (expired_bundle 1)) in
      match r with Some (_, ?c', ?f) => exists c, c', f end
  end.
  split; [vm_compute; reflexivity|]. split; [vm_compute; reflexivity|].
  split; [discriminate | reflexivity].
Qed.

Lemma process_expired_dropped_witness :
  exists ch ch',
    open_channel (mk_attr 4 0 0 0) None = Some ch /\
    process 111 ch (expired_bundle 0) = Some (BP_EXPIRED, ch', 0) /\
    expired (stats ch') = u64 (expired (stats ch) + 1) /\
    storage ch' = storage ch.
Proof.
  let v := eval vm_compute in (open_channel (mk_attr 4 0 0 0) None) in
  match v with Some ?c => pose (ch := c) end.
  destruct (ChannelFacts.process_expired_dropped ram_ops fixed_codec 16 111 ch
              (expired_bundle 0) 0 0)
    as (ch' & Hrun & Hexp & Hst & _);
    [vm_compute; reflexivity | reflexivity | discriminate | vm_compute; discriminate
    | vm_compute; discriminate | vm_compute; split; [discriminate | reflexivity] |].
  exists ch, ch'. split; [vm_compute; reflexivity|].
  split; [exact Hrun|]. split; [exact Hexp | exact Hst].
Defined.

Lemma update_dacs_without_match_witness :
  exists ch ch' d,
    one_dacs_channel = Some ch /\
    update_dacs_bundle ram_ops fixed_codec 16 0 ch (mk_cteb 7 (Eid.ipn_text 2 10) 2 10)
      true 0 0 = Some (BP_SUCCESS, ch', 0) /\
    num_dacs ch' = 1 /\
    dacs_bundle ch' = [d] /\
    dacs_cstnode d = 2 /\ dacs_cstserv d = 10 /\ delivered d = true /\
    rb_nodes (tree d) = [7] /\
    dstnode (dacs_primary_block d) = 2 /\ dstserv (dacs_primary_block d) = 10 /\
    dstnode (hdr_pri (header (dacs_bundle_store d))) = 2 /\
    dstserv (hdr_pri (header (dacs_bundle_store d))) = 10 /\
    srcnode (hdr_pri (header (dacs_bundle_store d))) = 1 /\
    is_admin_rec (hdr_pri (header (dacs_bundle_store d))) = true /\
    update_dacs_bundle ram_ops fixed_codec 16 0 ch' (mk_cteb 9 (Eid.ipn_text 3 10) 3 10)
      true 0 0 = Some (BP_FAILEDRESPONSE, ch', BP_FLAG_TOOMANYSOURCES).
Proof.
  let r := eval vm_compute in
    (bplib_open ram_ops fixed_codec (ram_empty None) 1 10 2 10 (Some (mk_attr 4 1 0 0))) in
  match r with
  | (?s, Some ?c) =>
      pose (ch := c);
      assert (Hopen : bplib_open ram_ops fixed_codec (ram_empty None) 1 10 2 10
                        (Some (mk_attr 4 1 0 0)) = (s, Some ch))
        by (vm_compute; reflexivity)
  end.
  destruct (ChannelFacts.open_dacs_table_ok _ _ _ _ _ _ _ _ _ _ Hopen) as [Hok _].
  destruct (ChannelFacts.update_dacs_without_match ram_ops fixed_codec 16 0 ch
              (mk_cteb 7 (Eid.ipn_text 2 10) 2 10) true 0 0 Hok)
    as [Hnew _]; [vm_compute; constructor|].
  destruct Hnew
    as (ch' & d & Hrun & Hn & Hd & Hnode & Hserv & Hdel & Htree & Hpri & Hhdr & _);
    [vm_compute; reflexivity|].
  let r := eval vm_compute in
    (update_dacs_bundle ram_ops fixed_codec 16 0 ch (mk_cteb 7 (Eid.ipn_text 2 10) 2 10)
       true 0 0) in
  match r with
  | Some (_, ?c, _) =>
      pose (ch1 := c);
      assert (Hrun1 : update_dacs_bundle ram_ops fixed_codec 16 0 ch
                        (mk_cteb 7 (Eid.ipn_text 2 10) 2 10) true 0 0
                      = Some (BP_SUCCESS, ch1, 0))
        by (vm_compute; reflexivity)
  end.
  assert (E : ch' = ch1) by congruence.
  assert (Hok1 : dacs_table_ok ch1).
  { split; [vm_compute; discriminate|]. split; [vm_compute; reflexivity|].
    split; intros i Hi; vm_compute in Hi.
    - destruct i as [|i]; [vm_compute; reflexivity | lia].
    - lia. }
  destruct (ChannelFacts.update_dacs_without_match ram_ops fixed_codec 16 0 ch1
              (mk_cteb 9 (Eid.ipn_text 3 10) 3 10) true 0 0 Hok1)
    as [_ Hfull]; [vm_compute; repeat constructor; discriminate|].
  destruct Hfull as [Hrun2 _]; [vm_compute; discriminate|].
  exists ch, ch', d.
  split; [vm_compute; reflexivity|]. split; [exact Hrun|].
  split; [rewrite Hn; reflexivity|]. split; [rewrite Hd; reflexivity|].
  split; [exact Hnode|]. split; [exact Hserv|]. split; [exact Hdel|].
  split; [exact Htree|].
  split; [rewrite Hpri; reflexivity|]. split; [rewrite Hpri; reflexivity|].
  split; [rewrite Hhdr; reflexivity|]. split; [rewrite Hhdr; reflexivity|].
  split; [rewrite Hhdr; reflexivity|]. split; [rewrite Hhdr; reflexivity|].
  rewrite E. exact Hrun2.
Defined.

(** The claim C3 fails as written: after [bplib_process] has been called
    twice on the same bundle, the payload store holds the payload twice;
    only the custody id is kept once, and the second call is flagged
    [BP_FLAG_DUPLICATES]. *)
Lemma process_twice_enqueues_payload_twice :
  exists ch p,
    process_twice_run = Some (6, 0, 6, BP_FLAG_DUPLICATES, ch) /\
    waiting (storage ch) (payload_store_handle ch)
    = [PayloadObj p [104; 105]; PayloadObj p [104; 105]] /\
    rb_nodes (tree (dacs_at ch 0)) = [7].
Proof.
  let v := eval vm_compute in process_twice_run in
  match v with
  | Some (_, _, _, _, ?c) =>
      let q := eval vm_compute in (waiting (storage c) (payload_store_handle c)) in
      match q with
      | PayloadObj ?p _ :: _ => exists c, p
      end
  end.
  split; [vm_compute; reflexivity|]. split; vm_compute; reflexivity.
Qed.

Lemma process_twice_delivers_twice_witness :
  exists ch ch1 ch2 flags1 flags2 obj,
    open_channel (mk_attr 4 0 0 0) None = Some ch /\
    process 0 ch (custody_bundle_with_blocks 1) = Some (1, ch1, flags1) /\
    process 0 ch1 (custody_bundle_with_blocks 33) = Some (1, ch2, flags2) /\
    has_flag flags2 BP_FLAG_DUPLICATES = true /\
    obj = PayloadObj (mk_payload_store true 2) [104; 105] /\
    storage ch2 = fst (ram_enqueue (storage ch1) (payload_store_handle ch) obj 0) /\
    dacs_bundle ch2 = dacs_bundle ch1.
Proof.
  let r := eval vm_compute in
    (bplib_open ram_ops fixed_codec (ram_empty None) 1 10 2 10 (Some (mk_attr 4 0 0 0))) in
  match r with
  | (?s, Some ?c) =>
      pose (ch := c);
      assert (Hopen : bplib_open ram_ops fixed_codec (ram_empty None) 1 10 2 10
                        (Some (mk_attr 4 0 0 0)) = (s, Some ch))
        by (vm_compute; reflexivity)
  end.
  destruct (ChannelFacts.open_dacs_table_ok _ _ _ _ _ _ _ _ _ _ Hopen) as [Hok _].
  destruct (ChannelFacts.process_twice_delivers_twice ram_ops fixed_codec 16 0 ch
              (custody_bundle_with_blocks 1) (custody_bundle_with_blocks 33)
              [WCteb 21 (mk_cteb 7 (Eid.ipn_text 2 10) 2 10); WBib 16 (mk_bib 0 0 0);
               WOther 1 2 3 0]
              6 (mk_pay 2 [104; 105] 2) [] (mk_cteb 7 (Eid.ipn_text 2 10) 2 10) 0 0 0)
    as (ch0 & ch1 & f0 & f1 & i & Hrun1 & _ & _ & _ & _ & _ & _ & _ & _ & Hsecond);
    [reflexivity | reflexivity | left; reflexivity | reflexivity
    | repeat constructor; vm_compute; repeat split; discriminate
    | reflexivity | vm_compute; reflexivity | reflexivity | vm_compute; reflexivity
    | reflexivity | repeat split; repeat constructor | reflexivity
    | reflexivity | right; reflexivity | reflexivity | reflexivity | reflexivity
    | exact Hok | right; reflexivity | vm_compute; discriminate | repeat constructor
    | vm_compute; reflexivity |].
  let r := eval vm_compute in
    (bplib_process ram_ops fixed_codec 16 0 ch (custody_bundle_with_blocks 1) 0 0) in
  match r with
  | Some (_, ?c, ?f) =>
      pose (c1 := c);
      assert (Hrun1c : bplib_process ram_ops fixed_codec 16 0 ch
                         (custody_bundle_with_blocks 1) 0 0 = Some (1, c1, f))
        by (vm_compute; reflexivity)
  end.
  assert (E : ch1 = c1) by congruence.
  destruct Hsecond as (ch2 & f2 & Hrun2 & Hdup & Hst2 & Hd2 & _);
    [rewrite E; vm_compute; reflexivity|].
  exists ch, ch1, ch2, f1, f2, (PayloadObj (mk_payload_store true 2) [104; 105]).
  split; [vm_compute; reflexivity|]. split; [exact Hrun1|].
  split; [exact Hrun2|]. split; [exact Hdup|]. split; [reflexivity|].
  split; [exact Hst2 | exact Hd2].
Defined.

(** C1, as the code has it.  With the wrap response BLOCK and the one slot
    of the active table taken by a bundle that is neither expired nor timed
    out, [bplib_load] finds the slot of the next custody id occupied and
    assigns [status = BP_OVERFLOW]; the dequeue loop that follows runs all
    the same and overwrites it.  The load succeeds, the next bundle takes the
    occupied slot, [current_cid] becomes 2 while [oldest_cid] stays 0: the
    window of custody ids in flight is two wide over a table of one slot. *)
Theorem block_wrap_overflows_window :
  exists ch ch' ds,
    block_wrap_channel = Some ch /\
    wrap_response ch = BP_WRAP_BLOCK /\
    active_table_size (attributes ch) = 1 /\
    sid (active_table ch) = [1] /\
    oldest_cid (active_table ch) = 0 /\ current_cid (active_table ch) = 1 /\
    load 0 ch = Some (BP_SUCCESS, ch', BP_FLAG_ACTIVETABLEWRAP, Some (ds, [98])) /\
    sid (active_table ch') = [2] /\
    oldest_cid (active_table ch') = 0 /\ current_cid (active_table ch') = 2 /\
    ~ current_cid (active_table ch') - oldest_cid (active_table ch')
      <= active_table_size (attributes ch').
Proof.
  let v := eval vm_compute in block_wrap_channel in
  match v with
  | Some ?c =>
      let r := eval vm_compute in (load 0 c) in
      match r with Some (_, ?c', _, Some (?d, _)) => exists c, c', d end
  end.
  split; [vm_compute; reflexivity|]. do 5 (split; [reflexivity|]).
  split; [vm_compute; reflexivity|]. do 3 (split; [reflexivity|]).
  vm_compute. intros H. apply H. reflexivity.
Qed.

(** C2, as the code has it.  With the wrap response RESEND, [bplib_load]
    takes the bundle in the slot of the next custody id and sends it again
    without the expiry check of the two sibling paths: the bundle created at
    time 0 with lifetime 6 is handed to the caller by the load at time 7; its
    stored copy is not relinquished, its slot is not vacated and the expired
    counter stays as it was. *)
Theorem resend_emits_expired_bundle :
  exists ch ch' flags' ds,
    resend_expired_channel = Some ch /\
    wrap_response ch = BP_WRAP_RESEND /\
    load 7 ch = Some (BP_SUCCESS, ch', flags', Some (ds, [97])) /\
    has_flag flags' BP_FLAG_ACTIVETABLEWRAP = true /\
    createsec (hdr_pri (header ds)) = 0 /\
    lifetime (hdr_pri (header ds)) = 6 /\
    exprtime ds = 6 /\
    is_expired 7 ds = true /\
    expired (stats ch') = expired (stats ch) /\
    slot (sid (active_table ch')) (cidsdnv ds mod active_table_size (attributes ch')) = 1 /\
    (exists stored,
       snd (ram_retrieve (storage ch') (data_store_handle ch') 1 0)
       = inl (BundleObj stored [97])).
Proof.
  let v := eval vm_compute in resend_expired_channel in
  match v with
  | Some ?c =>
      let r := eval vm_compute in (load 7 c) in
      match r with Some (_, ?c', ?f, Some (?d, _)) => exists c, c', f, d end
  end.
  split; [vm_compute; reflexivity|]. split; [reflexivity|].
  split; [vm_compute; reflexivity|]. do 6 (split; [reflexivity|]).
  split; [vm_compute; reflexivity|]. eexists. vm_compute. reflexivity.
Qed.

End RunFacts.

Module OptionFacts.
Import Channel.

Section Generic.

Context {St : Type}.
Variable ops : bp_store_t St.
Variable codec : codec_t.

Lemma initialize_orig_bundle_frame db :
  let db' := initialize_orig_bundle codec db in
  primary_block db' = primary_block db /\ custody_block db' = custody_block db /\
  integrity_block db' = integrity_block db /\ payload_block db' = payload_block db /\
  maxlength db' = maxlength db /\ originate db' = originate db /\
  payload_store db' = payload_store db.
Proof.
  unfold initialize_orig_bundle.
  destruct (request_custody (primary_block db)), (integrity_check (primary_block db));
    cbn; repeat split.
Qed.

Lemma init_primary db : primary_block (initialize_orig_bundle codec db) = primary_block db.
Proof. apply initialize_orig_bundle_frame. Qed.
Lemma init_integrity db :
  integrity_block (initialize_orig_bundle codec db) = integrity_block db.
Proof. apply initialize_orig_bundle_frame. Qed.
Lemma init_maxlength db : maxlength (initialize_orig_bundle codec db) = maxlength db.
Proof. apply initialize_orig_bundle_frame. Qed.
Lemma init_originate db : originate (initialize_orig_bundle codec db) = originate db.
Proof. apply initialize_orig_bundle_frame. Qed.

Lemma int_of_bool_of_int v : v = 0 \/ v = 1 -> int_of_bool (bool_of_int v) = v.
Proof. intros [-> | ->]; reflexivity. Qed.

Lemma u32_small v : 0 <= v < 2 ^ 31 -> u32 v = v.
Proof. intros H. unfold u32. apply Z.mod_small. lia. Qed.

Lemma is_bool_int v : negb (v =? 1) && negb (v =? 0) = false -> v = 0 \/ v = 1.
Proof.
  destruct (Z.eqb_spec v 1), (Z.eqb_spec v 0); cbn; intros H; try discriminate H; auto.
Qed.

(** X1.  An option that [bplib_setopt] accepts reads back through
    [bplib_getopt] as the value set. *)
Theorem setopt_getopt_roundtrip (ch ch' : bp_channel_t St) opt val len :
  (opt = BP_OPT_SETSEQUENCE_D \/ opt = BP_OPT_LIFETIME_D -> 0 <= val < 2 ^ 31) ->
  bplib_setopt codec ch opt val len = (BP_SUCCESS, ch') ->
  bplib_getopt codec ch' opt len = (BP_SUCCESS, val).
Proof.
  intros Hrange. unfold bplib_setopt, bplib_getopt, getset_opt, sizeof_ipn, sizeof_int.
  destruct opt; cbn [andb];
    try (destruct (Z.eqb_spec len 4) as [->|Hne]; cbn [negb]);
    try (destruct (negb (val =? 1) && negb (val =? 0)) eqn:Eb;
         [|apply is_bool_int in Eb]);
    try (destruct (negb (val =? BP_WRAP_RESEND) && negb (val =? BP_WRAP_BLOCK)
                   && negb (val =? BP_WRAP_DROP)));
    intros H; cbn in H; first [discriminate H | injection H as <-]; cbn;
    rewrite ?init_primary, ?init_integrity, ?init_maxlength, ?init_originate; cbn;
    rewrite ?u32_small by (apply Hrange; auto);
    rewrite ?int_of_bool_of_int by assumption; reflexivity.
Qed.

(** X2.  [getset_opt] answers [BP_SUCCESS] or [BP_PARMERR]; a call that is
    rejected leaves the channel and the caller's value as they were, and a
    get never changes the channel. *)
Theorem getset_opt_rejects_cleanly (ch ch' : bp_channel_t St) opt val len getset status out :
  getset_opt codec ch opt val len getset = (status, ch', out) ->
  (status = BP_SUCCESS \/ status = BP_PARMERR) /\
  (status <> BP_SUCCESS -> ch' = ch /\ out = val) /\
  (getset = false -> ch' = ch).
Proof.
  unfold getset_opt, sizeof_ipn, sizeof_int.
  destruct opt, getset; cbn [andb];
    try (destruct (Z.eqb_spec len 4) as [->|Hne]; cbn [negb]);
    try (destruct (negb (val =? 1) && negb (val =? 0)));
    try (destruct (negb (val =? BP_WRAP_RESEND) && negb (val =? BP_WRAP_BLOCK)
                   && negb (val =? BP_WRAP_DROP)));
    intros [= <- <- <-];
    (split; [first [left; reflexivity | right; reflexivity]|]);
    (split; [intros H; first [exfalso; apply H; reflexivity | split; reflexivity]
            | intros H; first [discriminate H | reflexivity]]).
Qed.

(** [initialize_orig_bundle] leaves in the header what the primary block
    writer made of the primary block: the block itself when the writer
    reports the bytes it wrote. *)
Lemma initialize_orig_bundle_header db :
  0 < bplib_blk_pri_write codec (primary_block db) ->
  hdr_pri (header (bundle_store (initialize_orig_bundle codec db))) = primary_block db.
Proof.
  intros Hw. unfold initialize_orig_bundle.
  destruct (request_custody (primary_block db)), (integrity_check (primary_block db));
    cbn; apply ChannelFacts.pri_put_ok; exact Hw.
Qed.

(** X3.  A channel that [bplib_open] returns is ready for use: its primary
    block names the given endpoints, and the stored header carries it when
    the primary block writer, whose status [bplib_open] does not look at,
    reported the bytes it wrote; the channel originates bundles; the active
    table has a positive size, is vacant throughout, and its window of
    custody ids is empty; three store handles were granted, none of them
    negative; and no DACS is open. *)
Theorem open_channel_ready st ln ls dn ds attr st' (ch : bp_channel_t St) :
  bplib_open ops codec st ln ls dn ds attr = (st', Some ch) ->
  (0 < bplib_blk_pri_write codec (primary_block (data_bundle ch)) ->
   hdr_pri (header (bundle_store (data_bundle ch))) = primary_block (data_bundle ch)) /\
  (let pri := primary_block (data_bundle ch) in
   srcnode pri = ln /\ srcserv pri = ls /\ dstnode pri = dn /\ dstserv pri = ds /\
   cstnode pri = ln /\ cstserv pri = ls) /\
  originate (data_bundle ch) = true /\
  window_ok ch /\ oldest_cid (active_table ch) = 0 /\ current_cid (active_table ch) = 0 /\
  Z.of_nat (length (sid (active_table ch))) = active_table_size (attributes ch) /\
  Forall (fun s => s = BP_SID_VACANT) (sid (active_table ch)) /\
  0 <= data_store_handle ch /\ 0 <= payload_store_handle ch /\ 0 <= dacs_store_handle ch /\
  num_dacs ch = 0 /\ storage ch = st'.
Proof.
  unfold bplib_open.
  destruct (create ops st) as [st1 h1]. destruct (create ops st1) as [st2 h2].
  destruct (create ops st2) as [st3 h3].
  destruct ((h1 <? 0) || (h2 <? 0) || (h3 <? 0)) eqn:Eh; [discriminate|].
  apply orb_false_iff in Eh. destruct Eh as [Eh E3]. apply orb_false_iff in Eh.
  destruct Eh as [E1 E2]. apply Z.ltb_ge in E1, E2, E3.
  intros [= <- <-].
  cbn [data_bundle active_table attributes num_dacs storage data_store_handle
       payload_store_handle dacs_store_handle].
  rewrite init_primary, init_originate.
  set (ats := match attr with
              | Some a => if 0 <? active_table_size a then active_table_size a
                          else BP_DEFAULT_ACTIVE_TABLE_SIZE
              | None => BP_DEFAULT_ACTIVE_TABLE_SIZE
              end).
  assert (Hats : 0 < ats).
  { unfold ats. destruct attr as [a|]; [|reflexivity].
    destruct (0 <? active_table_size a) eqn:E; [apply Z.ltb_lt in E; exact E | reflexivity]. }
  split; [intros Hw; apply initialize_orig_bundle_header; exact Hw|].
  split; [cbn; repeat split|]. split; [reflexivity|].
  split; [unfold window_ok; cbn; fold ats; lia|].
  split; [reflexivity|]. split; [reflexivity|].
  split; [cbn; fold ats; rewrite length_replicate; lia|].
  split; [cbn; apply Forall_replicate; reflexivity|].
  repeat split; assumption.
Qed.

(** X4.  A [bplib_setopt] that succeeds touches the options only: the
    storage, the store handles, the active table, the open DACS, the
    statistics and the attributes of the channel stay as they are, and the
    stored header is rebuilt from the primary block as set: it carries that
    block when the primary block writer, whose status [bplib_setopt] does
    not look at, reported the bytes it wrote. *)
Theorem setopt_keeps_channel (ch ch' : bp_channel_t St) opt val len :
  bplib_setopt codec ch opt val len = (BP_SUCCESS, ch') ->
  (0 < bplib_blk_pri_write codec (primary_block (data_bundle ch')) ->
   hdr_pri (header (bundle_store (data_bundle ch'))) = primary_block (data_bundle ch')) /\
  storage ch' = storage ch /\ active_table ch' = active_table ch /\
  attributes ch' = attributes ch /\ stats ch' = stats ch /\
  dacs_bundle ch' = dacs_bundle ch /\ num_dacs ch' = num_dacs ch /\
  data_store_handle ch' = data_store_handle ch /\
  payload_store_handle ch' = payload_store_handle ch /\
  dacs_store_handle ch' = dacs_store_handle ch /\
  local_node ch' = local_node ch /\ local_service ch' = local_service ch.
Proof.
  unfold bplib_setopt, getset_opt, sizeof_ipn, sizeof_int.
  destruct opt; cbn [andb];
    try (destruct (Z.eqb_spec len 4) as [->|Hne]; cbn [negb]);
    try (destruct (negb (val =? 1) && negb (val =? 0)));
    try (destruct (negb (val =? BP_WRAP_RESEND) && negb (val =? BP_WRAP_BLOCK)
                   && negb (val =? BP_WRAP_DROP)));
    intros H; cbn in H; first [discriminate H | injection H as <-];
    cbn [data_bundle set_data_bundle storage active_table attributes stats dacs_bundle
         num_dacs data_store_handle payload_store_handle dacs_store_handle local_node
         local_service set_timeout set_proc_admin_only set_wrap_response set_cid_reuse
         set_dacs_rate];
    rewrite init_primary;
    (split; [intros Hw; apply initialize_orig_bundle_header; exact Hw | repeat split]).
Qed.

End Generic.
End OptionFacts.

Module StoreFacts.
Import Channel.
Section Generic.
Context {St : Type}.
Variable ops : bp_store_t St.
Variable codec : codec_t.

Lemma prepare_fragment_inv pri sec seq b off fs flags :
  template_stamped codec pri sec seq b ->
  template_stamped codec pri sec seq (fst (prepare_fragment codec b off fs flags)) /\
  originate (fst (prepare_fragment codec b off fs flags)) = originate b.
Proof.
  intros ((H1 & H2 & H3 & H4) & H5). unfold prepare_fragment, template_stamped, header_stamped.
  destruct (is_frag (primary_block b));
    destruct (biboffset (bundle_store b) =? 0) eqn:Eb; cbn; rewrite ?Eb; cbn;
    unfold pri_static in *; cbn in *; repeat split; try assumption.
Qed.


Lemma enqueue_all_snoc st0 h t done st obj st1 status :
  enqueue_all ops st0 h t done = Some st ->
  enqueue ops st h obj t = (st1, status) -> 0 < status ->
  enqueue_all ops st0 h t (done ++ [obj]) = Some st1.
Proof.
  revert st0. induction done as [|o done IH]; intros st0; simpl.
  - intros [= ->] -> Hs. replace (status <=? 0) with false by (symmetry; apply Z.leb_gt; lia).
    reflexivity.
  - destruct (enqueue ops st0 h o t) as [st2 s2]. destruct (s2 <=? 0); [discriminate|].
    apply IH.
Qed.

Lemma store_data_loop_stamps pri sec seq h t st0 fuel :
  forall bundle st flags off done status bundle' st' flags',
  template_stamped codec pri sec seq bundle ->
  enqueue_all ops st0 h t done = Some st ->
  Forall (stamped codec pri sec seq) done ->
  store_data_loop ops codec fuel bundle st h t flags off = Some (status, bundle', st', flags') ->
  exists objs st_mid,
    enqueue_all ops st0 h t objs = Some st_mid /\
    Forall (stamped codec pri sec seq) objs /\
    pri_static (hdr_pri (header (bundle_store bundle'))) = pri_static (primary_block bundle') /\
    (status = BP_SUCCESS /\ st' = st_mid \/
     status = BP_BUNDLEPARSEERR /\ st' = st_mid \/
     status <= 0 /\ exists obj, stamped codec pri sec seq obj /\
                                enqueue ops st_mid h obj t = (st', status)).
Proof.
  induction fuel as [|fuel IH];
    intros bundle st flags off done status bundle' st' flags' Hinv Hdone Hst.
  - simpl. destruct (off <? paysize (payload_block bundle)); [discriminate|].
    intros [= <- <- <- <-]. exists done, st. split; [exact Hdone|]. split; [exact Hst|].
    destruct Hinv as ((H1 & _ & _ & _) & H5).
    split; [|left; split; reflexivity].
    rewrite <- H5 in H1. destruct (originate bundle); cbn [bundle_store set_primary_block];
      rewrite H1; reflexivity.
  - cbn [store_data_loop]. destruct (off <? paysize (payload_block bundle)).
    2:{ intros [= <- <- <- <-]. exists done, st. split; [exact Hdone|]. split; [exact Hst|].
        destruct Hinv as ((H1 & _ & _ & _) & H5).
        split; [|left; split; reflexivity].
        rewrite <- H5 in H1.
        destruct (originate bundle); cbn [bundle_store set_primary_block];
          rewrite H1; reflexivity. }
    set (fs := if maxlength bundle <? paysize (payload_block bundle) - off
               then maxlength bundle else paysize (payload_block bundle) - off).
    destruct (prepare_fragment_inv pri sec seq bundle off fs flags Hinv) as [Hinv1 _].
    destruct (prepare_fragment codec bundle off fs flags) as [b1 f1]. cbn [fst] in Hinv1.
    destruct (bplib_blk_pay_write codec (payload_block b1) <=? 0).
    { intros [= <- <- <- <-]. exists done, st. split; [exact Hdone|]. split; [exact Hst|].
      destruct Hinv1 as ((H1 & _ & _ & _) & H5).
      split; [congruence | right; left; split; reflexivity]. }
    set (b2 := set_sizes (bplib_blk_pay_write codec (payload_block b1)) fs b1).
    assert (Hinv2 : template_stamped codec pri sec seq b2).
    { destruct Hinv1 as ((H1 & H2 & H3 & H4) & H5). repeat split; assumption. }
    assert (Hobj : forall body, stamped codec pri sec seq (BundleObj (bundle_store b2) body)).
    { intros body. destruct Hinv2 as ((H1 & H2 & H3 & H4) & H5).
      exists (bundle_store b2), body. split; [reflexivity|]. repeat split; assumption. }
    destruct (enqueue ops st h _ t) as [st1 s1] eqn:Henq.
    destruct (s1 <=? 0) eqn:Hs.
    { intros [= <- <- <- <-]. exists done, st. split; [exact Hdone|]. split; [exact Hst|].
      destruct Hinv2 as ((H1 & _ & _ & _) & H5).
      split; [congruence|]. right; right. apply Z.leb_le in Hs. split; [exact Hs|].
      eexists. split; [apply Hobj | exact Henq]. }
    apply Z.leb_gt in Hs. intros Hrun.
    eapply (IH b2 st1 f1 _ (done ++ [_])); [exact Hinv2 | | | exact Hrun].
    + eapply enqueue_all_snoc; eassumption.
    + apply Forall_app. split; [exact Hst|]. constructor; [apply Hobj | constructor].
Qed.

(** X5.  Every bundle that [bplib_store] hands to the storage service carries
    the channel's primary block, with the current time and the channel's
    sequence number patched into the 6- and 4-byte fields of the creation
    timestamp, and expires at creation time plus lifetime (never, for
    lifetime 0); all fragments of one payload carry the same stamp.  The
    fields hold the time and the sequence number themselves when these fit
    42 and 28 bits and [bplib_sdnv_write] raises no flag, which the store
    does not wait for.  The header template is in step with the channel's
    primary block afterwards, as it was before. *)
Theorem store_stamps_bundles fuel sysnow (ch ch' : bp_channel_t St) payload size timeout'
    storflags status flags' :
  originate (data_bundle ch) = true ->
  template_in_sync (data_bundle ch) ->
  bplib_store ops codec fuel sysnow ch payload size timeout' storflags
  = Some (status, ch', flags') ->
  let pri := primary_block (data_bundle ch) in
  exists objs st_mid,
    enqueue_all ops (storage ch) (data_store_handle ch) timeout' objs = Some st_mid /\
    Forall (stamped codec pri sysnow (createseq pri)) objs /\
    (sdnv_fits F_createsec sysnow = true -> bplib_sdnv_write codec F_createsec sysnow = 0 ->
     sdnv_fits F_createseq (createseq pri) = true ->
     bplib_sdnv_write codec F_createseq (createseq pri) = 0 ->
     Forall (fun o => exists ds body,
                 o = BundleObj ds body /\
                 createsec (hdr_pri (header ds)) = sysnow /\
                 createseq (hdr_pri (header ds)) = createseq pri) objs) /\
    template_in_sync (data_bundle ch') /\
    (status = BP_SUCCESS /\ storage ch' = st_mid \/
     (status = BP_BUNDLEPARSEERR \/ status = BP_BUNDLETOOLARGE) /\ storage ch' = st_mid \/
     status <= 0 /\ exists obj, stamped codec pri sysnow (createseq pri) obj /\
       enqueue ops st_mid (data_store_handle ch) obj timeout' = (storage ch', status)).
Proof.
  intros Horig Hsync. unfold bplib_store, store_data_bundle. rewrite Horig. cbn [negb].
  cbn [primary_block payload_block bundle_store set_payload_block originate maxlength].
  set (db := data_bundle ch) in *.
  destruct (negb (is_frag (primary_block db)) && _).
  { intros [= <- <- <-]. exists [], (storage ch). split; [reflexivity|].
    split; [constructor|]. split; [intros; constructor|]. split; [exact Hsync|].
    right; left. split; [right; reflexivity | reflexivity]. }
  rewrite Horig. cbv beta iota zeta.
  match goal with
  | |- context [store_data_loop ops codec fuel ?b ?s ?h ?t ?f 0] =>
      destruct (store_data_loop ops codec fuel b s h t f 0) as [[[[s1 b1] st1] f1]|] eqn:Hloop;
        [|discriminate];
      destruct (store_data_loop_stamps (primary_block db) sysnow (createseq (primary_block db))
                  h t s fuel b s f 0 [] s1 b1 st1 f1) as (objs & st_mid & Hall & Hfor & Hs & Hc);
        [ | reflexivity | constructor | exact Hloop | ]
  end.
  { unfold template_stamped, header_stamped, template_in_sync in *.
    cbn [lifetime set_createsec createsec].
    destruct (lifetime (primary_block db) =? 0) eqn:El; cbn [negb];
      repeat split; exact Hsync. }
  intros [= <- <- <-]. exists objs, st_mid. split; [exact Hall|]. split; [exact Hfor|].
  split.
  { intros Hf1 Hw1 Hf2 Hw2. eapply Forall_impl; [exact Hfor|].
    intros o (ds & body & -> & _ & Hsec & Hseq & _). exists ds, body.
    split; [reflexivity|].
    rewrite Hsec, Hseq, !ChannelFacts.sdnv_put_ok by assumption. split; reflexivity. }
  split.
  { unfold template_in_sync. destruct (s1 =? BP_SUCCESS); cbn; exact Hs. }
  destruct Hc as [[-> ->]|[[-> ->]|[Hle Hobj]]].
  - left. split; reflexivity.
  - right; left. split; [left; reflexivity | reflexivity].
  - right; right. split; [exact Hle|].
    replace (s1 =? BP_SUCCESS) with false
      by (symmetry; apply Z.eqb_neq; unfold BP_SUCCESS; lia).
    exact Hobj.
Qed.

End Generic.
End StoreFacts.

Module LoadFacts.
Import Channel.
Section Generic.
Context {St : Type}.
Variable ops : bp_store_t St.
Variable codec : codec_t.

Lemma u32_id x : 0 <= x < 2 ^ 32 -> u32 x = x.
Proof. intros H. unfold u32. apply Z.mod_small. exact H. Qed.

Lemma same_slot_when_full o c a : 0 < a -> c - o = a -> c mod a = o mod a.
Proof.
  intros Ha H. replace c with (o + 1 * a) by lia. apply Z_mod_plus_full.
Qed.

Lemma active_table_loop_window sysnow fuel :
  forall v v',
  window_ok (lv_ch v) ->
  current_cid (active_table (lv_ch v)) < 2 ^ 32 ->
  wrap_response (lv_ch v) <> BP_WRAP_BLOCK ->
  active_table_loop ops fuel sysnow v = Some v' ->
  window_ok (lv_ch v') /\ same_table_setup (lv_ch v) (lv_ch v') /\
  oldest_cid (active_table (lv_ch v)) <= oldest_cid (active_table (lv_ch v')) /\
  (lv_newcid v' = true ->
   current_cid (active_table (lv_ch v')) - oldest_cid (active_table (lv_ch v'))
   < active_table_size (attributes (lv_ch v'))).
Proof.
  induction fuel as [|fuel IH]; intros v v' Hw Hc Hwrap.
  - simpl. destruct (oldest_cid _ <? current_cid _) eqn:E; [discriminate|].
    apply Z.ltb_ge in E. intros [= <-]. split; [exact Hw|].
    split; [repeat split|]. destruct Hw as (Ha & Ho & Hwin). lia.
  - cbn [active_table_loop].
    destruct (oldest_cid _ <? current_cid _) eqn:E.
    2:{ apply Z.ltb_ge in E. intros [= <-]. split; [exact Hw|].
        split; [repeat split|]. destruct Hw as (Ha & Ho & Hwin). lia. }
    apply Z.ltb_lt in E. destruct Hw as (Ha & Ho & Hwin).
    set (ch := lv_ch v) in *. set (tbl := active_table ch) in *.
    set (A := active_table_size (attributes ch)) in *.
    assert (Hbump : u32 (oldest_cid tbl + 1) = oldest_cid tbl + 1) by (apply u32_id; lia).
    assert (Hrec : forall ch1,
               window_ok ch1 -> same_table_setup ch ch1 ->
               oldest_cid tbl <= oldest_cid (active_table ch1) ->
               forall ds s a n st f,
               active_table_loop ops fuel sysnow (mk_load_vars ch1 ds s a n st f) = Some v' ->
               window_ok (lv_ch v') /\ same_table_setup ch (lv_ch v') /\
               oldest_cid tbl <= oldest_cid (active_table (lv_ch v')) /\
               (lv_newcid v' = true ->
                current_cid (active_table (lv_ch v')) - oldest_cid (active_table (lv_ch v'))
                < active_table_size (attributes (lv_ch v')))).
    { intros ch1 Hw1 (S1 & S2 & S3 & S4) Ho1 ds s a n st f Hrun. apply IH in Hrun.
      - cbn [lv_ch] in Hrun. destruct Hrun as (Hw' & (H1 & H2 & H3 & H4) & Ho' & Hn).
        split; [exact Hw'|]. split; [repeat split; congruence|]. split; [lia | exact Hn].
      - exact Hw1.
      - cbn [lv_ch]. rewrite S3. exact Hc.
      - cbn [lv_ch]. rewrite S2. exact Hwrap. }
    assert (Hexit : forall ch1 ds s a n st f,
               window_ok ch1 -> same_table_setup ch ch1 ->
               oldest_cid tbl <= oldest_cid (active_table ch1) ->
               (n = true -> current_cid (active_table ch1) - oldest_cid (active_table ch1)
                            < active_table_size (attributes ch1)) ->
               Some (mk_load_vars ch1 ds s a n st f) = Some v' ->
               window_ok (lv_ch v') /\ same_table_setup ch (lv_ch v') /\
               oldest_cid tbl <= oldest_cid (active_table (lv_ch v')) /\
               (lv_newcid v' = true ->
                current_cid (active_table (lv_ch v')) - oldest_cid (active_table (lv_ch v'))
                < active_table_size (attributes (lv_ch v')))).
    { intros ch1 ds s a n st f Hw1 Hs1 Ho1 Hn1 [= <-]. cbn. tauto. }
    assert (Hbumped : forall ch1,
               attributes ch1 = attributes ch -> wrap_response ch1 = wrap_response ch ->
               data_store_handle ch1 = data_store_handle ch ->
               current_cid (active_table ch1) = current_cid tbl ->
               oldest_cid (active_table ch1) = oldest_cid tbl + 1 ->
               window_ok ch1 /\ same_table_setup ch ch1 /\
               oldest_cid tbl <= oldest_cid (active_table ch1) /\
               current_cid (active_table ch1) - oldest_cid (active_table ch1)
               < active_table_size (attributes ch1)).
    { intros ch1 E1 E2 E3 E4 E5. unfold window_ok, same_table_setup.
      rewrite E1, E4, E5. fold A. repeat split; try assumption; lia. }
    assert (Hsame : forall ch1,
               attributes ch1 = attributes ch -> wrap_response ch1 = wrap_response ch ->
               data_store_handle ch1 = data_store_handle ch ->
               current_cid (active_table ch1) = current_cid tbl ->
               oldest_cid (active_table ch1) = oldest_cid tbl ->
               window_ok ch1 /\ same_table_setup ch ch1 /\
               oldest_cid tbl <= oldest_cid (active_table ch1)).
    { intros ch1 E1 E2 E3 E4 E5. unfold window_ok, same_table_setup.
      rewrite E1, E4, E5. fold A. repeat split; try assumption; lia. }
    destruct (slot (sid tbl) (oldest_cid tbl mod A) =? BP_SID_VACANT) eqn:Evac.
    { destruct (Hbumped (bump_oldest ch)) as (W & S & O & _);
        try reflexivity; [cbn; fold tbl; exact Hbump|].
      apply Hrec; assumption. }
    apply Z.eqb_neq in Evac.
    destruct (retrieve ops (storage ch) (data_store_handle ch) _ BP_CHECK) as [st [obj|e]].
    2:{ match goal with |- active_table_loop _ _ _ (mk_load_vars ?c _ _ _ _ _ _) = _ -> _ =>
          destruct (Hsame c) as (W & S & O); try reflexivity end.
        apply Hrec; assumption. }
    destruct (is_expired sysnow (as_bundle obj).1).
    { match goal with |- active_table_loop _ _ _ (mk_load_vars ?c _ _ _ _ _ _) = _ -> _ =>
        destruct (Hbumped c) as (W & S & O & _);
          try reflexivity; [cbn; fold tbl; exact Hbump|] end.
      apply Hrec; assumption. }
    cbn [timeout attributes wrap_response cid_reuse set_storage].
    destruct (negb (timeout ch =? 0) && _).
    { cbn [cid_reuse count_retransmitted bump_oldest set_stats set_active_table set_storage].
      destruct (cid_reuse ch);
        match goal with |- Some (mk_load_vars ?c _ _ _ _ _ _) = _ -> _ =>
          destruct (Hbumped c) as (W & S & O & R);
            try reflexivity; [cbn; fold tbl; exact Hbump|] end;
        apply Hexit; try assumption; intros; assumption. }
    fold A.
    destruct (negb (slot (sid tbl) (current_cid tbl mod A) =? BP_SID_VACANT)) eqn:Eocc.
    2:{ match goal with |- Some (mk_load_vars ?c _ _ _ _ _ _) = _ -> _ =>
          destruct (Hsame c) as (W & S & O); try reflexivity end.
        apply Hexit; try assumption. intros _. cbn. fold tbl A.
        apply negb_false_iff, Z.eqb_eq in Eocc.
        destruct (Z.eq_dec (current_cid tbl - oldest_cid tbl) A) as [Hfull|Hnf]; [|lia].
        exfalso. apply Evac. rewrite <- (same_slot_when_full _ _ _ Ha Hfull). exact Eocc. }
    destruct (wrap_response ch =? BP_WRAP_RESEND).
    { cbn [bump_oldest storage data_store_handle set_active_table set_storage].
      destruct (retrieve ops st (data_store_handle ch) _ BP_CHECK) as [st2 [obj2|e2]];
        match goal with |- Some (mk_load_vars ?c _ _ _ _ _ _) = _ -> _ =>
          destruct (Hbumped c) as (W & S & O & R);
            try reflexivity; [cbn; fold tbl; exact Hbump|] end;
        apply Hexit; try assumption; intros; assumption. }
    destruct (Z.eqb_spec (wrap_response ch) BP_WRAP_BLOCK) as [Hb|_]; [contradiction|].
    match goal with |- Some (mk_load_vars ?c _ _ _ _ _ _) = _ -> _ =>
      destruct (Hbumped c) as (W & S & O & R);
        try reflexivity; [cbn; fold tbl; exact Hbump|] end.
    apply Hexit; try assumption; intros; assumption.
Qed.

Lemma fresh_dequeue_loop_frame sysnow timeout' fuel :
  forall v v',
  fresh_dequeue_loop ops fuel sysnow timeout' v = Some v' ->
  active_table (lv_ch v') = active_table (lv_ch v) /\
  attributes (lv_ch v') = attributes (lv_ch v) /\
  wrap_response (lv_ch v') = wrap_response (lv_ch v) /\
  lv_newcid v' = lv_newcid v /\
  (forall ds body, lv_ds v' = Some (ds, body) -> is_expired sysnow ds = false).
Proof.
  induction fuel as [|fuel IH]; intros v v'; [discriminate|].
  cbn [fresh_dequeue_loop].
  destruct (dequeue ops (storage (lv_ch v)) (data_store_handle (lv_ch v)) timeout')
    as [st [[obj sid']|e]].
  - destruct (is_expired sysnow (as_bundle obj).1) eqn:Ex.
    + intros Hrun. apply IH in Hrun. cbn in Hrun. exact Hrun.
    + intros [= <-]. cbn. repeat split. intros ds body [= E]. rewrite E in Ex. exact Ex.
  - destruct (e =? BP_TIMEOUT); intros [= <-]; cbn; repeat split; intros; discriminate.
Qed.

Lemma flush_stale_dacs_frame fuel sysnow n :
  forall i (ch ch' : bp_channel_t St) flags flags',
  flush_stale_dacs ops codec fuel sysnow n i ch flags = Some (ch', flags') ->
  active_table ch' = active_table ch /\ attributes ch' = attributes ch /\
  wrap_response ch' = wrap_response ch.
Proof.
  induction n as [|n IH]; intros i ch ch' flags flags'; cbn [flush_stale_dacs].
  - intros [= <- <-]. repeat split.
  - destruct ((0 <? dacs_rate ch) && _ && _).
    + destruct (store_dacs_bundles ops codec fuel _ _ sysnow BP_CHECK _ _ flags)
        as [[[[s d] st] f]|]; [|discriminate].
      intros Hrun. apply IH in Hrun. cbn in Hrun. exact Hrun.
    + apply IH.
Qed.

Lemma has_flag_set_more flags f g :
  has_flag flags f = true -> has_flag (set_flag flags g) f = true.
Proof.
  unfold has_flag, set_flag. rewrite !negb_true_iff, !Z.eqb_neq. intros H E. apply H.
  apply Z.bits_inj'. intros n Hn. apply (f_equal (fun z => Z.testbit z n)) in E.
  rewrite Z.land_spec, Z.lor_spec, Z.bits_0 in E. rewrite Z.land_spec, Z.bits_0.
  destruct (Z.testbit flags n), (Z.testbit f n), (Z.testbit g n); cbn in *; congruence.
Qed.

(** X6.  With the wrap response RESEND or DROP, [bplib_load] keeps the
    window of custody ids within the active table: from a channel whose
    window fits, whatever the storage service answers, the window fits again
    when the load returns.  (A bundle from the DACS store takes no custody
    id; were the storage service to hand one out with a custody block, the
    flags would say ROUTENEEDED.) *)
Theorem load_keeps_window fuel sysnow (ch ch' : bp_channel_t St) buf timeout' loadflags
    status flags' out :
  window_ok ch ->
  current_cid (active_table ch) < 2 ^ 32 - 1 ->
  wrap_response ch <> BP_WRAP_BLOCK ->
  bplib_load ops codec fuel sysnow ch buf timeout' loadflags = Some (status, ch', flags', out) ->
  (forall ds body, out = Some (ds, body) ->
     has_flag flags' BP_FLAG_ROUTENEEDED = true -> cteboffset ds = 0) ->
  window_ok ch' /\ attributes ch' = attributes ch /\
  oldest_cid (active_table ch) <= oldest_cid (active_table ch') /\
  current_cid (active_table ch) <= current_cid (active_table ch')
  <= current_cid (active_table ch) + 1.
Proof.
  intros Hw Hc Hwrap. unfold bplib_load.
  destruct (flush_stale_dacs ops codec fuel sysnow _ 0 ch loadflags) as [[ch1 f1]|] eqn:Hflush;
    [|discriminate].
  apply flush_stale_dacs_frame in Hflush. destruct Hflush as (Ht1 & Ha1 & Hw1).
  assert (Hwin1 : window_ok ch1) by (unfold window_ok in *; rewrite Ht1, Ha1; exact Hw).
  destruct (dequeue ops (storage ch1) (dacs_store_handle ch1) BP_CHECK)
    as [st [[obj sid']|e]].
  - (* a bundle from the DACS store *)
    cbn [lv_ds]. unfold send_next_bundle. cbn [lv_ds lv_ch lv_newcid lv_sid lv_flags].
    destruct (as_bundle obj) as [ds body] eqn:Eobj.
    destruct (match buf with NullBuf _ => true | SizedBuf size => bundlesize ds <=? size end).
    2:{ intros [= <- <- <- <-] _. unfold window_ok. cbn. rewrite Ht1, Ha1.
        destruct Hw as (A1 & A2 & A3). repeat split; lia. }
    destruct (match buf with NullBuf ok => ok | SizedBuf _ => true end).
    2:{ intros [= <- <- <- <-] _. unfold window_ok. cbn. rewrite Ht1, Ha1.
        destruct Hw as (A1 & A2 & A3). repeat split; lia. }
    destruct (cteboffset ds =? 0) eqn:Ecteb; cbn [negb].
    + rewrite Ecteb. intros [= <- <- <- <-] _. unfold window_ok. cbn. rewrite Ht1, Ha1.
      destruct Hw as (A1 & A2 & A3). repeat split; lia.
    + cbn [cteboffset set_header set_cidsdnv]. rewrite Ecteb.
      intros [= <- <- <- <-] Hout. exfalso. apply Z.eqb_neq in Ecteb. apply Ecteb.
      specialize (Hout _ _ eq_refl). cbn in Hout. apply Hout.
      unfold sdnv_flags. apply has_flag_set_more. apply ChannelFacts.has_flag_set.
      discriminate.
  - cbn [lv_ds].
    destruct (active_table_loop ops fuel sysnow _) as [v1|] eqn:Hloop; [|discriminate].
    apply active_table_loop_window in Hloop;
      [|exact Hwin1 | cbn; rewrite Ht1; lia | cbn; rewrite Hw1; exact Hwrap].
    cbn [lv_ch] in Hloop. destruct Hloop as (Hwv & (Hav & Hwv' & Hcv & _) & Hold & Hroom).
    cbn [set_storage active_table attributes] in Hcv, Hold, Hav.
    rewrite Ht1 in Hcv, Hold. rewrite Ha1 in Hav.
    destruct Hwv as (B1 & B2 & B3). rewrite Hav in B1, B3, Hroom.
    destruct Hw as (A1 & A2 & A3).
    assert (Hsend : forall v2,
               active_table (lv_ch v2) = active_table (lv_ch v1) ->
               attributes (lv_ch v2) = attributes (lv_ch v1) ->
               lv_newcid v2 = lv_newcid v1 ->
               forall s c f o,
               send_next_bundle ops codec sysnow (data_store_handle ch1) buf v2 = (s, c, f, o) ->
               window_ok c /\ attributes c = attributes ch /\
               oldest_cid (active_table ch) <= oldest_cid (active_table c) /\
               current_cid (active_table ch) <= current_cid (active_table c)
               <= current_cid (active_table ch) + 1).
    { intros v2 Ht2 Ha2 Hn2 s c f o. unfold send_next_bundle.
      assert (Hkeep : forall c0 : bp_channel_t St,
                 current_cid (active_table c0) = current_cid (active_table (lv_ch v2)) ->
                 oldest_cid (active_table c0) = oldest_cid (active_table (lv_ch v2)) ->
                 attributes c0 = attributes (lv_ch v2) ->
                 window_ok c0 /\ attributes c0 = attributes ch /\
                 oldest_cid (active_table ch) <= oldest_cid (active_table c0) /\
                 current_cid (active_table ch) <= current_cid (active_table c0)
                 <= current_cid (active_table ch) + 1).
      { intros c0 E1 E1' E2. unfold window_ok. rewrite E1, E1', E2, Ht2, Ha2, Hav.
        repeat split; lia. }
      destruct (lv_ds v2) as [[ds body]|].
      2:{ intros [= <- <- <- <-]. apply Hkeep; reflexivity. }
      destruct (match buf with NullBuf _ => true | SizedBuf size => bundlesize ds <=? size end).
      2:{ intros [= <- <- <- <-]. apply Hkeep; reflexivity. }
      destruct (match buf with NullBuf ok => ok | SizedBuf _ => true end).
      2:{ intros [= <- <- <- <-]. apply Hkeep; reflexivity. }
      destruct (cteboffset ds =? 0) eqn:Ecteb; cbn [negb].
      { rewrite Ecteb. intros [= <- <- <- <-]. apply Hkeep; reflexivity. }
      destruct (lv_newcid v2) eqn:En.
      2:{ cbn [cteboffset]. rewrite Ecteb. intros [= <- <- <- <-]. apply Hkeep; reflexivity. }
      cbn [cteboffset set_header set_cidsdnv]. rewrite Ecteb. intros [= <- <- <- <-].
      unfold window_ok. cbn. rewrite Ht2, Ha2, Hav.
      specialize (Hroom (eq_sym Hn2)).
      rewrite u32_id by lia. repeat split; lia. }
    destruct (lv_ds v1) as [p|] eqn:Eds.
    + destruct (send_next_bundle ops codec sysnow (data_store_handle ch1) buf v1)
        as [[[s c] f] o] eqn:Es.
      intros [= <- <- <- <-] _. eapply Hsend; [| | |exact Es]; reflexivity.
    + destruct (fresh_dequeue_loop ops fuel sysnow timeout' v1)
        as [v2|] eqn:Ef; [|discriminate].
      apply fresh_dequeue_loop_frame in Ef.
      destruct (send_next_bundle ops codec sysnow (data_store_handle ch1) buf v2)
        as [[[s c] f] o] eqn:Es.
      intros [= <- <- <- <-] _. eapply Hsend; [| | |exact Es]; tauto.
Qed.

Lemma flush_stale_dacs_stats fuel sysnow n :
  forall i (ch ch' : bp_channel_t St) flags flags',
  flush_stale_dacs ops codec fuel sysnow n i ch flags = Some (ch', flags') ->
  stats ch' = stats ch.
Proof.
  induction n as [|n IH]; intros i ch ch' flags flags'; cbn [flush_stale_dacs].
  - intros [= <- <-]. reflexivity.
  - destruct ((0 <? dacs_rate ch) && _ && _).
    + destruct (store_dacs_bundles ops codec fuel _ _ sysnow BP_CHECK _ _ flags)
        as [[[[s d] st] f]|]; [|discriminate].
      intros Hrun. apply IH in Hrun. cbn in Hrun. exact Hrun.
    + apply IH.
Qed.

Lemma active_table_loop_transmitted sysnow fuel :
  forall v v',
  active_table_loop ops fuel sysnow v = Some v' ->
  transmitted (stats (lv_ch v')) = transmitted (stats (lv_ch v)).
Proof.
  induction fuel as [|fuel IH]; intros v v'; cbn [active_table_loop];
    destruct (oldest_cid _ <? current_cid _); try discriminate;
    try (intros [= <-]; reflexivity).
  destruct (slot _ _ =? BP_SID_VACANT).
  { intros Hrun. apply IH in Hrun. exact Hrun. }
  destruct (retrieve ops _ _ _ BP_CHECK) as [st [obj|e]].
  2:{ intros Hrun. apply IH in Hrun. exact Hrun. }
  destruct (is_expired sysnow (as_bundle obj).1).
  { intros Hrun. apply IH in Hrun. exact Hrun. }
  destruct (negb (timeout _ =? 0) && _).
  { destruct (cid_reuse _); intros [= <-]; reflexivity. }
  destruct (negb (slot _ _ =? BP_SID_VACANT)); [|intros [= <-]; reflexivity].
  destruct (wrap_response _ =? BP_WRAP_RESEND).
  { destruct (retrieve ops _ _ _ BP_CHECK) as [st2 [obj2|e2]]; intros [= <-]; reflexivity. }
  destruct (wrap_response _ =? BP_WRAP_BLOCK); intros [= <-]; reflexivity.
Qed.

Lemma active_table_loop_unexpired sysnow fuel :
  forall v v',
  wrap_response (lv_ch v) <> BP_WRAP_RESEND ->
  lv_ds v = None ->
  active_table_loop ops fuel sysnow v = Some v' ->
  forall ds body, lv_ds v' = Some (ds, body) -> is_expired sysnow ds = false.
Proof.
  induction fuel as [|fuel IH]; intros v v' Hwrap Hnone; cbn [active_table_loop];
    destruct (oldest_cid _ <? current_cid _); try discriminate;
    try (intros [= <-]; rewrite Hnone; discriminate).
  destruct (slot _ _ =? BP_SID_VACANT).
  { intros Hrun. eapply IH; [| |exact Hrun]; [exact Hwrap | reflexivity]. }
  destruct (retrieve ops _ _ _ BP_CHECK) as [st [obj|e]].
  2:{ intros Hrun. eapply IH; [| |exact Hrun]; [exact Hwrap | reflexivity]. }
  destruct (is_expired sysnow (as_bundle obj).1) eqn:Ex.
  { intros Hrun. eapply IH; [| |exact Hrun]; [exact Hwrap | reflexivity]. }
  destruct (negb (timeout _ =? 0) && _).
  { destruct (cid_reuse _); intros [= <-] ds body [= E]; rewrite E in Ex; exact Ex. }
  destruct (negb (slot _ _ =? BP_SID_VACANT)); [|intros [= <-]; discriminate].
  cbn [wrap_response set_storage].
  destruct (Z.eqb_spec (wrap_response (lv_ch v)) BP_WRAP_RESEND) as [Hr|_]; [contradiction|].
  destruct (wrap_response _ =? BP_WRAP_BLOCK); intros [= <-]; discriminate.
Qed.

Lemma fresh_dequeue_loop_result sysnow timeout' fuel :
  forall v v',
  fresh_dequeue_loop ops fuel sysnow timeout' v = Some v' ->
  transmitted (stats (lv_ch v')) = transmitted (stats (lv_ch v)) /\
  (lv_ds v' = None -> lv_status v' = BP_TIMEOUT \/ lv_status v' = BP_FAILEDSTORE).
Proof.
  induction fuel as [|fuel IH]; intros v v'; [discriminate|].
  cbn [fresh_dequeue_loop].
  destruct (dequeue ops (storage (lv_ch v)) (data_store_handle (lv_ch v)) timeout')
    as [st [[obj sid']|e]].
  - destruct (is_expired sysnow (as_bundle obj).1) eqn:Ex.
    + intros Hrun. apply IH in Hrun. cbn in Hrun. exact Hrun.
    + intros [= <-]. cbn. split; [reflexivity | discriminate].
  - destruct (e =? BP_TIMEOUT); intros [= <-]; cbn; split; auto.
Qed.

Lemma send_next_bundle_result sysnow store buf (v : load_vars) s (c : bp_channel_t St) f o :
  send_next_bundle ops codec sysnow store buf v = (s, c, f, o) ->
  match o with
  | Some (ds, body) =>
      s = BP_SUCCESS /\
      transmitted (stats c) = u64 (transmitted (stats (lv_ch v)) + 1) /\
      exists ds0, lv_ds v = Some (ds0, body) /\ exprtime ds = exprtime ds0
  | None =>
      transmitted (stats c) = transmitted (stats (lv_ch v)) /\
      (s = BP_FAILEDMEM \/ s = BP_BUNDLETOOLARGE \/ lv_ds v = None /\ s = lv_status v)
  end.
Proof.
  unfold send_next_bundle.
  destruct (lv_ds v) as [[ds body]|].
  2:{ intros [= <- <- <- <-]. cbn. auto. }
  destruct (match buf with NullBuf _ => true | SizedBuf size => bundlesize ds <=? size end).
  2:{ intros [= <- <- <- <-]. cbn. auto. }
  destruct (match buf with NullBuf ok => ok | SizedBuf _ => true end).
  2:{ intros [= <- <- <- <-]. cbn. auto. }
  destruct (cteboffset ds =? 0) eqn:Ecteb; cbn [negb].
  { rewrite Ecteb. intros [= <- <- <- <-]. cbn. eauto. }
  destruct (lv_newcid v).
  - cbn [cteboffset set_header set_cidsdnv]. rewrite Ecteb. intros [= <- <- <- <-].
    cbn. eauto.
  - rewrite Ecteb. intros [= <- <- <- <-]. cbn. eauto.
Qed.

(** X7.  [bplib_load] answers BP_SUCCESS exactly when it hands a bundle
    out, and then it has counted one more transmitted bundle; otherwise the
    status is one of BP_TIMEOUT, BP_FAILEDSTORE, BP_FAILEDMEM and
    BP_BUNDLETOOLARGE, and the count stands.  The BP_OVERFLOW of a blocked
    active table is never what the call returns: the dequeue that follows
    replaces it. *)
Theorem load_status_and_count fuel sysnow (ch ch' : bp_channel_t St) buf timeout' loadflags
    status flags' out :
  bplib_load ops codec fuel sysnow ch buf timeout' loadflags = Some (status, ch', flags', out) ->
  match out with
  | Some _ =>
      status = BP_SUCCESS /\ transmitted (stats ch') = u64 (transmitted (stats ch) + 1)
  | None =>
      (status = BP_TIMEOUT \/ status = BP_FAILEDSTORE \/ status = BP_FAILEDMEM \/
       status = BP_BUNDLETOOLARGE) /\
      transmitted (stats ch') = transmitted (stats ch)
  end.
Proof.
  unfold bplib_load.
  destruct (flush_stale_dacs ops codec fuel sysnow _ 0 ch loadflags) as [[ch1 f1]|] eqn:Hflush;
    [|discriminate].
  apply flush_stale_dacs_stats in Hflush.
  destruct (dequeue ops (storage ch1) (dacs_store_handle ch1) BP_CHECK)
    as [st [[obj sid']|e]].
  - cbn [lv_ds].
    destruct (send_next_bundle ops codec sysnow (dacs_store_handle ch1) buf _)
      as [[[s c] f] o] eqn:Es.
    apply send_next_bundle_result in Es. cbn [lv_ch lv_ds lv_status] in Es.
    intros [= <- <- <- <-]. cbn [stats set_storage] in Es. rewrite Hflush in Es.
    destruct o as [[ds body]|].
    + destruct Es as (E1 & E2 & _). auto.
    + destruct Es as (E1 & [E2|[E2|[E2 _]]]); [auto | auto | discriminate].
  - cbn [lv_ds].
    destruct (active_table_loop ops fuel sysnow _) as [v1|] eqn:Hloop; [|discriminate].
    apply active_table_loop_transmitted in Hloop. cbn [lv_ch stats set_storage] in Hloop.
    rewrite Hflush in Hloop.
    assert (Hfin : forall v2,
               transmitted (stats (lv_ch v2)) = transmitted (stats ch) ->
               (lv_ds v2 = None -> lv_status v2 = BP_TIMEOUT \/ lv_status v2 = BP_FAILEDSTORE) ->
               Some (send_next_bundle ops codec sysnow (data_store_handle ch1) buf v2)
               = Some (status, ch', flags', out) ->
               match out with
               | Some _ =>
                   status = BP_SUCCESS /\
                   transmitted (stats ch') = u64 (transmitted (stats ch) + 1)
               | None =>
                   (status = BP_TIMEOUT \/ status = BP_FAILEDSTORE \/ status = BP_FAILEDMEM \/
                    status = BP_BUNDLETOOLARGE) /\
                   transmitted (stats ch') = transmitted (stats ch)
               end).
    { intros v2 Ht Hs [= Es]. apply send_next_bundle_result in Es. rewrite Ht in Es.
      destruct out as [[ds body]|].
      - destruct Es as (E1 & E2 & _). auto.
      - destruct Es as (E1 & [E2|[E2|[E2 E3]]]); [auto | auto |].
        split; [|exact E1]. rewrite E3. destruct (Hs E2) as [H|H]; auto. }
    destruct (lv_ds v1) as [p|] eqn:Eds.
    + apply Hfin; [exact Hloop | rewrite Eds; discriminate].
    + destruct (fresh_dequeue_loop ops fuel sysnow timeout' v1) as [v2|] eqn:Ef;
        [|discriminate].
      apply fresh_dequeue_loop_result in Ef. destruct Ef as (F1 & F2).
      apply Hfin; [congruence | exact F2].
Qed.

(** X8.  With the wrap response BLOCK or DROP, a data bundle that
    [bplib_load] hands out has not expired: its expiration time is zero or
    lies after the current time.  (The flags tell a bundle of the DACS store
    by ROUTENEEDED; such bundles are sent whatever their expiration time.) *)
Theorem load_emits_unexpired fuel sysnow (ch ch' : bp_channel_t St) buf timeout' loadflags
    status flags' ds body :
  wrap_response ch <> BP_WRAP_RESEND ->
  bplib_load ops codec fuel sysnow ch buf timeout' loadflags
  = Some (status, ch', flags', Some (ds, body)) ->
  has_flag flags' BP_FLAG_ROUTENEEDED = false ->
  is_expired sysnow ds = false.
Proof.
  intros Hwrap. unfold bplib_load.
  destruct (flush_stale_dacs ops codec fuel sysnow _ 0 ch loadflags) as [[ch1 f1]|] eqn:Hflush;
    [|discriminate].
  apply flush_stale_dacs_frame in Hflush. destruct Hflush as (_ & _ & Hw1).
  destruct (dequeue ops (storage ch1) (dacs_store_handle ch1) BP_CHECK)
    as [st [[obj sid']|e]].
  - cbn [lv_ds]. unfold send_next_bundle. cbn [lv_ds lv_ch lv_newcid lv_sid lv_flags].
    destruct (as_bundle obj) as [ds0 body0] eqn:Eobj.
    destruct (match buf with NullBuf _ => true | SizedBuf size => bundlesize ds0 <=? size end);
      [|discriminate].
    destruct (match buf with NullBuf ok => ok | SizedBuf _ => true end); [|discriminate].
    assert (Hset : has_flag (set_flag f1 BP_FLAG_ROUTENEEDED) BP_FLAG_ROUTENEEDED = true)
      by (apply ChannelFacts.has_flag_set; discriminate).
    destruct (cteboffset ds0 =? 0) eqn:Ecteb; cbn [negb].
    + rewrite Ecteb. intros [= <- <- <- <- <-] Hf. congruence.
    + cbn [cteboffset set_header set_cidsdnv]. rewrite Ecteb.
      intros [= <- <- <- <- <-] Hf. unfold sdnv_flags in Hf.
      rewrite has_flag_set_more in Hf by exact Hset. discriminate.
  - cbn [lv_ds].
    destruct (active_table_loop ops fuel sysnow _) as [v1|] eqn:Hloop; [|discriminate].
    assert (Hun : forall d b, lv_ds v1 = Some (d, b) -> is_expired sysnow d = false).
    { eapply active_table_loop_unexpired; [| |exact Hloop]; [|reflexivity].
      cbn. rewrite Hw1. exact Hwrap. }
    assert (Hfin : forall v2,
               (forall d b, lv_ds v2 = Some (d, b) -> is_expired sysnow d = false) ->
               Some (send_next_bundle ops codec sysnow (data_store_handle ch1) buf v2)
               = Some (status, ch', flags', Some (ds, body)) ->
               is_expired sysnow ds = false).
    { intros v2 Hv [= Es]. apply send_next_bundle_result in Es.
      destruct Es as (_ & _ & ds0 & E1 & E2). unfold is_expired. rewrite E2.
      apply (Hv _ _ E1). }
    destruct (lv_ds v1) as [p|] eqn:Eds.
    + intros Hrun _. revert Hrun. apply Hfin. intros d b E. apply (Hun d b). congruence.
    + destruct (fresh_dequeue_loop ops fuel sysnow timeout' v1) as [v2|] eqn:Ef;
        [|discriminate].
      apply fresh_dequeue_loop_frame in Ef. destruct Ef as (_ & _ & _ & _ & F).
      intros Hrun _. revert Hrun. apply Hfin. exact F.
Qed.

End Generic.
End LoadFacts.

Module LoadCidFacts.
Import Channel LoadFacts.
Section Generic.
Context {St : Type}.
Variable ops : bp_store_t St.
Variable codec : codec_t.

Lemma active_table_loop_current sysnow fuel :
  forall v v',
  active_table_loop ops fuel sysnow v = Some v' ->
  current_cid (active_table (lv_ch v')) = current_cid (active_table (lv_ch v)) /\
  attributes (lv_ch v') = attributes (lv_ch v).
Proof.
  induction fuel as [|fuel IH]; intros v v'; cbn [active_table_loop];
    destruct (oldest_cid _ <? current_cid _); try (intros Hrun; discriminate Hrun);
    try (intros [= <-]; split; reflexivity).
  destruct (slot _ _ =? BP_SID_VACANT).
  { intros Hrun. apply IH in Hrun. exact Hrun. }
  destruct (retrieve ops _ _ _ BP_CHECK) as [st [obj|e]].
  2:{ intros Hrun. apply IH in Hrun. exact Hrun. }
  destruct (is_expired sysnow (as_bundle obj).1).
  { intros Hrun. apply IH in Hrun. exact Hrun. }
  destruct (negb (timeout _ =? 0) && _).
  { destruct (cid_reuse _); intros [= <-]; split; reflexivity. }
  destruct (negb (slot _ _ =? BP_SID_VACANT)); [|intros [= <-]; split; reflexivity].
  destruct (wrap_response _ =? BP_WRAP_RESEND).
  { destruct (retrieve ops _ _ _ BP_CHECK) as [st2 [obj2|e2]]; intros [= <-];
      split; reflexivity. }
  destruct (wrap_response _ =? BP_WRAP_BLOCK); intros [= <-]; split; reflexivity.
Qed.

Lemma send_next_bundle_cid sysnow store buf (v : load_vars) s (c : bp_channel_t St) f o :
  0 <= current_cid (active_table (lv_ch v)) < 2 ^ 32 - 1 ->
  send_next_bundle ops codec sysnow store buf v = (s, c, f, o) ->
  attributes c = attributes (lv_ch v) /\
  (current_cid (active_table c) = current_cid (active_table (lv_ch v)) \/
   current_cid (active_table c) = current_cid (active_table (lv_ch v)) + 1 /\
   exists ds body,
     o = Some (ds, body) /\ cteboffset ds <> 0 /\
     cidsdnv ds = current_cid (active_table (lv_ch v)) /\
     hdr_cid (header ds) = sdnv_put codec F_cid (current_cid (active_table (lv_ch v)))).
Proof.
  intros Hc. unfold send_next_bundle.
  destruct (lv_ds v) as [[ds body]|].
  2:{ intros [= <- <- <- <-]. cbn. auto. }
  destruct (match buf with NullBuf _ => true | SizedBuf size => bundlesize ds <=? size end).
  2:{ intros [= <- <- <- <-]. cbn. auto. }
  destruct (match buf with NullBuf ok => ok | SizedBuf _ => true end).
  2:{ intros [= <- <- <- <-]. cbn. auto. }
  destruct (cteboffset ds =? 0) eqn:Ecteb; cbn [negb].
  { rewrite Ecteb. intros [= <- <- <- <-]. cbn. auto. }
  destruct (lv_newcid v).
  - cbn [cteboffset set_header set_cidsdnv]. rewrite Ecteb. intros [= <- <- <- <-].
    cbn. split; [reflexivity|]. right. rewrite u32_id by lia. split; [reflexivity|].
    eexists _, _. split; [reflexivity|]. cbn. apply Z.eqb_neq in Ecteb. auto.
  - rewrite Ecteb. intros [= <- <- <- <-]. cbn. auto.
Qed.

(** X23.  [bplib_load] hands out custody ids one after the other: a call
    either leaves [current_cid] as it is, or advances it by one, and then
    the bundle it hands out requests custody and has the previous value of
    [current_cid] as the custody id of its storage record, patched into the
    4-byte custody id field of the CTEB in its header: the field holds the
    id itself when the id is below [2 ^ 28] and [bplib_sdnv_write] raises no
    flag. *)
Theorem load_custody_ids_consecutive fuel sysnow (ch ch' : bp_channel_t St) buf timeout'
    loadflags status flags' out :
  0 <= current_cid (active_table ch) < 2 ^ 32 - 1 ->
  bplib_load ops codec fuel sysnow ch buf timeout' loadflags = Some (status, ch', flags', out) ->
  current_cid (active_table ch') = current_cid (active_table ch) \/
  current_cid (active_table ch') = current_cid (active_table ch) + 1 /\
  exists ds body,
    out = Some (ds, body) /\ status = BP_SUCCESS /\ cteboffset ds <> 0 /\
    cidsdnv ds = current_cid (active_table ch) /\
    hdr_cid (header ds) = sdnv_put codec F_cid (current_cid (active_table ch)) /\
    (current_cid (active_table ch) < 2 ^ 28 ->
     bplib_sdnv_write codec F_cid (current_cid (active_table ch)) = 0 ->
     hdr_cid (header ds) = current_cid (active_table ch)).
Proof.
  intros Hc. unfold bplib_load.
  destruct (flush_stale_dacs ops codec fuel sysnow _ 0 ch loadflags) as [[ch1 f1]|] eqn:Hflush;
    [|discriminate].
  apply flush_stale_dacs_frame in Hflush. destruct Hflush as (Ht1 & Ha1 & _).
  assert (Hfin : forall v2,
            current_cid (active_table (lv_ch v2)) = current_cid (active_table ch) ->
            forall store,
            Some (send_next_bundle ops codec sysnow store buf v2)
            = Some (status, ch', flags', out) ->
            current_cid (active_table ch') = current_cid (active_table ch) \/
            current_cid (active_table ch') = current_cid (active_table ch) + 1 /\
            exists ds body,
              out = Some (ds, body) /\ status = BP_SUCCESS /\ cteboffset ds <> 0 /\
              cidsdnv ds = current_cid (active_table ch) /\
              hdr_cid (header ds) = sdnv_put codec F_cid (current_cid (active_table ch)) /\
              (current_cid (active_table ch) < 2 ^ 28 ->
               bplib_sdnv_write codec F_cid (current_cid (active_table ch)) = 0 ->
               hdr_cid (header ds) = current_cid (active_table ch))).
  { intros v2 Hv store [= Es].
    pose proof (send_next_bundle_result ops codec _ _ _ _ _ _ _ _ Es) as Hres.
    apply send_next_bundle_cid in Es; [|rewrite Hv; exact Hc].
    rewrite Hv in Es. destruct Es as (_ & [E|(E & ds & body & -> & H1 & H2 & H3)]).
    - left. exact E.
    - right. split; [exact E|]. exists ds, body. destruct Hres as (-> & _).
      do 5 (split; [auto|]). intros Hsmall Hflag. rewrite H3.
      apply ChannelFacts.sdnv_put_ok; [|exact Hflag].
      unfold sdnv_fits, sdnv_width. change (2 ^ (7 * 4)) with (2 ^ 28).
      apply andb_true_iff. split; [apply Z.leb_le | apply Z.ltb_lt]; lia. }
  destruct (dequeue ops (storage ch1) (dacs_store_handle ch1) BP_CHECK)
    as [st [[obj sid']|e]]; cbn [lv_ds].
  - apply Hfin. cbn. rewrite Ht1. reflexivity.
  - destruct (active_table_loop ops fuel sysnow _) as [v1|] eqn:Hloop;
      [|intros Hrun; discriminate Hrun].
    apply active_table_loop_current in Hloop. cbn [lv_ch set_storage active_table] in Hloop.
    destruct Hloop as [Hcur _]. rewrite Ht1 in Hcur.
    destruct (lv_ds v1) as [p|] eqn:Eds.
    + apply Hfin. exact Hcur.
    + destruct (fresh_dequeue_loop ops fuel sysnow timeout' v1) as [v2|] eqn:Ef;
        [|intros Hrun; discriminate Hrun].
      apply fresh_dequeue_loop_frame in Ef. destruct Ef as (Et & _).
      apply Hfin. rewrite Et. exact Hcur.
Qed.

End Generic.
End LoadCidFacts.

Module ProcessFacts.
Import Channel.
Section Generic.
Context {St : Type}.
Variable ops : bp_store_t St.
Variable codec : codec_t.

(** The bundles a channel turns away once it reaches their payload block:
    one for another node on a channel that originates, one for another
    service of this node, and a data bundle on a channel that takes
    administrative records only. *)
Lemma process_payload_refused fuel sysnow (ch ch' : bp_channel_t St) size pri pay cp cteb excl
    index status timeout' flags s f :
  (dstnode pri <> local_node ch /\ originate (data_bundle ch) = true) \/
  (dstnode pri = local_node ch /\ local_service ch <> 0 /\ dstserv pri <> local_service ch) \/
  (dstnode pri = local_node ch /\ is_admin_rec pri = false /\ proc_admin_only ch = true) ->
  process_payload ops codec fuel sysnow ch size pri pay cp cteb excl index status timeout' flags
  = Some (s, ch', f) ->
  ch' = ch /\ (s = BP_WRONGORIGINATION \/ s = BP_WRONGCHANNEL \/ s = BP_IGNORE).
Proof.
  unfold process_payload. intros [[Hd Ho]|[(Hd & Hs & Hv)|(Hd & Ha & Hp)]].
  - destruct (Z.eqb_spec (dstnode pri) (local_node ch)) as [E|_]; [contradiction|].
    cbn [negb]. rewrite Ho. cbn. intros [= <- <- <-]. auto.
  - destruct (Z.eqb_spec (dstnode pri) (local_node ch)) as [_|E]; [|contradiction].
    destruct (Z.eqb_spec (local_service ch) 0) as [E|_]; [contradiction|].
    destruct (Z.eqb_spec (dstserv pri) (local_service ch)) as [E|_]; [contradiction|].
    cbn. intros [= <- <- <-]. auto.
  - destruct (Z.eqb_spec (dstnode pri) (local_node ch)) as [_|E]; [|contradiction].
    cbn [negb]. rewrite Ha, Hp.
    destruct (negb (local_service ch =? 0) && negb (dstserv pri =? local_service ch));
      cbn; intros [= <- <- <-]; auto.
Qed.

Lemma process_blocks_refused fuel sysnow (ch : bp_channel_t St) size pri blocks :
  (dstnode pri <> local_node ch /\ originate (data_bundle ch) = true) \/
  (dstnode pri = local_node ch /\ local_service ch <> 0 /\ dstserv pri <> local_service ch) \/
  (dstnode pri = local_node ch /\ is_admin_rec pri = false /\ proc_admin_only ch = true) ->
  forall cp cteb bp bib excl index status timeout' flags s ch' f,
  process_blocks ops codec fuel sysnow ch size pri blocks cp cteb bp bib excl index status
    timeout' flags = Some (s, ch', f) ->
  ch' = ch.
Proof.
  intros Href. induction blocks as [|b blocks IH];
    intros cp cteb bp bib excl index status timeout' flags s ch' f; cbn [process_blocks].
  - destruct (index <? size); intros [= _ <- _]; reflexivity.
  - destruct (index <? size); [|intros [= _ <- _]; reflexivity].
    destruct b as [st blk|st blk|bf di bl raised|st pay].
    + destruct (st <=? 0); [intros [= _ <- _]; reflexivity | apply IH].
    + destruct (st <=? 0); [intros [= _ <- _]; reflexivity | apply IH].
    + destruct (has_flag (set_flag flags raised) _); [intros [= _ <- _]; reflexivity|].
      destruct (has_flag bf BP_BLK_DELETENOPROC_MASK); [intros [= _ <- _]; reflexivity|].
      apply IH.
    + destruct (st <=? 0); [intros [= _ <- _]; reflexivity|].
      destruct (bp && _); [intros [= _ <- _]; reflexivity|].
      destruct (is_admin_rec pri && _); [intros [= _ <- _]; reflexivity|].
      intros Hrun. eapply process_payload_refused in Hrun; [apply Hrun | exact Href].
Qed.

(** X9.  [bplib_process] turns away, without a trace but in the counters, a
    bundle for another node on a channel that originates bundles, a bundle
    for another service of this node, and a data bundle on a channel that
    takes administrative records only: the call counts the bundle as
    received (and as expired, when its lifetime has passed) and leaves
    everything else of the channel, its storage included, as it was. *)
Theorem process_refused_leaves_channel fuel sysnow (ch ch' : bp_channel_t St) w timeout'
    procflags status flags' :
  (dstnode (w_pri w) <> local_node ch /\ originate (data_bundle ch) = true) \/
  (dstnode (w_pri w) = local_node ch /\ local_service ch <> 0 /\
   dstserv (w_pri w) <> local_service ch) \/
  (dstnode (w_pri w) = local_node ch /\ is_admin_rec (w_pri w) = false /\
   proc_admin_only ch = true) ->
  bplib_process ops codec fuel sysnow ch w timeout' procflags = Some (status, ch', flags') ->
  let counted := set_stats (set_received (u64 (received (stats ch) + 1)) (stats ch)) ch in
  ch' = counted \/ ch' = count_expired counted.
Proof.
  intros Href. unfold bplib_process.
  destruct (w_pri_status w <=? 0); [intros [= _ <- _]; left; reflexivity|].
  destruct (negb (dictlen (w_pri w) =? 0)); [intros [= _ <- _]; left; reflexivity|].
  destruct (negb (lifetime (w_pri w) =? 0) && _); [intros [= _ <- _]; right; reflexivity|].
  intros Hrun. left. eapply process_blocks_refused; [|exact Hrun]. exact Href.
Qed.

End Generic.
End ProcessFacts.

Module DacsFacts.
Import Channel.
Section Generic.
Context {St : Type}.
Variable ops : bp_store_t St.
Variable codec : codec_t.





End Generic.
End DacsFacts.

Module ForwardFacts.
Import Channel.
Section Generic.
Context {St : Type}.
Variable ops : bp_store_t St.
Variable codec : codec_t.

Lemma copy_regions_refuses n : forall excl i regs s,
  (length excl <= n)%nat -> copy_regions excl i regs = inl s -> s = BP_BUNDLETOOLARGE.
Proof.
  induction n as [|n IH]; intros excl i regs s Hlen;
    destruct excl as [|a [|b rest]]; cbn [copy_regions]; try discriminate;
    cbn [length] in Hlen; try lia.
  destruct (BP_BUNDLE_HDR_BUF_SIZE <=? i + (b - a)); [intros [= <-]; reflexivity|].
  apply IH. lia.
Qed.

(** X11.  A bundle set up for forwarding by [initialize_forw_bundle]
    carries the received primary block in its stored header, with this node
    as custodian and report-to endpoint when custody is requested, and the
    received payload block; its custody block is at a positive offset
    exactly when custody is requested, and then names this node.  The only
    other answers are BP_UNSUPPORTED for a custody request without a CTEB,
    which raises BP_FLAG_NONCOMPLIANT, BP_BUNDLEPARSEERR and
    BP_BUNDLETOOLARGE. *)
Theorem forward_bundle_takes_custody bundle pri pay ln ls cteb_present exclude flags
    status bundle' flags' :
  initialize_forw_bundle codec bundle pri pay ln ls cteb_present exclude flags
  = (status, bundle', flags') ->
  (status = BP_SUCCESS ->
   hdr_pri (header (bundle_store bundle')) = primary_block bundle' /\
   payload_block bundle' = pay /\ originate bundle' = originate bundle /\
   maxlength bundle' = maxlength bundle /\ flags' = flags /\
   if request_custody pri
   then cteb_present = true /\
        primary_block bundle'
        = set_cstserv ls (set_cstnode ln (set_rptserv ls (set_rptnode ln pri))) /\
        cteb_cstnode (custody_block bundle') = ln /\
        cteb_cstserv (custody_block bundle') = ls /\
        0 < cteboffset (bundle_store bundle')
   else primary_block bundle' = pri /\ cteboffset (bundle_store bundle') = 0) /\
  (status <> BP_SUCCESS ->
   (status = BP_UNSUPPORTED /\ request_custody pri = true /\ cteb_present = false /\
    has_flag flags' BP_FLAG_NONCOMPLIANT = true) \/
   status = BP_BUNDLEPARSEERR \/ status = BP_BUNDLETOOLARGE).
Proof.
  unfold initialize_forw_bundle.
  destruct (request_custody pri) eqn:Ec; cbn [andb negb request_custody set_cstserv
    set_cstnode set_rptserv set_rptnode].
  - destruct cteb_present; cbn [negb].
    2:{ intros [= <- <- <-]. split; [discriminate|]. intros _. left.
        repeat split. apply ChannelFacts.has_flag_set. discriminate. }
    rewrite Ec.
    match goal with |- context [bplib_blk_pri_write codec ?p] =>
      destruct (Z.leb_spec (bplib_blk_pri_write codec p) 0) as [Hp|Hp] end.
    { intros [= <- <- <-]. split; [discriminate | auto]. }
    rewrite (ChannelFacts.pri_put_ok codec _ Hp).
    cbn [andb].
    match goal with |- context [bplib_blk_cteb_write codec ?p] =>
      destruct (bplib_blk_cteb_write codec p <=? 0) end.
    { intros [= <- <- <-]. split; [discriminate | auto]. }
    cbn [integrity_check set_cstserv set_cstnode set_rptserv set_rptnode].
    destruct (integrity_check pri) eqn:Ei; cbn [andb].
    + match goal with |- context [bplib_blk_bib_write codec ?p] =>
        destruct (bplib_blk_bib_write codec p <=? 0) end.
      { intros [= <- <- <-]. split; [discriminate | auto]. }
      match goal with |- context [copy_regions ?e ?i ?r] =>
        destruct (copy_regions e i r) as [s|[i' regs]] eqn:Er end.
      { apply (copy_regions_refuses _ _ _ _ _ (Nat.le_refl _)) in Er. subst s.
        intros [= <- <- <-]. split; [discriminate | auto]. }
      intros [= <- <- <-]. split; [intros _ | intros H; contradiction].
      cbn. repeat split. exact Hp.
    + match goal with |- context [copy_regions ?e ?i ?r] =>
        destruct (copy_regions e i r) as [s|[i' regs]] eqn:Er end.
      { apply (copy_regions_refuses _ _ _ _ _ (Nat.le_refl _)) in Er. subst s.
        intros [= <- <- <-]. split; [discriminate | auto]. }
      intros [= <- <- <-]. split; [intros _ | intros H; contradiction].
      cbn. repeat split. exact Hp.
  - rewrite Ec.
    destruct (Z.leb_spec (bplib_blk_pri_write codec pri) 0) as [Hp|Hp].
    { intros [= <- <- <-]. split; [discriminate | auto]. }
    rewrite (ChannelFacts.pri_put_ok codec _ Hp).
    cbn [andb]. destruct (integrity_check pri) eqn:Ei; cbn [andb].
    + match goal with |- context [bplib_blk_bib_write codec ?p] =>
        destruct (bplib_blk_bib_write codec p <=? 0) end.
      { intros [= <- <- <-]. split; [discriminate | auto]. }
      match goal with |- context [copy_regions ?e ?i ?r] =>
        destruct (copy_regions e i r) as [s|[i' regs]] eqn:Er end.
      { apply (copy_regions_refuses _ _ _ _ _ (Nat.le_refl _)) in Er. subst s.
        intros [= <- <- <-]. split; [discriminate | auto]. }
      intros [= <- <- <-]. split; [intros _ | intros H; contradiction].
      cbn. repeat split.
    + match goal with |- context [copy_regions ?e ?i ?r] =>
        destruct (copy_regions e i r) as [s|[i' regs]] eqn:Er end.
      { apply (copy_regions_refuses _ _ _ _ _ (Nat.le_refl _)) in Er. subst s.
        intros [= <- <- <-]. split; [discriminate | auto]. }
      intros [= <- <- <-]. split; [intros _ | intros H; contradiction].
      cbn. repeat split.
Qed.

(** X12.  When the custodian of a bundle has an accumulator or the table has
    room for one, [update_dacs_bundle] succeeds and the custody id is in the
    accumulator of that custodian afterwards, which carries the delivered
    flag of the event; the table of accumulators stays in order, and the
    identity of the channel is untouched. *)
Theorem update_dacs_records_custody_id fuel sysnow (ch : bp_channel_t St) cteb delivered'
    timeout' flags :
  dacs_table_ok ch ->
  (find_dacs_entry (take (Z.to_nat (num_dacs ch)) (dacs_bundle ch)) cteb 0 <> None \/
   num_dacs ch < max_concurrent_dacs (attributes ch)) ->
  1 <= max_fills_per_dacs (attributes ch) ->
  Forall (fun d => (length (rb_nodes (tree d)) <= fuel)%nat) (dacs_bundle ch) ->
  exists ch' flags' i,
    update_dacs_bundle ops codec fuel sysnow ch cteb delivered' timeout' flags
    = Some (BP_SUCCESS, ch', flags') /\
    find_dacs_entry (take (Z.to_nat (num_dacs ch')) (dacs_bundle ch')) cteb 0 = Some i /\
    dacs_cstnode (dacs_at ch' i) = cteb_cstnode cteb /\
    dacs_cstserv (dacs_at ch' i) = cteb_cstserv cteb /\
    delivered (dacs_at ch' i) = delivered' /\
    In (cteb_cid cteb) (rb_nodes (tree (dacs_at ch' i))) /\
    same_station ch ch' /\
    dacs_table_ok ch'.
Proof.
  intros Hok Havail Hfills Hfuel.
  destruct (ChannelFacts.update_dacs_post ops codec fuel sysnow ch cteb delivered' timeout'
              flags Hok Havail Hfills Hfuel)
    as (ch' & flags' & i & Hrun & Hfind & Hdel & Hin & Hsame & Hok').
  exists ch', flags', i. split; [exact Hrun|]. split; [exact Hfind|].
  destruct (ChannelFacts.find_dacs_entry_Some _ _ _ Hfind) as (Hi & Hn & Hs).
  rewrite length_take in Hi.
  rewrite ChannelFacts.nth_take in Hn, Hs by lia.
  split; [exact Hn|]. split; [exact Hs|]. split; [exact Hdel|]. split; [exact Hin|].
  split; [exact Hsame | exact Hok'].
Qed.

(** X13.  A custody id that the accumulator of its custodian already holds,
    with the same delivered flag, is flagged as a duplicate by
    [update_dacs_bundle]: the call raises BP_FLAG_DUPLICATES and leaves the
    accumulators, the storage service, the statistics and the data bundle as
    they are. *)
Theorem update_dacs_flags_duplicate fuel sysnow (ch : bp_channel_t St) cteb i delivered'
    timeout' flags :
  find_dacs_entry (take (Z.to_nat (num_dacs ch)) (dacs_bundle ch)) cteb 0 = Some i ->
  delivered (dacs_at ch i) = delivered' ->
  In (cteb_cid cteb) (rb_nodes (tree (dacs_at ch i))) ->
  exists ch',
    update_dacs_bundle ops codec fuel sysnow ch cteb delivered' timeout' flags
    = Some (BP_SUCCESS, ch', set_flag flags BP_FLAG_DUPLICATES) /\
    has_flag (set_flag flags BP_FLAG_DUPLICATES) BP_FLAG_DUPLICATES = true /\
    dacs_bundle ch' = dacs_bundle ch /\ num_dacs ch' = num_dacs ch /\
    storage ch' = storage ch /\ stats ch' = stats ch /\ data_bundle ch' = data_bundle ch /\
    active_table ch' = active_table ch.
Proof.
  intros Hfind Hdel Hin. unfold update_dacs_bundle. rewrite Hfind.
  unfold populate_dacs. rewrite Hdel, Bool.eqb_reflx. cbn [negb].
  rewrite ChannelFacts.try_dacs_insert_duplicate by exact Hin.
  eexists. split; [reflexivity|]. cbn. unfold dacs_at.
  rewrite ChannelFacts.insert_nth_same.
  split; [apply ChannelFacts.has_flag_set; discriminate|]. repeat split.
Qed.

End Generic.
End ForwardFacts.

Module EidMore.
Import Eid.
Import EidFacts.

Section WithLimits.
Variable ULONG_MAX : Z.
Variable BP_MAX_EID_STRING : Z.

(** [strtoul] reads the decimal text of any unsigned long back. *)
Lemma strtoul_fmt_lu_long n rest :
  0 <= n <= ULONG_MAX -> ULONG_MAX < 10 ^ 20 ->
  match rest with [] => True | c :: _ => digit_val c = None end ->
  strtoul ULONG_MAX (fmt_lu n ++ rest)
  = {| ul_result := n; ul_converted := true; ul_erange := false |}.
Proof.
  intros Hn Hmax Hrest. unfold strtoul, fmt_lu.
  destruct (fmt_lu_aux_head 19 n [] ltac:(lia)) as (c & tl & Hc & E).
  assert (Hscan : scan_digits (fmt_lu_aux 20 n [] ++ rest) 0 false = (n, true)).
  { rewrite scan_fmt_lu_aux by (change (Z.of_nat 20) with 20; lia).
    simpl. apply scan_digits_stop; assumption. }
  rewrite E in *. simpl app in *. cbn [skip_space].
  rewrite (digit_not_space c Hc).
  rewrite (digit_not_char c "-"%char Hc) by (left; reflexivity).
  rewrite (digit_not_char c "+"%char Hc) by (left; reflexivity).
  rewrite Hscan. simpl negb. cbn iota.
  replace (ULONG_MAX <? n) with false by (symmetry; apply Z.ltb_ge; lia).
  reflexivity.
Qed.

(** X14.  [bplib_eid2ipn] takes the decimal text of any two unsigned longs,
    zero included, and answers BP_SUCCESS with each number reduced modulo
    2^32: a node or service number that does not fit the 32 bits of
    [bp_ipn_t] is cut to its low 32 bits, not refused. *)
Theorem eid2ipn_reduces_numbers n s len :
  0 <= n <= ULONG_MAX -> 0 <= s <= ULONG_MAX -> ULONG_MAX < 10 ^ 20 ->
  Z.of_nat (length (ipn_text n s)) <= len <= BP_MAX_EID_STRING ->
  bplib_eid2ipn ULONG_MAX BP_MAX_EID_STRING (Some (ipn_text n s)) len
  = (BP_SUCCESS, Some (u32 n, u32 s)).
Proof.
  intros Hn Hs Hmax Hlen.
  pose proof (ipn_text_length n s ltac:(lia) ltac:(lia)) as H7.
  unfold bplib_eid2ipn.
  replace (len <? 7) with false by (symmetry; apply Z.ltb_ge; lia).
  replace (BP_MAX_EID_STRING <? len) with false by (symmetry; apply Z.ltb_ge; lia).
  change (ipn_prefix_ok (ipn_text n s)) with true. simpl negb. cbn iota.
  change (skipn 4 (ipn_text n s)) with (fmt_lu n ++ "."%char :: fmt_lu s).
  assert (Hl : length (ipn_text n s) = (4 + length (fmt_lu n ++ "."%char :: fmt_lu s))%nat)
    by reflexivity.
  rewrite firstn_all2 by lia.
  pose proof (fmt_lu_digits n ltac:(lia)) as Dn.
  pose proof (fmt_lu_digits s ltac:(lia)) as Ds.
  rewrite cstr_no_nul.
  2:{ apply Forall_app; split; [|constructor; [reflexivity|]];
      eapply Forall_impl; eauto using digit_not_nul. }
  rewrite strchr_digits by assumption.
  rewrite <- (app_nil_r (fmt_lu n)), <- (app_nil_r (fmt_lu s)).
  rewrite !strtoul_fmt_lu_long by (lia || exact I).
  simpl. rewrite !andb_false_r. reflexivity.
Qed.

Lemma char_at_app eid junk i : (i < length eid)%nat -> char_at (eid ++ junk) i = char_at eid i.
Proof. intros H. unfold char_at. apply app_nth1. exact H. Qed.

(** X15.  [bplib_eid2ipn] looks at no more than the [len] characters it is
    given: what follows them in memory does not change its answer. *)
Theorem eid2ipn_reads_len_characters eid junk len :
  len <= Z.of_nat (length eid) ->
  bplib_eid2ipn ULONG_MAX BP_MAX_EID_STRING (Some (eid ++ junk)) len
  = bplib_eid2ipn ULONG_MAX BP_MAX_EID_STRING (Some eid) len.
Proof.
  intros Hlen. unfold bplib_eid2ipn.
  destruct (len <? 7) eqn:E7; [reflexivity|]. apply Z.ltb_ge in E7.
  destruct (BP_MAX_EID_STRING <? len); [reflexivity|].
  unfold ipn_prefix_ok. rewrite !char_at_app by lia.
  destruct (negb _); [reflexivity|].
  replace (firstn (Z.to_nat (len - 4)) (skipn 4 (eid ++ junk)))
    with (firstn (Z.to_nat (len - 4)) (skipn 4 eid)); [reflexivity|].
  rewrite skipn_app, firstn_app, length_skipn.
  replace (Z.to_nat (len - 4) - (length eid - 4))%nat with 0%nat by lia.
  rewrite firstn_O, app_nil_r. reflexivity.
Qed.

End WithLimits.

End EidMore.

Module CacheMore.
Import Cache.

Section WithCache.

Variable hash_bundle : bp_ipn_addr_t -> Z -> Z.
Variable hash_dacs : bp_ipn_addr_t -> bp_ipn_addr_t -> Z.
Variable BP_DACS_MAX_SEQ_PER_PAYLOAD : Z.
Variable BP_CACHE_DACS_OPEN_TIME : Z.
Variable BP_CACHE_DACS_LIFETIME : Z.
Variable BP_CACHE_FAST_RETRY_TIME : Z.
Variable bplib_cache_fsm_execute : bplib_cache_state_t -> nat -> bplib_cache_state_t.
Variable now : Z.
Variable now_ms : Z.

Lemma remove_id_absent id l : ~ In id l -> remove_id id l = l.
Proof.
  unfold remove_id. induction l as [|x l IH]; intros H; [reflexivity|].
  rewrite filter_cons. destruct (decide (x <> id)) as [_|E].
  - f_equal. apply IH. intros Hin. apply H. right. exact Hin.
  - exfalso. apply H. left. destruct (decide (x = id)); [assumption | contradiction].
Qed.

Lemma remove_id_snoc id l : ~ In id l -> remove_id id (l ++ [id]) = l.
Proof.
  intros H. unfold remove_id. rewrite filter_app. fold (remove_id id l).
  rewrite remove_id_absent by exact H.
  rewrite filter_cons. destruct (decide (id <> id)); [contradiction|].
  rewrite filter_nil. apply app_nil_r.
Qed.

Lemma omap_keep_all id (index : gmap Z (list nat)) :
  (forall k l, index !! k = Some l -> l <> [] /\ ~ In id l) ->
  omap (fun l => match remove_id id l with [] => None | l' => Some l' end) index = index.
Proof.
  intros H. apply map_eq. intros k. rewrite lookup_omap.
  destruct (index !! k) as [l|] eqn:E; [|reflexivity]. cbn.
  destruct (H k l E) as [Hne Hin]. rewrite remove_id_absent by exact Hin.
  destruct l; [contradiction | reflexivity].
Qed.

(** X16.  Taking an entry out of an index undoes putting it in: for an
    entry that is in no queue of the index (whose queues are not empty), and
    with an existing queue under the key or a block left for a new one,
    [bplib_cache_add_to_subindex] followed by
    [bplib_cache_remove_from_subindex] gives the index back, and the pool has
    as many free blocks as before. *)
Theorem subindex_add_remove index id key st :
  (forall k l, index !! k = Some l -> l <> [] /\ ~ In id l) ->
  (index !! key <> None \/ (0 < pool_free st)%nat) ->
  let '(index1, st1) := bplib_cache_add_to_subindex index id key st in
  let '(index2, st2) := bplib_cache_remove_from_subindex index1 id st1 in
  (exists l, index1 !! key = Some l /\ In id l) /\
  index2 = index /\ pool_free st2 = pool_free st.
Proof.
  intros Hidx Hroom. unfold bplib_cache_add_to_subindex, bplib_cache_remove_from_subindex.
  destruct (index !! key) as [l|] eqn:E.
  - destruct (Hidx key l E) as [Hne Hin].
    assert (Hback : omap (fun l => match remove_id id l with [] => None | l' => Some l' end)
                      (<[key := l ++ [id]]> index) = index).
    { apply map_eq. intros k. rewrite lookup_omap.
      destruct (decide (k = key)) as [->|Hk].
      - rewrite lookup_insert_eq. cbn. rewrite remove_id_snoc by exact Hin.
        rewrite E. destruct l; [contradiction | reflexivity].
      - rewrite lookup_insert_ne by congruence.
        destruct (index !! k) as [l0|] eqn:E0; [|reflexivity]. cbn.
        destruct (Hidx k l0 E0) as [Hne0 Hin0]. rewrite remove_id_absent by exact Hin0.
        destruct l0; [contradiction | reflexivity]. }
    rewrite Hback. split; [|split; [reflexivity|]].
    + exists (l ++ [id]). rewrite lookup_insert_eq. split; [reflexivity|].
      apply in_or_app. right. left. reflexivity.
    + cbn. rewrite map_size_insert_Some by (rewrite E; eauto). lia.
  - destruct Hroom as [Hk|Hfree]; [contradiction|].
    unfold pool_alloc. destruct (pool_free st) as [|n] eqn:Ef; [lia|].
    assert (Hback : omap (fun l => match remove_id id l with [] => None | l' => Some l' end)
                      (<[key := [id]]> index) = index).
    { apply map_eq. intros k. rewrite lookup_omap.
      destruct (decide (k = key)) as [->|Hk].
      - rewrite lookup_insert_eq. cbn -[remove_id].
        pose proof (remove_id_snoc id [] ltac:(intros [])) as Hr. cbn [app] in Hr.
        rewrite Hr, E. reflexivity.
      - rewrite lookup_insert_ne by congruence.
        destruct (index !! k) as [l0|] eqn:E0; [|reflexivity]. cbn.
        destruct (Hidx k l0 E0) as [Hne0 Hin0]. rewrite remove_id_absent by exact Hin0.
        destruct l0; [contradiction | reflexivity]. }
    rewrite Hback. split; [|split; [reflexivity|]].
    + exists [id]. rewrite lookup_insert_eq. split; [reflexivity | left; reflexivity].
    + cbn. rewrite map_size_insert_None by exact E. lia.
Qed.

Lemma make_pending_spec id s c st e :
  entries st !! id = Some e ->
  let st' := bplib_cache_entry_make_pending id s c st in
  entries st' = <[id := set_flags (Z.ldiff (Z.lor (flags e) s) c) e]> (entries st) /\
  In id (pending_list st') /\
  (forall k, In k (pending_list st) -> In k (pending_list st')) /\
  primaries st' = primaries st /\ canonicals st' = canonicals st /\
  hash_index st' = hash_index st /\ dest_eid_index st' = dest_eid_index st /\
  pool_free st' = pool_free st.
Proof.
  intros E. unfold bplib_cache_entry_make_pending. rewrite E. cbn.
  split; [reflexivity|]. split; [apply in_or_app; right; left; reflexivity|].
  split; [|repeat split].
  intros k Hk. destruct (decide (k = id)) as [->|Hne].
  - apply in_or_app. right. left. reflexivity.
  - apply in_or_app. left. unfold remove_id. apply list_elem_of_In, list_elem_of_filter.
    split; [exact Hne | apply list_elem_of_In; exact Hk].
Qed.

(** X17.  [bplib_cache_custody_open_dacs] opens a DACS or leaves no trace in
    the pool: with fewer than three free blocks it fails, hands back every
    block it took and changes neither the indices nor the pending list; with
    three or more it succeeds, and the new entry, in state generate_dacs and
    holding the new bundle, is in the pending list. *)
Theorem open_dacs_all_or_nothing st info st' info' :
  bplib_cache_custody_open_dacs BP_CACHE_DACS_OPEN_TIME BP_CACHE_DACS_LIFETIME
    BP_CACHE_FAST_RETRY_TIME now now_ms st info = (st', info') ->
  ((pool_free st < 3)%nat ->
   info' = info /\ pool_free st' = pool_free st /\
   hash_index st' = hash_index st /\ dest_eid_index st' = dest_eid_index st /\
   pending_list st' = pending_list st /\ primaries st' = primaries st /\
   canonicals st' = canonicals st /\
   forall k, k <> pool_next st -> entries st' !! k = entries st !! k) /\
  ((3 <= pool_free st)%nat ->
   info' = set_store_entry (Some (pool_next st)) info /\
   (pool_free st - 4 <= pool_free st' <= pool_free st - 3)%nat /\
   In (pool_next st) (pending_list st') /\
   exists e pblk,
     entries st' !! pool_next st = Some e /\
     e_state e = bplib_cache_entry_state_generate_dacs /\
     refptr e = Some pblk /\ prev_custodian_id (dacs e) = custodian_id info /\
     exists pri, primaries st' !! pblk = Some pri /\ isAdminRecord pri = true /\
                 destinationEID pri = custodian_id info).
Proof.
  unfold bplib_cache_custody_open_dacs, bplib_cache_custody_create_dacs, entry_alloc,
    entry_recycle, pool_alloc, pool_recycle.
  destruct (pool_free st) as [|[|[|n]]] eqn:Ef; cbn; rewrite ?Ef; cbn.
  - intros [= <- <-]. split; [intros _|intros H; lia]. repeat split; congruence.
  - intros [= <- <-]. split; [intros _|intros H; lia]. cbn.
    repeat split; try congruence.
    intros k Hk. rewrite lookup_delete_ne, lookup_insert_ne by congruence. reflexivity.
  - intros [= <- <-]. split; [intros _|intros H; lia]. cbn.
    repeat split; try congruence.
    intros k Hk. rewrite lookup_delete_ne, lookup_insert_ne by congruence. reflexivity.
  - intros H. split; [intros Hlt; lia|intros _].
    revert H. rewrite lookup_insert_eq. cbn.
    unfold bplib_cache_add_to_subindex, pool_alloc. cbn.
    destruct (hash_index st !! eid_hash info) as [l|] eqn:Eh; cbn.
    + unfold bplib_cache_entry_make_pending. cbn. rewrite lookup_insert_eq. cbn.
      intros [= <- <-]. cbn. split; [reflexivity|]. split; [lia|].
      split; [apply in_or_app; right; left; reflexivity|].
      rewrite lookup_insert_eq. eexists _, _. split; [reflexivity|]. cbn.
      repeat split. rewrite lookup_insert_eq. eexists. split; [reflexivity|]. cbn. auto.
    + destruct n as [|n]; cbn.
      * unfold bplib_cache_entry_make_pending. cbn. rewrite lookup_insert_eq. cbn.
        intros [= <- <-]. cbn. split; [reflexivity|]. split; [lia|].
        split; [apply in_or_app; right; left; reflexivity|].
        rewrite lookup_insert_eq. eexists _, _. split; [reflexivity|]. cbn.
        repeat split. rewrite lookup_insert_eq. eexists. split; [reflexivity|]. cbn. auto.
      * unfold bplib_cache_entry_make_pending. cbn. rewrite lookup_insert_eq. cbn.
        intros [= <- <-]. cbn. split; [reflexivity|]. split; [lia|].
        split; [apply in_or_app; right; left; reflexivity|].
        rewrite lookup_insert_eq. eexists _, _. split; [reflexivity|]. cbn.
        repeat split. rewrite lookup_insert_eq. eexists. split; [reflexivity|]. cbn. auto.
Qed.

(** X18.  [bplib_cache_custody_append_dacs] keeps the list of acknowledged
    sequence numbers of an open DACS free of duplicates and within
    BP_DACS_MAX_SEQ_PER_PAYLOAD entries: nothing leaves the list, and the
    sequence number at hand is in it afterwards unless the list was full. *)
Theorem append_dacs_bounded st info id e c payload :
  store_entry info = Some id ->
  entries st !! id = Some e ->
  payload_ref (dacs e) = Some c ->
  canonicals st !! c = Some payload ->
  NoDup (sequence_nums payload) ->
  Z.of_nat (length (sequence_nums payload)) <= BP_DACS_MAX_SEQ_PER_PAYLOAD ->
  let st' := bplib_cache_custody_append_dacs BP_DACS_MAX_SEQ_PER_PAYLOAD st info in
  exists payload',
    canonicals st' !! c = Some payload' /\
    NoDup (sequence_nums payload') /\
    Z.of_nat (length (sequence_nums payload')) <= BP_DACS_MAX_SEQ_PER_PAYLOAD /\
    (forall x, In x (sequence_nums payload) -> In x (sequence_nums payload')) /\
    (In (info_sequence_num info) (sequence_nums payload') \/
     Z.of_nat (length (sequence_nums payload)) = BP_DACS_MAX_SEQ_PER_PAYLOAD) /\
    (Z.of_nat (length (sequence_nums payload')) = BP_DACS_MAX_SEQ_PER_PAYLOAD ->
     In id (pending_list st')).
Proof.
  intros Hs He Hp Hc Hnd Hlen. unfold bplib_cache_custody_append_dacs.
  rewrite Hs, He. change (default entry_zero (Some e)) with e. rewrite Hp, Hc.
  change (default canonical_zero (Some payload)) with payload.
  set (seq := info_sequence_num info).
  set (payload' :=
         if negb (existsb (Z.eqb seq) (sequence_nums payload))
            && (Z.of_nat (length (sequence_nums payload)) <? BP_DACS_MAX_SEQ_PER_PAYLOAD)
         then set_sequence_nums (sequence_nums payload ++ [seq]) payload else payload).
  assert (Hprops :
            NoDup (sequence_nums payload') /\
            Z.of_nat (length (sequence_nums payload')) <= BP_DACS_MAX_SEQ_PER_PAYLOAD /\
            (forall x, In x (sequence_nums payload) -> In x (sequence_nums payload')) /\
            (In seq (sequence_nums payload') \/
             Z.of_nat (length (sequence_nums payload)) = BP_DACS_MAX_SEQ_PER_PAYLOAD)).
  { unfold payload'. destruct (existsb (Z.eqb seq) (sequence_nums payload)) eqn:Eex; cbn [negb andb].
    - apply existsb_exists in Eex. destruct Eex as (x & Hx & Ex). apply Z.eqb_eq in Ex.
      subst x. repeat split; auto.
    - destruct (Z.ltb_spec (Z.of_nat (length (sequence_nums payload)))
                  BP_DACS_MAX_SEQ_PER_PAYLOAD) as [Hlt|Hge].
      + cbn [sequence_nums set_sequence_nums]. split; [|split; [|split]].
        * apply NoDup_app. split; [exact Hnd|]. split; [|apply NoDup_singleton].
          intros x Hx Hx'. apply list_elem_of_In in Hx, Hx'. destruct Hx' as [<-|[]].
          assert (existsb (Z.eqb seq) (sequence_nums payload) = true); [|congruence].
          apply existsb_exists. exists seq. split; [exact Hx | apply Z.eqb_refl].
        * rewrite length_app. cbn. lia.
        * intros x Hx. apply in_or_app. left. exact Hx.
        * left. apply in_or_app. right. left. reflexivity.
      + repeat split; auto. right. lia. }
  destruct Hprops as (P1 & P2 & P3 & P4).
  destruct (Z.of_nat (length (sequence_nums payload')) =? BP_DACS_MAX_SEQ_PER_PAYLOAD) eqn:Efull.
  - exists payload'.
    pose proof (make_pending_spec id 0 BPLIB_STORE_FLAG_ACTION_TIME_WAIT
                  (bplib_cache_custody_finalize_dacs
                     (set_canonicals (<[c := payload']> (canonicals st)) st) id) e) as Hmp.
    cbn zeta in Hmp. destruct Hmp as (_ & Hin & _ & _ & Hcan & _).
    { unfold bplib_cache_custody_finalize_dacs, bplib_cache_remove_from_subindex. cbn.
      exact He. }
    rewrite Hcan. unfold bplib_cache_custody_finalize_dacs, bplib_cache_remove_from_subindex.
    cbn. rewrite lookup_insert_eq. repeat split; auto.
  - exists payload'. cbn. rewrite lookup_insert_eq. repeat split; auto.
    intros Hfull. apply Z.eqb_neq in Efull. contradiction.
Qed.

End WithCache.
End CacheMore.

Module CacheAckFacts.
Import Cache.

Section WithCache.

Variable hash_bundle : bp_ipn_addr_t -> Z -> Z.

Lemma same_bundles_refl st : same_bundles st st.
Proof.
  unfold same_bundles. repeat split; auto. intros k e e' H1 H2 H. congruence.
Qed.

Lemma same_bundles_trans st1 st2 st3 :
  same_bundles st1 st2 -> same_bundles st2 st3 -> same_bundles st1 st3.
Proof.
  intros (A1 & A2 & A3 & A4 & A5 & A6 & A7 & A8 & A9 & A10)
         (B1 & B2 & B3 & B4 & B5 & B6 & B7 & B8 & B9 & B10).
  unfold same_bundles.
  split; [congruence|]. split; [congruence|]. split; [congruence|]. split; [congruence|].
  split; [congruence|]. split; [congruence|].
  split; [intros k; rewrite B7; apply A7|]. split; [intros k; rewrite B8; apply A8|].
  split.
  - intros k e e' H1 H3 H.
    destruct (entries st2 !! k) as [e2|] eqn:E2.
    + eapply B9; [exact E2 | exact H3 |]. eapply A9; [exact H1 | exact E2 | exact H].
    + specialize (A7 k). rewrite E2, H1 in A7. discriminate.
  - intros k H. apply B10, A10, H.
Qed.

Lemma land_lor_activity f :
  Z.land (Z.lor f BPLIB_STORE_FLAG_ACTIVITY) BPLIB_STORE_FLAG_LOCAL_CUSTODY
  = Z.land f BPLIB_STORE_FLAG_LOCAL_CUSTODY.
Proof. rewrite Z.land_lor_distr_l. cbn. apply Z.lor_0_r. Qed.

Lemma land_ldiff_same f c : Z.land (Z.ldiff f c) c = 0.
Proof.
  apply Z.bits_inj'. intros n Hn. rewrite Z.land_spec, Z.ldiff_spec, Z.bits_0.
  destruct (Z.testbit f n), (Z.testbit c n); reflexivity.
Qed.

Lemma same_bundles_alter_activity id st :
  same_bundles st
    (alter_entry (fun e => set_flags (Z.lor (flags e) BPLIB_STORE_FLAG_ACTIVITY) e) id st).
Proof.
  unfold same_bundles, alter_entry. cbn. repeat split; auto.
  - intros k. destruct (decide (k = id)) as [->|Hne].
    + rewrite lookup_alter_eq. destruct (entries st !! id); reflexivity.
    + rewrite lookup_alter_ne by congruence. reflexivity.
  - intros k. destruct (decide (k = id)) as [->|Hne].
    + rewrite lookup_alter_eq. destruct (entries st !! id); reflexivity.
    + rewrite lookup_alter_ne by congruence. reflexivity.
  - intros k e e' H1. destruct (decide (k = id)) as [->|Hne].
    + rewrite lookup_alter_eq, H1. cbn. intros [= <-]. cbn. rewrite land_lor_activity. auto.
    + rewrite lookup_alter_ne by congruence. congruence.
Qed.

Lemma same_bundles_make_pending id st :
  same_bundles st (bplib_cache_entry_make_pending id 0 BPLIB_STORE_FLAG_LOCAL_CUSTODY st).
Proof.
  unfold same_bundles, bplib_cache_entry_make_pending.
  destruct (entries st !! id) as [e|] eqn:E; [|apply same_bundles_refl].
  cbn. repeat split; auto.
  - intros k. destruct (decide (k = id)) as [->|Hne].
    + rewrite lookup_insert_eq, E. reflexivity.
    + rewrite lookup_insert_ne by congruence. reflexivity.
  - intros k. destruct (decide (k = id)) as [->|Hne].
    + rewrite lookup_insert_eq, E. reflexivity.
    + rewrite lookup_insert_ne by congruence. reflexivity.
  - intros k e0 e' H1. destruct (decide (k = id)) as [->|Hne].
    + rewrite lookup_insert_eq. intros [= <-]. cbn. intros _. apply land_ldiff_same.
    + rewrite lookup_insert_ne by congruence. congruence.
  - intros k Hk. destruct (decide (k = id)) as [->|Hne].
    + apply in_or_app. right. left. reflexivity.
    + apply in_or_app. left. unfold remove_id. apply list_elem_of_In, list_elem_of_filter.
      split; [exact Hne | apply list_elem_of_In; exact Hk].
Qed.

Lemma find_bundle_match_stable st st' info k :
  same_bundles st st' ->
  bplib_cache_custody_find_bundle_match st' info k
  = bplib_cache_custody_find_bundle_match st info k.
Proof.
  intros (A1 & _ & _ & _ & _ & _ & A7 & _). unfold bplib_cache_custody_find_bundle_match.
  specialize (A7 k). rewrite A1.
  destruct (entries st' !! k) as [e'|], (entries st !! k) as [e|]; cbn in A7;
    try discriminate; [|reflexivity].
  injection A7 as ->. reflexivity.
Qed.

Lemma find_existing_bundle_spec st info :
  let r := bplib_cache_custody_find_existing_bundle hash_bundle st info in
  same_bundles st r.1.2 /\
  flow_id r.2 = flow_id info /\ info_sequence_num r.2 = info_sequence_num info /\
  match hash_index st !! hash_bundle (flow_id info) (info_sequence_num info) with
  | Some l =>
      match List.find (bplib_cache_custody_find_bundle_match st
                         (set_eid_hash (hash_bundle (flow_id info) (info_sequence_num info))
                            info)) l with
      | Some id => r.1.1 = true /\ store_entry r.2 = Some id
      | None => r.1.1 = false /\ r.1.2 = st
      end
  | None => r.1.1 = false /\ r.1.2 = st
  end.
Proof.
  unfold bplib_cache_custody_find_existing_bundle. cbn [eid_hash set_eid_hash].
  destruct (hash_index st !! _) as [l|]; [|cbn; auto using same_bundles_refl].
  destruct (List.find _ l) as [id|]; cbn; auto using same_bundles_refl.
  split; [apply same_bundles_alter_activity | auto].
Qed.

Lemma find_bundle_match_info st info info' k :
  flow_id info' = flow_id info -> info_sequence_num info' = info_sequence_num info ->
  bplib_cache_custody_find_bundle_match st info' k
  = bplib_cache_custody_find_bundle_match st info k.
Proof.
  intros H1 H2. unfold bplib_cache_custody_find_bundle_match. rewrite H1, H2. reflexivity.
Qed.

Lemma remote_dacs_loop_same seqs : forall st info,
  same_bundles st (remote_dacs_loop hash_bundle st info seqs).
Proof.
  induction seqs as [|s seqs IH]; intros st info; cbn [remote_dacs_loop].
  - apply same_bundles_refl.
  - pose proof (find_existing_bundle_spec st (set_info_sequence_num s info)) as Hf.
    cbn zeta in Hf.
    destruct (bplib_cache_custody_find_existing_bundle hash_bundle st
                (set_info_sequence_num s info)) as [[found st1] info1].
    cbn [fst snd] in Hf. destruct Hf as (Hs & _).
    eapply same_bundles_trans; [|apply IH].
    eapply same_bundles_trans; [exact Hs|].
    destruct found; [|apply same_bundles_refl].
    destruct (store_entry info1); [apply same_bundles_make_pending | apply same_bundles_refl].
Qed.

(** X19.  A custody acknowledgement is consumed, not stored:
    [bplib_cache_custody_check_dacs] answers true exactly for an
    administrative record that carries a custody-accept block, and whatever
    it answers, it takes no block from the pool, changes no index, and keeps
    every entry with its bundle and its state; the pending list only
    grows, and no entry gains local custody.  A block that is no
    acknowledgement leaves the state as it is. *)
Theorem check_dacs_stores_nothing st qblk is_dacs st' :
  bplib_cache_custody_check_dacs hash_bundle st qblk = (is_dacs, st') ->
  same_bundles st st' /\
  (is_dacs = false -> st' = st) /\
  (is_dacs = true <->
   exists pri c blk,
     primaries st !! qblk = Some pri /\ isAdminRecord pri = true /\
     locate_canonical st pri bp_blocktype_custodyAcceptPayloadBlock = Some c /\
     canonicals st !! c = Some blk).
Proof.
  unfold bplib_cache_custody_check_dacs, bplib_cache_custody_process_remote_dacs_bundle.
  destruct (primaries st !! qblk) as [pri|].
  2:{ intros [= <- <-]. split; [apply same_bundles_refl|]. split; [reflexivity|].
      split; [discriminate | intros (? & ? & ? & ? & _); discriminate]. }
  destruct (isAdminRecord pri) eqn:Ea.
  2:{ intros [= <- <-]. split; [apply same_bundles_refl|]. split; [reflexivity|].
      split; [discriminate | intros (? & ? & ? & [= <-] & ? & _); congruence]. }
  destruct (locate_canonical st pri bp_blocktype_custodyAcceptPayloadBlock) as [c|] eqn:El.
  2:{ intros [= <- <-]. split; [apply same_bundles_refl|]. split; [reflexivity|].
      split; [discriminate | intros (? & ? & ? & [= <-] & ? & ? & _); congruence]. }
  destruct (canonicals st !! c) as [blk|] eqn:Ec.
  2:{ intros [= <- <-]. split; [apply same_bundles_refl|]. split; [reflexivity|].
      split; [discriminate | intros (? & ? & ? & [= <-] & ? & ? & ?); congruence]. }
  intros [= <- <-]. split; [apply remote_dacs_loop_same|]. split; [discriminate|].
  split; [intros _; eauto 10 | reflexivity].
Qed.

Lemma remote_dacs_loop_releases flow seq id l st0 :
  hash_index st0 !! hash_bundle flow seq = Some l ->
  In id l ->
  (forall info k, flow_id info = flow -> info_sequence_num info = seq -> In k l ->
     bplib_cache_custody_find_bundle_match st0 info k = true <-> k = id) ->
  entries st0 !! id <> None ->
  forall seqs st info,
  same_bundles st0 st -> flow_id info = flow ->
  (In seq seqs \/
   exists e, entries st !! id = Some e /\
             Z.land (flags e) BPLIB_STORE_FLAG_LOCAL_CUSTODY = 0 /\ In id (pending_list st)) ->
  exists e', entries (remote_dacs_loop hash_bundle st info seqs) !! id = Some e' /\
             Z.land (flags e') BPLIB_STORE_FLAG_LOCAL_CUSTODY = 0 /\
             In id (pending_list (remote_dacs_loop hash_bundle st info seqs)).
Proof.
  intros Hl Hin Huniq Hex. induction seqs as [|s seqs IH]; intros st info Hsame Hflow Hcase.
  - cbn. destruct Hcase as [[]|H]. exact H.
  - cbn [remote_dacs_loop].
    pose proof (find_existing_bundle_spec st (set_info_sequence_num s info)) as Hf.
    cbn zeta in Hf. cbn [flow_id info_sequence_num set_info_sequence_num] in Hf.
    destruct (bplib_cache_custody_find_existing_bundle hash_bundle st
                (set_info_sequence_num s info)) as [[found st1] info1].
    cbn [fst snd] in Hf. destruct Hf as (Hs1 & Hfl & Hsq & Hfind).
    set (st2 := if found
                then match store_entry info1 with
                     | Some id0 =>
                         bplib_cache_entry_make_pending id0 0 BPLIB_STORE_FLAG_LOCAL_CUSTODY st1
                     | None => st1
                     end
                else st1).
    assert (Hs12 : same_bundles st1 st2).
    { unfold st2. destruct found; [|apply same_bundles_refl].
      destruct (store_entry info1); [apply same_bundles_make_pending | apply same_bundles_refl]. }
    assert (Hs02 : same_bundles st0 st2).
    { eapply same_bundles_trans; [exact Hsame|].
      eapply same_bundles_trans; [exact Hs1 | exact Hs12]. }
    apply IH; [exact Hs02 | congruence |].
    assert (Hkeep : forall e, entries st !! id = Some e ->
               Z.land (flags e) BPLIB_STORE_FLAG_LOCAL_CUSTODY = 0 -> In id (pending_list st) ->
               exists e2, entries st2 !! id = Some e2 /\
                          Z.land (flags e2) BPLIB_STORE_FLAG_LOCAL_CUSTODY = 0 /\
                          In id (pending_list st2)).
    { intros e He Hz Hp.
      pose proof (same_bundles_trans _ _ _ Hs1 Hs12) as (_ & _ & _ & _ & _ & _ & A7 & _ & A9 & A10).
      specialize (A7 id). rewrite He in A7.
      destruct (entries st2 !! id) as [e2|] eqn:E2; [|discriminate].
      exists e2. split; [reflexivity|]. split; [eapply A9; eauto | apply A10, Hp]. }
    destruct (Z.eq_dec s seq) as [->|Hne].
    + right. rewrite Hflow in Hfind.
      pose proof Hsame as (_ & _ & Hh & _). rewrite Hh, Hl in Hfind.
      assert (Hfound : List.find
                (bplib_cache_custody_find_bundle_match st
                   (set_eid_hash (hash_bundle flow seq) (set_info_sequence_num seq info))) l
              = Some id).
      { destruct (List.find _ l) as [k|] eqn:Ek.
        - apply find_some in Ek. destruct Ek as [Hk Hm].
          rewrite (find_bundle_match_stable st0 st) in Hm by exact Hsame.
          f_equal. eapply Huniq; [| |exact Hk|exact Hm]; cbn; auto.
        - exfalso. eapply find_none in Ek; [|exact Hin].
          rewrite (find_bundle_match_stable st0 st) in Ek by exact Hsame.
          assert (bplib_cache_custody_find_bundle_match st0
                    (set_eid_hash (hash_bundle flow seq) (set_info_sequence_num seq info)) id
                  = true) by (eapply Huniq; cbn; auto).
          congruence. }
      rewrite Hfound in Hfind. destruct Hfind as [-> Hse]. unfold st2. rewrite Hse.
      pose proof Hs1 as (_ & _ & _ & _ & _ & _ & A7 & _).
      pose proof (same_bundles_trans _ _ _ Hsame Hs1) as (_ & _ & _ & _ & _ & _ & B7 & _).
      specialize (B7 id).
      destruct (entries st1 !! id) as [e1|] eqn:E1.
      2:{ destruct (entries st0 !! id); [discriminate | contradiction]. }
      unfold bplib_cache_entry_make_pending. rewrite E1. cbn.
      rewrite lookup_insert_eq. eexists. split; [reflexivity|]. cbn.
      split; [apply land_ldiff_same | apply in_or_app; right; left; reflexivity].
    + destruct Hcase as [[Heq|Hin']|(e & He & Hz & Hp)].
      * congruence.
      * left. exact Hin'.
      * right. eapply Hkeep; eauto.
Qed.

(** X20.  An acknowledgement from the next custodian releases local
    custody: when a stored bundle of the acknowledged flow and sequence
    number is the one entry under its hash that matches, after
    [bplib_cache_custody_process_remote_dacs_bundle] the entry no longer
    has the local-custody flag and is in the pending list, whatever other
    sequence numbers the acknowledgement lists. *)
Theorem remote_dacs_releases_custody st pri_block ack id l seq :
  hash_index st !! hash_bundle (flow_source_eid ack) seq = Some l ->
  In id l ->
  entries st !! id <> None ->
  (forall info k, flow_id info = flow_source_eid ack -> info_sequence_num info = seq ->
     In k l -> bplib_cache_custody_find_bundle_match st info k = true <-> k = id) ->
  In seq (sequence_nums ack) ->
  let st' := bplib_cache_custody_process_remote_dacs_bundle hash_bundle st pri_block ack in
  exists e', entries st' !! id = Some e' /\
             Z.land (flags e') BPLIB_STORE_FLAG_LOCAL_CUSTODY = 0 /\
             In id (pending_list st').
Proof.
  intros Hl Hin Hex Huniq Hseq. unfold bplib_cache_custody_process_remote_dacs_bundle.
  eapply remote_dacs_loop_releases; eauto using same_bundles_refl.
Qed.

End WithCache.
End CacheAckFacts.

Module CacheStoreFacts.
Import Cache.

Section WithCache.

Variable hash_bundle : bp_ipn_addr_t -> Z -> Z.
Variable hash_dacs : bp_ipn_addr_t -> bp_ipn_addr_t -> Z.
Variable BP_DACS_MAX_SEQ_PER_PAYLOAD : Z.
Variable BP_CACHE_DACS_OPEN_TIME : Z.
Variable BP_CACHE_DACS_LIFETIME : Z.
Variable BP_CACHE_FAST_RETRY_TIME : Z.
Variable bplib_cache_fsm_execute : bplib_cache_state_t -> nat -> bplib_cache_state_t.
Variable now : Z.
Variable now_ms : Z.

Lemma find_last {A} (f : A -> bool) (eqd : forall a b : A, {a = b} + {a <> b}) l x :
  (forall k, In k l -> f k = true -> k = x) -> f x = true ->
  List.find f (l ++ [x]) = Some x.
Proof.
  intros H Hx. induction l as [|a l IH]; cbn.
  - rewrite Hx. reflexivity.
  - destruct (f a) eqn:Ea.
    + f_equal. apply H; [left; reflexivity | exact Ea].
    + apply IH. intros k Hk. apply H. right. exact Hk.
Qed.

Lemma ipn_eqb_refl a : ipn_eqb a a = true.
Proof. unfold ipn_eqb. rewrite !Z.eqb_refl. reflexivity. Qed.

Lemma find_existing_found st info l x :
  hash_index st !! hash_bundle (flow_id info) (info_sequence_num info) = Some (l ++ [x]) ->
  (forall k, In k l ->
     bplib_cache_custody_find_bundle_match st
       (set_eid_hash (hash_bundle (flow_id info) (info_sequence_num info)) info) k = true ->
     k = x) ->
  bplib_cache_custody_find_bundle_match st
    (set_eid_hash (hash_bundle (flow_id info) (info_sequence_num info)) info) x = true ->
  let r := bplib_cache_custody_find_existing_bundle hash_bundle st info in
  r.1.1 = true /\ store_entry r.2 = Some x.
Proof.
  intros Hl Hk Hx. unfold bplib_cache_custody_find_existing_bundle.
  cbn [eid_hash set_eid_hash]. rewrite Hl.
  rewrite (find_last _ Nat.eq_dec l x Hk Hx). cbn. auto.
Qed.

Lemma find_bundle_match_other st st' info k :
  entries st' !! k = entries st !! k ->
  (forall r pri, primaries st !! r = Some pri ->
     exists pri', primaries st' !! r = Some pri' /\
                  sequence_num pri' = sequence_num pri /\ sourceEID pri' = sourceEID pri) ->
  (forall r, primaries st !! r = None -> primaries st' !! r = None) ->
  bplib_cache_custody_find_bundle_match st' info k
  = bplib_cache_custody_find_bundle_match st info k.
Proof.
  intros He Hp Hn. unfold bplib_cache_custody_find_bundle_match. rewrite He.
  destruct (entries st !! k) as [e|]; [|reflexivity].
  destruct (refptr e) as [r|]; [|reflexivity].
  destruct (primaries st !! r) as [pri|] eqn:E.
  - destruct (Hp r pri E) as (pri' & -> & -> & ->). reflexivity.
  - rewrite (Hn r E). reflexivity.
Qed.

Lemma find_none_all {A} (f : A -> bool) l k :
  List.find f l = None -> In k l -> f k = false.
Proof. intros H Hin. eapply find_none; eauto. Qed.

(** X21.  A bundle that [bplib_cache_custody_store_bundle] stores is found
    again.  For a primary block that is not in the cache yet and asks for no
    custody tracking, with three blocks free in the pool, the state handed
    to the state machine has a new entry that holds the block, and
    [bplib_cache_custody_find_existing_bundle] finds that entry for the
    flow and sequence number of the bundle, so that a second arrival is
    told from the first. *)
Theorem stored_bundle_found_again st qblk pri :
  primaries st !! qblk = Some pri ->
  delivery_policy (delivery_data pri) <> bplib_policy_delivery_custody_tracking ->
  (3 <= pool_free st)%nat ->
  (bplib_cache_custody_find_existing_bundle hash_bundle st
     (bplib_cache_custody_init_info_from_pblock st pri)).1.1 = false ->
  exists st_mid,
    bplib_cache_custody_store_bundle hash_bundle hash_dacs BP_DACS_MAX_SEQ_PER_PAYLOAD
      BP_CACHE_DACS_OPEN_TIME BP_CACHE_DACS_LIFETIME BP_CACHE_FAST_RETRY_TIME
      bplib_cache_fsm_execute now now_ms st qblk
    = bplib_cache_fsm_execute st_mid (pool_next st) /\
    (exists e, entries st_mid !! pool_next st = Some e /\ refptr e = Some qblk /\
               e_state e = bplib_cache_entry_state_idle) /\
    forall info,
      flow_id info = sourceEID pri -> info_sequence_num info = sequence_num pri ->
      let r := bplib_cache_custody_find_existing_bundle hash_bundle st_mid info in
      r.1.1 = true /\ store_entry r.2 = Some (pool_next st).
Proof.
  intros Hpri Hpol Hfree Hnew. unfold bplib_cache_custody_store_bundle. rewrite Hpri.
  set (info0 := bplib_cache_custody_init_info_from_pblock st pri) in *.
  assert (Hflow : flow_id info0 = sourceEID pri).
  { unfold info0, bplib_cache_custody_init_info_from_pblock. cbn.
    destruct (locate_canonical st pri _) as [c|]; [|reflexivity].
    destruct (canonicals st !! c); reflexivity. }
  assert (Hseq : info_sequence_num info0 = sequence_num pri).
  { unfold info0, bplib_cache_custody_init_info_from_pblock. cbn.
    destruct (locate_canonical st pri _) as [c|]; [|reflexivity].
    destruct (canonicals st !! c); reflexivity. }
  set (h := hash_bundle (sourceEID pri) (sequence_num pri)).
  set (m := fun st' k =>
              bplib_cache_custody_find_bundle_match st'
                (set_eid_hash h (set_info_sequence_num (sequence_num pri)
                                   (set_flow_id (sourceEID pri) info_zero))) k).
  assert (Hm : forall st' info k, flow_id info = sourceEID pri ->
                 info_sequence_num info = sequence_num pri ->
                 bplib_cache_custody_find_bundle_match st'
                   (set_eid_hash (hash_bundle (flow_id info) (info_sequence_num info)) info) k
                 = m st' k).
  { intros st' info k H1 H2. unfold m, bplib_cache_custody_find_bundle_match. cbn.
    rewrite H1, H2. reflexivity. }
  (* what is under the hash before the bundle is stored matches nothing *)
  assert (Hold : (hash_index st !! h = None \/
                  exists l, hash_index st !! h = Some l /\ forall k, In k l -> m st k = false) /\
                 bplib_cache_custody_find_existing_bundle hash_bundle st info0
                 = (false, st, set_eid_hash h info0)).
  { revert Hnew. unfold bplib_cache_custody_find_existing_bundle.
    cbn [eid_hash set_eid_hash]. rewrite Hflow, Hseq. fold h.
    destruct (hash_index st !! h) as [l|] eqn:El; [|auto].
    destruct (List.find _ l) as [k|] eqn:Ek; [discriminate|]. intros _.
    split; [|reflexivity]. right. exists l. split; [reflexivity|]. intros k Hk.
    rewrite <- (Hm st info0 k Hflow Hseq). rewrite Hflow, Hseq. fold h.
    eapply find_none_all; eauto. }
  destruct Hold as [Hold ->].
  unfold entry_alloc, pool_alloc.
  destruct (pool_free st) as [|[|[|n]]] eqn:Ef; try lia.
  cbn [set_store_entry final_dest_node eid_hash set_eid_hash].
  set (sblk := pool_next st).
  (* the state after the entry is set up, for either outcome of the two indices *)
  assert (Hgoal : forall st_mid,
            (exists e, entries st_mid !! sblk = Some e /\ refptr e = Some qblk /\
                       e_state e = bplib_cache_entry_state_idle) ->
            (forall k, k <> sblk -> entries st_mid !! k = entries st !! k) ->
            (forall r p, primaries st !! r = Some p ->
               exists p', primaries st_mid !! r = Some p' /\
                          sequence_num p' = sequence_num p /\ sourceEID p' = sourceEID p) ->
            (forall r, primaries st !! r = None -> primaries st_mid !! r = None) ->
            (exists l, hash_index st_mid !! h = Some (l ++ [sblk]) /\
                       (l = [] \/ hash_index st !! h = Some l)) ->
            (exists e, entries st_mid !! sblk = Some e /\ refptr e = Some qblk /\
                       e_state e = bplib_cache_entry_state_idle) /\
            forall info,
              flow_id info = sourceEID pri -> info_sequence_num info = sequence_num pri ->
              let r := bplib_cache_custody_find_existing_bundle hash_bundle st_mid info in
              r.1.1 = true /\ store_entry r.2 = Some sblk).
  { intros st_mid He Hother Hprim Hnone (l & Hl & Hl0). split; [exact He|].
    intros info H1 H2. apply find_existing_found with (l := l).
    - rewrite H1, H2. exact Hl.
    - intros k Hk. rewrite (Hm st_mid info k H1 H2). intros Hmk.
      destruct (decide (k = sblk)) as [->|Hne]; [reflexivity|]. exfalso.
      assert (m st_mid k = m st k) as E.
      { unfold m. apply find_bundle_match_other; auto. }
      destruct Hl0 as [->|Hl0]; [destruct Hk|].
      destruct Hold as [Hold|(l0 & Hl1 & Hall)]; [congruence|].
      assert (l0 = l) by congruence. subst l0. rewrite (Hall k Hk) in E. congruence.
    - rewrite (Hm st_mid info sblk H1 H2). unfold m, bplib_cache_custody_find_bundle_match.
      destruct He as (e & -> & -> & _).
      destruct (Hprim qblk pri Hpri) as (p' & -> & -> & ->). cbn.
      rewrite Z.eqb_refl, ipn_eqb_refl. reflexivity. }
  unfold bplib_cache_add_to_subindex, pool_alloc, alter_entry. cbn.
  assert (Hprim : forall (f : bplib_mpool_bblock_primary_t -> bplib_mpool_bblock_primary_t),
            (forall p, sequence_num (f p) = sequence_num p /\ sourceEID (f p) = sourceEID p) ->
            forall r p, primaries st !! r = Some p ->
            exists p', alter f qblk (primaries st) !! r = Some p' /\
                       sequence_num p' = sequence_num p /\ sourceEID p' = sourceEID p).
  { intros f Hf r p Hr. destruct (decide (r = qblk)) as [->|Hne].
    - rewrite lookup_alter_eq, Hr. cbn. eexists. split; [reflexivity | apply Hf].
    - rewrite lookup_alter_ne by congruence. eauto. }
  assert (Hnone : forall (f : bplib_mpool_bblock_primary_t -> bplib_mpool_bblock_primary_t) r,
            primaries st !! r = None -> alter f qblk (primaries st) !! r = None).
  { intros f r Hr. destruct (decide (r = qblk)) as [->|Hne].
    - rewrite lookup_alter_eq, Hr. reflexivity.
    - rewrite lookup_alter_ne by congruence. exact Hr. }
  destruct (dest_eid_index st !! final_dest_node info0) as [ld|]; cbn;
    destruct (hash_index st !! h) as [lh|] eqn:Eh; cbn;
    (eexists; split;
     [destruct (delivery_policy (delivery_data pri)); [reflexivity | reflexivity | contradiction]
     |]);
    apply Hgoal; cbn;
    try (rewrite !lookup_alter_eq, lookup_insert_eq; cbn; eexists; split; [reflexivity|];
         split; reflexivity);
    try (intros k Hk; rewrite !lookup_alter_ne, lookup_insert_ne by congruence; reflexivity);
    try (apply Hprim; intros p; split; reflexivity);
    try apply Hnone.
  - exists lh. rewrite lookup_insert_eq. auto.
  - exists []. rewrite lookup_insert_eq. auto.
  - exists lh. rewrite lookup_insert_eq. auto.
  - exists []. rewrite lookup_insert_eq. auto.
Qed.

End WithCache.
End CacheStoreFacts.

Module CacheCustodyFacts.
Import Cache.

Section WithCache.

Variable hash_bundle : bp_ipn_addr_t -> Z -> Z.
Variable hash_dacs : bp_ipn_addr_t -> bp_ipn_addr_t -> Z.
Variable BP_DACS_MAX_SEQ_PER_PAYLOAD : Z.
Variable BP_CACHE_DACS_OPEN_TIME : Z.
Variable BP_CACHE_DACS_LIFETIME : Z.
Variable BP_CACHE_FAST_RETRY_TIME : Z.
Variable now : Z.
Variable now_ms : Z.

Lemma make_pending_canonicals id s c st :
  canonicals (bplib_cache_entry_make_pending id s c st) = canonicals st.
Proof.
  unfold bplib_cache_entry_make_pending. destruct (entries st !! id); reflexivity.
Qed.

Lemma add_to_subindex_canonicals index id key st :
  canonicals (bplib_cache_add_to_subindex index id key st).2 = canonicals st.
Proof.
  unfold bplib_cache_add_to_subindex, pool_alloc.
  destruct (index !! key); [reflexivity|]. destruct (pool_free st); reflexivity.
Qed.

Lemma open_dacs_keeps_canonical st info c :
  is_Some (canonicals st !! c) ->
  is_Some (canonicals (bplib_cache_custody_open_dacs BP_CACHE_DACS_OPEN_TIME
                         BP_CACHE_DACS_LIFETIME BP_CACHE_FAST_RETRY_TIME now now_ms
                         st info).1 !! c).
Proof.
  intros Hc. unfold bplib_cache_custody_open_dacs, bplib_cache_custody_create_dacs,
    entry_alloc, entry_recycle, pool_alloc, pool_recycle.
  destruct (pool_free st) as [|[|[|n]]] eqn:Ef; cbn; rewrite ?Ef; cbn; try exact Hc.
  match goal with
  | |- context [bplib_cache_add_to_subindex ?i ?k ?v ?s] =>
      pose proof (add_to_subindex_canonicals i k v s) as Ha;
      destruct (bplib_cache_add_to_subindex i k v s) as [idx st1]
  end.
  cbn [fst snd] in *. rewrite make_pending_canonicals. cbn. rewrite Ha. cbn.
  destruct (decide (c = Datatypes.S (Datatypes.S (pool_next st)))) as [->|Hne].
  - rewrite lookup_alter_eq, lookup_insert_eq. cbn. eauto.
  - rewrite lookup_alter_ne, lookup_insert_ne by congruence. exact Hc.
Qed.

Lemma append_dacs_keeps_canonical st info c :
  is_Some (canonicals st !! c) ->
  is_Some (canonicals (bplib_cache_custody_append_dacs BP_DACS_MAX_SEQ_PER_PAYLOAD st info)
           !! c).
Proof.
  intros Hc. unfold bplib_cache_custody_append_dacs.
  destruct (store_entry info) as [id|]; [|exact Hc].
  destruct (payload_ref _) as [c0|]; [|exact Hc].
  match goal with
  | |- context [if ?b then _ else _] => destruct b
  end.
  - rewrite make_pending_canonicals.
    unfold bplib_cache_custody_finalize_dacs, bplib_cache_remove_from_subindex. cbn.
    destruct (decide (c = c0)) as [->|Hne].
    + rewrite lookup_insert_eq. eauto.
    + rewrite lookup_insert_ne by congruence. exact Hc.
  - cbn. destruct (decide (c = c0)) as [->|Hne].
    + rewrite lookup_insert_eq. eauto.
    + rewrite lookup_insert_ne by congruence. exact Hc.
Qed.

Lemma ack_tracking_block_keeps_canonical st info c :
  is_Some (canonicals st !! c) ->
  is_Some (canonicals (bplib_cache_custody_ack_tracking_block hash_dacs
                         BP_DACS_MAX_SEQ_PER_PAYLOAD BP_CACHE_DACS_OPEN_TIME
                         BP_CACHE_DACS_LIFETIME BP_CACHE_FAST_RETRY_TIME now now_ms st info)
           !! c).
Proof.
  intros Hc. unfold bplib_cache_custody_ack_tracking_block.
  destruct (bplib_cache_custody_find_pending_dacs hash_dacs st _) as [found dacs_info].
  destruct found; cbn [negb].
  - apply append_dacs_keeps_canonical. exact Hc.
  - pose proof (open_dacs_keeps_canonical st dacs_info c Hc) as Ho.
    destruct (bplib_cache_custody_open_dacs _ _ _ _ _ st dacs_info) as [st1 info1].
    apply append_dacs_keeps_canonical. exact Ho.
Qed.

(** X22.  A bundle that leaves [bplib_cache_custody_process_bundle] with a
    custody tracking block names this node as its custodian: whether the
    block came with the bundle (and its previous custodian was
    acknowledged) or was added on the way, the current custodian in it is
    the address of this cache, and so is the custodian on record for the
    bundle. *)
Theorem process_bundle_takes_custody st pblk info st' info' c :
  bplib_cache_custody_process_bundle hash_dacs BP_DACS_MAX_SEQ_PER_PAYLOAD
    BP_CACHE_DACS_OPEN_TIME BP_CACHE_DACS_LIFETIME BP_CACHE_FAST_RETRY_TIME now now_ms
    st pblk info = (st', info') ->
  (forall c0, cblk info = Some c0 -> is_Some (canonicals st !! c0)) ->
  cblk info' = Some c ->
  exists b, canonicals st' !! c = Some b /\
            current_custodian b = self_addr st' /\
            custodian_id info' = self_addr st'.
Proof.
  unfold bplib_cache_custody_process_bundle. intros Hrun Hblk Hc'.
  assert (Hupd : forall st1 info1,
            bplib_cache_custody_update_tracking_block st1 info1 = (st', info') ->
            (forall c0, cblk info1 = Some c0 -> is_Some (canonicals st1 !! c0)) ->
            exists b, canonicals st' !! c = Some b /\
                      current_custodian b = self_addr st' /\
                      custodian_id info' = self_addr st').
  { intros st1 info1 Hu Hs. unfold bplib_cache_custody_update_tracking_block in Hu.
    destruct (cblk info1) as [c1|] eqn:E1.
    2:{ injection Hu as <- <-. congruence. }
    destruct (Hs c1 eq_refl) as [b1 Hb1]. rewrite Hb1 in Hu.
    injection Hu as <- <-. cbn in Hc'. rewrite E1 in Hc'. injection Hc' as <-.
    cbn. rewrite lookup_insert_eq. eexists. split; [reflexivity|]. cbn. auto. }
  destruct (cblk info) as [c0|] eqn:E0.
  - destruct (final_dest_node info =? node_number (self_addr st)); cbn [fst snd] in Hrun;
      rewrite E0 in Hrun; (eapply Hupd; [exact Hrun|]);
      intros c1 E1; rewrite E0 in E1; injection E1 as <-; cbn;
      apply ack_tracking_block_keeps_canonical; apply Hblk; reflexivity.
  - destruct (final_dest_node info =? node_number (self_addr st)); cbn [negb] in Hrun.
    + rewrite E0 in Hrun. injection Hrun as <- <-. congruence.
    + unfold bplib_cache_custody_insert_tracking_block, pool_alloc in Hrun.
      destruct (pool_free st) as [|n]; cbn [cblk set_cblk] in Hrun.
      * injection Hrun as <- <-. discriminate.
      * eapply Hupd; [exact Hrun|]. intros c1 E1. cbn in E1. injection E1 as <-. cbn.
        rewrite lookup_insert_eq. eauto.
Qed.

End WithCache.
End CacheCustodyFacts.

Module CacheAckOutFacts.
Import Cache.

Section WithCache.

Variable hash_dacs : bp_ipn_addr_t -> bp_ipn_addr_t -> Z.
Variable BP_DACS_MAX_SEQ_PER_PAYLOAD : Z.
Variable BP_CACHE_DACS_OPEN_TIME : Z.
Variable BP_CACHE_DACS_LIFETIME : Z.
Variable BP_CACHE_FAST_RETRY_TIME : Z.
Variable now : Z.
Variable now_ms : Z.






End WithCache.
End CacheAckOutFacts.

Module CacheDuplicateFacts.
Import Cache.

Section WithCache.

Variable hash_bundle : bp_ipn_addr_t -> Z -> Z.
Variable hash_dacs : bp_ipn_addr_t -> bp_ipn_addr_t -> Z.
Variable BP_DACS_MAX_SEQ_PER_PAYLOAD : Z.
Variable BP_CACHE_DACS_OPEN_TIME : Z.
Variable BP_CACHE_DACS_LIFETIME : Z.
Variable BP_CACHE_FAST_RETRY_TIME : Z.
Variable bplib_cache_fsm_execute : bplib_cache_state_t -> nat -> bplib_cache_state_t.
Variable now : Z.
Variable now_ms : Z.







End WithCache.

End CacheDuplicateFacts.

Module MoreRunFacts.
Import Channel RamStore Scenario.
Import OptionFacts StoreFacts LoadFacts LoadCidFacts ProcessFacts DacsFacts ForwardFacts.

Lemma setopt_getopt_roundtrip_witness :
  exists ch ch',
    open_channel (mk_attr 4 0 0 0) None = Some ch /\
    bplib_setopt fixed_codec ch BP_OPT_LIFETIME_D 3600 4 = (BP_SUCCESS, ch') /\
    bplib_getopt fixed_codec ch' BP_OPT_LIFETIME_D 4 = (BP_SUCCESS, 3600).
Proof.
  let v := eval vm_compute in (open_channel (mk_attr 4 0 0 0) None) in
  match v with Some ?c => pose (ch := c) end.
  let v := eval vm_compute in (bplib_setopt fixed_codec ch BP_OPT_LIFETIME_D 3600 4) in
  match v with (_, ?c) => pose (ch' := c) end.
  exists ch, ch'. split; [vm_compute; reflexivity|].
  assert (Hset : bplib_setopt fixed_codec ch BP_OPT_LIFETIME_D 3600 4 = (BP_SUCCESS, ch'))
    by (vm_compute; reflexivity).
  split; [exact Hset|].
  apply (setopt_getopt_roundtrip fixed_codec ch ch' BP_OPT_LIFETIME_D 3600 4);
    [intros _; lia | exact Hset].
Defined.

Lemma getset_opt_rejects_cleanly_witness :
  exists ch,
    open_channel (mk_attr 4 0 0 0) None = Some ch /\
    getset_opt fixed_codec ch BP_OPT_CSTRQST_D 7 4 true = (BP_PARMERR, ch, 7).
Proof.
  let v := eval vm_compute in (open_channel (mk_attr 4 0 0 0) None) in
  match v with Some ?c => pose (ch := c) end.
  exists ch. split; [vm_compute; reflexivity|].
  destruct (getset_opt fixed_codec ch BP_OPT_CSTRQST_D 7 4 true) as [[status ch'] out] eqn:E.
  destruct (getset_opt_rejects_cleanly fixed_codec ch ch' BP_OPT_CSTRQST_D 7 4 true status out E)
    as (_ & Hrej & _).
  assert (Hs : status = BP_PARMERR) by (vm_compute in E; injection E as <- _ _; reflexivity).
  destruct Hrej as [-> ->]; [rewrite Hs; discriminate|]. rewrite Hs. reflexivity.
Defined.

Lemma open_channel_ready_witness :
  exists st' ch,
    bplib_open ram_ops fixed_codec (ram_empty None) 1 10 2 10 (Some (mk_attr 4 0 0 0))
    = (st', Some ch) /\
    window_ok ch /\ originate (data_bundle ch) = true /\
    hdr_pri (header (bundle_store (data_bundle ch))) = primary_block (data_bundle ch).
Proof.
  let v := eval vm_compute in
    (bplib_open ram_ops fixed_codec (ram_empty None) 1 10 2 10 (Some (mk_attr 4 0 0 0))) in
  match v with (?s, Some ?c) => pose (st' := s); pose (ch := c) end.
  exists st', ch.
  assert (Hopen : bplib_open ram_ops fixed_codec (ram_empty None) 1 10 2 10
                    (Some (mk_attr 4 0 0 0)) = (st', Some ch)) by (vm_compute; reflexivity).
  split; [exact Hopen|].
  destruct (open_channel_ready ram_ops fixed_codec _ _ _ _ _ _ _ _ Hopen)
    as (H1 & _ & H3 & H4 & _).
  split; [exact H4|]. split; [exact H3|]. apply H1. vm_compute. reflexivity.
Defined.

Lemma setopt_keeps_channel_witness :
  exists ch ch',
    open_channel (mk_attr 4 0 0 0) None = Some ch /\
    bplib_setopt fixed_codec ch BP_OPT_CSTRQST_D 0 4 = (BP_SUCCESS, ch') /\
    hdr_pri (header (bundle_store (data_bundle ch'))) = primary_block (data_bundle ch') /\
    storage ch' = storage ch /\ active_table ch' = active_table ch.
Proof.
  let v := eval vm_compute in (open_channel (mk_attr 4 0 0 0) None) in
  match v with Some ?c => pose (ch := c) end.
  let v := eval vm_compute in (bplib_setopt fixed_codec ch BP_OPT_CSTRQST_D 0 4) in
  match v with (_, ?c) => pose (ch' := c) end.
  exists ch, ch'. split; [vm_compute; reflexivity|].
  assert (Hset : bplib_setopt fixed_codec ch BP_OPT_CSTRQST_D 0 4 = (BP_SUCCESS, ch'))
    by (vm_compute; reflexivity).
  split; [exact Hset|].
  destruct (setopt_keeps_channel fixed_codec ch ch' _ _ _ Hset) as (H1 & H2 & H3 & _).
  split; [apply H1; vm_compute; reflexivity|]. split; [exact H2 | exact H3].
Defined.

Lemma store_stamps_bundles_witness :
  exists ch status ch' flags' objs st_mid,
    fragment_channel = Some ch /\
    bplib_store ram_ops fixed_codec 16 7 ch [1; 2; 3; 4; 5] 5 0 0 = Some (status, ch', flags') /\
    enqueue_all ram_ops (storage ch) (data_store_handle ch) 0 objs = Some st_mid /\
    Forall (stamped fixed_codec (primary_block (data_bundle ch)) 7
              (createseq (primary_block (data_bundle ch)))) objs /\
    Forall (fun o => exists ds body,
                o = BundleObj ds body /\
                createsec (hdr_pri (header ds)) = 7 /\
                createseq (hdr_pri (header ds))
                = createseq (primary_block (data_bundle ch))) objs /\
    template_in_sync (data_bundle ch').
Proof.
  let v := eval vm_compute in fragment_channel in
  match v with Some ?c => pose (ch := c) end.
  let v := eval vm_compute in (bplib_store ram_ops fixed_codec 16 7 ch [1; 2; 3; 4; 5] 5 0 0) in
  match v with Some (?s, ?c, ?f) => pose (status := s); pose (ch' := c); pose (flags' := f) end.
  assert (Hrun : bplib_store ram_ops fixed_codec 16 7 ch [1; 2; 3; 4; 5] 5 0 0
                 = Some (status, ch', flags')) by (vm_compute; reflexivity).
  destruct (store_stamps_bundles ram_ops fixed_codec 16 7 ch ch' [1; 2; 3; 4; 5] 5 0 0
              status flags') as (objs & st_mid & H1 & H2 & H3 & H4 & _);
    [vm_compute; reflexivity | vm_compute; reflexivity | exact Hrun |].
  exists ch, status, ch', flags', objs, st_mid.
  split; [vm_compute; reflexivity|]. split; [exact Hrun|].
  split; [exact H1|]. split; [exact H2|]. split; [|exact H4].
  apply H3; vm_compute; reflexivity.
Defined.

Lemma load_keeps_window_witness :
  exists ch status ch' flags' out,
    resend_expired_channel = Some ch /\
    bplib_load ram_ops fixed_codec 16 20 ch (NullBuf true) 0 0 = Some (status, ch', flags', out) /\
    window_ok ch /\ window_ok ch'.
Proof.
  let v := eval vm_compute in resend_expired_channel in
  match v with Some ?c => pose (ch := c) end.
  let v := eval vm_compute in (bplib_load ram_ops fixed_codec 16 20 ch (NullBuf true) 0 0) in
  match v with Some (?s, ?c, ?f, ?o) =>
    pose (status := s); pose (ch' := c); pose (flags' := f); pose (out := o) end.
  assert (Hrun : bplib_load ram_ops fixed_codec 16 20 ch (NullBuf true) 0 0
                 = Some (status, ch', flags', out)) by (vm_compute; reflexivity).
  assert (Hw : window_ok ch) by (vm_compute; intuition congruence).
  destruct (load_keeps_window ram_ops fixed_codec 16 20 ch ch' (NullBuf true) 0 0
              status flags' out) as (H1 & _);
    [exact Hw | vm_compute; reflexivity | vm_compute; discriminate | exact Hrun
    | intros ds body E Hf; vm_compute in Hf; discriminate Hf |].
  exists ch, status, ch', flags', out.
  split; [vm_compute; reflexivity|]. split; [exact Hrun|]. auto.
Defined.

Lemma load_status_and_count_witness :
  exists ch ch' flags' ds body,
    resend_expired_channel = Some ch /\
    bplib_load ram_ops fixed_codec 16 20 ch (NullBuf true) 0 0
    = Some (BP_SUCCESS, ch', flags', Some (ds, body)) /\
    transmitted (stats ch') = u64 (transmitted (stats ch) + 1).
Proof.
  let v := eval vm_compute in resend_expired_channel in
  match v with Some ?c => pose (ch := c) end.
  let v := eval vm_compute in (bplib_load ram_ops fixed_codec 16 20 ch (NullBuf true) 0 0) in
  match v with Some (_, ?c, ?f, Some (?d, ?b)) =>
    pose (ch' := c); pose (flags' := f); pose (ds := d); pose (body := b) end.
  assert (Hrun : bplib_load ram_ops fixed_codec 16 20 ch (NullBuf true) 0 0
                 = Some (BP_SUCCESS, ch', flags', Some (ds, body))) by (vm_compute; reflexivity).
  exists ch, ch', flags', ds, body.
  split; [vm_compute; reflexivity|]. split; [exact Hrun|].
  apply (load_status_and_count ram_ops fixed_codec 16 20 ch ch' (NullBuf true) 0 0
           BP_SUCCESS flags' (Some (ds, body)) Hrun).
Defined.

Lemma load_emits_unexpired_witness :
  exists ch status ch' flags' ds body,
    block_wrap_channel = Some ch /\
    bplib_load ram_ops fixed_codec 16 3 ch (NullBuf true) 0 0
    = Some (status, ch', flags', Some (ds, body)) /\
    is_expired 3 ds = false.
Proof.
  let v := eval vm_compute in block_wrap_channel in
  match v with Some ?c => pose (ch := c) end.
  let v := eval vm_compute in (bplib_load ram_ops fixed_codec 16 3 ch (NullBuf true) 0 0) in
  match v with Some (?s, ?c, ?f, Some (?d, ?b)) =>
    pose (status := s); pose (ch' := c); pose (flags' := f); pose (ds := d); pose (body := b)
  end.
  assert (Hrun : bplib_load ram_ops fixed_codec 16 3 ch (NullBuf true) 0 0
                 = Some (status, ch', flags', Some (ds, body))) by (vm_compute; reflexivity).
  exists ch, status, ch', flags', ds, body.
  split; [vm_compute; reflexivity|]. split; [exact Hrun|].
  apply (load_emits_unexpired ram_ops fixed_codec 16 3 ch ch' (NullBuf true) 0 0
           status flags' ds body); [vm_compute; discriminate | exact Hrun | vm_compute; reflexivity].
Defined.

Lemma process_refused_leaves_channel_witness :
  exists ch status ch' flags',
    open_channel (mk_attr 4 0 0 0) None = Some ch /\
    bplib_process ram_ops fixed_codec 16 0 ch
      (mk_wire 63 52
         (mk_pri 5 10 2 10 2 10 2 10 0 0 0 0 0 0 false false false false false)
         [WPay 6 (mk_pay 5 [104; 101; 108; 108; 111] 5)]) 0 0
    = Some (status, ch', flags') /\
    storage ch' = storage ch /\ data_bundle ch' = data_bundle ch.
Proof.
  let v := eval vm_compute in (open_channel (mk_attr 4 0 0 0) None) in
  match v with Some ?c => pose (ch := c) end.
  pose (w := mk_wire 63 52
               (mk_pri 5 10 2 10 2 10 2 10 0 0 0 0 0 0 false false false false false)
               [WPay 6 (mk_pay 5 [104; 101; 108; 108; 111] 5)]).
  let v := eval vm_compute in (bplib_process ram_ops fixed_codec 16 0 ch w 0 0) in
  match v with Some (?s, ?c, ?f) => pose (status := s); pose (ch' := c); pose (flags' := f) end.
  assert (Hrun : bplib_process ram_ops fixed_codec 16 0 ch w 0 0 = Some (status, ch', flags'))
    by (vm_compute; reflexivity).
  exists ch, status, ch', flags'.
  split; [vm_compute; reflexivity|]. split; [exact Hrun|].
  destruct (process_refused_leaves_channel ram_ops fixed_codec 16 0 ch ch' w 0 0 status flags')
    as [E|E]; [left; split; [vm_compute; discriminate | vm_compute; reflexivity] | exact Hrun | |];
    rewrite E; split; reflexivity.
Defined.


Lemma forward_bundle_takes_custody_witness :
  exists ch bundle',
    open_channel (mk_attr 4 0 0 0) None = Some ch /\
    initialize_forw_bundle fixed_codec (data_bundle ch)
      (mk_pri 5 10 2 10 2 10 2 10 0 0 0 0 0 0 false true false false false)
      (mk_pay 2 [104; 105] 2) 1 10 true [0; 52; 52; 73; 73; 81] 0
    = (BP_SUCCESS, bundle', 0) /\
    cstnode (primary_block bundle') = 1 /\ cstserv (primary_block bundle') = 10 /\
    hdr_pri (header (bundle_store bundle')) = primary_block bundle'.
Proof.
  let v := eval vm_compute in (open_channel (mk_attr 4 0 0 0) None) in
  match v with Some ?c => pose (ch := c) end.
  pose (pri := mk_pri 5 10 2 10 2 10 2 10 0 0 0 0 0 0 false true false false false).
  let v := eval vm_compute in
    (initialize_forw_bundle fixed_codec (data_bundle ch) pri (mk_pay 2 [104; 105] 2) 1 10 true
       [0; 52; 52; 73; 73; 81] 0) in
  match v with (_, ?b, _) => pose (bundle' := b) end.
  assert (Hrun : initialize_forw_bundle fixed_codec (data_bundle ch) pri (mk_pay 2 [104; 105] 2)
                   1 10 true [0; 52; 52; 73; 73; 81] 0 = (BP_SUCCESS, bundle', 0))
    by (vm_compute; reflexivity).
  destruct (forward_bundle_takes_custody fixed_codec (data_bundle ch) pri (mk_pay 2 [104; 105] 2)
              1 10 true [0; 52; 52; 73; 73; 81] 0 BP_SUCCESS bundle' 0 Hrun) as [H _].
  destruct (H eq_refl) as (H1 & _ & _ & _ & _ & H6).
  change (request_custody pri) with true in H6. cbv iota in H6.
  destruct H6 as (_ & H7 & _).
  exists ch, bundle'. split; [vm_compute; reflexivity|]. split; [exact Hrun|].
  split; [rewrite H7; reflexivity|]. split; [rewrite H7; reflexivity | exact H1].
Defined.

Lemma update_dacs_records_custody_id_witness :
  exists ch ch' flags' i,
    one_dacs_channel = Some ch /\
    update_dacs_bundle ram_ops fixed_codec 16 0 ch (mk_cteb 7 (Eid.ipn_text 2 10) 2 10)
      true 0 0 = Some (BP_SUCCESS, ch', flags') /\
    In 7 (rb_nodes (tree (dacs_at ch' i))) /\ dacs_cstnode (dacs_at ch' i) = 2.
Proof.
  let r := eval vm_compute in
    (bplib_open ram_ops fixed_codec (ram_empty None) 1 10 2 10 (Some (mk_attr 4 1 0 0))) in
  match r with
  | (?s, Some ?c) =>
      pose (ch := c);
      assert (Hopen : bplib_open ram_ops fixed_codec (ram_empty None) 1 10 2 10
                        (Some (mk_attr 4 1 0 0)) = (s, Some ch))
        by (vm_compute; reflexivity)
  end.
  destruct (ChannelFacts.open_dacs_table_ok _ _ _ _ _ _ _ _ _ _ Hopen) as [Hok _].
  destruct (update_dacs_records_custody_id ram_ops fixed_codec 16 0 ch
              (mk_cteb 7 (Eid.ipn_text 2 10) 2 10) true 0 0 Hok)
    as (ch' & flags' & i & Hrun & _ & Hn & _ & _ & Hin & _);
    [right; vm_compute; reflexivity | vm_compute; discriminate
    | vm_compute; repeat constructor |].
  exists ch, ch', flags', i. split; [vm_compute; reflexivity|]. split; [exact Hrun|].
  split; [exact Hin | exact Hn].
Defined.

Lemma update_dacs_flags_duplicate_witness :
  exists ch ch',
    option_map snd process_twice_run = Some ch /\
    update_dacs_bundle ram_ops fixed_codec 16 0 ch (mk_cteb 7 (Eid.ipn_text 2 10) 2 10)
      true 0 0 = Some (BP_SUCCESS, ch', BP_FLAG_DUPLICATES) /\
    dacs_bundle ch' = dacs_bundle ch /\ storage ch' = storage ch.
Proof.
  let v := eval vm_compute in process_twice_run in
  match v with Some (_, _, _, _, ?c) => pose (ch := c) end.
  destruct (update_dacs_flags_duplicate ram_ops fixed_codec 16 0 ch
              (mk_cteb 7 (Eid.ipn_text 2 10) 2 10) 0%nat true 0 0)
    as (ch' & Hrun & _ & Hd & _ & Hs & _);
    [vm_compute; reflexivity | vm_compute; reflexivity | vm_compute; auto |].
  exists ch, ch'. split; [vm_compute; reflexivity|]. split; [exact Hrun|].
  split; [exact Hd | exact Hs].
Defined.

Lemma load_custody_ids_consecutive_witness :
  exists ch0 ch status ch' flags' ds body,
    small_store_run = Some (ch0, ch) /\
    bplib_load ram_ops fixed_codec 16 0 ch (NullBuf true) 0 0
    = Some (status, ch', flags', Some (ds, body)) /\
    current_cid (active_table ch') = current_cid (active_table ch) + 1 /\
    cidsdnv ds = current_cid (active_table ch) /\
    hdr_cid (header ds) = current_cid (active_table ch).
Proof.
  let v := eval vm_compute in small_store_run in
  match v with Some (?s, ?c) => pose (s0 := s); pose (ch := c) end.
  let v := eval vm_compute in (bplib_load ram_ops fixed_codec 16 0 ch (NullBuf true) 0 0) in
  match v with Some (?s, ?c, ?f, Some (?d, ?b)) =>
    pose (status := s); pose (ch' := c); pose (flags' := f); pose (ds := d); pose (body := b)
  end.
  assert (Hrun : bplib_load ram_ops fixed_codec 16 0 ch (NullBuf true) 0 0
                 = Some (status, ch', flags', Some (ds, body))) by (vm_compute; reflexivity).
  exists s0, ch, status, ch', flags', ds, body.
  split; [vm_compute; reflexivity|]. split; [exact Hrun|].
  destruct (load_custody_ids_consecutive ram_ops fixed_codec 16 0 ch ch' (NullBuf true) 0 0
              status flags' (Some (ds, body)))
    as [E|(E & d & b & Ho & _ & _ & Hc & _ & Hh)];
    [split; [vm_compute; discriminate | vm_compute; reflexivity] | exact Hrun | |].
  - exfalso. vm_compute in E. discriminate E.
  - split; [exact E|]. injection Ho as <- <-. split; [exact Hc|].
    apply Hh; vm_compute; reflexivity.
Defined.

End MoreRunFacts.

Module EidMoreRun.
Import Eid EidMore.

Lemma eid2ipn_reduces_numbers_witness :
  bplib_eid2ipn (2 ^ 64 - 1) 128 (Some (ipn_text (2 ^ 32 + 5) 7)) 32
  = (BP_SUCCESS, Some (5, 7)).
Proof.
  apply (eid2ipn_reduces_numbers (2 ^ 64 - 1) 128 (2 ^ 32 + 5) 7 32); vm_compute;
    intuition congruence.
Defined.

Lemma eid2ipn_reads_len_characters_witness :
  bplib_eid2ipn (2 ^ 64 - 1) 128 (Some (ipn_text 12 345 ++ ["x"%char; "y"%char])) 10
  = bplib_eid2ipn (2 ^ 64 - 1) 128 (Some (ipn_text 12 345)) 10.
Proof.
  apply (eid2ipn_reads_len_characters (2 ^ 64 - 1) 128 (ipn_text 12 345) ["x"%char; "y"%char] 10).
  vm_compute. discriminate.
Defined.

End EidMoreRun.

Module MoreCacheRunFacts.
Import Cache CacheRun MoreCacheRun.
Import CacheMore CacheAckFacts CacheStoreFacts CacheCustodyFacts CacheAckOutFacts.

Lemma subindex_add_remove_witness :
  let '(index1, st1) := bplib_cache_add_to_subindex ∅ 2%nat 5 empty_cache in
  let '(index2, st2) := bplib_cache_remove_from_subindex index1 2%nat st1 in
  (exists l, index1 !! 5 = Some l /\ In 2%nat l) /\
  index2 = ∅ /\ pool_free st2 = pool_free empty_cache.
Proof.
  apply (subindex_add_remove ∅ 2%nat 5 empty_cache).
  - intros k l H. rewrite lookup_empty in H. discriminate H.
  - right. vm_compute. lia.
Defined.

Lemma open_dacs_all_or_nothing_witness :
  exists st' info',
    bplib_cache_custody_open_dacs 10 100 2 0 0 empty_cache info_zero = (st', info') /\
    info' = set_store_entry (Some 0%nat) info_zero /\ In 0%nat (pending_list st').
Proof.
  destruct (bplib_cache_custody_open_dacs 10 100 2 0 0 empty_cache info_zero)
    as [st' info'] eqn:E.
  exists st', info'. split; [reflexivity|].
  destruct (open_dacs_all_or_nothing 10 100 2 0 0 empty_cache info_zero st' info' E)
    as [_ H].
  destruct H as (H1 & _ & H3 & _); [vm_compute; lia|]. auto.
Defined.

Lemma append_dacs_bounded_witness :
  exists payload',
    canonicals (bplib_cache_custody_append_dacs 16 stored_once
                  (set_info_sequence_num 43 (set_store_entry (Some 5%nat) info_zero)))
      !! 7%nat = Some payload' /\
    NoDup (sequence_nums payload') /\
    In 42 (sequence_nums payload') /\ In 43 (sequence_nums payload').
Proof.
  let v := eval vm_compute in (entries stored_once !! 5%nat) in
  match v with Some ?x => pose (e := x) end.
  let v := eval vm_compute in (canonicals stored_once !! 7%nat) in
  match v with Some ?x => pose (payload := x) end.
  destruct (append_dacs_bounded 16 stored_once
              (set_info_sequence_num 43 (set_store_entry (Some 5%nat) info_zero))
              5%nat e 7%nat payload)
    as (payload' & H1 & H2 & _ & H4 & H5 & _);
    [reflexivity | vm_compute; reflexivity | reflexivity | vm_compute; reflexivity
    | apply NoDup_singleton | vm_compute; discriminate |].
  exists payload'. split; [exact H1|]. split; [exact H2|]. split.
  - apply H4. left. reflexivity.
  - destruct H5 as [H5|H5]; [exact H5 | vm_compute in H5; discriminate H5].
Defined.

Lemma check_dacs_stores_nothing_witness :
  exists st',
    bplib_cache_custody_check_dacs hash_bundle stored_once 6%nat = (true, st') /\
    same_bundles stored_once st'.
Proof.
  let v := eval vm_compute in (bplib_cache_custody_check_dacs hash_bundle stored_once 6%nat) in
  match v with (_, ?s) => pose (st' := s) end.
  assert (Hrun : bplib_cache_custody_check_dacs hash_bundle stored_once 6%nat = (true, st'))
    by (vm_compute; reflexivity).
  exists st'. split; [exact Hrun|].
  apply (check_dacs_stores_nothing hash_bundle stored_once 6%nat true st' Hrun).
Defined.

Lemma remote_dacs_releases_custody_witness :
  exists pri_block ack e',
    primaries stored_once !! 6%nat = Some pri_block /\
    canonicals stored_once !! 7%nat = Some ack /\
    entries (bplib_cache_custody_process_remote_dacs_bundle hash_bundle stored_once
               pri_block ack) !! 2%nat = Some e' /\
    Z.land (flags e') BPLIB_STORE_FLAG_LOCAL_CUSTODY = 0.
Proof.
  let v := eval vm_compute in (primaries stored_once !! 6%nat) in
  match v with Some ?x => pose (pri_block := x) end.
  let v := eval vm_compute in (canonicals stored_once !! 7%nat) in
  match v with Some ?x => pose (ack := x) end.
  destruct (remote_dacs_releases_custody hash_bundle stored_once pri_block ack 2%nat
              [2%nat] 42) as (e' & H1 & H2 & _).
  - vm_compute. reflexivity.
  - left. reflexivity.
  - vm_compute. discriminate.
  - intros info k Hf Hs [<-|[]].
    unfold bplib_cache_custody_find_bundle_match. rewrite Hf, Hs. vm_compute.
    split; reflexivity.
  - left. reflexivity.
  - exists pri_block, ack, e'. split; [vm_compute; reflexivity|].
    split; [vm_compute; reflexivity|]. split; [exact H1 | exact H2].
Defined.

Lemma stored_bundle_found_again_witness :
  exists pri st_mid,
    primaries plain_arrival !! 0%nat = Some pri /\
    bplib_cache_custody_store_bundle hash_bundle hash_dacs 16 10 100 2 fsm_idle 0 0
      plain_arrival 0%nat = st_mid /\
    (bplib_cache_custody_find_existing_bundle hash_bundle st_mid
       (bplib_cache_custody_init_info_from_pblock st_mid pri)).1.1 = true.
Proof.
  let v := eval vm_compute in (primaries plain_arrival !! 0%nat) in
  match v with Some ?x => pose (pri := x) end.
  destruct (stored_bundle_found_again hash_bundle hash_dacs 16 10 100 2 fsm_idle 0 0
              plain_arrival 0%nat pri) as (st_mid & H1 & _ & H3);
    [vm_compute; reflexivity | vm_compute; discriminate | vm_compute; lia
    | vm_compute; reflexivity |].
  exists pri, st_mid. split; [vm_compute; reflexivity|].
  split; [exact H1|].
  apply H3; reflexivity.
Defined.

Lemma process_bundle_takes_custody_witness :
  exists pri st' info' b,
    primaries (receive empty_cache (mk_ipn 5 1) 42 (mk_ipn 4 1)).2 !! 0%nat = Some pri /\
    bplib_cache_custody_process_bundle hash_dacs 16 10 100 2 0 0
      (receive empty_cache (mk_ipn 5 1) 42 (mk_ipn 4 1)).2 0%nat
      (bplib_cache_custody_init_info_from_pblock
         (receive empty_cache (mk_ipn 5 1) 42 (mk_ipn 4 1)).2 pri) = (st', info') /\
    canonicals st' !! 1%nat = Some b /\ current_custodian b = mk_ipn 7 1.
Proof.
  pose (st := (receive empty_cache (mk_ipn 5 1) 42 (mk_ipn 4 1)).2).
  let v := eval vm_compute in (primaries st !! 0%nat) in
  match v with Some ?p => pose (pri := p) end.
  pose (info := bplib_cache_custody_init_info_from_pblock st pri).
  let v := eval vm_compute in
    (bplib_cache_custody_process_bundle hash_dacs 16 10 100 2 0 0 st 0%nat info) in
  match v with (?s, ?i) => pose (st' := s); pose (info' := i) end.
  assert (Hrun : bplib_cache_custody_process_bundle hash_dacs 16 10 100 2 0 0 st 0%nat info
                 = (st', info')) by (vm_compute; reflexivity).
  destruct (process_bundle_takes_custody hash_dacs 16 10 100 2 0 0 st 0%nat info st' info'
              1%nat Hrun) as (b & H1 & H2 & _).
  - intros c0 E. vm_compute in E. injection E as <-. vm_compute. eauto.
  - vm_compute. reflexivity.
  - exists pri, st', info', b. split; [vm_compute; reflexivity|]. split; [exact Hrun|].
    split; [exact H1|]. rewrite H2. vm_compute. reflexivity.
Defined.


End MoreCacheRunFacts.

Module DuplicateRunFacts.
Import Cache CacheRun.



End DuplicateRunFacts.
